(* ===== verification/_CoqProject ===== *)
-Q . S2P
Prelude.v
Layout.v
RealModel.v
Axisymmetric.v
Grids.v
Sweeps.v
Custom.v
Spiral.v
Ints.v
GL.v
Primitives.v
Registry.v
Draws.v
Dynamic.v
Session.v
Refinement.v
GLObjects.v
