(* ===== verification/Prelude.v ===== *)
(** * A verification development of ShapeMeshes (procedural primitive meshes)

    The program, [src/artifact-two/enhanced/3DShapes/ShapeMeshes.cpp] with its
    header [ShapeMeshes.h], is one C++ class [ShapeMeshes] that builds the
    vertex and index buffers of primitive shapes on the host and hands them to
    OpenGL.  Its parts and how they interact:
    - the vertex layout: every vertex is 8 interleaved floats (position,
      normal, texture coordinate); [InitializeMesh] counts vertices as the
      float count divided by 8 and sets the attribute layout on every upload,
      since the flag [m_bMemoryLayoutDone] is never set;
    - the generators [LoadXMesh] (static shapes: box, cone, cylinder, plane,
      prism, pyramids, sphere, hemisphere, tapered cylinder, torus, extra
      tori, spring, tube, fin, curved cone) and the per-draw generators
      [DrawPartialConeMesh], [DrawTaperedTorusMesh], [DrawSpiralMesh],
      [DrawSineConeMesh], [DrawSuperellipsoidMesh], which rebuild their
      buffers on every call; each is a loop that pushes vertices and index
      triples, with the connectivity patterns of a fan (caps), a rectangular
      grid (sphere, torus, sweeps) and a ring-to-ring wall (sides);
    - the normal helpers [CalculateTriangleNormal], [QuadCrossProduct] and the
      area-weighted accumulation of the sine cone;
    - the registry: the [GLMesh] records of the class, filled by the loads
      and read by the [DrawXMesh] functions, which issue draw calls over
      sub-ranges of the uploaded index buffer (one box face, one cap, the
      sides), and the deprecated [DrawXMeshLines] wrappers with their
      warn-once flags.

    How the development models it (file, Module, what it corresponds to).
    - [Prelude] (this file): the loop combinator of the model (a C [for]
      loop that only appends is a fold over [seq]), the bound predicate on
      index lists, the scalar interface [Arith]/[Scalar] standing for C++
      [float] with its notation scope [sc_scope], the Ltac tactics and the
      hint databases [mesh] and [mesh_rw].
    - [Layout]: [Vertex] of the header, the interleaving of the
      [std::vector<GLfloat>] a generator fills and its inverse, the vertex
      count of [InitializeMesh], the builder [MeshData] (the two vectors a
      generator appends to) and the tactics that compute its lengths and
      bounds.
    - [RealModel]: the instance of [Scalar] in the reals and the vector
      lemmas (dot products, [normalize]) the geometric theorems use.
    - [Axisymmetric]: Modules [Cone], [Cylinder], [TaperedCylinder], [Tube]
      and [PartialCone], one per [LoadConeMesh], [LoadCylinderMesh],
      [LoadTaperedCylinderMesh], [LoadTubeMesh] and the mesh
      [DrawPartialConeMesh] builds; one definition per loop body of the code.
    - [Grids]: Modules [Sphere], [Hemisphere], [Torus] for [LoadSphereMesh],
      [LoadHemisphereMesh], [LoadTorusMesh]: the vertex loop and the cell of
      the index loop.
    - [Sweeps]: Module [ExtraTorus] for [LoadExtraTorusMesh1]/[2] (the
      sampled [30 x 30] grid with the float angle accumulators, the four
      branches of the connecting loop, [normalize(position)] normals) and
      Module [Spring] for [LoadSpringMesh] (one frame per helix sample, the
      indexed grid of rings).
    - [Custom]: Module [Helpers] ([QuadCrossProduct],
      [CalculateTriangleNormal]), Module [CurvedCone] ([LoadCurvedConeMesh]:
      rings along a circular arc with a shrinking radius), and the
      generators of the draws that rebuild their mesh on every call:
      Modules [TaperedTorus], [SineCone] (positions, then the in-place
      accumulation [normals[i] += ...] of weighted face normals in cell
      order, modelled as [add_at] on a list) and [Superellipsoid] (the
      clamps, the angle tables, the signed powers).
    - [Spiral]: the generator of [DrawSpiralMesh]: the centreline loop with
      its [break], the tangents, the frames rotated from one ring to the
      next with glm's rotation matrix, the tube and cap rings and their
      stitching.  Every [std::vector] read is [vat] (an [option]), so the
      generator returns [None] exactly when the code reads out of range.
    - [Ints]: [int] at its width (Module [Int32]: two's complement
      wrap-around, the [GLuint] conversion of [indices.push_back]), the
      loop header [for (int i = a; i <= b; ++i)] as a step relation with
      an executable runner on fuel (Module [ForLoop]), and the index loop
      body and loop bound of [LoadSpringMesh] at [int] width (Module
      [SpringInt]); it relates them to the [seq]/[zrange] folds and the
      [nat] indices of the generator files.
    - [GL]: the Render Backend the class drives (spec section 6), modelled
      from the OpenGL semantics: an object store of vertex array objects
      (created, filled through the bound VAO, deleted), the bound VAO and
      polygon mode, a log of draw calls, error lines and undefined
      behaviour, the vertex fetch of a draw (a flag records a fetch past
      the end of the buffer), the primitive assembly of triangle lists,
      strips and fans, and [gl_sound]: no such fetch happened and every
      live VAO is [vao_ok]: its vertex buffer holds whole 8-float vertices
      and its element buffer names vertices of that buffer.
    - [Primitives]: Modules [Box], [Plane], [Prism], [Pyramids], [Fin] for
      the literal-table loads [LoadBoxMesh], [LoadPlaneMesh],
      [LoadPrismMesh], [LoadPyramid3Mesh], [LoadPyramid4Mesh] and the
      geometry of [LoadFinMesh]; their orientation theorems are evaluated
      over exact rationals or proved in the reals.
    - [Registry]: the class state [SM] (one [GLMesh] per shape, the twelve
      warn-once flags, [m_bMemoryLayoutDone], the GL state), the constructor,
      [InitializeMesh], [SetShaderMemoryLayout] and every load as a function
      [SM F -> SM F]: the generator composed with the upload ([LoadFinMesh]
      and the extra tori write theirs out; the tapered torus, spiral, sine
      cone and superellipsoid loads only allocate names, [load_names]).
    - [Draws]: every [DrawXMesh] method of a stored mesh (guard, polygon
      mode, binding, draw calls with the code's counts and offsets), the
      curved cone's draw and the deprecated [DrawXMeshLines] wrappers.
    - [Dynamic]: the draws that build and upload their own mesh
      ([upload_draw]: bind, vertices, layout, indices, one draw, unbind),
      the superellipsoid's writes to its counts, and [DrawPartialConeMesh]
      ([partial_upload_draw]: the VAO it creates, uses and deletes within
      the call); a spiral read
      out of range is logged as undefined behaviour and issues no GL call.
    - [Session]: a session is a list of load, draw and self-uploading draw
      calls ([LoadCall], [DrawCall], [DynamicCall]: the public methods the
      header declares, with their parameters) run from the constructor;
      the registry invariant, the safety of
      every draw and the theorems on what a draw after (or before) its load
      sends to GL.
    - [Refinement]: the abstract store (each shape's buffers, or none) the
      class implements, and the simulation of every session.
    - [GLObjects]: OpenGL at the level of its objects (Module [GLObj]:
      named buffers, the [GL_ARRAY_BUFFER] binding, each VAO's element
      buffer and attribute pointers, every GL call the class issues), the
      class's GL code written out call by call in source order
      ([InitializeMesh] with [SetShaderMemoryLayout], the name-only loads,
      the extra tori, the fin, the upload-and-draw of the self-uploading
      draws, [DrawPartialConeMesh]), and the abstraction [abs] onto the
      VAO-level state of [GL].  It comes last because nothing else needs
      it: it shows that the VAO-level model the other files use is what
      the class's calls do to OpenGL's objects.

    Scalars.  The code computes in [float]; the model is generic in a type
    [F] with the operations the code uses.  Rounding is not modelled: the
    geometric theorems are stated in the real instance (or, for literal
    tables, over rationals), and [Pi] is the structure's [sc_pi] while the
    literals [3.14159265f] of the spiral, the sine cone and the
    superellipsoid are kept as literals.  In the reals [x / 0] is [0], so
    the divisions by zero the unclamped generators allow are not visible in
    the model.  The topology theorems (counts, index bounds, draw
    sub-ranges, safety, refinement) hold for every instance, so also for
    the float computation.  Integers of the code ([int] parameters) are
    [Z]; in the generator files loop counters and indices are [nat] and
    loop bounds unbounded [Z], never negative after the code's clamps.
    [Ints] checks this at the code's width for the spring, the one
    generator whose loop bound is a product: its [int] index arithmetic
    is exact whenever its vertex count fits in [int], and its segment
    product wraps negative (the vertex loop then runs no iteration) for
    every clamped pair whose product lies in [[2^31, 2^32)].  The other
    generators' [int] index expressions are bounded the same way by their
    vertex counts and are not restated at [int] width.  No definition needs
    fuel except the loop runner of [Ints], which the overflow theorem runs
    with any positive fuel; every loop of a generator runs over a bound
    computed before it starts and is a structural fold over [seq], and the
    ring loop of the spiral, which threads the previous frame, recurses on
    the sample list with its length as the bound.  The real instance reads
    [PI / (PI / S)] as exactly [S]; float32 does not for every [S], so the
    spiral's sample count is stated through [spiral_fails_iff], which
    holds in every instance, and not for a particular [numLoops].

    Theorem groups.
    - Type: every vertex buffer of a live VAO in any session is a whole
      number of 8-float vertices, so [size / 8] loses no float.
    - Liveness: once a static shape is loaded, whatever calls follow, its
      handle stays live and every later whole-mesh draw issues a valid
      draw of its whole element buffer.
    - Bounds: the spring's [int] index arithmetic is exact while its
      vertex count fits in [int], and its segment product wraps negative,
      emptying the vertex loop, across the whole band [[2^31, 2^32)].
    - Invariant and safety: every session keeps each mesh handle zero or
      naming a live VAO (holding exactly the counted buffers with the
      layout set, for the meshes not uploaded by their draw), no two
      handles equal, and [m_bMemoryLayoutDone] false; no draw of any
      session fetches a vertex past the end of its buffer, which rests on
      the lemma of every generator that its indices are below its vertex
      count (the MeshBuffer invariant of the spec).
    - Refinement: every session implements the abstract store of buffers,
      loads setting them, self-uploading draws replacing them once loaded,
      other draws leaving them.  One level down, each GL call sequence of
      the class, run on OpenGL's objects from a store whose names are
      below the name counter, ends in a store that abstracts to the state
      after the VAO-level method and keeps that invariant, with the names
      it generates equal to those the method stores.  The uploads through a
      record's handles need the handles to be private to their VAO, which
      the name-only loads establish.  The refinement holds at method
      boundaries: OpenGL links the floats to a VAO at
      [glVertexAttribPointer], the VAO-level model at the upload.
    - Error behaviour: the spiral reads out of range exactly when it has
      fewer than two samples; a draw before its
      load fails silently in three different ways, and the self-uploading
      draws before their load draw on VAO 0.
    - Functional: closed-form vertex and index counts, the slice clamps, the
      seams and rims of the grids, unit normals, the draws of cone, cylinder
      and tapered cylinder partitioning the index buffer into their parts.
    - Findings stated as theorems of what the code does: [DrawBoxMeshSide]
      draws the wrong face for front, back and bottom; [DrawPlaneMesh] draws
      a triangle list as a strip; the layout flag is never set and the fin's
      vertex count never stored; the deprecated wrappers of the cone,
      cylinder and tapered cylinder draw filled; the odd-latitude hemisphere
      stops above its equator; the tube's normals are all vertical; the
      three-sided pyramid's
      normals are skewed; the extra tori push seven vertices per cell for a
      [GL_TRIANGLES] draw and give the inner half of the tube normals
      pointing into it; four faces of the fin are wound against their
      normals; [QuadCrossProduct] cancels for parallelograms; the curved
      cone's tip normals are [normalize(0)]; a second load of a shape
      leaves the first load's VAO live and unreachable.

    Not modelled: the parts of OpenGL the class never touches or that do
    not change what is drawn (shader programs, textures, sizes in bytes,
    usage hints, rasterization), float rounding, and the [int] width of
    the generators other than the spring (see Scalars).  The default
    arguments the header declares are not modelled: a call names all its
    arguments.  A self-uploading draw before its load makes [glBufferData]
    calls with no buffer bound, which [GLObjects] logs as
    [GL_INVALID_OPERATION] and the VAO-level model does not; the
    refinement theorems for those draws assume the load ran.  Every method of the class is modelled. *)

From Stdlib Require Import List Arith Lia ZArith QArith.
Import ListNotations.
Local Open Scope nat_scope.

(** ** Loops *)

(** A C loop [for (int i = 0; i < n; ++i) body] that threads a state [s]. *)
Definition for_loop {S : Type} (n : nat) (body : S -> nat -> S) (s : S) : S :=
  fold_left body (seq 0 n) s.

(** Every index of the list is below [n]: the MeshBuffer invariant. *)
Definition all_below (n : nat) (l : list nat) : bool :=
  forallb (fun k => k <? n) l.

Lemma all_below_spec n l : all_below n l = true <-> (forall k, In k l -> k < n).
Proof.
  unfold all_below. rewrite forallb_forall.
  split; intros H k Hk; specialize (H k Hk); [apply Nat.ltb_lt | apply Nat.ltb_lt in H]; auto.
Qed.

Lemma all_below_app n l1 l2 :
  all_below n (l1 ++ l2) = all_below n l1 && all_below n l2.
Proof. unfold all_below. apply forallb_app. Qed.

Lemma all_below_flat_map {A} n (f : A -> list nat) (l : list A) :
  (forall x, In x l -> all_below n (f x) = true) -> all_below n (flat_map f l) = true.
Proof.
  induction l as [|x l IH]; intros H; [reflexivity|].
  cbn [flat_map]. rewrite all_below_app, H by (left; reflexivity).
  apply IH. intros y Hy. apply H. right. exact Hy.
Qed.

Lemma all_below_mono n m l : n <= m -> all_below n l = true -> all_below m l = true.
Proof.
  rewrite !all_below_spec. intros Hle H k Hk. specialize (H k Hk). lia.
Qed.

Lemma all_below_cons n k l : all_below n (k :: l) = (k <? n) && all_below n l.
Proof. reflexivity. Qed.

(** Length of a loop body that emits a constant number of items. *)
Lemma length_flat_map_const {A B} (f : A -> list B) (l : list A) c :
  (forall x, length (f x) = c) -> length (flat_map f l) = length l * c.
Proof. intros H. apply flat_map_constant_length. intros x _. apply H. Qed.

Lemma in_seq_lt x a n : In x (seq a n) -> a <= x < a + n.
Proof. apply in_seq. Qed.

(** A loop that emits nothing. *)
Lemma flat_map_nil_body {A B} (l : list A) : flat_map (fun _ => @nil B) l = [].
Proof. induction l; auto. Qed.

(** A loop [for (i = 0; i <= n; ++i)] whose index emission is guarded by
    [if (i < n)]: the last iteration emits nothing. *)
Lemma length_flat_map_guard {A} (g : nat -> list A) n c :
  (forall i, i < n -> length (g i) = c) -> length (g n) = 0 ->
  length (flat_map g (seq 0 (n + 1))) = n * c.
Proof.
  intros Hin Hlast. rewrite Nat.add_1_r, seq_S, flat_map_app. cbn [flat_map]. rewrite Nat.add_0_l.
  rewrite app_nil_r, length_app, Hlast.
  rewrite (flat_map_constant_length (c := c)) by (intros i Hi; apply in_seq in Hi; apply Hin; lia).
  rewrite length_seq. lia.
Qed.

Lemma all_below_seq n (g : nat -> list nat) m :
  (forall i, i < m -> all_below n (g i) = true) -> all_below n (flat_map g (seq 0 m)) = true.
Proof. intros Hg. apply all_below_flat_map. intros i Hi%in_seq_lt. apply Hg. lia. Qed.

(** The trip count of [for (i = 0; i <= n; ++i)] for an [int] bound [n]. *)
(** The clamp [if (n < k) n = k;] is [max k n]. *)
Lemma if_lt_max (n k : Z) : (if (n <? k)%Z then k else n) = Z.max k n.
Proof. destruct (Z.ltb_spec n k); lia. Qed.

(** The element [i] of a loop that maps over [0 .. n - 1]. *)
Lemma nth_map_seq {A} (f : nat -> A) n i d : i < n -> nth i (map f (seq 0 n)) d = f i.
Proof.
  intros Hi. rewrite (nth_indep _ d (f 0)) by (rewrite length_map, length_seq; lia).
  rewrite map_nth, seq_nth by lia. reflexivity.
Qed.

Lemma to_nat_succ (n : Z) : Z.to_nat (n + 1) = if (0 <=? n)%Z then Z.to_nat n + 1 else 0.
Proof. destruct (Z.leb_spec 0 n); lia. Qed.

Lemma to_nat_succ_pos (n : Z) : (0 <= n)%Z -> Z.to_nat (n + 1) = Z.to_nat n + 1.
Proof. lia. Qed.

(** ** Scalars: the operations of C++ [float] the code uses *)

Class Arith (F : Type) := {
  sc_zero : F;
  sc_one : F;
  sc_add : F -> F -> F;
  sc_sub : F -> F -> F;
  sc_mul : F -> F -> F;
  sc_div : F -> F -> F;
  sc_neg : F -> F;
  sc_lit : Q -> F;          (** a float literal such as [0.5f] *)
  sc_of_Z : Z -> F;         (** [static_cast<float>] of an [int] *)
  sc_ltb : F -> F -> bool;  (** [<] on floats *)
  sc_leb : F -> F -> bool   (** [<=] on floats *)
}.

Class Scalar (F : Type) `{Arith F} := {
  sc_sqrt : F -> F;
  sc_sin : F -> F;
  sc_cos : F -> F;
  sc_pow : F -> F -> F;     (** [std::pow] *)
  sc_fabs : F -> F;
  sc_acos : F -> F;
  sc_pi : F;                (** the constants [Pi] and [PI] of the source *)
  sc_trunc : F -> Z         (** [static_cast<int>] of a float *)
}.

Declare Scope sc_scope.
Delimit Scope sc_scope with sc.
Notation "x + y" := (sc_add x y) : sc_scope.
Notation "x - y" := (sc_sub x y) : sc_scope.
Notation "x * y" := (sc_mul x y) : sc_scope.
Notation "x / y" := (sc_div x y) : sc_scope.
Notation "- x" := (sc_neg x) : sc_scope.
Notation "x <? y" := (sc_ltb x y) : sc_scope.
Notation "x <=? y" := (sc_leb x y) : sc_scope.
Notation "'#' q" := (sc_lit q%Q) (at level 1, format "'#' q") : sc_scope.

(** [static_cast<float>(i)] of a loop counter. *)
Definition sc_nat {F} `{Arith F} (n : nat) : F := sc_of_Z (Z.of_nat n).

(** ** Automation *)

Create HintDb mesh discriminated.
Create Rewrite HintDb mesh_rw.
#[export] Hint Constants Transparent : mesh.
#[export] Hint Variables Opaque : mesh.
#[export] Hint Rewrite length_app length_seq length_map : mesh_rw.
#[export] Hint Rewrite all_below_app : mesh_rw.
#[export] Hint Resolve all_below_flat_map all_below_mono : mesh.

(** Close the arithmetic side goals of index bounds: the loop counters
    come from [seq], whose membership gives their range. *)
(** Unfold the local definitions of the context ([let n := ...] of a
    statement), so that [lia] sees one atom for each quantity. *)
Ltac unfold_locals :=
  repeat match goal with x := _ |- _ => subst x end.

Ltac guard_cases :=
  unfold_locals;
  repeat match goal with
  | |- context [Nat.ltb ?a ?b] => destruct (Nat.ltb_spec a b); try lia
  end.

(** Facts [a mod b < b] for every [mod] of the goal, for [lia]. *)
Ltac mod_facts :=
  repeat match goal with
  | |- context [Nat.modulo ?a ?b] =>
      lazymatch goal with
      | _ : Nat.modulo a b < b |- _ => fail
      | _ => assert (Nat.modulo a b < b) by (apply Nat.mod_upper_bound; lia)
      end
  end.

(** Split on the sign of every [int] bound [n] of a [Z.to_nat (n + 1)]. *)
Ltac split_counts :=
  rewrite ?to_nat_succ;
  repeat match goal with
  | |- context [(0 <=? ?n)%Z] => destruct (Z.leb_spec 0 n)
  end.

Ltac seq_bounds :=
  repeat match goal with
  | H : In _ (seq _ _) |- _ => apply in_seq_lt in H
  end; simpl in *; lia.
