(* ===== verification/Layout.v ===== *)
(** * Vertex layout and mesh buffers

    The [Vertex] struct of [ShapeMeshes.h] (position, normal, [texCoord]),
    the interleaved [std::vector<GLfloat>] every generator fills (8 floats
    per vertex, [FloatsPerVertex + FloatsPerNormal + FloatsPerUV]), the
    vertex count [InitializeMesh] derives from it, and the two vectors a
    generator appends to ([MeshData]).  The [glm] operations the generators
    call ([cross], [dot], [normalize], [mix]) are defined here by their
    mathematical definition over the scalar interface. *)

From Stdlib Require Import List Arith Lia ZArith QArith.
From S2P Require Import Prelude.
Import ListNotations.
Local Open Scope nat_scope.

Record vec3 (F : Type) := mkv3 { vx : F; vy : F; vz : F }.
Record vec2 (F : Type) := mkv2 { tu : F; tv : F }.
Arguments mkv3 {F}. Arguments vx {F}. Arguments vy {F}. Arguments vz {F}.
Arguments mkv2 {F}. Arguments tu {F}. Arguments tv {F}.

(** [struct Vertex { glm::vec3 position; glm::vec3 normal; glm::vec2 texCoord; }] *)
Record Vertex (F : Type) := mkVertex {
  position : vec3 F;
  normal : vec3 F;
  texCoord : vec2 F
}.
Arguments mkVertex {F}. Arguments position {F}. Arguments normal {F}.
Arguments texCoord {F}.

(** The brace list [{ px,py,pz, nx,ny,nz, u,v }] a generator inserts. *)
Definition vtx {F} (px py pz nx ny nz u v : F) : Vertex F :=
  mkVertex (mkv3 px py pz) (mkv3 nx ny nz) (mkv2 u v).

(** Constants [FloatsPerVertex + FloatsPerNormal + FloatsPerUV]. *)
Definition FloatsPerVertex := 3.
Definition FloatsPerNormal := 3.
Definition FloatsPerUV := 2.
Definition stride := FloatsPerVertex + FloatsPerNormal + FloatsPerUV.

(** The float vector: each vertex contributes its 8 floats in order. *)
Definition vertex_floats {F} (v : Vertex F) : list F :=
  [vx (position v); vy (position v); vz (position v);
   vx (normal v); vy (normal v); vz (normal v);
   tu (texCoord v); tv (texCoord v)].

Definition interleave {F} (vs : list (Vertex F)) : list F :=
  flat_map vertex_floats vs.

(** Reading the float vector back as the shader does with the 8-float
    stride: attribute 0 at offset 0, attribute 1 at 3, attribute 2 at 6. *)
Fixpoint deinterleave {F} (l : list F) : list (Vertex F) :=
  match l with
  | px :: py :: pz :: nx :: ny :: nz :: u :: v :: rest =>
      vtx px py pz nx ny nz u v :: deinterleave rest
  | _ => []
  end.

(** [mesh.nVertices = verts.size() / (FloatsPerVertex + FloatsPerNormal + FloatsPerUV)] *)
Definition vertex_count {F} (verts : list F) : nat := length verts / stride.

(** The two vectors a generator appends to: [vertices] (kept as the vertex
    records whose interleaving is the float vector) and [indices]. *)
Record MeshData (F : Type) := mkMesh {
  mverts : list (Vertex F);
  mindices : list nat
}.
Arguments mkMesh {F}. Arguments mverts {F}. Arguments mindices {F}.

Definition empty_mesh {F} : MeshData F := mkMesh [] [].

(** One loop iteration: [vertices.insert(vertices.end(), ...)] then
    [indices.push_back(...)]; both vectors only grow at their end. *)
Definition emit {F} (vs : list (Vertex F)) (ixs : list nat) (m : MeshData F) : MeshData F :=
  mkMesh (mverts m ++ vs) (mindices m ++ ixs).

(** [vertices.size() / 8]: the index the next pushed vertex gets. *)
Definition next_index {F} (m : MeshData F) : nat := vertex_count (interleave (mverts m)).

(** The MeshBuffer invariant: every index is below the vertex count. *)
Definition mesh_valid {F} (m : MeshData F) : bool :=
  all_below (length (mverts m)) (mindices m).

(** ** glm, over the scalar interface *)

Section Glm.
Context {F : Type} `{Scalar F}.
Local Open Scope sc_scope.

Definition vadd (a b : vec3 F) := mkv3 (vx a + vx b) (vy a + vy b) (vz a + vz b).
Definition vsub (a b : vec3 F) := mkv3 (vx a - vx b) (vy a - vy b) (vz a - vz b).
Definition vscale (a : vec3 F) (k : F) := mkv3 (vx a * k) (vy a * k) (vz a * k).
Definition dot (a b : vec3 F) := vx a * vx b + vy a * vy b + vz a * vz b.
Definition cross (a b : vec3 F) :=
  mkv3 (vy a * vz b - vz a * vy b) (vz a * vx b - vx a * vz b) (vx a * vy b - vy a * vx b).
Definition vlength (a : vec3 F) := sc_sqrt (dot a a).
(** [glm::normalize(v) = v * inversesqrt(dot(v, v))] *)
Definition normalize (a : vec3 F) := vscale a (sc_one / vlength a).
(** [glm::mix(x, y, a) = x * (1 - a) + y * a] *)
Definition mix (x y a : F) := x * (sc_one - a) + y * a.
(** [glm::clamp(x, lo, hi) = min(max(x, lo), hi)] *)
Definition clamp (x lo hi : F) :=
  let m := if x <? lo then lo else x in if hi <? m then hi else m.
(** [glm::radians(d) = d * pi / 180] *)
Definition radians (d : F) := d * (sc_pi / #180).

End Glm.

(** ** Lemmas *)

Lemma length_vertex_floats {F} (v : Vertex F) : length (vertex_floats v) = stride.
Proof. reflexivity. Qed.

Lemma length_interleave {F} (vs : list (Vertex F)) : length (interleave vs) = stride * length vs.
Proof.
  unfold interleave. rewrite (length_flat_map_const _ _ stride) by apply length_vertex_floats.
  lia.
Qed.

Lemma interleave_app {F} (a b : list (Vertex F)) : interleave (a ++ b) = interleave a ++ interleave b.
Proof. apply flat_map_app. Qed.

Lemma next_index_length {F} (m : MeshData F) : next_index m = length (mverts m).
Proof.
  unfold next_index, vertex_count. rewrite length_interleave.
  unfold stride, FloatsPerVertex, FloatsPerNormal, FloatsPerUV.
  rewrite Nat.mul_comm. apply Nat.div_mul. discriminate.
Qed.

Lemma emit_verts {F} vs ixs (m : MeshData F) : mverts (emit vs ixs m) = mverts m ++ vs.
Proof. reflexivity. Qed.

Lemma emit_indices {F} vs ixs (m : MeshData F) : mindices (emit vs ixs m) = mindices m ++ ixs.
Proof. reflexivity. Qed.

Lemma emit_emit {F} vs1 ix1 vs2 ix2 (m : MeshData F) :
  emit vs2 ix2 (emit vs1 ix1 m) = emit (vs1 ++ vs2) (ix1 ++ ix2) m.
Proof. unfold emit; cbn. now rewrite !app_assoc. Qed.

(** A loop whose body emits data that depends only on the counter is the
    emission of all its bodies at once. *)
Lemma fold_emit {F} (V : nat -> list (Vertex F)) (I : nat -> list nat) (l : list nat) m :
  fold_left (fun m i => emit (V i) (I i) m) l m = emit (flat_map V l) (flat_map I l) m.
Proof.
  revert m. induction l as [|i l IH]; intros m.
  - destruct m. unfold emit. cbn. now rewrite !app_nil_r.
  - cbn [fold_left flat_map]. rewrite IH, emit_emit. reflexivity.
Qed.

Lemma for_loop_emit {F} n (V : nat -> list (Vertex F)) (I : nat -> list nat) m :
  for_loop n (fun m i => emit (V i) (I i) m) m = emit (flat_map V (seq 0 n)) (flat_map I (seq 0 n)) m.
Proof. apply fold_emit. Qed.

#[export] Hint Rewrite @length_interleave @interleave_app @next_index_length
  @emit_verts @emit_indices @for_loop_emit : mesh_rw.

(** What one loop iteration appends: its vertices and its indices. *)
Definition emit_step {F} (s : list (Vertex F) * list nat) (m : MeshData F) : MeshData F :=
  emit (fst s) (snd s) m.

(** [for (int i = 0; i < n; ++i) { vertices.insert(...); indices.push_back(...); }] *)
Definition loop {F} (n : nat) (body : nat -> list (Vertex F) * list nat) (m : MeshData F) :=
  for_loop n (fun m i => emit_step (body i) m) m.

Lemma loop_emit {F} n (body : nat -> list (Vertex F) * list nat) m :
  loop n body m =
  emit (flat_map (fun i => fst (body i)) (seq 0 n)) (flat_map (fun i => snd (body i)) (seq 0 n)) m.
Proof. apply (fold_emit (fun i => fst (body i)) (fun i => snd (body i))). Qed.

#[export] Hint Rewrite @loop_emit : mesh_rw.

(** Close [all_below n [i1; ...; ik] = true] by arithmetic on each index. *)
Ltac solve_below :=
  unfold all_below; cbn [forallb];
  rewrite ?andb_true_r, ?andb_true_iff, ?Nat.ltb_lt;
  repeat split; first [lia | nia].

(** ** Tactics for the generators *)

(** Expose the loops of a generator as flat emissions. *)
Ltac gen_unfold :=
  cbv zeta; rewrite ?loop_emit;
  repeat progress (rewrite ?next_index_length; cbn [emit mverts mindices empty_mesh fst snd]).

(** Lengths of the emissions: every loop emits a constant number of items
    per iteration, or a constant number under the guard [i < n] of a loop
    running to [n] inclusive. *)
Ltac gen_len :=
  rewrite ?length_app;
  repeat match goal with
  | |- context [length (flat_map ?g (seq 0 (?m + 1)))] =>
      erewrite (length_flat_map_guard g m) by
        (first [ intros ? ?; cbn -[Nat.ltb]; guard_cases; cbn [length]; reflexivity
               | cbn -[Nat.ltb]; rewrite Nat.ltb_irrefl; reflexivity ])
  | |- context [length (flat_map ?g ?l)] =>
      erewrite (length_flat_map_const g l) by (intros; cbn; gen_len; reflexivity)
  end;
  rewrite ?length_seq; cbn [length].

(** Every emitted index is below the vertex count. *)
Ltac gen_below :=
  repeat (match goal with
          | |- all_below _ (flat_map _ (seq 0 _)) = true => apply all_below_seq; intros ? ?
          | |- all_below _ (_ ++ _) = true => rewrite all_below_app
          | |- _ && _ = true => apply andb_true_intro; split
          end;
          try (progress cbn -[all_below Nat.ltb Nat.modulo Nat.mul Nat.add Z.to_nat]));
  guard_cases; mod_facts; try reflexivity; solve_below.

(** ** Primitive assembly of [GL_TRIANGLES]

    [glDrawElements(GL_TRIANGLES, count, ...)] reads the indices three at a
    time; an incomplete last group is ignored. *)
Fixpoint triangles (l : list nat) : list (nat * nat * nat) :=
  match l with
  | a :: b :: c :: rest => (a, b, c) :: triangles rest
  | _ => []
  end.

Lemma triangles_app (l1 l2 : list nat) :
  length l1 mod 3 = 0 -> triangles (l1 ++ l2) = triangles l1 ++ triangles l2.
Proof.
  intros H. remember (length l1) as k eqn:Hk. revert l1 Hk H.
  induction k as [k IH] using lt_wf_ind. intros l1 Hk Hm.
  destruct l1 as [|a [|b [|c l1]]]; cbn in Hk |- *; subst; try reflexivity;
    [discriminate..|].
  f_equal. apply (IH (length l1)); [lia|reflexivity|].
  replace (S (S (S (length l1)))) with (length l1 + 1 * 3) in Hm by lia.
  rewrite Nat.Div0.mod_add in Hm. exact Hm.
Qed.

(** The triangles of a loop whose iterations each emit whole triangles. *)
Lemma triangles_flat_map {A} (f : A -> list nat) (l : list A) :
  (forall x, In x l -> length (f x) mod 3 = 0) ->
  triangles (flat_map f l) = flat_map (fun x => triangles (f x)) l.
Proof.
  induction l as [|x l IH]; intros Hf; [reflexivity|].
  cbn [flat_map]. rewrite triangles_app by (apply Hf; left; reflexivity).
  f_equal. apply IH. intros y Hy. apply Hf. right. exact Hy.
Qed.

(** The triangle [(a, b, c)] is a fan triangle around [c0] whose other two
    corners lie in [[lo, hi)]. *)
Definition fan_of (c0 lo hi : nat) (t : nat * nat * nat) : Prop :=
  let '(a, b, c) := t in a = c0 /\ lo <= b < hi /\ lo <= c < hi.

(** All three corners of the triangle lie in [[lo, hi)]. *)
Definition within (lo hi : nat) (t : nat * nat * nat) : Prop :=
  let '(a, b, c) := t in (lo <= a < hi /\ lo <= b < hi) /\ lo <= c < hi.

(** Splitting an index list at the end of its first part. *)
Lemma split_parts {A} (X Y : list A) k :
  length X = k -> firstn k (X ++ Y) = X /\ skipn k (X ++ Y) = Y.
Proof.
  intros <-. split; [now rewrite firstn_app, Nat.sub_diag, firstn_O, app_nil_r, firstn_all|].
  now rewrite skipn_app, Nat.sub_diag, skipn_O, skipn_all.
Qed.

(** A property of every triangle a loop emits, from its body. *)
Lemma Forall_triangles_loop (P : nat * nat * nat -> Prop) (g : nat -> list nat) (l : list nat) :
  (forall i, In i l -> length (g i) mod 3 = 0 /\ Forall P (triangles (g i))) ->
  Forall P (triangles (flat_map g l)).
Proof.
  intros Hg. rewrite triangles_flat_map by (intros i Hi; apply Hg, Hi).
  apply Forall_forall. intros t (i & Hi & Ht)%in_flat_map.
  apply (proj1 (Forall_forall _ _) (proj2 (Hg i Hi)) t Ht).
Qed.

(** Split [firstn k]/[skipn k] of a concatenation whose first part has
    length [k]. *)
Ltac split_at k :=
  match goal with
  | |- context [firstn k (?X ++ ?Y)] =>
      let E := fresh in
      assert (E : length X = k) by (gen_len; unfold_locals; lia);
      destruct (split_parts X Y k E) as [-> ->]
  end.

(** A property of every triangle of one loop, iteration by iteration. *)
Ltac tri_loop :=
  apply Forall_triangles_loop; intros ? ?%in_seq_lt; cbn -[Nat.modulo Nat.ltb]; guard_cases;
  gen_len; (split; [reflexivity|]); repeat apply Forall_cons; try apply Forall_nil;
  cbn [fan_of within]; unfold_locals; mod_facts;
  repeat (erewrite (length_flat_map_const _ _ _) by (intros; cbn [length]; reflexivity));
  rewrite ?length_seq; lia.
