(* ===== verification/RealModel.v ===== *)
(** * The real semantics of the scalar interface

    The instance of [Arith] and [Scalar] on the Standard Library's reals: every
    float operation of the code is read as the exact real operation
    ([std::sqrt] as [sqrt], [std::pow] as [Rpower], [Pi] as [PI]).  The
    geometric theorems of the generators (unit normals, seams) are stated in
    this instance; the rounding of [float] is not modelled.  The file also
    holds the algebra of the [glm] operations in this instance. *)

From Stdlib Require Import List Arith Lia ZArith QArith Reals Qreals Ratan Lra.
From S2P Require Import Prelude Layout.
Import ListNotations.

#[export] Instance R_arith : Arith R := {
  sc_zero := 0%R;
  sc_one := 1%R;
  sc_add := Rplus;
  sc_sub := Rminus;
  sc_mul := Rmult;
  sc_div := Rdiv;
  sc_neg := Ropp;
  sc_lit := Q2R;
  sc_of_Z := IZR;
  sc_ltb := fun x y => if Rlt_dec x y then true else false;
  sc_leb := fun x y => if Rle_dec x y then true else false
}.

(** [static_cast<int>] truncates toward zero. *)
Definition R_trunc (x : R) : Z :=
  if Rle_dec 0 x then Int_part x else (- Int_part (- x))%Z.

#[export] Instance R_scalar : Scalar R := {
  sc_sqrt := sqrt;
  sc_sin := sin;
  sc_cos := cos;
  sc_pow := Rpower;
  sc_fabs := Rabs;
  sc_acos := acos;
  sc_pi := PI;
  sc_trunc := R_trunc
}.

Local Open Scope R_scope.

(** The literals the generators use, read in the reals. *)
Lemma R_lit_0 : sc_lit 0%Q = 0.
Proof. cbn. unfold Q2R. cbn. lra. Qed.

Lemma R_lit_1 : sc_lit 1%Q = 1.
Proof. cbn. unfold Q2R. cbn. lra. Qed.

Lemma R_lit_m1 : sc_lit (-1)%Q = -1.
Proof. cbn. unfold Q2R. cbn. lra. Qed.

Lemma R_nat n : sc_nat n = INR n.
Proof. cbn. rewrite INR_IZR_INZ. reflexivity. Qed.

(** Squared length of a vector, in the reals. *)
Definition norm2 (v : vec3 R) : R := vx v * vx v + vy v * vy v + vz v * vz v.

(** [glm::normalize] yields a unit vector for any non-zero vector. *)
Lemma normalize_unit (v : vec3 R) : norm2 v <> 0 -> norm2 (normalize v) = 1.
Proof.
  intros Hn. unfold normalize, vscale, vlength, dot, norm2 in *. cbn in *.
  assert (Hpos : 0 < vx v * vx v + vy v * vy v + vz v * vz v).
  { pose proof (Rle_0_sqr (vx v)). pose proof (Rle_0_sqr (vy v)).
    pose proof (Rle_0_sqr (vz v)). unfold Rsqr in *. lra. }
  set (s := vx v * vx v + vy v * vy v + vz v * vz v) in *.
  assert (Hs : sqrt s * sqrt s = s) by (apply sqrt_sqrt; lra).
  assert (Hq : 0 < sqrt s) by (apply sqrt_lt_R0; lra).
  transitivity (s / (sqrt s * sqrt s)); [unfold s in *; field; lra|].
  rewrite Hs. field. lra.
Qed.

(** The spherical unit vector [(sin t cos p, cos t, sin t sin p)]. *)
Lemma unit_spherical t p :
  sin t * cos p * (sin t * cos p) + cos t * cos t + sin t * sin p * (sin t * sin p) = 1.
Proof.
  pose proof (sin2_cos2 t) as Ht. pose proof (sin2_cos2 p) as Hp. unfold Rsqr in *.
  transitivity (sin t * sin t * (sin p * sin p + cos p * cos p) + cos t * cos t); [ring|].
  rewrite Hp. lra.
Qed.

(** A dot product with a vector divided by its length. *)
Lemma dot_div (a b c l : R) (e : vec3 R) : l <> 0 ->
  dot (mkv3 (a / l) (b / l) (c / l)) e = (a * vx e + b * vy e + c * vz e) / l.
Proof. intros. unfold dot. cbn. field. assumption. Qed.

#[export] Hint Rewrite R_lit_0 R_lit_1 R_lit_m1 R_nat : mesh_rw.

