(* ===== verification/Axisymmetric.v ===== *)
(** * Disk-capped axisymmetric solids

    [LoadConeMesh], [LoadCylinderMesh], [LoadTaperedCylinderMesh],
    [LoadTubeMesh] and [DrawPartialConeMesh] of [ShapeMeshes.cpp].  Each
    generator is the sequence of its loops, each loop a [loop] whose body
    returns what one iteration appends to [vertices] and [indices]; the
    result is the pair (stored [numSlices], buffers handed to
    [InitializeMesh]).  The theorems give the vertex and index counts, the
    validity of every index, the clamp of the slice count and the
    connectivity of the caps and walls. *)

From Stdlib Require Import List Arith Lia ZArith QArith Reals.
From S2P Require Import Prelude Layout RealModel.
Import ListNotations.
Local Open Scope nat_scope.

(** [if (numSlices < 3) numSlices = 3;] *)
Definition clamp_slices (numSlices : Z) : Z :=
  if (numSlices <? 3)%Z then 3%Z else numSlices.

Lemma clamp_slices_ge3 n : (3 <= clamp_slices n)%Z.
Proof. unfold clamp_slices. destruct (Z.ltb_spec n 3); lia. Qed.

Lemma clamp_slices_small n : (n <= 3)%Z -> clamp_slices n = 3%Z.
Proof. unfold clamp_slices. destruct (Z.ltb_spec n 3); lia. Qed.

Lemma clamp_slices_id n : (3 <= n)%Z -> clamp_slices n = n.
Proof. unfold clamp_slices. destruct (Z.ltb_spec n 3); lia. Qed.

(** ** LoadConeMesh *)
Module Cone.
Section Gen.
Context {F : Type} `{Scalar F}.
Local Open Scope sc_scope.

(** Bottom cap: [for (int i = 0; i < numSlices; ++i)] pushes rim vertex [i]
    and the fan triangle [center, rim (i+1)%n, rim i]. *)
Definition cone_bottom (radius angleStep : F) (n bottomCenterIndex : nat) (i : nat)
  : list (Vertex F) * list nat :=
  let a := sc_nat i * angleStep in
  let x := radius * sc_cos a in
  let z := radius * sc_sin a in
  ([vtx x #0 z  #0 #(-1) #0  (#0.5 + #0.5 * sc_cos a) (#0.5 + #0.5 * sc_sin a)],
   [bottomCenterIndex; (bottomCenterIndex + Nat.modulo (i + 1) n + 1)%nat;
    (bottomCenterIndex + i + 1)%nat]).

(** Side ring: two vertices per slice, sharing the averaged normal, and the
    triangle [apex, v0, v1]. *)
Definition cone_side (radius height angleStep : F) (numSlices : Z) (apexIndex sideStart : nat)
  (i : nat) : list (Vertex F) * list nat :=
  let a0 := sc_nat i * angleStep in
  let a1 := sc_nat (i + 1) * angleStep in
  let p0 := mkv3 (radius * sc_cos a0) #0 (radius * sc_sin a0) in
  let p1 := mkv3 (radius * sc_cos a1) #0 (radius * sc_sin a1) in
  let nrm := normalize (mkv3 ((vx p0 + vx p1) * #0.5) (height * #0.5) ((vz p0 + vz p1) * #0.5)) in
  let v0 := (sideStart + 2 * i)%nat in
  let v1 := (sideStart + 2 * i + 1)%nat in
  ([vtx (vx p0) (vy p0) (vz p0) (vx nrm) (vy nrm) (vz nrm) (sc_nat i / sc_of_Z numSlices) #1;
    vtx (vx p1) (vy p1) (vz p1) (vx nrm) (vy nrm) (vz nrm) (sc_nat (i + 1) / sc_of_Z numSlices) #1],
   [apexIndex; v0; v1]).

Definition LoadConeMesh (radius height : F) (numSlices : Z) : Z * MeshData F :=
  let numSlices := clamp_slices numSlices in
  let n := Z.to_nat numSlices in
  let angleStep := #2 * sc_pi / sc_of_Z numSlices in
  let m := empty_mesh in
  let bottomCenterIndex := next_index m in
  let m := emit [vtx #0 #0 #0  #0 #(-1) #0  #0.5 #0.5] [] m in
  let m := loop n (cone_bottom radius angleStep n bottomCenterIndex) m in
  let apexIndex := next_index m in
  let m := emit [vtx #0 height #0  #0 #1 #0  #0.5 #0.5] [] m in
  let sideStart := (apexIndex + 1)%nat in
  let m := loop n (cone_side radius height angleStep numSlices apexIndex sideStart) m in
  (numSlices, m).

End Gen.

(** The cone has [3 n + 2] vertices (center, rim, apex, two per side
    slice) and [6 n] indices (one fan and one side triangle per slice),
    [n] being the clamped slice count. *)
Theorem cone_counts {F} `{Scalar F} (radius height : F) (numSlices : Z) :
  let n := Z.to_nat (clamp_slices numSlices) in
  length (mverts (snd (LoadConeMesh radius height numSlices))) = 3 * n + 2 /\
  length (mindices (snd (LoadConeMesh radius height numSlices))) = 6 * n.
Proof.
  intros n. unfold_locals. unfold LoadConeMesh. gen_unfold. gen_len. lia.
Qed.

(** Every index of the cone is below its vertex count. *)
Theorem cone_valid {F} `{Scalar F} (radius height : F) (numSlices : Z) :
  mesh_valid (snd (LoadConeMesh radius height numSlices)) = true.
Proof.
  pose proof (clamp_slices_ge3 numSlices).
  unfold mesh_valid, LoadConeMesh. gen_unfold. gen_len. gen_below.
Qed.

(** The slice count is clamped silently: any [numSlices <= 3]
    (e.g. 1, or a negative count) builds exactly the mesh of [numSlices = 3]. *)
Theorem cone_clamp {F} `{Scalar F} (radius height : F) (numSlices : Z) :
  (numSlices <= 3)%Z -> LoadConeMesh radius height numSlices = LoadConeMesh radius height 3.
Proof. intros Hn. unfold LoadConeMesh. rewrite (clamp_slices_small _ Hn). reflexivity. Qed.

Lemma cone_clamp_witness :
  (1 <= 3)%Z /\ LoadConeMesh (F := R) 1%R 2%R 1%Z = LoadConeMesh 1%R 2%R 3%Z.
Proof. split; [lia | apply (cone_clamp (F := R)); lia]. Defined.

(** The index buffer of the cone is laid out as [DrawConeMesh] reads
    it: [6 n] indices, the first [3 n] the fan triangles around the bottom
    centre (vertex 0) over the rim vertices [1 .. n], the other [3 n] the
    side triangles from the apex (vertex [n + 1]) over the side vertices. *)
Theorem cone_parts {F} `{Scalar F} (radius height : F) (numSlices : Z) :
  let n := Z.to_nat (clamp_slices numSlices) in
  let ixs := mindices (snd (LoadConeMesh radius height numSlices)) in
  length ixs = 6 * n /\
  Forall (fan_of 0 1 (n + 1)) (triangles (firstn (3 * n) ixs)) /\
  Forall (fan_of (n + 1) (n + 2) (3 * n + 2)) (triangles (skipn (3 * n) ixs)).
Proof.
  pose proof (clamp_slices_ge3 numSlices).
  intros n ixs. subst ixs. unfold LoadConeMesh. gen_unfold. rewrite !app_nil_l, !app_nil_r.
  split_at (3 * n). split; [gen_len; unfold_locals; lia|]. split; tri_loop.
Qed.

End Cone.


(** ** LoadCylinderMesh *)
Module Cylinder.
Section Gen.
Context {F : Type} `{Scalar F}.
Local Open Scope sc_scope.

(** One cap loop [for (int i = 0; i <= numSlices; ++i)]: rim vertex [i] at
    height [y] with normal [(0, ny, 0)], and under [if (i < numSlices)] the
    fan triangle [center, center+i+1, center+(i+1)%n+1].  The bottom and the
    top caps are this same loop at [y = 0, ny = -1] and [y = height, ny = 1]. *)
Definition cylinder_cap (radius y ny angleStep : F) (n centerIndex : nat) (i : nat)
  : list (Vertex F) * list nat :=
  let angle := sc_nat i * angleStep in
  let x := radius * sc_cos angle in
  let z := radius * sc_sin angle in
  ([vtx x y z  #0 ny #0  (#0.5 + #0.5 * sc_cos angle) (#0.5 + #0.5 * sc_sin angle)],
   if (i <? n)%nat then
     [centerIndex; (centerIndex + i + 1)%nat; (centerIndex + Nat.modulo (i + 1) n + 1)%nat]
   else []).

(** Side loop: a bottom and a top ring vertex with the radial normal, and
    under [if (i < numSlices)] the two triangles of quad [i]. *)
Definition cylinder_side (radius height angleStep : F) (numSlices : Z) (n sideStartIndex : nat)
  (i : nat) : list (Vertex F) * list nat :=
  let angle := sc_nat i * angleStep in
  let x := radius * sc_cos angle in
  let z := radius * sc_sin angle in
  let nx := sc_cos angle in
  let nz := sc_sin angle in
  ([vtx x #0 z  nx #0 nz  (sc_nat i / sc_of_Z numSlices) #1;
    vtx x height z  nx #0 nz  (sc_nat i / sc_of_Z numSlices) #0],
   if (i <? n)%nat then
     [(sideStartIndex + i * 2)%nat; (sideStartIndex + i * 2 + 1)%nat;
      (sideStartIndex + (i + 1) * 2)%nat;
      (sideStartIndex + i * 2 + 1)%nat; (sideStartIndex + (i + 1) * 2)%nat;
      (sideStartIndex + (i + 1) * 2 + 1)%nat]
   else []).

Definition LoadCylinderMesh (radius height : F) (numSlices : Z) : Z * MeshData F :=
  let numSlices := clamp_slices numSlices in
  let n := Z.to_nat numSlices in
  let angleStep := #2 * sc_pi / sc_of_Z numSlices in
  let m := empty_mesh in
  let bottomCenterIndex := next_index m in
  let m := emit [vtx #0 #0 #0  #0 #(-1) #0  #0.5 #0.5] [] m in
  let m := loop (n + 1) (cylinder_cap radius #0 #(-1) angleStep n bottomCenterIndex) m in
  let topCenterIndex := next_index m in
  let m := emit [vtx #0 height #0  #0 #1 #0  #0.5 #0.5] [] m in
  let m := loop (n + 1) (cylinder_cap radius height #1 angleStep n topCenterIndex) m in
  let sideStartIndex := next_index m in
  let m := loop (n + 1) (cylinder_side radius height angleStep numSlices n sideStartIndex) m in
  (numSlices, m).

End Gen.

(** The cylinder has [4 n + 6] vertices (two centers, two rims of
    [n + 1] and two side rings of [n + 1]) and [12 n] indices. *)
Theorem cylinder_counts {F} `{Scalar F} (radius height : F) (numSlices : Z) :
  let n := Z.to_nat (clamp_slices numSlices) in
  length (mverts (snd (LoadCylinderMesh radius height numSlices))) = 4 * n + 6 /\
  length (mindices (snd (LoadCylinderMesh radius height numSlices))) = 12 * n.
Proof.
  intros n. unfold_locals. unfold LoadCylinderMesh. gen_unfold. gen_len. lia.
Qed.

(** Every index of the cylinder is below its vertex count. *)
Theorem cylinder_valid {F} `{Scalar F} (radius height : F) (numSlices : Z) :
  mesh_valid (snd (LoadCylinderMesh radius height numSlices)) = true.
Proof.
  pose proof (clamp_slices_ge3 numSlices).
  unfold mesh_valid, LoadCylinderMesh. gen_unfold. gen_len. gen_below.
Qed.

(** The index buffer of the cylinder is laid out as [DrawCylinderMesh]
    reads it: [12 n] indices; the first [3 n] fan around the bottom centre
    (vertex 0) over the bottom rim [1 .. n + 1], the next [3 n] fan around
    the top centre (vertex [n + 2]) over the top rim, the last [6 n] join the
    side rings, vertices [2 n + 4 .. 4 n + 5]. *)
Theorem cylinder_parts {F} `{Scalar F} (radius height : F) (numSlices : Z) :
  let n := Z.to_nat (clamp_slices numSlices) in
  let ixs := mindices (snd (LoadCylinderMesh radius height numSlices)) in
  length ixs = 12 * n /\
  Forall (fan_of 0 1 (n + 2)) (triangles (firstn (3 * n) ixs)) /\
  Forall (fan_of (n + 2) (n + 3) (2 * n + 4)) (triangles (firstn (3 * n) (skipn (3 * n) ixs))) /\
  Forall (within (2 * n + 4) (4 * n + 6)) (triangles (skipn (6 * n) ixs)).
Proof.
  pose proof (clamp_slices_ge3 numSlices).
  intros n ixs. subst ixs. unfold LoadCylinderMesh. gen_unfold. rewrite !app_nil_l, !app_nil_r.
  replace (6 * n) with (3 * n + 3 * n) by lia. rewrite <- skipn_skipn, <- !app_assoc.
  split_at (3 * n). split_at (3 * n).
  split; [gen_len; unfold_locals; lia|]. split; [|split]; tri_loop.
Qed.

End Cylinder.

(** ** LoadTaperedCylinderMesh *)
Module TaperedCylinder.
Section Gen.
Context {F : Type} `{Scalar F}.
Local Open Scope sc_scope.

(** Bottom cap loop: rim vertex [i] and the fan triangle
    [center, center+1+i, center+1+(i+1)%n] (normal down). *)
Definition tapered_bottom (bottomRadius angleStep : F) (n bottomCenterIndex : nat) (i : nat)
  : list (Vertex F) * list nat :=
  let a := sc_nat i * angleStep in
  let x := bottomRadius * sc_cos a in
  let z := bottomRadius * sc_sin a in
  let u := #0.5 + #0.5 * sc_cos a in
  let v := #0.5 + #0.5 * sc_sin a in
  ([vtx x #0 z  #0 #(-1) #0  u v],
   [bottomCenterIndex; (bottomCenterIndex + 1 + i)%nat;
    (bottomCenterIndex + 1 + Nat.modulo (i + 1) n)%nat]).

(** Top cap loop: the fan triangle in the other winding,
    [center, center+1+(i+1)%n, center+1+i] (normal up). *)
Definition tapered_top (topRadius height angleStep : F) (n topCenterIndex : nat) (i : nat)
  : list (Vertex F) * list nat :=
  let a := sc_nat i * angleStep in
  let x := topRadius * sc_cos a in
  let z := topRadius * sc_sin a in
  let u := #0.5 + #0.5 * sc_cos a in
  let v := #0.5 + #0.5 * sc_sin a in
  ([vtx x height z  #0 #1 #0  u v],
   [topCenterIndex; (topCenterIndex + 1 + Nat.modulo (i + 1) n)%nat;
    (topCenterIndex + 1 + i)%nat]).

(** Side vertex loop: bottom and top ring vertex of slice [i], both with
    the outward normal tilted by [slope]. *)
Definition tapered_side_vertices (bottomRadius topRadius height angleStep slope : F)
  (numSlices : Z) (i : nat) : list (Vertex F) * list nat :=
  let a := sc_nat i * angleStep in
  let cb := sc_cos a in
  let sb := sc_sin a in
  let xB := bottomRadius * cb in
  let zB := bottomRadius * sb in
  let xT := topRadius * cb in
  let zT := topRadius * sb in
  let nrm := normalize (mkv3 cb slope sb) in
  ([vtx xB #0 zB  (vx nrm) (vy nrm) (vz nrm)  (sc_nat i / sc_of_Z numSlices) #1;
    vtx xT height zT  (vx nrm) (vy nrm) (vz nrm)  (sc_nat i / sc_of_Z numSlices) #0],
   []).

(** Side index loop: quad [i] between slice [i] and slice [(i+1)%n], the
    seam closed by the modulo: [(B, Bn, T)] and [(T, Bn, Tn)]. *)
Definition tapered_side_indices (n sideStartIndex : nat) (i : nat) : list (Vertex F) * list nat :=
  let iNext := Nat.modulo (i + 1) n in
  let B := (sideStartIndex + 2 * i)%nat in
  let T := (B + 1)%nat in
  let Bn := (sideStartIndex + 2 * iNext)%nat in
  let Tn := (Bn + 1)%nat in
  ([], [B; Bn; T; T; Bn; Tn]).

Definition LoadTaperedCylinderMesh (bottomRadius topRadius height : F) (numSlices : Z)
  : Z * MeshData F :=
  let numSlices := clamp_slices numSlices in
  let n := Z.to_nat numSlices in
  let angleStep := #2 * sc_pi / sc_of_Z numSlices in
  let m := empty_mesh in
  let bottomCenterIndex := next_index m in
  let m := emit [vtx #0 #0 #0  #0 #(-1) #0  #0.5 #0.5] [] m in
  let m := loop n (tapered_bottom bottomRadius angleStep n bottomCenterIndex) m in
  let topCenterIndex := next_index m in
  let m := emit [vtx #0 height #0  #0 #1 #0  #0.5 #0.5] [] m in
  let m := loop n (tapered_top topRadius height angleStep n topCenterIndex) m in
  let sideStartIndex := next_index m in
  let slope := (bottomRadius - topRadius) / height in
  let m := loop n (tapered_side_vertices bottomRadius topRadius height angleStep slope numSlices) m in
  let m := loop n (tapered_side_indices n sideStartIndex) m in
  (numSlices, m).

End Gen.

(** The tapered cylinder has [4 n + 2] vertices and [12 n] indices:
    unlike [LoadCylinderMesh] it does not duplicate the seam column. *)
Theorem tapered_counts {F} `{Scalar F} (bottomRadius topRadius height : F) (numSlices : Z) :
  let n := Z.to_nat (clamp_slices numSlices) in
  length (mverts (snd (LoadTaperedCylinderMesh bottomRadius topRadius height numSlices))) = 4 * n + 2 /\
  length (mindices (snd (LoadTaperedCylinderMesh bottomRadius topRadius height numSlices))) = 12 * n.
Proof.
  intros n. unfold_locals. unfold LoadTaperedCylinderMesh. gen_unfold. gen_len. lia.
Qed.

(** Every index of the tapered cylinder is below its vertex count. *)
Theorem tapered_valid {F} `{Scalar F} (bottomRadius topRadius height : F) (numSlices : Z) :
  mesh_valid (snd (LoadTaperedCylinderMesh bottomRadius topRadius height numSlices)) = true.
Proof.
  pose proof (clamp_slices_ge3 numSlices).
  unfold mesh_valid, LoadTaperedCylinderMesh. gen_unfold. gen_len. gen_below.
Qed.

(** The index buffer of the tapered cylinder is laid out as
    [DrawTaperedCylinderMesh] reads it: [12 n] indices; [3 n] fan around
    the bottom centre (vertex 0) over [1 .. n], [3 n] fan around the top
    centre (vertex [n + 1]) over [n + 2 .. 2 n + 1], and [6 n] joining the
    side vertices [2 n + 2 .. 4 n + 1], the seam closed by the modulo. *)
Theorem tapered_parts {F} `{Scalar F} (bottomRadius topRadius height : F) (numSlices : Z) :
  let n := Z.to_nat (clamp_slices numSlices) in
  let ixs := mindices (snd (LoadTaperedCylinderMesh bottomRadius topRadius height numSlices)) in
  length ixs = 12 * n /\
  Forall (fan_of 0 1 (n + 1)) (triangles (firstn (3 * n) ixs)) /\
  Forall (fan_of (n + 1) (n + 2) (2 * n + 2)) (triangles (firstn (3 * n) (skipn (3 * n) ixs))) /\
  Forall (within (2 * n + 2) (4 * n + 2)) (triangles (skipn (6 * n) ixs)).
Proof.
  pose proof (clamp_slices_ge3 numSlices).
  intros n ixs. subst ixs. unfold LoadTaperedCylinderMesh. gen_unfold.
  cbn [tapered_side_vertices snd]. rewrite flat_map_nil_body, !app_nil_l, !app_nil_r.
  replace (6 * n) with (3 * n + 3 * n) by lia. rewrite <- skipn_skipn, <- !app_assoc.
  split_at (3 * n). split_at (3 * n).
  split; [gen_len; unfold_locals; lia|]. split; [|split]; tri_loop.
Qed.

End TaperedCylinder.

(** ** LoadTubeMesh *)
Module Tube.
Section Gen.
Context {F : Type} `{Scalar F}.
Local Open Scope sc_scope.

(** Vertex loop [i <= numSlices]: outer bottom, outer top, inner bottom,
    inner top, all four with the cap normals [(0, -1, 0)] or [(0, 1, 0)]. *)
Definition tube_vertices (outerRadius innerRadius height angleStep : F) (numSlices : Z) (i : nat)
  : list (Vertex F) * list nat :=
  let angle := sc_nat i * angleStep in
  let x := sc_cos angle in
  let z := sc_sin angle in
  let u := sc_nat i / sc_of_Z numSlices in
  ([vtx (outerRadius * x) #0 (outerRadius * z)  #0 #(-1) #0  u #1;
    vtx (outerRadius * x) height (outerRadius * z)  #0 #1 #0  u #0;
    vtx (innerRadius * x) #0 (innerRadius * z)  #0 #(-1) #0  u #1;
    vtx (innerRadius * x) height (innerRadius * z)  #0 #1 #0  u #0], []).

(** Wall loop: the outer quad and the inner quad (reversed) of slice [i]. *)
Definition tube_walls (i : nat) : list (Vertex F) * list nat :=
  let outerBottom1 := (i * 4)%nat in
  let outerTop1 := (outerBottom1 + 1)%nat in
  let outerBottom2 := (outerBottom1 + 4)%nat in
  let outerTop2 := (outerTop1 + 4)%nat in
  let innerBottom1 := (outerBottom1 + 2)%nat in
  let innerTop1 := (outerTop1 + 2)%nat in
  let innerBottom2 := (innerBottom1 + 4)%nat in
  let innerTop2 := (innerTop1 + 4)%nat in
  ([], [outerBottom1; outerBottom2; outerTop1; outerTop1; outerBottom2; outerTop2;
        innerBottom1; innerTop1; innerBottom2; innerTop1; innerTop2; innerBottom2]).

(** Cap loop: the annular bottom and top quads of slice [i]. *)
Definition tube_caps (i : nat) : list (Vertex F) * list nat :=
  let outerBottom1 := (i * 4)%nat in
  let innerBottom1 := (outerBottom1 + 2)%nat in
  let outerBottom2 := (outerBottom1 + 4)%nat in
  let innerBottom2 := (innerBottom1 + 4)%nat in
  let outerTop1 := (outerBottom1 + 1)%nat in
  let innerTop1 := (innerBottom1 + 1)%nat in
  let outerTop2 := (outerBottom2 + 1)%nat in
  let innerTop2 := (innerBottom2 + 1)%nat in
  ([], [outerBottom1; outerBottom2; innerBottom1; innerBottom1; outerBottom2; innerBottom2;
        innerTop1; outerTop1; innerTop2; innerTop2; outerTop1; outerTop2]).

Definition LoadTubeMesh (outerRadius innerRadius height : F) (numSlices : Z) : Z * MeshData F :=
  let numSlices := clamp_slices numSlices in
  let n := Z.to_nat numSlices in
  let angleStep := #2 * sc_pi / sc_of_Z numSlices in
  let m := loop (n + 1) (tube_vertices outerRadius innerRadius height angleStep numSlices) empty_mesh in
  let m := loop n tube_walls m in
  let m := loop n tube_caps m in
  (numSlices, m).

End Gen.

(** The tube has [4 (n + 1)] vertices and [24 n] indices. *)
Theorem tube_counts {F} `{Scalar F} (outerRadius innerRadius height : F) (numSlices : Z) :
  let n := Z.to_nat (clamp_slices numSlices) in
  length (mverts (snd (LoadTubeMesh outerRadius innerRadius height numSlices))) = 4 * (n + 1) /\
  length (mindices (snd (LoadTubeMesh outerRadius innerRadius height numSlices))) = 24 * n.
Proof.
  intros n. unfold_locals. unfold LoadTubeMesh. gen_unfold. gen_len. lia.
Qed.

(** Every index of the tube is below its vertex count. *)
Theorem tube_valid {F} `{Scalar F} (outerRadius innerRadius height : F) (numSlices : Z) :
  mesh_valid (snd (LoadTubeMesh outerRadius innerRadius height numSlices)) = true.
Proof.
  pose proof (clamp_slices_ge3 numSlices).
  unfold mesh_valid, LoadTubeMesh. gen_unfold. gen_len. gen_below.
Qed.

(** C30: every vertex of the tube carries a cap normal [(0, -1, 0)] or
    [(0, 1, 0)]: the outer and inner walls share the cap vertices, so no
    wall vertex has a radial (outer) or inverted radial (inner) normal. *)
Theorem tube_normals_vertical {F} `{Scalar F} (outerRadius innerRadius height : F) (numSlices : Z) :
  Forall (fun v => vx (normal v) = #0%sc /\ vz (normal v) = #0%sc /\
                   (vy (normal v) = #(-1)%sc \/ vy (normal v) = #1%sc))
    (mverts (snd (LoadTubeMesh outerRadius innerRadius height numSlices))).
Proof.
  unfold LoadTubeMesh. gen_unfold. cbn [tube_walls tube_caps fst].
  rewrite !flat_map_nil_body, !app_nil_r, ?app_nil_l.
  apply Forall_forall. intros v (i & _ & Hv)%in_flat_map. cbn in Hv.
  destruct Hv as [<-|[<-|[<-|[<-|[]]]]]; cbn; auto.
Qed.

End Tube.

(** ** DrawPartialConeMesh (the geometry it builds on every call) *)
Module PartialCone.
Section Gen.
Context {F : Type} `{Scalar F}.
Local Open Scope sc_scope.

(** Vertex loop [i <= numSlices]: the bottom sample [i] of the arc and its
    own apex copy, both with the side normal [(cos, radius / height, sin)]. *)
Definition partial_vertices (radius height angleStep halfArc : F) (n : nat) (i : nat)
  : list (Vertex F) * list nat :=
  let angle := - halfArc + sc_nat i * angleStep in
  let x := radius * sc_cos angle in
  let z := radius * sc_sin angle in
  let u := sc_nat i / sc_nat n in
  let nrm := normalize (mkv3 (sc_cos angle) (radius / height) (sc_sin angle)) in
  ([vtx x #0 z  (vx nrm) (vy nrm) (vz nrm)  u #1;
    vtx #0 height #0  (vx nrm) (vy nrm) (vz nrm)  u #0], []).

(** Index loop [i < numSlices]: two triangles per slice, between sample
    columns [i] and [i + 1] only. *)
Definition partial_indices (i : nat) : list (Vertex F) * list nat :=
  let b0 := (2 * i)%nat in
  let a0 := (b0 + 1)%nat in
  let b1 := (2 * (i + 1))%nat in
  let a1 := (b1 + 1)%nat in
  ([], [b0; a1; a0; b0; b1; a1]).

(** The buffers of [DrawPartialConeMesh]: [numSlices] clamped to 3,
    [arcDegrees] clamped to [[0, 360]]. *)
Definition partial_cone (radius height : F) (numSlices : Z) (arcDegrees : F) : MeshData F :=
  let numSlices := clamp_slices numSlices in
  let n := Z.to_nat numSlices in
  let arcDegrees := clamp arcDegrees #0 #360 in
  let arcRadians := radians arcDegrees in
  let angleStep := arcRadians / sc_of_Z numSlices in
  let halfArc := arcRadians * #0.5 in
  let m := loop (n + 1) (partial_vertices radius height angleStep halfArc n) empty_mesh in
  loop n partial_indices m.

End Gen.

(** The partial cone has [2 (n + 1)] vertices and [6 n] indices. *)
Theorem partial_counts {F} `{Scalar F} (radius height : F) (numSlices : Z) (arcDegrees : F) :
  let n := Z.to_nat (clamp_slices numSlices) in
  length (mverts (partial_cone radius height numSlices arcDegrees)) = 2 * (n + 1) /\
  length (mindices (partial_cone radius height numSlices arcDegrees)) = 6 * n.
Proof.
  intros n. unfold_locals. unfold partial_cone. gen_unfold. gen_len. lia.
Qed.

(** Every index of the partial cone is below its vertex count. *)
Theorem partial_valid {F} `{Scalar F} (radius height : F) (numSlices : Z) (arcDegrees : F) :
  mesh_valid (partial_cone radius height numSlices arcDegrees) = true.
Proof.
  pose proof (clamp_slices_ge3 numSlices).
  unfold mesh_valid, partial_cone. gen_unfold. gen_len. gen_below.
Qed.

(** The partial cone is open: no triangle joins the first angular
    sample (vertices 0 and 1: bottom and apex of column 0) to the last one
    (vertices [2n] and [2n + 1]), whatever the arc, so the two edges of the
    surface stay unconnected. *)
Theorem partial_open {F} `{Scalar F} (radius height : F) (numSlices : Z) (arcDegrees : F) :
  let n := Z.to_nat (clamp_slices numSlices) in
  Forall (fun '(a, b, c) => ~ ((a < 2 \/ b < 2 \/ c < 2) /\ (2 * n <= a \/ 2 * n <= b \/ 2 * n <= c)))
    (triangles (mindices (partial_cone radius height numSlices arcDegrees))).
Proof.
  intros n. unfold_locals. pose proof (clamp_slices_ge3 numSlices).
  unfold partial_cone. gen_unfold. cbn [partial_vertices snd].
  rewrite flat_map_nil_body, !app_nil_l, triangles_flat_map by (intros; reflexivity).
  apply Forall_forall. intros [[a b] c] (i & Hi%in_seq_lt & Ht)%in_flat_map.
  cbn [partial_indices snd triangles] in Ht.
  destruct Ht as [Ht|[Ht|[]]]; injection Ht as <- <- <-; lia.
Qed.

End PartialCone.
