(* ===== verification/Grids.v ===== *)
(** * Latitude/longitude grids: sphere, hemisphere, torus

    [LoadSphereMesh], [LoadHemisphereMesh] and [LoadTorusMesh] of
    [ShapeMeshes.cpp].  Each is a double loop that pushes a
    [(rows + 1) x (cols + 1)] grid of vertices (the seam column duplicated)
    and a double loop that pushes two triangles per grid cell.  The sphere
    and hemisphere do not clamp their segment counts (negative counts give
    empty loops); the torus clamps both counts to 3 and the tube radius to
    [0.01].  Theorems: counts, index validity, the lookup of a grid vertex
    by its index, and in the real instance the seam duplication, the unit
    normals and the rim of the hemisphere. *)

From Stdlib Require Import List Arith Lia ZArith QArith.
From Stdlib Require Import Reals Lra.
From S2P Require Import Prelude Layout RealModel.
Import ListNotations.
Local Open Scope nat_scope.

(** ** Grid helpers *)

(** The vertex of a row-major grid: row [i] holds [k] vertices. *)
Lemma nth_flat_map_rows {A} (f : nat -> list A) n k i j d :
  (forall r, r < n -> length (f r) = k) -> i < n -> j < k ->
  nth (i * k + j) (flat_map f (seq 0 n)) d = nth j (f i) d.
Proof.
  revert i. induction n as [|n IH]; intros i Hk Hi Hj; [lia|].
  rewrite seq_S, flat_map_app. cbn [flat_map]. rewrite app_nil_r.
  assert (Hlen : length (flat_map f (seq 0 n)) = n * k).
  { rewrite (flat_map_constant_length (c := k)) by (intros r Hr%in_seq_lt; apply Hk; lia).
    now rewrite length_seq. }
  destruct (Nat.eq_dec i n) as [->|Hne].
  - rewrite app_nth2 by lia. now rewrite Hlen, Nat.add_sub_swap, Nat.sub_diag by lia.
  - rewrite app_nth1 by nia. apply IH; [intros r Hr; apply Hk|..]; lia.
Qed.

Lemma nth_flat_map_single {A} (f : nat -> A) n j d :
  j < n -> nth j (flat_map (fun i => [f i]) (seq 0 n)) d = f j.
Proof.
  intros Hj. rewrite <- (Nat.add_0_r j) at 1.
  replace j with (j * 1) at 1 by lia.
  rewrite (nth_flat_map_rows (fun i => [f i]) n 1 j 0) by (cbn; lia || reflexivity).
  reflexivity.
Qed.

(** The vertex loops of a grid: row [i] pushes [f i j] for [j < cols];
    then an index-only loop.  The vertex at [i * cols + j] is [f i j]. *)
Lemma grid_vertex_at {F} rows cols (f : nat -> nat -> Vertex F) nb (band : nat -> list nat) i j d :
  i < rows -> j < cols ->
  nth (i * cols + j)
    (mverts (loop nb (fun r => ([], band r))
       (loop rows (fun r => (flat_map (fun c => [f r c]) (seq 0 cols), [])) empty_mesh))) d = f i j.
Proof.
  intros Hi Hj. gen_unfold. rewrite flat_map_nil_body, !app_nil_r, app_nil_l.
  rewrite (nth_flat_map_rows _ _ cols) by (intros; gen_len; lia || assumption).
  apply nth_flat_map_single. exact Hj.
Qed.

(** ** LoadSphereMesh *)
Module Sphere.
Section Gen.
Context {F : Type} `{Scalar F}.
Local Open Scope sc_scope.

(** Vertex [lat, lon]: [theta = lat * Pi / latitudeSegments],
    [phi = lon * 2 * Pi / longitudeSegments] ([lon * 2] in [int]). *)
Definition sphere_vertex (latitudeSegments longitudeSegments : Z) (radius : F) (lat lon : nat)
  : Vertex F :=
  let theta := sc_nat lat * sc_pi / sc_of_Z latitudeSegments in
  let sinTheta := sc_sin theta in
  let cosTheta := sc_cos theta in
  let phi := sc_of_Z (Z.of_nat lon * 2) * sc_pi / sc_of_Z longitudeSegments in
  let sinPhi := sc_sin phi in
  let cosPhi := sc_cos phi in
  let x := radius * sinTheta * cosPhi in
  let y := radius * cosTheta in
  let z := radius * sinTheta * sinPhi in
  let nx := sinTheta * cosPhi in
  let ny := cosTheta in
  let nz := sinTheta * sinPhi in
  let u := #1 - sc_nat lon / sc_of_Z longitudeSegments in
  let v := #1 - sc_nat lat / sc_of_Z latitudeSegments in
  vtx x y z nx ny nz u v.

(** Outer vertex loop [for (lat = 0; lat <= latitudeSegments; ++lat)], inner
    [for (lon = 0; lon <= longitudeSegments; ++lon)]. *)
Definition sphere_ring (latitudeSegments longitudeSegments : Z) (radius : F) (lat : nat)
  : list (Vertex F) * list nat :=
  (flat_map (fun lon => [sphere_vertex latitudeSegments longitudeSegments radius lat lon])
     (seq 0 (Z.to_nat (longitudeSegments + 1))), []).

(** Cell [lat, lon]: [first = lat * (L + 1) + lon], [second = first + L + 1],
    triangles [(first, second, first + 1)] and [(second, second + 1, first + 1)]. *)
Definition sphere_cell (longitudeSegments : Z) (lat lon : nat) : list nat :=
  let first := (lat * (Z.to_nat longitudeSegments + 1) + lon)%nat in
  let second := (first + Z.to_nat longitudeSegments + 1)%nat in
  [first; second; (first + 1)%nat; second; (second + 1)%nat; (first + 1)%nat].

Definition sphere_band (longitudeSegments : Z) (lat : nat) : list (Vertex F) * list nat :=
  ([], flat_map (sphere_cell longitudeSegments lat) (seq 0 (Z.to_nat longitudeSegments))).

Definition LoadSphereMesh (latitudeSegments longitudeSegments : Z) (radius : F) : MeshData F :=
  let m := loop (Z.to_nat (latitudeSegments + 1))
                (sphere_ring latitudeSegments longitudeSegments radius) empty_mesh in
  loop (Z.to_nat latitudeSegments) (sphere_band longitudeSegments) m.

End Gen.

(** The sphere has [(lat + 1) (lon + 1)] vertices and [6 lat lon]
    indices; the counts are not clamped, so a negative count gives an
    empty mesh. *)
Theorem sphere_counts {F} `{Scalar F} (latitudeSegments longitudeSegments : Z) (radius : F) :
  length (mverts (LoadSphereMesh latitudeSegments longitudeSegments radius)) =
    Z.to_nat (latitudeSegments + 1) * Z.to_nat (longitudeSegments + 1) /\
  length (mindices (LoadSphereMesh latitudeSegments longitudeSegments radius)) =
    6 * Z.to_nat latitudeSegments * Z.to_nat longitudeSegments.
Proof. unfold LoadSphereMesh. split_counts; gen_unfold; gen_len; lia. Qed.

(** Every index of the sphere is below its vertex count. *)
Theorem sphere_valid {F} `{Scalar F} (latitudeSegments longitudeSegments : Z) (radius : F) :
  mesh_valid (LoadSphereMesh latitudeSegments longitudeSegments radius) = true.
Proof.
  unfold mesh_valid, LoadSphereMesh, sphere_band, sphere_cell. split_counts;
  gen_unfold; gen_len; gen_below.
Qed.

(** The vertex at index [lat * (L + 1) + lon] is the one the loops
    computed for [lat, lon]. *)
Lemma sphere_vertex_at {F} `{Scalar F} (latitudeSegments longitudeSegments : Z) (radius : F)
  (lat lon : nat) d :
  (0 <= latitudeSegments)%Z -> (0 <= longitudeSegments)%Z ->
  lat <= Z.to_nat latitudeSegments -> lon <= Z.to_nat longitudeSegments ->
  nth (lat * (Z.to_nat longitudeSegments + 1) + lon)
      (mverts (LoadSphereMesh latitudeSegments longitudeSegments radius)) d =
  sphere_vertex latitudeSegments longitudeSegments radius lat lon.
Proof.
  intros Hl0 Hl Hlat Hlon. unfold LoadSphereMesh.
  rewrite <- to_nat_succ_pos by lia.
  exact (grid_vertex_at (Z.to_nat (latitudeSegments + 1)) (Z.to_nat (longitudeSegments + 1))
           (sphere_vertex latitudeSegments longitudeSegments radius) _
           (fun lat => flat_map (sphere_cell longitudeSegments lat) (seq 0 (Z.to_nat longitudeSegments)))
           lat lon d ltac:(lia) ltac:(lia)).
Qed.

(** The seam column is duplicated (spec: wrap seam duplication): in the
    real semantics, the vertices at [lon = 0] and [lon = L] of a ring have
    the same position and normal, and texture coordinates [u] that differ by
    exactly 1. *)
Theorem sphere_seam (latitudeSegments longitudeSegments : Z) (radius : R) (lat : nat) :
  (0 <= latitudeSegments)%Z -> (0 < longitudeSegments)%Z -> lat <= Z.to_nat latitudeSegments ->
  let vs := mverts (LoadSphereMesh latitudeSegments longitudeSegments radius) in
  let k := (Z.to_nat longitudeSegments + 1)%nat in
  let d := vtx 0%R 0%R 0%R 0%R 0%R 0%R 0%R 0%R in
  let v0 := nth (lat * k) vs d in
  let v1 := nth (lat * k + Z.to_nat longitudeSegments) vs d in
  position v0 = position v1 /\ normal v0 = normal v1 /\
  (tu (texCoord v0) - tu (texCoord v1) = 1)%R.
Proof.
  intros Hl0 Hl Hlat vs k d v0 v1.
  assert (E0 : v0 = sphere_vertex latitudeSegments longitudeSegments radius lat 0).
  { subst v0. rewrite <- sphere_vertex_at with (d := d) by lia. f_equal. lia. }
  assert (E1 : v1 = sphere_vertex latitudeSegments longitudeSegments radius lat
                      (Z.to_nat longitudeSegments)) by (apply sphere_vertex_at; lia).
  rewrite E0, E1. clear E0 E1 v0 v1 vs d.
  unfold sphere_vertex. cbn -[sin cos PI IZR INR Rdiv].
  rewrite Z2Nat.id by lia.
  replace (IZR (longitudeSegments * 2) * PI / IZR longitudeSegments)%R with (2 * PI)%R
    by (rewrite mult_IZR; field; apply not_0_IZR; lia).
  replace (0 * PI / IZR longitudeSegments)%R with 0%R
    by (field; apply not_0_IZR; lia).
  rewrite cos_2PI, sin_2PI, cos_0, sin_0.
  repeat split. unfold Q2R; cbn. field. apply not_0_IZR; lia.
Qed.

Lemma sphere_seam_witness :
  let vs := mverts (LoadSphereMesh 2 4 1%R) in
  let d := vtx 0%R 0%R 0%R 0%R 0%R 0%R 0%R 0%R in
  let v0 := nth (1 * 5) vs d in
  let v1 := nth (1 * 5 + 4) vs d in
  position v0 = position v1 /\ normal v0 = normal v1 /\
  (tu (texCoord v0) - tu (texCoord v1) = 1)%R.
Proof. exact (sphere_seam 2 4 1%R 1 ltac:(lia) ltac:(lia) ltac:(cbv; lia)). Defined.

(** The sphere's normals are analytic and of unit length: in the real
    semantics every vertex normal [(sin t cos p, cos t, sin t sin p)] has
    squared length 1. *)
Theorem sphere_normals_unit (latitudeSegments longitudeSegments : Z) (radius : R) :
  Forall (fun v => norm2 (normal v) = 1%R)
    (mverts (LoadSphereMesh latitudeSegments longitudeSegments radius)).
Proof.
  unfold LoadSphereMesh. gen_unfold. cbn [sphere_band fst].
  rewrite flat_map_nil_body, !app_nil_r, app_nil_l.
  apply Forall_forall. intros v (lat & _ & Hv)%in_flat_map.
  cbn [sphere_ring fst] in Hv. apply in_flat_map in Hv as (lon & _ & [<-|[]]).
  unfold sphere_vertex, norm2. cbn -[sin cos].
  apply unit_spherical.
Qed.

End Sphere.

(** ** LoadHemisphereMesh *)
Module Hemisphere.
Section Gen.
Context {F : Type} `{Scalar F}.
Local Open Scope sc_scope.

(** [int hemiLatSegments = latitudeSegments / 2] (C++ division truncates). *)
Definition hemiLatSegments (latitudeSegments : Z) : Z := Z.quot latitudeSegments 2.

(** Vertex [lat, lon]: as the sphere's, but [v = 1 - lat / hemiLatSegments];
    [theta] still divides by the full [latitudeSegments]. *)
Definition hemisphere_vertex (latitudeSegments longitudeSegments : Z) (radius : F) (lat lon : nat)
  : Vertex F :=
  let theta := sc_nat lat * sc_pi / sc_of_Z latitudeSegments in
  let sinTheta := sc_sin theta in
  let cosTheta := sc_cos theta in
  let phi := sc_of_Z (Z.of_nat lon * 2) * sc_pi / sc_of_Z longitudeSegments in
  let sinPhi := sc_sin phi in
  let cosPhi := sc_cos phi in
  let x := radius * sinTheta * cosPhi in
  let y := radius * cosTheta in
  let z := radius * sinTheta * sinPhi in
  let nx := sinTheta * cosPhi in
  let ny := cosTheta in
  let nz := sinTheta * sinPhi in
  let u := #1 - sc_nat lon / sc_of_Z longitudeSegments in
  let v := #1 - sc_nat lat / sc_of_Z (hemiLatSegments latitudeSegments) in
  vtx x y z nx ny nz u v.

Definition hemisphere_ring (latitudeSegments longitudeSegments : Z) (radius : F) (lat : nat)
  : list (Vertex F) * list nat :=
  (flat_map (fun lon => [hemisphere_vertex latitudeSegments longitudeSegments radius lat lon])
     (seq 0 (Z.to_nat (longitudeSegments + 1))), []).

(** The index loop is the sphere's, over [hemiLatSegments] bands. *)
Definition LoadHemisphereMesh (latitudeSegments longitudeSegments : Z) (radius : F) : MeshData F :=
  let h := hemiLatSegments latitudeSegments in
  let m := loop (Z.to_nat (h + 1))
                (hemisphere_ring latitudeSegments longitudeSegments radius) empty_mesh in
  loop (Z.to_nat h) (Sphere.sphere_band longitudeSegments) m.

End Gen.

(** The hemisphere has [(h + 1) (lon + 1)] vertices and [6 h lon]
    indices for [h = latitudeSegments / 2]. *)
Theorem hemisphere_counts {F} `{Scalar F} (latitudeSegments longitudeSegments : Z) (radius : F) :
  let h := hemiLatSegments latitudeSegments in
  length (mverts (LoadHemisphereMesh latitudeSegments longitudeSegments radius)) =
    Z.to_nat (h + 1) * Z.to_nat (longitudeSegments + 1) /\
  length (mindices (LoadHemisphereMesh latitudeSegments longitudeSegments radius)) =
    6 * Z.to_nat h * Z.to_nat longitudeSegments.
Proof.
  intros h. unfold LoadHemisphereMesh. fold h. split_counts; gen_unfold; gen_len; lia.
Qed.

(** Every index of the hemisphere is below its vertex count. *)
Theorem hemisphere_valid {F} `{Scalar F} (latitudeSegments longitudeSegments : Z) (radius : F) :
  mesh_valid (LoadHemisphereMesh latitudeSegments longitudeSegments radius) = true.
Proof.
  unfold mesh_valid, LoadHemisphereMesh, Sphere.sphere_band, Sphere.sphere_cell.
  set (h := hemiLatSegments latitudeSegments). split_counts; gen_unfold; gen_len; gen_below.
Qed.

Lemma hemisphere_vertex_at {F} `{Scalar F} (latitudeSegments longitudeSegments : Z) (radius : F)
  (lat lon : nat) d :
  (0 <= hemiLatSegments latitudeSegments)%Z -> (0 <= longitudeSegments)%Z ->
  lat <= Z.to_nat (hemiLatSegments latitudeSegments) -> lon <= Z.to_nat longitudeSegments ->
  nth (lat * (Z.to_nat longitudeSegments + 1) + lon)
      (mverts (LoadHemisphereMesh latitudeSegments longitudeSegments radius)) d =
  hemisphere_vertex latitudeSegments longitudeSegments radius lat lon.
Proof.
  intros Hl0 Hl Hlat Hlon. unfold LoadHemisphereMesh.
  rewrite <- to_nat_succ_pos by lia.
  exact (grid_vertex_at (Z.to_nat (hemiLatSegments latitudeSegments + 1))
           (Z.to_nat (longitudeSegments + 1))
           (hemisphere_vertex latitudeSegments longitudeSegments radius) _
           (fun lat => flat_map (Sphere.sphere_cell longitudeSegments lat)
                         (seq 0 (Z.to_nat longitudeSegments)))
           lat lon d ltac:(lia) ltac:(lia)).
Qed.

(** C29: the last ring of the hemisphere lies on the equator only when
    [latitudeSegments] is even.  For an odd count [2k + 1] the last ring is
    [lat = k], at [theta = k Pi / (2k + 1) < Pi / 2], strictly above the
    equator, so the dome stops short of [y = 0] (the spec: a half sphere,
    [theta] in [0, Pi/2]). *)
Theorem hemisphere_rim (latitudeSegments longitudeSegments : Z) (radius : R) (lon : nat) :
  (1 <= latitudeSegments)%Z -> (0 <= longitudeSegments)%Z -> (0 < radius)%R ->
  lon <= Z.to_nat longitudeSegments ->
  let d := vtx 0%R 0%R 0%R 0%R 0%R 0%R 0%R 0%R in
  let rim := nth (Z.to_nat (hemiLatSegments latitudeSegments) * (Z.to_nat longitudeSegments + 1)
                  + lon) (mverts (LoadHemisphereMesh latitudeSegments longitudeSegments radius)) d in
  (Z.even latitudeSegments = true -> vy (position rim) = 0%R) /\
  (Z.odd latitudeSegments = true -> (0 < vy (position rim))%R).
Proof.
  intros Hl Hlon0 Hr Hlon d rim. subst rim.
  assert (Hh : (0 <= hemiLatSegments latitudeSegments)%Z)
    by (unfold hemiLatSegments; apply Z.quot_pos; lia).
  rewrite hemisphere_vertex_at by lia.
  unfold hemisphere_vertex. cbn -[sin cos PI IZR Rdiv].
  rewrite Z2Nat.id by exact Hh. unfold hemiLatSegments.
  pose proof (Z.quot_rem latitudeSegments 2 ltac:(lia)) as Hq.
  pose proof (Z.rem_bound_pos latitudeSegments 2 ltac:(lia) ltac:(lia)) as Hb.
  set (k := Z.quot latitudeSegments 2) in *. set (r := Z.rem latitudeSegments 2) in *.
  split; intros Hpar.
  - assert (r = 0%Z) by (apply Z.even_spec in Hpar;
                         destruct Hpar as [c Hc]; lia).
    assert (Hk : (0 < k)%Z) by lia.
    replace (IZR k * PI / IZR latitudeSegments)%R with (PI / 2)%R.
    + rewrite cos_PI2. ring.
    + rewrite Hq. replace (2 * k + r)%Z with (2 * k)%Z by lia. rewrite mult_IZR.
      field. apply not_0_IZR. lia.
  - assert (r = 1%Z) by (apply Z.odd_spec in Hpar;
                         destruct Hpar as [c Hc]; lia).
    apply Rmult_lt_0_compat; [exact Hr|]. apply cos_gt_0.
    + apply Rlt_le_trans with 0%R; [pose proof PI_RGT_0; lra|].
      apply Rmult_le_pos; [apply Rmult_le_pos; [apply IZR_le; lia|pose proof PI_RGT_0; lra]|].
      apply Rlt_le, Rinv_0_lt_compat, IZR_lt. lia.
    + rewrite Hq. replace (2 * k + r)%Z with (2 * k + 1)%Z by lia.
      assert (Hk : (0 <= IZR k)%R) by (apply IZR_le; lia).
      rewrite plus_IZR, mult_IZR. pose proof PI_RGT_0.
      apply Rmult_lt_reg_r with (2 * IZR k + 1)%R; [lra|].
      unfold Rdiv. rewrite Rmult_assoc, Rinv_l by lra. nra.
Qed.

Lemma hemisphere_rim_witness :
  let d := vtx 0%R 0%R 0%R 0%R 0%R 0%R 0%R 0%R in
  let rim := nth (Z.to_nat (hemiLatSegments 5) * (Z.to_nat 4 + 1) + 2)
               (mverts (LoadHemisphereMesh 5 4 1%R)) d in
  (Z.even 5 = true -> vy (position rim) = 0%R) /\
  (Z.odd 5 = true -> (0 < vy (position rim))%R).
Proof. exact (hemisphere_rim 5 4 1%R 2 ltac:(lia) ltac:(lia) Rlt_0_1 ltac:(cbv; lia)). Defined.

End Hemisphere.

(** ** LoadTorusMesh *)
Module Torus.
Section Gen.
Context {F : Type} `{Scalar F}.
Local Open Scope sc_scope.

(** [std::max(3, n)] on [int]. *)
Definition max3 (n : Z) : Z := Z.max 3 n.

(** [std::max(0.01f, tubeRadius)]: [std::max(a, b)] is [(a < b) ? b : a]. *)
Definition clamp_tube (tubeRadius : F) : F :=
  if sc_lit (Qmake 1 100) <? tubeRadius then tubeRadius else sc_lit (Qmake 1 100).

(** Vertex [(i, j)] for the clamped parameters: the position on the tube
    circle, the normal [glm::normalize(vertex - center)] with [center] the
    point of the main circle, and [(u, v) = (i / mainSegments, j / tubeSegments)]. *)
Definition torus_vertex (mainRadius tubeRadius : F) (mainSegments tubeSegments : Z) (i j : nat)
  : Vertex F :=
  let mainSegmentStep := #2 * sc_pi / sc_of_Z mainSegments in
  let tubeSegmentStep := #2 * sc_pi / sc_of_Z tubeSegments in
  let mainAngle := sc_nat i * mainSegmentStep in
  let cosMain := sc_cos mainAngle in
  let sinMain := sc_sin mainAngle in
  let tubeAngle := sc_nat j * tubeSegmentStep in
  let cosTube := sc_cos tubeAngle in
  let sinTube := sc_sin tubeAngle in
  let x := (mainRadius + tubeRadius * cosTube) * cosMain in
  let y := (mainRadius + tubeRadius * cosTube) * sinMain in
  let z := tubeRadius * sinTube in
  let center := mkv3 (mainRadius * cosMain) (mainRadius * sinMain) #0 in
  let n := normalize (vsub (mkv3 x y z) center) in
  let u := sc_nat i / sc_of_Z mainSegments in
  let v := sc_nat j / sc_of_Z tubeSegments in
  mkVertex (mkv3 x y z) n (mkv2 u v).

Definition torus_ring (mainRadius tubeRadius : F) (mainSegments tubeSegments : Z) (i : nat)
  : list (Vertex F) * list nat :=
  (flat_map (fun j => [torus_vertex mainRadius tubeRadius mainSegments tubeSegments i j])
     (seq 0 (Z.to_nat (tubeSegments + 1))), []).

(** Cell [(i, j)]: [current = i (T + 1) + j], [next = (i + 1) (T + 1) + j],
    triangles [(current, next, current + 1)] and [(current + 1, next, next + 1)]. *)
Definition torus_cell (tubeSegments : Z) (i j : nat) : list nat :=
  let current := (i * (Z.to_nat tubeSegments + 1) + j)%nat in
  let next := ((i + 1) * (Z.to_nat tubeSegments + 1) + j)%nat in
  [current; next; (current + 1)%nat; (current + 1)%nat; next; (next + 1)%nat].

Definition torus_band (tubeSegments : Z) (i : nat) : list (Vertex F) * list nat :=
  ([], flat_map (torus_cell tubeSegments i) (seq 0 (Z.to_nat tubeSegments))).

Definition LoadTorusMesh (mainRadius tubeRadius : F) (mainSegments tubeSegments : Z)
  : MeshData F :=
  let mainSegments := max3 mainSegments in
  let tubeSegments := max3 tubeSegments in
  let tubeRadius := clamp_tube tubeRadius in
  let m := loop (Z.to_nat (mainSegments + 1))
                (torus_ring mainRadius tubeRadius mainSegments tubeSegments) empty_mesh in
  loop (Z.to_nat mainSegments) (torus_band tubeSegments) m.

End Gen.

(** With [M = max 3 mainSegments] and [T = max 3 tubeSegments] the
    torus has [(M + 1)(T + 1)] vertices and [6 M T] indices. *)
Theorem torus_counts {F} `{Scalar F} (mainRadius tubeRadius : F) (mainSegments tubeSegments : Z) :
  let M := Z.to_nat (max3 mainSegments) in
  let T := Z.to_nat (max3 tubeSegments) in
  length (mverts (LoadTorusMesh mainRadius tubeRadius mainSegments tubeSegments)) = (M + 1) * (T + 1) /\
  length (mindices (LoadTorusMesh mainRadius tubeRadius mainSegments tubeSegments)) = 6 * M * T.
Proof.
  intros M T. unfold LoadTorusMesh, max3 in *. rewrite !to_nat_succ_pos by lia.
  gen_unfold; gen_len; lia.
Qed.

(** Every index of the torus is below its vertex count. *)
Theorem torus_valid {F} `{Scalar F} (mainRadius tubeRadius : F) (mainSegments tubeSegments : Z) :
  mesh_valid (LoadTorusMesh mainRadius tubeRadius mainSegments tubeSegments) = true.
Proof.
  unfold mesh_valid, LoadTorusMesh, torus_band, torus_cell, max3.
  rewrite !to_nat_succ_pos by lia. gen_unfold; gen_len; gen_below.
Qed.

(** In the reals the clamped tube radius is positive. *)
Lemma clamp_tube_pos (tubeRadius : R) : (0 < clamp_tube tubeRadius)%R.
Proof.
  assert (Hl : (0 < sc_lit (Qmake 1 100))%R) by (cbn; unfold Q2R; cbn; lra).
  unfold clamp_tube. cbn [sc_ltb R_arith].
  destruct (Rlt_dec (sc_lit (Qmake 1 100)) tubeRadius); lra.
Qed.

(** Because the tube radius is clamped to at least [0.01], the vector
    [vertex - center] is never zero and every torus normal is a unit vector
    in the real semantics, for every main radius and every tube radius
    (without the clamp a zero tube radius normalizes the zero vector). *)
Theorem torus_normals_unit (mainRadius tubeRadius : R) (mainSegments tubeSegments : Z) :
  Forall (fun v => norm2 (normal v) = 1%R)
    (mverts (LoadTorusMesh mainRadius tubeRadius mainSegments tubeSegments)).
Proof.
  unfold LoadTorusMesh. gen_unfold. cbn [torus_band fst].
  rewrite flat_map_nil_body, !app_nil_r, app_nil_l.
  apply Forall_forall. intros v (i & _ & Hv)%in_flat_map.
  cbn [torus_ring fst] in Hv. apply in_flat_map in Hv as (j & _ & [<-|[]]).
  unfold torus_vertex. cbn [normal]. apply normalize_unit.
  pose proof (clamp_tube_pos tubeRadius) as Hr.
  set (r := clamp_tube tubeRadius) in *. unfold norm2, vsub. cbn -[sin cos PI IZR Rdiv].
  set (a := (IZR (Z.of_nat i) * _)%R). set (b := (IZR (Z.of_nat j) * _)%R).
  replace (Q2R 0) with 0%R by (unfold Q2R; cbn; lra).
  pose proof (sin2_cos2 a) as Ha. pose proof (sin2_cos2 b) as Hb. unfold Rsqr in *.
  assert (E : (((mainRadius + r * cos b) * cos a - mainRadius * cos a) *
      ((mainRadius + r * cos b) * cos a - mainRadius * cos a) +
      ((mainRadius + r * cos b) * sin a - mainRadius * sin a) *
      ((mainRadius + r * cos b) * sin a - mainRadius * sin a) +
      (r * sin b - 0) * (r * sin b - 0) =
      r * r * ((cos b * cos b) * (sin a * sin a + cos a * cos a) + sin b * sin b))%R)
    by ring.
  rewrite E. rewrite Ha, Rmult_1_r, Rplus_comm, Hb, Rmult_1_r.
  apply Rgt_not_eq, Rmult_lt_0_compat; exact Hr.
Qed.

End Torus.
