(* ===== verification/Sweeps.v ===== *)
(** * The non-indexed tori and the spring

    [LoadExtraTorusMesh1] and [LoadExtraTorusMesh2] (identical bodies, two
    handles) sample a [30 x 30] torus into [segments_list] and then push,
    for every cell, a list of positions with texture coordinates that
    [DrawExtraTorusMesh1]/[2] draw with [glDrawArrays(GL_TRIANGLES, 0,
    nVertices)]; the normal of each vertex is [normalize(position)].
    [LoadSpringMesh] sweeps a circle along a helix, one frame per sample,
    into an indexed grid.  Module [ExtraTorus] and Module [Spring] model
    them; the uploads are in [Registry]. *)

From Stdlib Require Import List Arith Lia ZArith QArith.
From Stdlib Require Import Reals Lra.
From S2P Require Import Prelude Layout RealModel Grids.
Import ListNotations.
Local Open Scope nat_scope.

(** ** LoadExtraTorusMesh1 / LoadExtraTorusMesh2 *)
Module ExtraTorus.
Section Gen.
Context {F : Type} `{Scalar F}.
Local Open Scope sc_scope.

(** [auto currentAngle = 0.0f; ... currentAngle += step;]: the value of a
    float accumulator after [k] iterations. *)
Definition acc (step : F) (k : nat) : F := Nat.iter k (fun a => a + step) #0.

(** [int _mainSegments = 30; int _tubeSegments = 30;] *)
Definition mainSegments : nat := 30.
Definition tubeSegments : nat := 30.

(** [_tubeRadius = .1f], replaced by [thickness] when [thickness <= 1.0]. *)
Definition tube_radius (thickness : F) : F := if thickness <=? #1 then thickness else sc_lit (Qmake 1 10).

(** [surfacePosition] of sample [j] of main segment [i] ([_mainRadius = 1]). *)
Definition segment_point (r mainStep tubeStep : F) (i j : nat) : vec3 F :=
  let mainAngle := acc mainStep i in
  let tubeAngle := acc tubeStep j in
  mkv3 ((#1 + r * sc_cos tubeAngle) * sc_cos mainAngle) ((#1 + r * sc_cos tubeAngle) * sc_sin mainAngle)
       (r * sc_sin tubeAngle).

(** [segments_list]: one vector of [T] points per main segment. *)
Definition segments_list (M T : nat) (r mainStep tubeStep : F) : list (list (vec3 F)) :=
  map (fun i => map (fun j => segment_point r mainStep tubeStep i j) (seq 0 T)) (seq 0 M).

(** [segments_list[i][j]]. *)
Definition seg_at (sl : list (list (vec3 F))) (i j : nat) : vec3 F :=
  nth j (nth i sl []) (mkv3 #0 #0 #0).

(** The body of the connecting loop for cell [(i, j)]: seven pushes of
    [vertex_list] and [texture_coords] in each of the four branches, with
    [u] and [v] the accumulators of the loop. *)
Definition cell (M T : nat) (sl : list (list (vec3 F))) (hs vs : F) (i j : nat)
  : list (vec3 F * vec2 F) :=
  let P := seg_at sl in
  let u := acc hs i in
  let v := acc vs j in
  if (i + 1 <? M)%nat && (j + 1 <? T)%nat then
    [(P i j, mkv2 u v); (P i (j + 1)%nat, mkv2 u (v + vs));
     (P (i + 1)%nat (j + 1)%nat, mkv2 (u + hs) (v + vs)); (P i j, mkv2 u v);
     (P (i + 1)%nat j, mkv2 (u + hs) v); (P (i + 1)%nat (j + 1)%nat, mkv2 (u + hs) (v - vs));
     (P i j, mkv2 u v)]
  else if (i + 1 =? M)%nat && (j + 1 =? T)%nat then
    [(P i j, mkv2 u v); (P i 0, mkv2 u #0); (P 0 0, mkv2 #0 #0); (P i j, mkv2 u v);
     (P 0 j, mkv2 #0 v); (P 0 0, mkv2 #0 #0); (P i j, mkv2 u v)]
  else if (i + 1 =? M)%nat then
    [(P i j, mkv2 u v); (P i (j + 1)%nat, mkv2 u (v + vs)); (P 0 (j + 1)%nat, mkv2 #0 (v + vs));
     (P i j, mkv2 u v); (P 0 j, mkv2 #0 v); (P 0 (j + 1)%nat, mkv2 #0 (v + vs)); (P i j, mkv2 u v)]
  else if (j + 1 =? T)%nat then
    [(P i j, mkv2 u v); (P i 0, mkv2 u #0); (P (i + 1)%nat 0, mkv2 (u + hs) #0); (P i j, mkv2 u v);
     (P (i + 1)%nat j, mkv2 (u + hs) v); (P (i + 1)%nat 0, mkv2 (u + hs) #0); (P i j, mkv2 u v)]
  else [].

(** The combining loop: [normal = normalize(vertex)]. *)
Definition combine_vertex (p : vec3 F * vec2 F) : Vertex F :=
  mkVertex (fst p) (normalize (fst p)) (snd p).

Definition extra_torus (M T : nat) (thickness : F) : list (Vertex F) :=
  let r := tube_radius thickness in
  let mainStep := radians (#360 / sc_nat M) in
  let tubeStep := radians (#360 / sc_nat T) in
  let sl := segments_list M T r mainStep tubeStep in
  let hs := #1 / sc_nat M in
  let vs := #1 / sc_nat T in
  map combine_vertex (flat_map (fun i => flat_map (cell M T sl hs vs i) (seq 0 T)) (seq 0 M)).

(** The vertices both loads upload; [nVertices] is their number. *)
Definition LoadExtraTorusMesh (thickness : F) : list (Vertex F) :=
  extra_torus mainSegments tubeSegments thickness.

End Gen.

Lemma seg_at_spec {F} `{Scalar F} M T (r ms ts : F) i j :
  i < M -> j < T -> seg_at (segments_list M T r ms ts) i j = segment_point r ms ts i j.
Proof. intros Hi Hj. unfold seg_at, segments_list. now rewrite !nth_map_seq. Qed.

Lemma cell_length {F} `{Scalar F} M T sl (hs vs : F) i j :
  i < M -> j < T -> length (cell M T sl hs vs i j) = 7.
Proof.
  intros Hi Hj. unfold cell.
  destruct (Nat.ltb_spec (i + 1) M), (Nat.ltb_spec (j + 1) T), (Nat.eqb_spec (i + 1) M),
    (Nat.eqb_spec (j + 1) T); cbn; reflexivity || lia.
Qed.

(** The vertex list is the cells in row-major order, seven vertices each. *)
Lemma extra_torus_at {F} `{Scalar F} M T (thickness : F) i j k d :
  i < M -> j < T -> k < 7 ->
  let r := tube_radius thickness in
  let sl := segments_list M T r (radians (#360 / sc_nat M)%sc) (radians (#360 / sc_nat T)%sc) in
  nth_error (extra_torus M T thickness) (i * (T * 7) + (j * 7 + k)) =
  Some (combine_vertex (nth k (cell M T sl (#1 / sc_nat M)%sc (#1 / sc_nat T)%sc i j) d)).
Proof.
  intros Hi Hj Hk r sl. unfold extra_torus. fold r sl.
  assert (Hrow : forall i', i' < M ->
            length (flat_map (cell M T sl (#1 / sc_nat M)%sc (#1 / sc_nat T)%sc i') (seq 0 T)) = T * 7).
  { intros i' Hi'. rewrite (flat_map_constant_length (c := 7)), length_seq; [reflexivity|].
    intros j' Hj'%in_seq_lt. apply cell_length; lia. }
  rewrite nth_error_map, (nth_error_nth' _ d).
  - rewrite (nth_flat_map_rows _ _ (T * 7)) by (assumption || nia).
    rewrite (nth_flat_map_rows _ _ 7) by first [lia | intros; apply cell_length; lia].
    reflexivity.
  - rewrite (flat_map_constant_length (c := T * 7)), length_seq by (intros ? ?%in_seq_lt; apply Hrow; lia).
    nia.
Qed.

(** The vertex count [DrawExtraTorusMesh1] draws: seven per cell, [6300]
    for the [30 x 30] grid, where two triangles per cell make six. *)
Lemma extra_torus_length {F} `{Scalar F} M T (thickness : F) :
  length (extra_torus M T thickness) = M * (T * 7).
Proof.
  unfold extra_torus. rewrite length_map.
  rewrite (flat_map_constant_length (c := T * 7)), length_seq; [reflexivity|].
  intros i Hi%in_seq_lt. rewrite (flat_map_constant_length (c := 7)), length_seq; [reflexivity|].
  intros j Hj%in_seq_lt. apply cell_length; lia.
Qed.

(** The third triangle [glDrawArrays(GL_TRIANGLES, ...)] assembles, from
    vertices 6, 7 and 8: the last push of cell [(0, 0)] and the first two of
    cell [(0, 1)], three samples of the tube ring of main segment 0. *)
Lemma extra_torus_third_triangle {F} `{Scalar F} M T (thickness : F) :
  2 <= M -> 3 <= T ->
  let P := segment_point (tube_radius thickness) (radians (#360 / sc_nat M)%sc)
             (radians (#360 / sc_nat T)%sc) in
  map (option_map position) (map (nth_error (extra_torus M T thickness)) [6; 7; 8]) =
  [Some (P 0 0); Some (P 0 1); Some (P 0 2)].
Proof.
  intros HM HT P. set (d := (mkv3 #0 #0 #0, mkv2 #0 #0)%sc).
  cbn [map]. change 6 with (0 * (T * 7) + (0 * 7 + 6)).
  change 7 with (0 * (T * 7) + (1 * 7 + 0)). change 8 with (0 * (T * 7) + (1 * 7 + 1)).
  rewrite (extra_torus_at M T thickness 0 0 6 d), (extra_torus_at M T thickness 0 1 0 d),
    (extra_torus_at M T thickness 0 1 1 d) by lia.
  unfold cell. cbv zeta. cbn [Nat.add]. rewrite (proj2 (Nat.ltb_lt 1 M)), (proj2 (Nat.ltb_lt 1 T)), (proj2 (Nat.ltb_lt 2 T)) by lia.
  cbn [andb nth option_map combine_vertex position fst Nat.add].
  rewrite !seg_at_spec by lia. reflexivity.
Qed.

(** ** The real semantics of the extra tori *)
Section Real.
Local Open Scope R_scope.

Lemma acc_R (step : R) k : acc step k = INR k * step.
Proof.
  induction k as [|k IH]; unfold acc in *.
  - cbn [Nat.iter]. rewrite R_lit_0. cbn. ring.
  - rewrite Nat.iter_succ, IH, S_INR. cbn. ring.
Qed.

Lemma tube_radius_thin (thickness : R) : thickness <= 1 -> tube_radius thickness = thickness.
Proof.
  intros Hle. unfold tube_radius. rewrite R_lit_1. cbn.
  destruct (Rle_dec thickness 1); [reflexivity|contradiction].
Qed.

(** Fifteen tube steps of [radians(360 / 30)] are half a turn. *)
Lemma acc_half_turn : acc (radians (#360 / sc_nat 30)%sc) 15 = PI.
Proof. rewrite acc_R. unfold radians, sc_nat. cbn. unfold Q2R. cbn. field. Qed.

Lemma acc_half_v : acc (#1 / sc_nat 30)%sc 15 = 1 / 2.
Proof. rewrite acc_R. unfold sc_nat. cbn. unfold Q2R. cbn. field. Qed.

(** C28: on the inner equator of an extra torus ([thickness] in [(0, 1)]),
    vertex 105 (cell [(0, 15)], tube angle [pi]) lies at [(1 - thickness,
    0, 0)] and gets the normal [normalize(position) = (1, 0, 0)], pointing
    away from the hole, into the tube: the surface normal there is
    [(-1, 0, 0)]. *)
Theorem extra_torus_inner_normal (thickness : R) : 0 < thickness < 1 ->
  nth_error (LoadExtraTorusMesh thickness) 105 =
  Some (vtx (1 - thickness) 0 0 1 0 0 0 (1 / 2)).
Proof.
  intros Hth. unfold LoadExtraTorusMesh, mainSegments, tubeSegments.
  change 105%nat with (0 * (30 * 7) + (15 * 7 + 0))%nat.
  rewrite (extra_torus_at 30 30 thickness 0 15 0 (mkv3 0 0 0, mkv2 0 0)) by lia.
  unfold cell. cbv zeta. cbn [Nat.add Nat.ltb Nat.leb andb nth].
  rewrite seg_at_spec by lia. f_equal.
  unfold combine_vertex, segment_point, vtx, normalize, vscale, vlength, dot. cbn [fst snd vx vy vz].
  rewrite acc_half_turn, acc_half_v, !acc_R, tube_radius_thin by lra.
  rewrite R_lit_1. cbn -[cos sin sqrt PI]. rewrite Rmult_0_l, cos_0, sin_0, cos_PI, sin_PI.
  replace ((1 + thickness * -1) * 1 * ((1 + thickness * -1) * 1) + (1 + thickness * -1) * 0 *
           ((1 + thickness * -1) * 0) + thickness * 0 * (thickness * 0))
    with ((1 - thickness) * (1 - thickness)) by ring.
  rewrite sqrt_square by lra. f_equal; f_equal; field; lra.
Qed.

Lemma extra_torus_inner_normal_witness :
  0 < 1 / 2 < 1 /\ nth_error (LoadExtraTorusMesh (1 / 2)) 105 = Some (vtx (1 - 1 / 2) 0 0 1 0 0 0 (1 / 2)).
Proof. split; [lra | apply extra_torus_inner_normal; lra]. Defined.

End Real.

End ExtraTorus.

(** ** LoadSpringMesh *)
Module Spring.
Section Gen.
Context {F : Type} `{Scalar F}.
Local Open Scope sc_scope.

(** Vertex [j] of ring [i]: the helix centre, the frame rebuilt at this
    sample from the tangent ([normal] horizontal, [binormal = cross(tangent,
    normal)]), the cross-section point and its normal. *)
Definition spring_vertex (mainRadius tubeRadius : F) (mainSegments tubeSegments : Z)
  (mainAngleStep heightStep : F) (i j : nat) : Vertex F :=
  let mainAngle := sc_nat i * mainAngleStep in
  let centerX := mainRadius * sc_cos mainAngle in
  let centerY := mainRadius * sc_sin mainAngle in
  let centerZ := sc_nat i * heightStep in
  let tangent := normalize (mkv3 ((- mainRadius) * sc_sin mainAngle) (mainRadius * sc_cos mainAngle)
                              heightStep) in
  let normal := normalize (mkv3 (- vy tangent) (vx tangent) #0) in
  let binormal := cross tangent normal in
  let tubeAngle := sc_nat j * #2 * sc_pi / sc_of_Z tubeSegments in
  let tx := tubeRadius * sc_cos tubeAngle in
  let ty := tubeRadius * sc_sin tubeAngle in
  let point := vadd (vadd (mkv3 centerX centerY centerZ) (vscale normal tx)) (vscale binormal ty) in
  let normalVector := normalize (vadd (vscale normal tx) (vscale binormal ty)) in
  let u := sc_nat i / sc_of_Z (mainSegments * tubeSegments) in
  let v := sc_nat j / sc_of_Z tubeSegments in
  mkVertex point normalVector (mkv2 u v).

(** The inner loop [for (int j = 0; j <= tubeSegments; ++j)]. *)
Definition spring_ring (mainRadius tubeRadius : F) (mainSegments tubeSegments : Z)
  (mainAngleStep heightStep : F) (i : nat) : list (Vertex F) * list nat :=
  (flat_map (fun j => [spring_vertex mainRadius tubeRadius mainSegments tubeSegments
                         mainAngleStep heightStep i j])
     (seq 0 (Z.to_nat (tubeSegments + 1))), []).

(** Cell [(i, j)] of the index loop: [(current, next, current + 1)] and
    [(current + 1, next, next + 1)]. *)
Definition spring_cell (tubeSegments : Z) (i j : nat) : list nat :=
  let current := (i * (Z.to_nat tubeSegments + 1) + j)%nat in
  let next := ((i + 1) * (Z.to_nat tubeSegments + 1) + j)%nat in
  [current; next; (current + 1)%nat; (current + 1)%nat; next; (next + 1)%nat].

Definition spring_band (tubeSegments : Z) (i : nat) : list (Vertex F) * list nat :=
  ([], flat_map (spring_cell tubeSegments i) (seq 0 (Z.to_nat tubeSegments))).

(** The clamps, the steps ([coilPitch] is computed and never used), the
    [mainSegments * tubeSegments + 1] rings and the index loop. *)
Definition LoadSpringMesh (mainRadius tubeRadius : F) (mainSegments tubeSegments : Z)
  (springLength : F) : MeshData F :=
  let mainSegments := Z.max 1 mainSegments in
  let tubeSegments := Z.max 8 tubeSegments in
  let mainAngleStep := (#2 * sc_pi) / sc_of_Z tubeSegments in
  let heightStep := springLength / sc_of_Z (mainSegments * tubeSegments) in
  let m := loop (Z.to_nat (mainSegments * tubeSegments + 1))
                (spring_ring mainRadius tubeRadius mainSegments tubeSegments mainAngleStep heightStep)
                empty_mesh in
  loop (Z.to_nat (mainSegments * tubeSegments)) (spring_band tubeSegments) m.

End Gen.

(** With [M = max 1 mainSegments] and [T = max 8 tubeSegments] the
    spring has [M T + 1] rings of [T + 1] vertices and [6 M T T] indices. *)
Theorem spring_counts {F} `{Scalar F} (mainRadius tubeRadius : F) (mainSegments tubeSegments : Z)
  (springLength : F) :
  let M := Z.to_nat (Z.max 1 mainSegments) in
  let T := Z.to_nat (Z.max 8 tubeSegments) in
  let mesh := LoadSpringMesh mainRadius tubeRadius mainSegments tubeSegments springLength in
  length (mverts mesh) = (M * T + 1) * (T + 1) /\ length (mindices mesh) = 6 * (M * T) * T.
Proof.
  intros M T mesh. subst mesh. unfold LoadSpringMesh in *.
  rewrite !to_nat_succ_pos by lia. rewrite Z2Nat.inj_mul in * by lia.
  gen_unfold; gen_len; unfold_locals; lia.
Qed.

(** Every index of the spring is below its vertex count. *)
Theorem spring_valid {F} `{Scalar F} (mainRadius tubeRadius : F) (mainSegments tubeSegments : Z)
  (springLength : F) :
  mesh_valid (LoadSpringMesh mainRadius tubeRadius mainSegments tubeSegments springLength) = true.
Proof.
  unfold mesh_valid, LoadSpringMesh, spring_band, spring_cell.
  rewrite !to_nat_succ_pos by lia. rewrite !Z2Nat.inj_mul by lia. gen_unfold; gen_len; gen_below.
Qed.

End Spring.
