(* ===== verification/Custom.v ===== *)
(** * The custom parametric meshes

    The second half of [ShapeMeshes.cpp]: [LoadCurvedConeMesh] (an
    ordinary load through [InitializeMesh]) and the generators the draw
    methods [DrawTaperedTorusMesh], [DrawSineConeMesh] and
    [DrawSuperellipsoidMesh] run on every call before uploading and drawing
    (their [Load] methods only allocate names), and the two normal helpers
    [QuadCrossProduct] and [CalculateTriangleNormal], which no method calls.
    One Module per shape; the uploads and draws are in [Registry] and
    [Dynamic]. *)

From Stdlib Require Import List Arith Lia ZArith QArith.
From Stdlib Require Import Reals Lra.
From S2P Require Import Prelude Layout RealModel Grids.
Import ListNotations.
Local Open Scope nat_scope.

(** ** The normal helpers *)
Module Helpers.
Section Gen.
Context {F : Type} `{Scalar F}.
Local Open Scope sc_scope.

(** [QuadCrossProduct(p1, p2, p3, p4)]. *)
Definition QuadCrossProduct (p1 p2 p3 p4 : vec3 F) : vec3 F :=
  let n1 := cross (vsub p2 p1) (vsub p3 p1) in
  let n2 := cross (vsub p4 p1) (vsub p3 p1) in
  normalize (vadd n1 n2).

(** [CalculateTriangleNormal(p1, p2, p3)]. *)
Definition CalculateTriangleNormal (p1 p2 p3 : vec3 F) : vec3 F :=
  normalize (cross (vsub p2 p1) (vsub p3 p1)).

End Gen.

(** C27: [QuadCrossProduct] subtracts where it means to add: for every
    parallelogram [p1 p2 p3 p4] (so [p4 = p1 + p3 - p2]) its two triangle
    normals [n1] and [n2] cancel, and the result is the normalisation of the
    zero vector (NaN in floats), where [CalculateTriangleNormal] of the
    first triangle is the face normal. *)
Theorem quad_cross_parallelogram (p1 p2 p3 : vec3 R) :
  QuadCrossProduct p1 p2 p3 (vadd p1 (vsub p3 p2)) = normalize (mkv3 0 0 0)%R.
Proof.
  unfold QuadCrossProduct. f_equal. destruct p1, p2, p3.
  unfold vadd, vsub, cross. cbn. f_equal; ring.
Qed.

End Helpers.

(** ** LoadCurvedConeMesh *)
Module CurvedCone.
Section Gen.
Context {F : Type} `{Scalar F}.
Local Open Scope sc_scope.

(** Vertex [slice] of ring [step]: the arc centre, the frame of the arc,
    the shrinking radius, the offset, its normalisation as the normal. *)
Definition curved_vertex (numSlices curveSteps : Z) (radius angleStep bendRadius bendAngle : F)
  (step slice : nat) : Vertex F :=
  let t := sc_nat step / sc_of_Z curveSteps in
  let arcTheta := t * bendAngle in
  let centerX := bendRadius * sc_sin arcTheta in
  let centerY := bendRadius * (#1 - sc_cos arcTheta) in
  let centerZ := #0 in
  let tangent := mkv3 (sc_cos arcTheta) (sc_sin arcTheta) #0 in
  let normalDir := normalize (mkv3 (- vy tangent) (vx tangent) #0) in
  let coneRadius := radius * (#1 - t) in
  let angle := sc_nat slice * angleStep in
  let localX := coneRadius * sc_cos angle in
  let localZ := coneRadius * sc_sin angle in
  let offset := vadd (vscale normalDir localX) (mkv3 #0 #0 localZ) in
  let position := vadd (mkv3 centerX centerY centerZ) offset in
  mkVertex position (normalize offset) (mkv2 (sc_nat slice / sc_of_Z numSlices) t).

Definition curved_ring (numSlices curveSteps : Z) (radius angleStep bendRadius bendAngle : F)
  (step : nat) : list (Vertex F) * list nat :=
  (flat_map (fun slice => [curved_vertex numSlices curveSteps radius angleStep bendRadius bendAngle step slice])
     (seq 0 (Z.to_nat (numSlices + 1))), []).

(** [current = step (n + 1) + slice], [next = (step + 1) (n + 1) + slice]. *)
Definition curved_cell (numSlices : Z) (step slice : nat) : list nat :=
  let current := (step * (Z.to_nat numSlices + 1) + slice)%nat in
  let next := ((step + 1) * (Z.to_nat numSlices + 1) + slice)%nat in
  [current; next; (current + 1)%nat; (current + 1)%nat; next; (next + 1)%nat].

Definition curved_band (numSlices : Z) (step : nat) : list (Vertex F) * list nat :=
  ([], flat_map (curved_cell numSlices step) (seq 0 (Z.to_nat numSlices))).

(** The clamps [numSlices >= 3], [curveSteps >= 1] and the two loops; the
    clamped counts are returned, as the code stores them in the handle. *)
Definition LoadCurvedConeMesh (numSlices curveSteps : Z) (radius height bendRadius : F)
  : Z * Z * MeshData F :=
  let numSlices := if (numSlices <? 3)%Z then 3%Z else numSlices in
  let curveSteps := if (curveSteps <? 1)%Z then 1%Z else curveSteps in
  let angleStep := #2 * sc_pi / sc_of_Z numSlices in
  let bendAngle := height / bendRadius in
  let m := loop (Z.to_nat (curveSteps + 1))
             (curved_ring numSlices curveSteps radius angleStep bendRadius bendAngle) empty_mesh in
  (numSlices, curveSteps, loop (Z.to_nat curveSteps) (curved_band numSlices) m).

End Gen.

(** Every index of the curved cone is below its vertex count. *)
Theorem curved_valid {F} `{Scalar F} (numSlices curveSteps : Z) (radius height bendRadius : F) :
  mesh_valid (snd (LoadCurvedConeMesh numSlices curveSteps radius height bendRadius)) = true.
Proof.
  unfold mesh_valid, LoadCurvedConeMesh, curved_band, curved_cell. cbn [snd].
  destruct (Z.ltb_spec numSlices 3), (Z.ltb_spec curveSteps 1);
    rewrite !to_nat_succ_pos by lia; gen_unfold; gen_len; gen_below.
Qed.

(** The curved cone stores clamped counts [n >= 3] (slices) and
    [s >= 1] (steps) and has [(s + 1)(n + 1)] vertices and [6 s n] indices. *)
Theorem curved_counts {F} `{Scalar F} (numSlices curveSteps : Z) (radius height bendRadius : F) :
  let '(n, s, m) := LoadCurvedConeMesh numSlices curveSteps radius height bendRadius in
  (3 <= n)%Z /\ (1 <= s)%Z /\
  length (mverts m) = (Z.to_nat s + 1) * (Z.to_nat n + 1) /\
  length (mindices m) = 6 * Z.to_nat s * Z.to_nat n.
Proof.
  unfold LoadCurvedConeMesh.
  destruct (Z.ltb_spec numSlices 3), (Z.ltb_spec curveSteps 1);
    rewrite !to_nat_succ_pos by lia; (split; [lia|]); (split; [lia|]); gen_unfold; gen_len; lia.
Qed.

(** C26: the last ring of the curved cone ([step = curveSteps], [t = 1])
    has radius 0: every one of its vertices sits at the end of the arc and
    gets the normal [normalize(offset)] of the zero offset, NaN in floats. *)
Theorem curved_tip_degenerate (numSlices curveSteps : Z) (radius height bendRadius : R) slice :
  slice <= Z.to_nat (Z.max 3 numSlices) ->
  let '(n, s, m) := LoadCurvedConeMesh numSlices curveSteps radius height bendRadius in
  let arcTheta := (height / bendRadius)%R in
  nth (Z.to_nat s * (Z.to_nat n + 1) + slice) (mverts m) (vtx 0 0 0 0 0 0 0 0)%R =
  mkVertex (mkv3 (bendRadius * sin arcTheta) (bendRadius * (1 - cos arcTheta)) 0)%R
           (normalize (mkv3 0 0 0))%R (mkv2 (INR slice / IZR n) 1)%R.
Proof.
  intros Hsl. unfold LoadCurvedConeMesh. cbv beta iota zeta. rewrite !if_lt_max.
  set (n := Z.max 3 numSlices) in *. set (s := Z.max 1 curveSteps). assert (Hs : (1 <= s)%Z) by lia. assert (Hn : (3 <= n)%Z) by lia.
  clearbody n s. rewrite to_nat_succ_pos in * by lia.
  unfold curved_band, curved_ring. rewrite !to_nat_succ_pos by lia.
  rewrite (grid_vertex_at (Z.to_nat s + 1) (Z.to_nat n + 1)) by lia.
  assert (Ht : (sc_nat (Z.to_nat s) / sc_of_Z s)%sc = 1%R).
  { rewrite R_nat. cbn. rewrite INR_IZR_INZ, Z2Nat.id by lia. field. apply not_0_IZR. lia. }
  unfold curved_vertex. rewrite Ht, R_nat, ?R_lit_0, ?R_lit_1. cbn -[sin cos sqrt normalize].
  replace (1 * (height / bendRadius))%R with (height / bendRadius)%R by ring.
  replace (1 - 1)%R with 0%R by ring. rewrite !Rmult_0_r, !Rmult_0_l.
  assert (Ho : forall v : vec3 R, vadd (vscale v 0%R) (mkv3 0%R 0%R 0%R) = mkv3 0%R 0%R 0%R)
    by (intros [? ? ?]; unfold vadd, vscale; cbn; f_equal; ring).
  rewrite !Ho. unfold vadd. cbn [vx vy vz].
  f_equal. f_equal; cbn; ring.
Qed.

Lemma curved_tip_degenerate_witness :
  0 <= Z.to_nat (Z.max 3 3) /\
  (let '(n, s, m) := LoadCurvedConeMesh 3 1 1%R 1%R 2%R in
   let arcTheta := (1 / 2)%R in
   nth (Z.to_nat s * (Z.to_nat n + 1) + 0) (mverts m) (vtx 0 0 0 0 0 0 0 0)%R =
   mkVertex (mkv3 (2 * sin arcTheta) (2 * (1 - cos arcTheta)) 0)%R
            (normalize (mkv3 0 0 0))%R (mkv2 (INR 0 / IZR n) 1)%R).
Proof. split; [lia | apply (curved_tip_degenerate 3 1 1%R 1%R 2%R 0); cbv; lia]. Defined.

End CurvedCone.

(** ** The generator of DrawTaperedTorusMesh *)
Module TaperedTorus.
Section Gen.
Context {F : Type} `{Scalar F}.
Local Open Scope sc_scope.

(** Vertex [j] of ring [i]: the analytic torus direction, scaled by the
    interpolated tube radius, and normalised as the normal. *)
Definition tt_vertex (mainRadius tubeRadiusStart tubeRadiusEnd : F) (mainSegments tubeSegments : Z)
  (mainStep tubeStep : F) (i j : nat) : Vertex F :=
  let theta := sc_nat i * mainStep in
  let sweepT := sc_nat i / sc_of_Z mainSegments in
  let tubeRadius := mix tubeRadiusStart tubeRadiusEnd sweepT in
  let center := mkv3 (mainRadius * sc_cos theta) (mainRadius * sc_sin theta) #0 in
  let phi := sc_nat j * tubeStep in
  let normal := mkv3 (sc_cos phi * sc_cos theta) (sc_cos phi * sc_sin theta) (sc_sin phi) in
  let position := vadd center (vscale normal tubeRadius) in
  mkVertex position (normalize normal) (mkv2 (sc_nat j / sc_of_Z tubeSegments) sweepT).

Definition tt_ring (mainRadius tubeRadiusStart tubeRadiusEnd : F) (mainSegments tubeSegments : Z)
  (mainStep tubeStep : F) (i : nat) : list (Vertex F) * list nat :=
  (flat_map (fun j => [tt_vertex mainRadius tubeRadiusStart tubeRadiusEnd mainSegments tubeSegments
                         mainStep tubeStep i j])
     (seq 0 (Z.to_nat (tubeSegments + 1))), []).

Definition tt_cell (tubeSegments : Z) (i j : nat) : list nat :=
  let curr := (i * (Z.to_nat tubeSegments + 1) + j)%nat in
  let next := ((i + 1) * (Z.to_nat tubeSegments + 1) + j)%nat in
  [curr; next; (curr + 1)%nat; (curr + 1)%nat; next; (next + 1)%nat].

Definition tt_band (tubeSegments : Z) (i : nat) : list (Vertex F) * list nat :=
  ([], flat_map (tt_cell tubeSegments i) (seq 0 (Z.to_nat tubeSegments))).

(** No clamp: a count below 1 gives no cell, a negative one no vertex. *)
Definition tapered_torus (mainRadius tubeRadiusStart tubeRadiusEnd : F) (mainSegments tubeSegments : Z)
  (sweepAngleRadians : F) : MeshData F :=
  let mainStep := sweepAngleRadians / sc_of_Z mainSegments in
  let tubeStep := #2 * sc_pi / sc_of_Z tubeSegments in
  let m := loop (Z.to_nat (mainSegments + 1))
             (tt_ring mainRadius tubeRadiusStart tubeRadiusEnd mainSegments tubeSegments mainStep tubeStep)
             empty_mesh in
  loop (Z.to_nat mainSegments) (tt_band tubeSegments) m.

End Gen.

Theorem tt_valid {F} `{Scalar F} (mainRadius tubeRadiusStart tubeRadiusEnd : F) (mainSegments tubeSegments : Z)
  (sweepAngleRadians : F) :
  mesh_valid (tapered_torus mainRadius tubeRadiusStart tubeRadiusEnd mainSegments tubeSegments
                sweepAngleRadians) = true.
Proof.
  unfold mesh_valid, tapered_torus, tt_band, tt_cell.
  destruct (Z.leb_spec 0 mainSegments), (Z.leb_spec 0 tubeSegments);
    rewrite ?to_nat_succ_pos by lia;
    rewrite ?(Z_to_nat_neg mainSegments), ?(Z_to_nat_neg tubeSegments) by lia;
    gen_unfold; gen_len; gen_below.
Qed.

End TaperedTorus.

(** ** The generator of DrawSineConeMesh *)
Module SineCone.
Section Gen.
Context {F : Type} `{Scalar F}.
Local Open Scope sc_scope.

(** The literal [3.14159265f] the function uses in place of [Pi]. *)
Definition pi_literal : F := sc_lit (Qmake 314159265 100000000).

Definition vzero : vec3 F := mkv3 #0 #0 #0.

(** Position [j] of ring [i]: height along X, tapered radius, flattening
    and sine offset of the Y component. *)
Definition sine_position (baseRadius flattenFactor sineAmplitude sineFrequency sinePhase : F)
  (heightSegments : Z) (radialStep heightStep : F) (i j : nat) : vec3 F :=
  let h := sc_nat i * heightStep in
  let t := sc_nat i / sc_of_Z heightSegments in
  let taper := sc_pow (#1 - t) #0.65 in
  let radius := baseRadius * taper in
  let sineOffset := sineAmplitude * sc_sin (sineFrequency * t * #2 * pi_literal + sinePhase) in
  let theta := sc_nat j * radialStep in
  let radial := normalize (mkv3 #0 (sc_cos theta) (sc_sin theta)) in
  let offset := vscale radial radius in
  let oy := vy offset * (#1 - flattenFactor) + sineOffset in
  mkv3 h oy (vz offset).

(** The first loop: [positions], ring after ring. *)
Definition sine_positions (baseRadius flattenFactor sineAmplitude sineFrequency sinePhase : F)
  (radialSegments heightSegments : Z) (radialStep heightStep : F) : list (vec3 F) :=
  flat_map (fun i => map (sine_position baseRadius flattenFactor sineAmplitude sineFrequency sinePhase
                            heightSegments radialStep heightStep i)
                         (seq 0 (Z.to_nat (radialSegments + 1))))
           (seq 0 (Z.to_nat (heightSegments + 1))).

(** [normals[k] += d]; an index out of range leaves the vector alone (the
    loop never produces one, [sine_indices_below]). *)
Fixpoint add_at (l : list (vec3 F)) (k : nat) (d : vec3 F) : list (vec3 F) :=
  match l, k with
  | [], _ => []
  | x :: l, O => vadd x d :: l
  | x :: l, S k => x :: add_at l k d
  end.

(** The quad of cell [(i, j)]: [i0 = curr], [i1 = next], [i2 = curr + 1],
    [i3 = next + 1]. *)
Definition sine_quad (radialSegments : Z) (i j : nat) : nat * nat * nat * nat :=
  let curr := (i * (Z.to_nat radialSegments + 1) + j)%nat in
  let next := ((i + 1) * (Z.to_nat radialSegments + 1) + j)%nat in
  (curr, next, (curr + 1)%nat, (next + 1)%nat).

(** The four weighted contributions of a cell, with the vertex each goes to. *)
Definition sine_contrib (positions : list (vec3 F)) (q : nat * nat * nat * nat) : list (nat * vec3 F) :=
  let '(i0, i1, i2, i3) := q in
  let p k := nth k positions vzero in
  let n0 := cross (vsub (p i1) (p i0)) (vsub (p i2) (p i0)) in
  let n1 := cross (vsub (p i3) (p i2)) (vsub (p i1) (p i2)) in
  let area0 := vlength n0 in
  let area1 := vlength n1 in
  let mid := vscale (vscale (vadd n0 n1) #0.5) (area0 + area1) in
  [(i0, vscale n0 area0); (i1, mid); (i2, mid); (i3, vscale n1 area1)].

(** One iteration of the second loop: accumulate, then push the indices. *)
Definition sine_cell (radialSegments : Z) (positions : list (vec3 F))
  (acc : list (vec3 F) * list nat) (ij : nat * nat) : list (vec3 F) * list nat :=
  let '(normals, indices) := acc in
  let q := sine_quad radialSegments (fst ij) (snd ij) in
  let '(i0, i1, i2, i3) := q in
  (fold_left (fun ns kd => add_at ns (fst kd) (snd kd)) (sine_contrib positions q) normals,
   indices ++ [i0; i1; i2; i2; i1; i3]).

(** The cells in loop order. *)
Definition sine_cells (radialSegments heightSegments : Z) : list (nat * nat) :=
  flat_map (fun i => map (fun j => (i, j)) (seq 0 (Z.to_nat radialSegments)))
           (seq 0 (Z.to_nat heightSegments)).

(** The final loop: [normalize(normals[i])] and the UVs from [i]. *)
Definition sine_vertex (radialSegments heightSegments : Z) (positions normals : list (vec3 F))
  (k : nat) : Vertex F :=
  let cols := (Z.to_nat radialSegments + 1)%nat in
  mkVertex (nth k positions vzero) (normalize (nth k normals vzero))
    (mkv2 (sc_nat (k mod cols) / sc_of_Z radialSegments) (sc_nat (k / cols) / sc_of_Z heightSegments)).

Definition sine_cone (baseRadius height flattenFactor sineAmplitude sineFrequency sinePhase : F)
  (radialSegments heightSegments : Z) : MeshData F :=
  let radialStep := #2 * pi_literal / sc_of_Z radialSegments in
  let heightStep := height / sc_of_Z heightSegments in
  let positions := sine_positions baseRadius flattenFactor sineAmplitude sineFrequency sinePhase
                     radialSegments heightSegments radialStep heightStep in
  let '(normals, indices) :=
    fold_left (sine_cell radialSegments positions) (sine_cells radialSegments heightSegments)
              (repeat vzero (length positions), []) in
  mkMesh (map (sine_vertex radialSegments heightSegments positions normals) (seq 0 (length positions)))
         indices.

End Gen.

Section Accumulate.
Context {F : Type} `{Scalar F}.

(** The second loop, split: its normals and its indices. *)
Lemma sine_fold (radialSegments : Z) (positions : list (vec3 F)) cells ns ix :
  fold_left (sine_cell radialSegments positions) cells (ns, ix) =
  (fold_left (fun ns ij => fold_left (fun ns kd => add_at ns (fst kd) (snd kd))
                             (sine_contrib positions (sine_quad radialSegments (fst ij) (snd ij))) ns)
     cells ns,
   ix ++ flat_map (fun ij => let '(i0, i1, i2, i3) := sine_quad radialSegments (fst ij) (snd ij) in
                             [i0; i1; i2; i2; i1; i3]) cells).
Proof.
  revert ns ix. induction cells as [|ij cells IH]; intros ns ix; [cbn; now rewrite app_nil_r|].
  cbn [fold_left flat_map]. unfold sine_cell at 2.
  destruct (sine_quad radialSegments (fst ij) (snd ij)) as [[[i0 i1] i2] i3] eqn:Eq.
  rewrite IH, app_assoc. reflexivity.
Qed.

End Accumulate.

Lemma sine_positions_length {F} `{Scalar F} (baseRadius flattenFactor sineAmplitude sineFrequency sinePhase : F)
  (radialSegments heightSegments : Z) (radialStep heightStep : F) :
  length (sine_positions baseRadius flattenFactor sineAmplitude sineFrequency sinePhase
            radialSegments heightSegments radialStep heightStep) =
  Z.to_nat (heightSegments + 1) * Z.to_nat (radialSegments + 1).
Proof.
  unfold sine_positions. rewrite (length_flat_map_const _ _ (Z.to_nat (radialSegments + 1))).
  - now rewrite length_seq.
  - intros i. now rewrite length_map, length_seq.
Qed.

(** Every index the sine cone pushes is below its vertex count. *)
Theorem sine_valid {F} `{Scalar F} (baseRadius height flattenFactor sineAmplitude sineFrequency sinePhase : F)
  (radialSegments heightSegments : Z) :
  mesh_valid (sine_cone baseRadius height flattenFactor sineAmplitude sineFrequency sinePhase
                radialSegments heightSegments) = true.
Proof.
  unfold mesh_valid, sine_cone. rewrite sine_fold. cbn [mverts mindices app].
  rewrite length_map, length_seq, sine_positions_length.
  apply all_below_flat_map. intros [i j] Hij. unfold sine_cells in Hij.
  apply in_flat_map in Hij as (i' & Hi%in_seq_lt & Hj). apply in_map_iff in Hj as (j' & [= <- <-] & Hj%in_seq_lt).
  cbn [fst snd sine_quad]. rewrite !to_nat_succ.
  destruct (Z.leb_spec 0 heightSegments), (Z.leb_spec 0 radialSegments); solve_below.
Qed.

End SineCone.

(** ** The generator of DrawSuperellipsoidMesh *)
Module Superellipsoid.
Section Gen.
Context {F : Type} `{Scalar F}.
Local Open Scope sc_scope.

(** The literal [3.14159265359f]. *)
Definition pi_literal : F := sc_lit (Qmake 314159265359 100000000000).

(** The lambda [sign]: [(x > 0.0f) - (x < 0.0f)] as a float. *)
Definition sign (x : F) : F :=
  let pos := if #0 <? x then 1%Z else 0%Z in
  let neg := if x <? #0 then 1%Z else 0%Z in
  sc_of_Z (pos - neg)%Z.

(** [sgn(x) * pow(fabs(x), e)]. *)
Definition spow (x e : F) : F := sign x * sc_pow (sc_fabs x) e.

(** The angle tables [cosU], [sinU] ([u] in [[-pi/2, pi/2]]) and [cosV],
    [sinV] ([v] in [[-pi, pi]]). *)
Definition u_angle (uSegments : Z) (i : nat) : F :=
  - pi_literal * #0.5 + sc_nat i / sc_of_Z uSegments * pi_literal.

Definition v_angle (vSegments : Z) (j : nat) : F :=
  - pi_literal + sc_nat j / sc_of_Z vSegments * (#2 * pi_literal).

Definition table (f : F -> F) (angle : nat -> F) (n : Z) : list F :=
  map (fun i => f (angle i)) (seq 0 (Z.to_nat (n + 1))).

Definition se_vertex (scaleX scaleY scaleZ verticalExponent horizontalExponent : F)
  (uSegments vSegments : Z) (cosU sinU cosV sinV : list F) (i j : nat) : Vertex F :=
  let cu_e := spow (nth i cosU #0) verticalExponent in
  let su_e := spow (nth i sinU #0) verticalExponent in
  let cv_e := spow (nth j cosV #0) horizontalExponent in
  let sv_e := spow (nth j sinV #0) horizontalExponent in
  mkVertex (mkv3 (scaleX * cu_e * cv_e) (scaleY * cu_e * sv_e) (scaleZ * su_e))
           (normalize (mkv3 (cu_e * cv_e / scaleX) (cu_e * sv_e / scaleY) (su_e / scaleZ)))
           (mkv2 (sc_nat j / sc_of_Z vSegments) (sc_nat i / sc_of_Z uSegments)).

Definition se_ring (scaleX scaleY scaleZ verticalExponent horizontalExponent : F)
  (uSegments vSegments : Z) (cosU sinU cosV sinV : list F) (i : nat) : list (Vertex F) * list nat :=
  (flat_map (fun j => [se_vertex scaleX scaleY scaleZ verticalExponent horizontalExponent
                         uSegments vSegments cosU sinU cosV sinV i j])
     (seq 0 (Z.to_nat (vSegments + 1))), []).

(** [idx0 .. idx3] and the two triangles [(idx0, idx1, idx2)],
    [(idx2, idx1, idx3)]. *)
Definition se_cell (vSegments : Z) (i j : nat) : list nat :=
  let idx0 := (i * (Z.to_nat vSegments + 1) + j)%nat in
  let idx1 := ((i + 1) * (Z.to_nat vSegments + 1) + j)%nat in
  let idx2 := (i * (Z.to_nat vSegments + 1) + (j + 1))%nat in
  let idx3 := ((i + 1) * (Z.to_nat vSegments + 1) + (j + 1))%nat in
  [idx0; idx1; idx2; idx2; idx1; idx3].

Definition se_band (vSegments : Z) (i : nat) : list (Vertex F) * list nat :=
  ([], flat_map (se_cell vSegments i) (seq 0 (Z.to_nat vSegments))).

(** [if (x <= 0.0f) x = 0.1f;] *)
Definition positive_or_tenth (x : F) : F := if x <=? #0 then sc_lit (Qmake 1 10) else x.

(** The clamps, the tables, the two loops; [vSegments] is returned as the
    value stored in [numSlices]. *)
Definition superellipsoid (scaleX scaleY scaleZ verticalExponent horizontalExponent : F)
  (uSegments vSegments : Z) : Z * MeshData F :=
  let uSegments := if (uSegments <? 3)%Z then 3%Z else uSegments in
  let vSegments := if (vSegments <? 3)%Z then 3%Z else vSegments in
  let scaleX := positive_or_tenth scaleX in
  let scaleY := positive_or_tenth scaleY in
  let scaleZ := positive_or_tenth scaleZ in
  let verticalExponent := positive_or_tenth verticalExponent in
  let horizontalExponent := positive_or_tenth horizontalExponent in
  let cosU := table sc_cos (u_angle uSegments) uSegments in
  let sinU := table sc_sin (u_angle uSegments) uSegments in
  let cosV := table sc_cos (v_angle vSegments) vSegments in
  let sinV := table sc_sin (v_angle vSegments) vSegments in
  let m := loop (Z.to_nat (uSegments + 1))
             (se_ring scaleX scaleY scaleZ verticalExponent horizontalExponent
                uSegments vSegments cosU sinU cosV sinV) empty_mesh in
  (vSegments, loop (Z.to_nat uSegments) (se_band vSegments) m).

End Gen.

(** With [U = max 3 uSegments] and [V = max 3 vSegments] the
    superellipsoid has [(U + 1)(V + 1)] vertices and [6 U V] indices, all
    below the vertex count, and [V] is the count stored in [numSlices]. *)
Theorem se_counts_valid {F} `{Scalar F} (scaleX scaleY scaleZ verticalExponent horizontalExponent : F)
  (uSegments vSegments : Z) :
  let U := Z.to_nat (Z.max 3 uSegments) in
  let V := Z.to_nat (Z.max 3 vSegments) in
  let '(ns, m) := superellipsoid scaleX scaleY scaleZ verticalExponent horizontalExponent
                    uSegments vSegments in
  ns = Z.max 3 vSegments /\
  length (mverts m) = (U + 1) * (V + 1) /\ length (mindices m) = 6 * U * V /\ mesh_valid m = true.
Proof.
  intros U V. unfold superellipsoid, mesh_valid, se_band, se_cell. rewrite !if_lt_max.
  rewrite !to_nat_succ_pos by lia. unfold U, V. clear U V.
  (split; [reflexivity|]); gen_unfold; gen_len; (split; [lia|]); (split; [lia|]); gen_below.
Qed.

End Superellipsoid.
