(* ===== verification/Spiral.v ===== *)
(** * The generator of DrawSpiralMesh

    [DrawSpiralMesh] samples an expanding spiral from the half turn on
    ([startSegment]), stops at the total angle ([break]), estimates a
    tangent per sample from its neighbours, builds the first frame from
    [worldUp] and each next one by rotating the previous normal
    ([glm::rotate] about [cross(v, w)] by [acos(dot(v, w))]), sweeps a
    flattened circle per sample, adds a hemispherical cap of eight rings
    at the start and stitches it to the first tube ring.  Every
    [std::vector] read with [operator[]] is modelled by [vat], which fails
    out of range: the generator returns [None] exactly when the code reads
    past the end of [centers] (undefined behaviour). *)

From Stdlib Require Import List Arith Lia ZArith QArith.
From Stdlib Require Import Reals Lra.
From S2P Require Import Prelude Layout RealModel.
Import ListNotations.
Local Open Scope nat_scope.

Module Spiral.
Section Gen.
Context {F : Type} `{Scalar F}.
Local Open Scope sc_scope.

(** [v[k]] of a [std::vector]; [None] out of range. *)
Definition vat {A} (l : list A) (k : nat) : option A := nth_error l k.

(** [const float PI = 3.14159265f;] *)
Definition PI_lit : F := sc_lit (Qmake 314159265 100000000).

(** [int i = start; i <= last; ++i] as the list of its values. *)
Definition zrange (start last : Z) : list Z :=
  map (fun k => (start + Z.of_nat k)%Z) (seq 0 (Z.to_nat (last - start + 1))).

(** [for (...) { if (cond) break; ... }]: the prefix before the first stop. *)
Fixpoint take_until {A} (stop : A -> bool) (l : list A) : list A :=
  match l with
  | [] => []
  | x :: l => if stop x then [] else x :: take_until stop l
  end.

(** The centreline loop. *)
Definition centers (loopSpacing totalAngle spiralStep : F) (startSegment spiralSegments : Z)
  : list (vec3 F) :=
  map (fun i => let theta := sc_of_Z i * spiralStep in
                let radius := loopSpacing * theta / (#2 * PI_lit) in
                mkv3 (radius * sc_cos theta) (radius * sc_sin theta) #0)
      (take_until (fun i => totalAngle <? sc_of_Z i * spiralStep) (zrange startSegment spiralSegments)).

(** The tangent loop: forward difference at the first sample, backward at
    the last, central inside. *)
Definition tangent_at (cs : list (vec3 F)) (ringCount i : nat) : option (vec3 F) :=
  if i =? 0 then
    match vat cs 1, vat cs 0 with Some c1, Some c0 => Some (normalize (vsub c1 c0)) | _, _ => None end
  else if i =? ringCount - 1 then
    match vat cs (ringCount - 1), vat cs (ringCount - 2) with
    | Some a, Some b => Some (normalize (vsub a b)) | _, _ => None end
  else
    match vat cs (i + 1), vat cs (i - 1) with Some a, Some b => Some (normalize (vsub a b)) | _, _ => None end.

Fixpoint all_some {A} (l : list (option A)) : option (list A) :=
  match l with
  | [] => Some []
  | Some x :: l => option_map (cons x) (all_some l)
  | None :: _ => None
  end.

Definition tangents (cs : list (vec3 F)) : option (list (vec3 F)) :=
  all_some (map (tangent_at cs (length cs)) (seq 0 (length cs))).

(** [glm::vec3 worldUp(1.0f, 0.0f, 0.0f)]. *)
Definition worldUp : vec3 F := mkv3 #1 #0 #0.

(** [mat3(glm::rotate(mat4(1.0f), angle, axis)) * v]: glm's matrix with
    [temp = (1 - c) axis], applied column by column. *)
Definition rotate_vec (angle : F) (axis v : vec3 F) : vec3 F :=
  let a := normalize axis in
  let c := sc_cos angle in
  let s := sc_sin angle in
  let temp := vscale a (#1 - c) in
  mkv3 ((c + vx temp * vx a) * vx v + (vy temp * vx a - s * vz a) * vy v + (vz temp * vx a + s * vy a) * vz v)
       ((vx temp * vy a + s * vz a) * vx v + (c + vy temp * vy a) * vy v + (vz temp * vy a - s * vx a) * vz v)
       ((vx temp * vz a - s * vy a) * vx v + (vy temp * vz a + s * vx a) * vy v + (c + vz temp * vz a) * vz v).

(** The frame of ring [i] from the previous normal: the initial frame from
    [worldUp], then the previous normal rotated from the previous tangent
    [v] to this one [w]. *)
Definition frame (i : nat) (prevNormal v w : vec3 F) : vec3 F * vec3 F :=
  if i =? 0 then
    let binormal := normalize (cross w worldUp) in
    (normalize (cross binormal w), binormal)
  else
    let axis := normalize (cross v w) in
    let angle := sc_acos (clamp (dot v w) (- #1) #1) in
    let normal := normalize (rotate_vec angle axis prevNormal) in
    (normal, normalize (cross w normal)).

(** Vertex [j] of a tube ring. *)
Definition tube_vertex (tubeRadius flattenFactor tubeStep sweepT : F) (tubeSegments : Z)
  (center normal binormal : vec3 F) (j : nat) : Vertex F :=
  let phi := sc_nat j * tubeStep in
  let x := sc_cos phi in
  let y := sc_sin phi in
  let offset := vadd (vscale (vscale normal x) (#1 - flattenFactor)) (vscale binormal y) in
  mkVertex (vadd center (vscale offset tubeRadius)) (normalize offset)
           (mkv2 (sc_nat j / sc_of_Z tubeSegments) sweepT).

(** The ring loop, threading [prevNormal]. *)
Fixpoint tube_rings (tubeRadius flattenFactor tubeStep : F) (tubeSegments : Z) (ringCount : nat)
  (cs ts : list (vec3 F)) (i : nat) (n : nat) (prevNormal prevTangent : vec3 F) : list (Vertex F) :=
  match n, cs, ts with
  | S n, c :: cs, t :: ts =>
      let '(normal, binormal) := frame i prevNormal prevTangent t in
      let sweepT := sc_nat i / sc_of_Z (Z.of_nat ringCount - 1) in
      map (tube_vertex tubeRadius flattenFactor tubeStep sweepT tubeSegments c normal binormal)
          (seq 0 (Z.to_nat tubeSegments)) ++
      tube_rings tubeRadius flattenFactor tubeStep tubeSegments ringCount cs ts (S i) n normal t
  | _, _, _ => []
  end.

(** Vertex [j] of cap ring [i] ([1 <= i <= 8]). *)
Definition cap_vertex (tubeRadius flattenFactor tubeStep : F) (capSegments : Z)
  (capCenter capTangent capNormal capBinormal : vec3 F) (i j : nat) : Vertex F :=
  let theta := sc_nat i * PI_lit * #0.5 / sc_of_Z 8 in
  let r := sc_sin theta in
  let z := sc_cos theta in
  let phi := sc_nat j * tubeStep in
  let x := sc_cos phi in
  let y := sc_sin phi in
  let radial := vadd (vscale (vscale capNormal x) (#1 - flattenFactor)) (vscale capBinormal y) in
  let offset := vadd (vscale (vscale radial r) tubeRadius) (vscale (vscale capTangent z) tubeRadius) in
  mkVertex (vsub capCenter offset) (normalize (vscale offset (- #1)))
           (mkv2 (sc_nat j / sc_of_Z capSegments) (- z)).

(** The quad [(curr, next, currNext, nextNext)] as two triangles. *)
Definition quad (curr next currNext nextNext : nat) : list nat :=
  [curr; next; currNext; currNext; next; nextNext].

(** Connecting the tube rings: stride [tubeSegments], wrapping with [%]. *)
Definition tube_indices (T ringCount : nat) : list nat :=
  flat_map (fun i => flat_map (fun j =>
      quad (i * T + j) ((i + 1) * T + j) (i * T + (j + 1) mod T) ((i + 1) * T + (j + 1) mod T))
    (seq 0 T)) (seq 0 (ringCount - 1)).

(** Stitching the eight cap rings. *)
Definition cap_indices (T baseIndex : nat) : list nat :=
  flat_map (fun i => flat_map (fun j =>
      quad (baseIndex + i * T + j) (baseIndex + (i + 1) * T + j)
           (baseIndex + i * T + (j + 1) mod T) (baseIndex + (i + 1) * T + (j + 1) mod T))
    (seq 0 T)) (seq 0 7).

(** Connecting the last cap ring to the first tube ring through
    [ringStartIndices = 0 .. T - 1]. *)
Definition connect_indices (T baseIndex : nat) (ringStartIndices : list nat) : option (list (list nat)) :=
  all_some (map (fun j =>
      match vat ringStartIndices j, vat ringStartIndices ((j + 1) mod T) with
      | Some tubeRing, Some tubeNext =>
          Some (quad (baseIndex + 7 * T + j) tubeRing (baseIndex + 7 * T + (j + 1) mod T) tubeNext)
      | _, _ => None
      end) (seq 0 T)).

Definition connect_all (T baseIndex : nat) (ringStartIndices : list nat) : option (list nat) :=
  option_map (@concat nat) (connect_indices T baseIndex ringStartIndices).

(** The centreline of [DrawSpiralMesh]: [totalAngle], [spiralStep] and
    [startSegment], then the sampling loop. *)
Definition samples (loopSpacing numLoops : F) (spiralSegments : Z) : list (vec3 F) :=
  let totalAngle := numLoops * #2 * PI_lit in
  let spiralStep := totalAngle / sc_of_Z spiralSegments in
  let startAngle := PI_lit in
  let startSegment := sc_trunc (startAngle / spiralStep) in
  centers loopSpacing totalAngle spiralStep startSegment spiralSegments.

(** The whole generator: [None] when a read is out of range. *)
Definition spiral (tubeRadius flattenFactor loopSpacing numLoops : F) (tubeSegments spiralSegments : Z)
  : option (MeshData F) :=
  let tubeStep := #2 * PI_lit / sc_of_Z tubeSegments in
  let cs := samples loopSpacing numLoops spiralSegments in
  let ringCount := length cs in
  let T := Z.to_nat tubeSegments in
  match tangents cs with
  | None => None
  | Some ts =>
      let tube := tube_rings tubeRadius flattenFactor tubeStep tubeSegments ringCount cs ts 0 ringCount
                    (mkv3 #0 #0 #0) (mkv3 #0 #0 #0) in
      let ringStartIndices := if (0 <? ringCount)%nat then seq 0 T else [] in
      match vat cs 0, vat ts 0 with
      | Some capCenter, Some capTangent =>
          let capBinormal := normalize (cross capTangent worldUp) in
          let capNormal := normalize (cross capBinormal capTangent) in
          let baseIndex := length tube in
          let cap := flat_map (fun i => map (cap_vertex tubeRadius flattenFactor tubeStep tubeSegments
                                               capCenter capTangent capNormal capBinormal i)
                                            (seq 0 T)) (seq 1 8) in
          match connect_all T baseIndex ringStartIndices with
          | Some conn =>
              Some (mkMesh (tube ++ cap) (tube_indices T ringCount ++ cap_indices T baseIndex ++ conn))
          | None => None
          end
      | _, _ => None
      end
  end.

End Gen.
(** ** Reads in range *)
Section Reads.
Context {F : Type} `{Scalar F}.

Lemma all_some_map {A B} (f : A -> option B) (l : list A) :
  (forall x, In x l -> f x <> None) ->
  exists l', all_some (map f l) = Some l' /\ length l' = length l.
Proof.
  induction l as [|x l IH]; intros Hf; [now exists []|].
  cbn [map all_some]. destruct (f x) as [y|] eqn:E; [|exfalso; apply (Hf x); [left|]; auto].
  destruct IH as (l' & -> & Hl); [intros z Hz; apply Hf; right; exact Hz|].
  exists (y :: l'). cbn. now rewrite Hl.
Qed.

Lemma all_some_map_none {A B} (f : A -> option B) (l : list A) x :
  In x l -> f x = None -> all_some (map f l) = None.
Proof.
  induction l as [|y l IH]; intros Hx Hf; [destruct Hx|]. cbn [map all_some].
  destruct Hx as [->|Hx]; [now rewrite Hf|]. destruct (f y); [|reflexivity].
  now rewrite (IH Hx Hf).
Qed.

Lemma vat_some {A} (l : list A) k : k < length l -> exists x, vat l k = Some x.
Proof. intros Hk. unfold vat. destruct (nth_error l k) eqn:E; [eauto|]. apply nth_error_None in E. lia. Qed.

Lemma vat_seq j T : j < T -> vat (seq 0 T) j = Some j.
Proof. intros Hj. unfold vat. rewrite nth_error_seq. now destruct (Nat.ltb_spec j T); [|lia]. Qed.

Lemma vat_none {A} (l : list A) k : length l <= k -> vat l k = None.
Proof. apply nth_error_None. Qed.

(** Every tangent reads two samples in range once there are two of them. *)
Lemma tangents_some (cs : list (vec3 F)) :
  2 <= length cs -> exists ts, tangents cs = Some ts /\ length ts = length cs.
Proof.
  intros Hn. unfold tangents. edestruct (all_some_map (tangent_at cs (length cs))) as (ts & Hts & Hl); [|exists ts; split; [exact Hts|]].
  - intros i Hi%in_seq_lt. unfold tangent_at.
    destruct (Nat.eqb_spec i 0); [|destruct (Nat.eqb_spec i (length cs - 1))];
      (destruct (vat_some cs (length cs - 1)) as [? ->]; [lia|]) || idtac;
      repeat match goal with |- context [vat cs ?k] =>
        let E := fresh in destruct (vat_some cs k) as [? E]; [lia|]; rewrite E end; discriminate.
  - now rewrite Hl, length_seq.
Qed.

Lemma length_tube_rings tr ff ts (T : Z) rc (cs tgs : list (vec3 F)) i n pn pt :
  n <= length cs -> n <= length tgs ->
  length (tube_rings tr ff ts T rc cs tgs i n pn pt) = n * Z.to_nat T.
Proof.
  revert cs tgs i pn pt. induction n as [|n IH]; intros cs tgs i pn pt Hc Ht; [now destruct cs, tgs|].
  destruct cs as [|c cs]; [cbn in Hc; lia|]. destruct tgs as [|t tgs]; [cbn in Ht; lia|].
  cbn [tube_rings]. destruct (frame i pn pt t) as [nm bn].
  rewrite length_app, length_map, length_seq, IH by (cbn in *; lia). lia.
Qed.

Lemma all_some_length {A} (l : list (option A)) l' : all_some l = Some l' -> length l' = length l.
Proof.
  revert l'. induction l as [|[x|] l IH]; intros l' E; cbn in E; [now injection E as <-| |discriminate].
  destruct (all_some l) eqn:E'; cbn in E; [|discriminate]. injection E as <-. cbn. now rewrite (IH l0).
Qed.

Lemma all_some_In {A} (l : list (option A)) l' y : all_some l = Some l' -> In y l' -> In (Some y) l.
Proof.
  revert l'. induction l as [|[x|] l IH]; intros l' E Hy; cbn in E; [now injection E as <-; destruct Hy| |discriminate].
  destruct (all_some l) eqn:E'; cbn in E; [|discriminate]. injection E as <-.
  destruct Hy as [->|Hy]; [now left|right; eauto].
Qed.

(** The stitch only names the last cap ring and the first tube ring. *)
Lemma connect_all_below (T baseIndex : nat) conn :
  T <= baseIndex -> connect_all T baseIndex (seq 0 T) = Some conn ->
  all_below (baseIndex + 8 * T) conn = true.
Proof.
  unfold connect_all. destruct (connect_indices T baseIndex (seq 0 T)) as [qs|] eqn:E; [|discriminate].
  intros HT [= <-]. apply all_below_spec. intros k (q & Hq & Hk)%in_concat.
  apply (all_some_In _ _ _ E), in_map_iff in Hq as (j & Hj & Hjs%in_seq_lt).
  assert (Hm : (j + 1) mod T < T) by (apply Nat.mod_upper_bound; lia).
  rewrite !vat_seq in Hj by lia. injection Hj as <-.
  cbn in Hk. lia.
Qed.

Lemma connect_all_some (T baseIndex : nat) :
  exists conn, connect_all T baseIndex (seq 0 T) = Some conn.
Proof.
  unfold connect_all, connect_indices.
  edestruct (all_some_map (fun j : nat => match vat (seq 0 T) j, vat (seq 0 T) ((j + 1) mod T) with
      | Some tubeRing, Some tubeNext =>
          Some (quad (baseIndex + 7 * T + j) tubeRing (baseIndex + 7 * T + (j + 1) mod T) tubeNext)
      | _, _ => None end) (seq 0 T)) as (l & -> & _); [|now eexists].
  intros j Hj%in_seq_lt. assert (Hm : (j + 1) mod T < T) by (apply Nat.mod_upper_bound; lia).
  destruct (vat_some (seq 0 T) j) as [? ->]; [rewrite length_seq; lia|].
  destruct (vat_some (seq 0 T) ((j + 1) mod T)) as [? ->]; [rewrite length_seq; lia|]. discriminate.
Qed.

(** C14: [DrawSpiralMesh] reads out of range (the model returns [None])
    exactly when the spiral has fewer than two samples: the tangent loop
    reads [centers[1]] and the cap reads [centers[0]]. *)
Theorem spiral_fails_iff (tubeRadius flattenFactor loopSpacing numLoops : F) (tubeSegments spiralSegments : Z) :
  spiral tubeRadius flattenFactor loopSpacing numLoops tubeSegments spiralSegments = None <->
  length (samples loopSpacing numLoops spiralSegments) < 2.
Proof.
  unfold spiral. set (cs := samples loopSpacing numLoops spiralSegments). split.
  - intros Hnone. destruct (Nat.lt_ge_cases (length cs) 2) as [|Hn]; [assumption|exfalso].
    destruct (tangents_some cs) as (ts & Ets & Hts); [exact Hn|]. rewrite Ets in Hnone.
    destruct (vat_some cs 0) as [c Ec]; [lia|]. destruct (vat_some ts 0) as [t Et]; [lia|].
    rewrite Ec, Et in Hnone. destruct (Nat.ltb_spec 0 (length cs)); [|lia].
    match type of Hnone with context [connect_all ?T ?b _] =>
      destruct (connect_all_some T b) as [conn Econn]; rewrite Econn in Hnone end.
    discriminate.
  - intros Hn. destruct (length cs) as [|[|k]] eqn:Hl; [| |lia].
    + destruct (tangents cs); [|reflexivity]. now rewrite (vat_none cs 0) by lia.
    + unfold tangents. rewrite Hl, (all_some_map_none _ _ 0); [reflexivity|now left|].
      unfold tangent_at. rewrite (vat_none cs 1) by lia. reflexivity.
Qed.

Lemma tangents_length (cs ts : list (vec3 F)) : tangents cs = Some ts -> length ts = length cs.
Proof. intros E. now rewrite (all_some_length _ _ E), length_map, length_seq. Qed.

(** Every index the generator emits names one of its vertices: the tube
    rings, the eight cap rings and the stitch between them. *)
Lemma spiral_valid (tubeRadius flattenFactor loopSpacing numLoops : F) (tubeSegments spiralSegments : Z) m :
  spiral tubeRadius flattenFactor loopSpacing numLoops tubeSegments spiralSegments = Some m ->
  mesh_valid m = true.
Proof.
  unfold spiral. set (cs := samples loopSpacing numLoops spiralSegments).
  destruct (tangents cs) as [ts|] eqn:Ets; [|discriminate].
  destruct (vat cs 0) eqn:Ec; [|discriminate]. destruct (vat ts 0); [|discriminate].
  assert (Hrc : 0 < length cs) by (apply nth_error_Some; unfold vat in Ec; congruence).
  destruct (Nat.ltb_spec 0 (length cs)) as [_|]; [|lia].
  match goal with |- context [connect_all ?T ?b _] => destruct (connect_all T b (seq 0 T)) as [conn|] eqn:Econn end;
    [|discriminate].
  intros [= <-]. unfold mesh_valid. cbn [mverts mindices].
  pose proof (tangents_length _ _ Ets) as Hts.
  rewrite length_tube_rings in Econn by lia.
  rewrite !length_app, length_tube_rings, !length_map, !length_seq, !all_below_app by lia. cbn [length].
  match goal with |- all_below ?n _ && _ = true =>
    replace n with (length cs * Z.to_nat tubeSegments + 8 * Z.to_nat tubeSegments) by lia end.
  apply connect_all_below in Econn; [|nia]. rewrite Econn, andb_true_r.
  unfold tube_indices, cap_indices, quad. gen_below.
Qed.

End Reads.

End Spiral.
