(* ===== verification/GL.v ===== *)
(** * The Render Backend: the OpenGL calls the class issues

    The spec treats the GPU side as an external collaborator (section 6);
    this file is its model, written from the OpenGL semantics the code relies
    on, not from the repository.  Vertex array objects are named by positive
    numbers from a counter ([glGenVertexArrays], [glGenBuffers]); a VAO holds
    the vertex floats and element indices uploaded while it is bound and
    whether the attribute layout was set on it.  Every draw call is recorded
    in a log with the element list it resolves to, the polygon mode and the
    layout state; a draw with no valid VAO bound, or whose range runs past
    the uploaded buffer, is logged as invalid.  The primitive assembly of
    [GL_TRIANGLES], [GL_TRIANGLE_STRIP] and [GL_TRIANGLE_FAN] turns an
    element list into the triangles the rasterizer sees. *)

From Stdlib Require Import List Arith Lia String.
From S2P Require Import Prelude Layout.
Import ListNotations.
Local Open Scope nat_scope.

Inductive PrimMode := GL_TRIANGLES | GL_TRIANGLE_STRIP | GL_TRIANGLE_FAN.

(** ** Primitive assembly *)

(** Strip triangle [k] is [(e k, e (k+1), e (k+2))] for even [k] and
    [(e (k+1), e k, e (k+2))] for odd [k], which keeps the winding. *)
Fixpoint strip_from (k : nat) (l : list nat) : list (nat * nat * nat) :=
  match l with
  | a :: ((b :: c :: _) as rest) =>
      (if Nat.even k then (a, b, c) else (b, a, c)) :: strip_from (S k) rest
  | _ => []
  end.

Fixpoint fan_from (c : nat) (l : list nat) : list (nat * nat * nat) :=
  match l with
  | a :: ((b :: _) as rest) => (c, a, b) :: fan_from c rest
  | _ => []
  end.

Definition assemble (mode : PrimMode) (l : list nat) : list (nat * nat * nat) :=
  match mode with
  | GL_TRIANGLES => triangles l
  | GL_TRIANGLE_STRIP => strip_from 0 l
  | GL_TRIANGLE_FAN => match l with c :: rest => fan_from c rest | [] => [] end
  end.

(** ** Objects and state *)
Section State.
Context {F : Type}.

Record VAO := mkVAO { vao_vbo : list F; vao_ebo : list nat; vao_layout : bool }.

Inductive Event :=
  | EvDraw (vao : nat) (wire : bool) (layout : bool) (mode : PrimMode) (elements : list nat)
  | EvInvalid (vao : nat)          (** [GL_INVALID_OPERATION] or an out-of-range read *)
  | EvStderr (msg : string)        (** a line written to [std::cerr] *)
  | EvUndefined (what : string).    (** undefined behaviour of the C++ side, such as a
                                        [std::vector] read past its end *)

Record GLState := mkGL {
  gl_next : nat;                   (** the next object name *)
  gl_vaos : list (nat * VAO);      (** the live vertex array objects *)
  gl_bound : nat;                  (** [glBindVertexArray]; 0 is none *)
  gl_wire : bool;                  (** [glPolygonMode]: [GL_LINE] or [GL_FILL] *)
  gl_log : list Event;             (** the events, oldest first *)
  gl_fault : bool                  (** a draw fetched a vertex past the end of its buffer *)
}.

Definition gl_init : GLState := mkGL 1 [] 0 false [] false.

Definition find_vao (g : GLState) (n : nat) : option VAO :=
  match find (fun p => fst p =? n) (gl_vaos g) with Some (_, v) => Some v | None => None end.

Definition gl_emit (e : Event) (g : GLState) : GLState :=
  mkGL (gl_next g) (gl_vaos g) (gl_bound g) (gl_wire g) (gl_log g ++ [e]) (gl_fault g).

(** [glGenVertexArrays(1, &n)]: a fresh name and an empty object. *)
Definition glGenVertexArrays (g : GLState) : nat * GLState :=
  let n := gl_next g in
  (n, mkGL (S n) ((n, mkVAO [] [] false) :: gl_vaos g) (gl_bound g) (gl_wire g) (gl_log g) (gl_fault g)).

(** [glGenBuffers(1, &n)]: a fresh name. *)
Definition glGenBuffers (g : GLState) : nat * GLState :=
  (gl_next g, mkGL (S (gl_next g)) (gl_vaos g) (gl_bound g) (gl_wire g) (gl_log g) (gl_fault g)).

Definition glBindVertexArray (n : nat) (g : GLState) : GLState :=
  mkGL (gl_next g) (gl_vaos g) n (gl_wire g) (gl_log g) (gl_fault g).

Definition glPolygonMode (wire : bool) (g : GLState) : GLState :=
  mkGL (gl_next g) (gl_vaos g) (gl_bound g) wire (gl_log g) (gl_fault g).

(** Change the bound VAO. *)
Definition update_bound (f : VAO -> VAO) (g : GLState) : GLState :=
  mkGL (gl_next g)
       (map (fun p => if fst p =? gl_bound g then (fst p, f (snd p)) else p) (gl_vaos g))
       (gl_bound g) (gl_wire g) (gl_log g) (gl_fault g).

(** [glBufferData(GL_ARRAY_BUFFER, ...)] through the bound VAO. *)
Definition glBufferVertices (verts : list F) : GLState -> GLState :=
  update_bound (fun v => mkVAO verts (vao_ebo v) (vao_layout v)).

(** [glBufferData(GL_ELEMENT_ARRAY_BUFFER, ...)]: the element buffer is VAO state. *)
Definition glBufferElements (ixs : list nat) : GLState -> GLState :=
  update_bound (fun v => mkVAO (vao_vbo v) ixs (vao_layout v)).

(** The three [glVertexAttribPointer]/[glEnableVertexAttribArray] pairs of
    [SetShaderMemoryLayout]: attribute state of the bound VAO. *)
Definition glSetLayout : GLState -> GLState :=
  update_bound (fun v => mkVAO (vao_vbo v) (vao_ebo v) true).

(** [glDeleteVertexArrays(1, &n)]: the name no longer names an object. *)
Definition glDeleteVertexArrays (n : nat) (g : GLState) : GLState :=
  mkGL (gl_next g) (filter (fun p => negb (fst p =? n)) (gl_vaos g)) (gl_bound g) (gl_wire g) (gl_log g)
       (gl_fault g).

(** [glDeleteBuffers(1, &n)]: buffers are modelled through the VAO that
    holds them, so deleting one changes nothing the model observes. *)
Definition glDeleteBuffers (n : nat) (g : GLState) : GLState := g.

(** The vertex fetch of a draw: an element at or past the vertex count of
    the buffer reads outside it, which the GL leaves undefined; the model
    records it. *)
Definition fetch (nverts : nat) (elements : list nat) (g : GLState) : GLState :=
  mkGL (gl_next g) (gl_vaos g) (gl_bound g) (gl_wire g) (gl_log g)
       (gl_fault g || negb (all_below nverts elements)).

(** [glDrawElements(mode, count, GL_UNSIGNED_INT, offset * sizeof(GLuint))]. *)
Definition glDrawElements (mode : PrimMode) (count offset : nat) (g : GLState) : GLState :=
  match find_vao g (gl_bound g) with
  | Some v =>
      if offset + count <=? List.length (vao_ebo v)
      then let elements := firstn count (skipn offset (vao_ebo v)) in
           gl_emit (EvDraw (gl_bound g) (gl_wire g) (vao_layout v) mode elements)
             (fetch (vertex_count (vao_vbo v)) elements g)
      else gl_emit (EvInvalid (gl_bound g)) g
  | None => gl_emit (EvInvalid (gl_bound g)) g
  end.

(** [glDrawArrays(mode, first, count)]. *)
Definition glDrawArrays (mode : PrimMode) (first count : nat) (g : GLState) : GLState :=
  match find_vao g (gl_bound g) with
  | Some v =>
      if first + count <=? vertex_count (vao_vbo v)
      then gl_emit (EvDraw (gl_bound g) (gl_wire g) (vao_layout v) mode (seq first count))
             (fetch (vertex_count (vao_vbo v)) (seq first count) g)
      else gl_emit (EvInvalid (gl_bound g)) g
  | None => gl_emit (EvInvalid (gl_bound g)) g
  end.

Definition stderr (msg : string) : GLState -> GLState := gl_emit (EvStderr msg).

End State.

Arguments VAO : clear implicits.
Arguments Event : clear implicits.
Arguments GLState : clear implicits.

(** ** Calls that leave the object store alone *)
Section Store.
Context {F : Type}.

(** The objects and the name counter of a state: what the draws never change. *)
Definition store (g : GLState F) : nat * list (nat * VAO F) := (gl_next g, gl_vaos g).

Lemma store_bind n (g : GLState F) : store (glBindVertexArray n g) = store g.
Proof. reflexivity. Qed.

Lemma store_poly w (g : GLState F) : store (glPolygonMode w g) = store g.
Proof. reflexivity. Qed.

Lemma store_emit e (g : GLState F) : store (gl_emit e g) = store g.
Proof. reflexivity. Qed.

Lemma store_stderr msg (g : GLState F) : store (stderr msg g) = store g.
Proof. reflexivity. Qed.

Lemma store_draw_elements mode count offset (g : GLState F) :
  store (glDrawElements mode count offset g) = store g.
Proof. unfold glDrawElements. destruct (find_vao g (gl_bound g)); [destruct (_ <=? _)|]; reflexivity. Qed.

Lemma store_draw_arrays mode first count (g : GLState F) :
  store (glDrawArrays mode first count g) = store g.
Proof. unfold glDrawArrays. destruct (find_vao g (gl_bound g)); [destruct (_ <=? _)|]; reflexivity. Qed.

Lemma find_vao_store (g g' : GLState F) m : store g = store g' -> find_vao g m = find_vao g' m.
Proof. unfold store, find_vao. intros [= _ ->]. reflexivity. Qed.

End Store.

(** ** What a draw call logs *)
Section Draw.
Context {F : Type}.

Lemma draw_elements_ok mode count offset (g : GLState F) v :
  find_vao g (gl_bound g) = Some v -> offset + count <= List.length (vao_ebo v) ->
  glDrawElements mode count offset g =
  gl_emit (EvDraw (gl_bound g) (gl_wire g) (vao_layout v) mode
             (firstn count (skipn offset (vao_ebo v))))
    (fetch (vertex_count (vao_vbo v)) (firstn count (skipn offset (vao_ebo v))) g).
Proof. intros Hv Hle. unfold glDrawElements. rewrite Hv. now rewrite (proj2 (Nat.leb_le _ _) Hle). Qed.

Lemma draw_elements_none mode count offset (g : GLState F) :
  find_vao g (gl_bound g) = None -> glDrawElements mode count offset g = gl_emit (EvInvalid (gl_bound g)) g.
Proof. intros Hv. unfold glDrawElements. now rewrite Hv. Qed.

Lemma draw_arrays_none mode first count (g : GLState F) :
  find_vao g (gl_bound g) = None -> glDrawArrays mode first count g = gl_emit (EvInvalid (gl_bound g)) g.
Proof. intros Hv. unfold glDrawArrays. now rewrite Hv. Qed.

Lemma log_emit e (g : GLState F) : gl_log (gl_emit e g) = gl_log g ++ [e].
Proof. reflexivity. Qed.

Lemma find_draw_elements mode count offset (g : GLState F) m :
  find_vao (glDrawElements mode count offset g) m = find_vao g m.
Proof. apply find_vao_store, store_draw_elements. Qed.

Lemma bound_draw_elements mode count offset (g : GLState F) :
  gl_bound (glDrawElements mode count offset g) = gl_bound g.
Proof. unfold glDrawElements. destruct (find_vao g (gl_bound g)); [destruct (_ <=? _)|]; reflexivity. Qed.

Lemma wire_draw_elements mode count offset (g : GLState F) :
  gl_wire (glDrawElements mode count offset g) = gl_wire g.
Proof. unfold glDrawElements. destruct (find_vao g (gl_bound g)); [destruct (_ <=? _)|]; reflexivity. Qed.

Lemma next_draw_elements mode count offset (g : GLState F) :
  gl_next (glDrawElements mode count offset g) = gl_next g.
Proof. unfold glDrawElements. destruct (find_vao g (gl_bound g)); [destruct (_ <=? _)|]; reflexivity. Qed.

Lemma next_bind k (g : GLState F) : gl_next (glBindVertexArray k g) = gl_next g.
Proof. reflexivity. Qed.

Lemma next_update f (g : GLState F) : gl_next (update_bound f g) = gl_next g.
Proof. reflexivity. Qed.

Lemma next_poly w (g : GLState F) : gl_next (glPolygonMode w g) = gl_next g.
Proof. reflexivity. Qed.

Lemma next_delete k (g : GLState F) : gl_next (glDeleteVertexArrays k g) = gl_next g.
Proof. reflexivity. Qed.

Lemma find_delete (g : GLState F) k n :
  find_vao (glDeleteVertexArrays k g) n = if n =? k then None else find_vao g n.
Proof.
  unfold find_vao, glDeleteVertexArrays. cbn [gl_vaos].
  induction (gl_vaos g) as [|[j v] l IH]; [now destruct (n =? k)|].
  cbn [filter find fst snd]. destruct (Nat.eqb_spec j k) as [->|Hjk]; cbn [negb find fst].
  - rewrite IH. destruct (Nat.eqb_spec n k) as [->|]; [reflexivity|].
    now rewrite (proj2 (Nat.eqb_neq k n)) by congruence.
  - destruct (Nat.eqb_spec j n) as [->|]; [|exact IH].
    now rewrite (proj2 (Nat.eqb_neq n k)) by congruence.
Qed.

End Draw.

Create Rewrite HintDb gl_store.
#[export] Hint Rewrite @store_bind @store_poly @store_emit @store_stderr
  @store_draw_elements @store_draw_arrays : gl_store.

(** ** Draws that stay inside their buffers *)
Section Sound.
Context {F : Type}.

(** The buffer holds whole vertices of the [stride]-float layout that
    [glVertexAttribPointer] declares. *)
Definition whole_vertices (vbo : list F) : bool := List.length vbo mod stride =? 0.

(** The buffer holds whole vertices and every element of the VAO names a
    vertex of its own buffer. *)
Definition vao_ok (v : VAO F) : bool :=
  whole_vertices (vao_vbo v) && all_below (vertex_count (vao_vbo v)) (vao_ebo v).

Lemma vao_ok_below v : vao_ok v = true -> all_below (vertex_count (vao_vbo v)) (vao_ebo v) = true.
Proof. now intros [_ H]%andb_prop. Qed.

Lemma whole_interleave (vs : list (Vertex F)) : whole_vertices (interleave vs) = true.
Proof.
  unfold whole_vertices. rewrite length_interleave, Nat.mul_comm. unfold stride.
  now rewrite Nat.Div0.mod_mul.
Qed.

(** The VAO of an uploaded generator mesh. *)
Lemma mesh_vao_ok (m : MeshData F) b :
  mesh_valid m = true -> vao_ok (mkVAO (interleave (mverts m)) (mindices m) b) = true.
Proof.
  intros Hm. unfold vao_ok. cbn [vao_vbo vao_ebo]. rewrite whole_interleave.
  fold (next_index m). now rewrite next_index_length.
Qed.

(** No draw has fetched past a buffer, and every live VAO is [vao_ok]. *)
Definition gl_sound (g : GLState F) : Prop :=
  gl_fault g = false /\ forall n v, find_vao g n = Some v -> vao_ok v = true.

Lemma sound_bind k (g : GLState F) : gl_sound g -> gl_sound (glBindVertexArray k g).
Proof. exact id. Qed.

Lemma sound_poly w (g : GLState F) : gl_sound g -> gl_sound (glPolygonMode w g).
Proof. exact id. Qed.

Lemma sound_emit e (g : GLState F) : gl_sound g -> gl_sound (gl_emit e g).
Proof. exact id. Qed.

Lemma sound_stderr msg (g : GLState F) : gl_sound g -> gl_sound (stderr msg g).
Proof. exact id. Qed.

Lemma sound_delete k (g : GLState F) : gl_sound g -> gl_sound (glDeleteVertexArrays k g).
Proof.
  intros [Hf Hv]. split; [exact Hf|]. intros n v. rewrite find_delete.
  destruct (n =? k); [discriminate|apply Hv].
Qed.

(** A fetch of elements of the buffer's own range raises no fault. *)
Lemma sound_fetch n l (g : GLState F) : all_below n l = true -> gl_sound g -> gl_sound (fetch n l g).
Proof. intros Hl [Hf Hv]. split; [cbn; now rewrite Hf, Hl|exact Hv]. Qed.

Lemma all_below_firstn_skipn n k o l :
  all_below n l = true -> all_below n (firstn k (skipn o l)) = true.
Proof.
  rewrite !all_below_spec. intros Hl x Hx. apply Hl.
  rewrite <- (firstn_skipn o l), in_app_iff. right.
  rewrite <- (firstn_skipn k (skipn o l)), in_app_iff. now left.
Qed.

Lemma sound_draw_elements mode count offset (g : GLState F) :
  gl_sound g -> gl_sound (glDrawElements mode count offset g).
Proof.
  intros Hs. unfold glDrawElements. destruct (find_vao g (gl_bound g)) as [v|] eqn:Hv; [|exact Hs].
  destruct (_ <=? _); [|exact Hs]. apply sound_emit, sound_fetch; [|exact Hs].
  apply all_below_firstn_skipn, vao_ok_below, (proj2 Hs _ _ Hv).
Qed.

Lemma sound_draw_arrays mode first count (g : GLState F) :
  gl_sound g -> gl_sound (glDrawArrays mode first count g).
Proof.
  intros Hs. unfold glDrawArrays. destruct (find_vao g (gl_bound g)) as [v|]; [|exact Hs].
  destruct (Nat.leb_spec (first + count) (vertex_count (vao_vbo v))); [|exact Hs].
  apply sound_emit, sound_fetch; [|exact Hs]. apply all_below_spec. intros k Hk%in_seq. lia.
Qed.

End Sound.

Create HintDb gl_sound discriminated.
#[export] Hint Resolve sound_bind sound_poly sound_emit sound_stderr sound_delete
  sound_draw_elements sound_draw_arrays : gl_sound.
