(* ===== verification/Primitives.v ===== *)
(** * Fixed-data shapes: box, prism, pyramids, plane

    [LoadBoxMesh], [LoadPrismMesh], [LoadPyramid3Mesh], [LoadPyramid4Mesh] and
    [LoadPlaneMesh] of [ShapeMeshes.cpp].  Their vertex data are literal
    tables (or a handful of pushes), modelled as the [std::vector<GLfloat>]
    the code hands to [InitializeMesh].  The exact instance [Q_arith] reads
    every float literal as the rational it denotes, so facts about the fixed
    tables (the normals [DrawBoxMeshSide] reaches in [Session]) are decided
    by evaluation; the fin and the pyramids are treated in the reals. *)

From Stdlib Require Import List Arith Lia ZArith QArith Reals Lra Qreals.
From S2P Require Import Prelude Layout RealModel GL.
Import ListNotations.
Local Open Scope nat_scope.

(** ** Exact rational floats *)

#[export] Instance Q_arith : Arith Q := {
  sc_zero := 0%Q;
  sc_one := 1%Q;
  sc_add := Qplus;
  sc_sub := Qminus;
  sc_mul := Qmult;
  sc_div := Qdiv;
  sc_neg := Qopp;
  sc_lit := fun q => q;
  sc_of_Z := inject_Z;
  sc_ltb := fun x y => negb (Qle_bool y x);
  sc_leb := Qle_bool
}.

(** ** Orientation of a triangle list *)
Section Facing.
Context {F : Type} `{Arith F}.
Local Open Scope sc_scope.

(** The geometric normal of triangle [(a, b, c)] for counter-clockwise
    winding: [(b - a) x (c - a)]. *)
Definition tri_normal (a b c : vec3 F) : vec3 F := cross (vsub b a) (vsub c a).

Definition vdefault : Vertex F := vtx sc_zero sc_zero sc_zero sc_zero sc_zero sc_zero sc_zero sc_zero.

(** The triangle's winding agrees with the normals of its three vertices. *)
Definition facing (vs : list (Vertex F)) (t : nat * nat * nat) : bool :=
  let '(i, j, k) := t in
  let a := nth i vs vdefault in
  let b := nth j vs vdefault in
  let c := nth k vs vdefault in
  let g := tri_normal (position a) (position b) (position c) in
  (sc_zero <? dot g (normal a)) && (sc_zero <? dot g (normal b)) && (sc_zero <? dot g (normal c)).

(** The vertex normal points away from the origin, the centre of the shape. *)
Definition outward (v : Vertex F) : bool := sc_zero <? dot (position v) (normal v).

End Facing.

(** ** LoadBoxMesh *)
Module Box.
Section Gen.
Context {F : Type} `{Arith F}.
Local Open Scope sc_scope.

(** The literal [verts] of [LoadBoxMesh]: back, bottom, left, right, top and
    front faces, four vertices each. *)
Definition box_verts : list F :=
[
   #0.5; #0.5; #(-0.5); #0.0; #0.0; #(-1.0); #0.0; #1.0;
   #0.5; #(-0.5); #(-0.5); #0.0; #0.0; #(-1.0); #0.0; #0.0;
   #(-0.5); #(-0.5); #(-0.5); #0.0; #0.0; #(-1.0); #1.0; #0.0;
   #(-0.5); #0.5; #(-0.5); #0.0; #0.0; #(-1.0); #1.0; #1.0;
   #(-0.5); #(-0.5); #0.5; #0.0; #(-1.0); #0.0; #0.0; #1.0;
   #(-0.5); #(-0.5); #(-0.5); #0.0; #(-1.0); #0.0; #0.0; #0.0;
   #0.5; #(-0.5); #(-0.5); #0.0; #(-1.0); #0.0; #1.0; #0.0;
   #0.5; #(-0.5); #0.5; #0.0; #(-1.0); #0.0; #1.0; #1.0;
   #(-0.5); #0.5; #(-0.5); #(-1.0); #0.0; #0.0; #0.0; #1.0;
   #(-0.5); #(-0.5); #(-0.5); #(-1.0); #0.0; #0.0; #0.0; #0.0;
   #(-0.5); #(-0.5); #0.5; #(-1.0); #0.0; #0.0; #1.0; #0.0;
   #(-0.5); #0.5; #0.5; #(-1.0); #0.0; #0.0; #1.0; #1.0;
   #0.5; #0.5; #0.5; #1.0; #0.0; #0.0; #0.0; #1.0;
   #0.5; #(-0.5); #0.5; #1.0; #0.0; #0.0; #0.0; #0.0;
   #0.5; #(-0.5); #(-0.5); #1.0; #0.0; #0.0; #1.0; #0.0;
   #0.5; #0.5; #(-0.5); #1.0; #0.0; #0.0; #1.0; #1.0;
   #(-0.5); #0.5; #(-0.5); #0.0; #1.0; #0.0; #0.0; #1.0;
   #(-0.5); #0.5; #0.5; #0.0; #1.0; #0.0; #0.0; #0.0;
   #0.5; #0.5; #0.5; #0.0; #1.0; #0.0; #1.0; #0.0;
   #0.5; #0.5; #(-0.5); #0.0; #1.0; #0.0; #1.0; #1.0;
   #(-0.5); #0.5; #0.5; #0.0; #0.0; #1.0; #0.0; #1.0;
   #(-0.5); #(-0.5); #0.5; #0.0; #0.0; #1.0; #0.0; #0.0;
   #0.5; #(-0.5); #0.5; #0.0; #0.0; #1.0; #1.0; #0.0;
   #0.5; #0.5; #0.5; #0.0; #0.0; #1.0; #1.0; #1.0 ].

(** The literal [indices]: two triangles per face, in the order of the faces. *)
Definition box_indices : list nat :=
  [0; 1; 2; 2; 3; 0;
   4; 5; 6; 6; 7; 4;
   8; 9; 10; 10; 11; 8;
   12; 13; 14; 14; 15; 12;
   16; 17; 18; 18; 19; 16;
   20; 21; 22; 22; 23; 20].

(** What [LoadBoxMesh] hands to [InitializeMesh]. *)
Definition LoadBoxMesh : list F * list nat := (box_verts, box_indices).

End Gen.

(** The box is 24 vertices (the float count divided by 8) and 36
    indices, every one below 24 (the spec's fixed topology). *)
Theorem box_counts {F} `{Arith F} :
  vertex_count (fst (@LoadBoxMesh F _)) = 24 /\ length (snd (@LoadBoxMesh F _)) = 36 /\
  all_below (vertex_count (fst (@LoadBoxMesh F _))) (snd (@LoadBoxMesh F _)) = true.
Proof. repeat split. Qed.

End Box.

(** ** LoadPlaneMesh *)
Module Plane.
Section Gen.
Context {F : Type} `{Arith F}.
Local Open Scope sc_scope.

Definition LoadPlaneMesh (width height : F) : list F * list nat :=
  let halfWidth := width / #2.0 in
  let halfHeight := height / #2.0 in
  ([- halfWidth; #0.0; halfHeight;    #0.0; #1.0; #0.0;  #0.0; #0.0;
    halfWidth; #0.0; halfHeight;      #0.0; #1.0; #0.0;  #1.0; #0.0;
    halfWidth; #0.0; - halfHeight;    #0.0; #1.0; #0.0;  #1.0; #1.0;
    - halfWidth; #0.0; - halfHeight;  #0.0; #1.0; #0.0;  #0.0; #1.0],
   [0; 1; 2; 0; 2; 3]).

End Gen.

(** Under [GL_TRIANGLE_STRIP] the index list [0 1 2 0 2 3] of the plane is
    four triangles, of which only the first faces the plane's normal [+y]
    (the second is the first reversed, the third is degenerate, the fourth
    is [0 2 3] reversed); under [GL_TRIANGLES] both triangles face it. *)
Lemma plane_orientation (w h : R) : (0 < w)%R -> (0 < h)%R ->
  let vs := deinterleave (fst (LoadPlaneMesh w h)) in
  map (facing vs) (assemble GL_TRIANGLE_STRIP (snd (LoadPlaneMesh w h))) = [true; false; false; false] /\
  map (facing vs) (assemble GL_TRIANGLES (snd (LoadPlaneMesh w h))) = [true; true].
Proof.
  intros Hw Hh vs. subst vs. cbn -[Rlt_dec Q2R].
  unfold facing, tri_normal, cross, vsub, dot; cbn -[Rlt_dec Q2R].
  replace (Q2R 0.0) with 0%R by (unfold Q2R; cbn; lra).
  replace (Q2R 1.0) with 1%R by (unfold Q2R; cbn; lra).
  replace (Q2R 2.0) with 2%R by (unfold Q2R; cbn; lra).
  set (a := (w / 2)%R). set (b := (h / 2)%R).
  assert (Ha : (0 < a)%R) by (unfold a; lra). assert (Hb : (0 < b)%R) by (unfold b; lra).
  clearbody a b. assert (Hab : (0 < a * b)%R) by nra.
  repeat match goal with |- context [Rlt_dec ?x ?y] => destruct (Rlt_dec x y) end;
  cbn; first [split; reflexivity | exfalso; lra].
Qed.

End Plane.

(** ** LoadPrismMesh *)
Module Prism.
Section Gen.
Context {F : Type} `{Arith F}.
Local Open Scope sc_scope.

(** The literal [verts] of [LoadPrismMesh]: back (8 vertices), bottom (4),
    left slanted (8), right slanted (8) and top (4) groups. *)
Definition prism_verts : list F :=
[
   #0.5; #0.5; #(-0.5); #0.0; #0.0; #(-1.0); #0.0; #1.0;
   #0.5; #(-0.5); #(-0.5); #0.0; #0.0; #(-1.0); #0.0; #0.0;
   #(-0.5); #(-0.5); #(-0.5); #0.0; #0.0; #(-1.0); #1.0; #0.0;
   #0.5; #0.5; #(-0.5); #0.0; #0.0; #(-1.0); #0.0; #1.0;
   #0.5; #0.5; #(-0.5); #0.0; #0.0; #(-1.0); #0.0; #1.0;
   #(-0.5); #0.5; #(-0.5); #0.0; #0.0; #(-1.0); #1.0; #1.0;
   #(-0.5); #(-0.5); #(-0.5); #0.0; #0.0; #(-1.0); #1.0; #0.0;
   #0.5; #0.5; #(-0.5); #0.0; #0.0; #(-1.0); #0.0; #1.0;
   #0.5; #(-0.5); #(-0.5); #0.0; #(-1.0); #0.0; #0.0; #0.0;
   #(-0.5); #(-0.5); #(-0.5); #0.0; #(-1.0); #0.0; #1.0; #0.0;
   #0.0; #(-0.5); #0.5; #0.0; #(-1.0); #0.0; #0.5; #1.0;
   #(-0.5); #(-0.5); #(-0.5); #0.0; #(-1.0); #0.0; #0.0; #0.0;
   #(-0.5); #(-0.5); #(-0.5); #0.894427180; #0.0; #(-0.447213590); #0.0; #0.0;
   #(-0.5); #0.5; #(-0.5); #0.894427180; #0.0; #(-0.447213590); #0.0; #1.0;
   #0.0; #0.5; #0.5; #0.894427180; #0.0; #(-0.447213590); #1.0; #1.0;
   #(-0.5); #(-0.5); #(-0.5); #0.894427180; #0.0; #(-0.447213590); #0.0; #0.0;
   #(-0.5); #(-0.5); #(-0.5); #0.894427180; #0.0; #(-0.447213590); #0.0; #0.0;
   #0.0; #(-0.5); #0.5; #0.894427180; #0.0; #(-0.447213590); #1.0; #0.0;
   #0.0; #0.5; #0.5; #0.894427180; #0.0; #(-0.447213590); #1.0; #1.0;
   #(-0.5); #(-0.5); #(-0.5); #0.894427180; #0.0; #(-0.447213590); #0.0; #0.0;
   #0.0; #0.5; #0.5; #(-0.894427180); #0.0; #(-0.447213590); #0.0; #1.0;
   #0.5; #0.5; #(-0.5); #(-0.894427180); #0.0; #(-0.447213590); #1.0; #1.0;
   #0.5; #(-0.5); #(-0.5); #(-0.894427180); #0.0; #(-0.447213590); #1.0; #0.0;
   #0.0; #0.5; #0.5; #(-0.894427180); #0.0; #(-0.447213590); #0.0; #1.0;
   #0.0; #0.5; #0.5; #(-0.894427180); #0.0; #(-0.447213590); #0.0; #1.0;
   #0.0; #(-0.5); #0.5; #(-0.894427180); #0.0; #(-0.447213590); #0.0; #0.0;
   #0.5; #(-0.5); #(-0.5); #(-0.894427180); #0.0; #(-0.447213590); #1.0; #0.0;
   #0.0; #0.5; #0.5; #(-0.894427180); #0.0; #(-0.447213590); #0.0; #1.0;
   #0.5; #0.5; #(-0.5); #0.0; #1.0; #0.0; #0.0; #0.0;
   #0.0; #0.5; #0.5; #0.0; #1.0; #0.0; #0.5; #1.0;
   #(-0.5); #0.5; #(-0.5); #0.0; #1.0; #0.0; #1.0; #0.0;
   #0.5; #0.5; #(-0.5); #0.0; #1.0; #0.0; #0.0; #0.0 ].

(** [GLuint indices[] = { 0, 1, 2 }]. *)
Definition prism_indices : list nat := [0; 1; 2].

Definition LoadPrismMesh : list F * list nat := (prism_verts, prism_indices).

End Gen.

End Prism.

(** ** LoadPyramid3Mesh and LoadPyramid4Mesh *)
Module Pyramids.
Section Gen.
Context {F : Type} `{Scalar F}.
Local Open Scope sc_scope.

(** The [calculateNormal] lambda of both pyramid loads: the normalized
    cross product of [(x1, y1, z1)] and [(x2, y2, z2)]. *)
Definition calculateNormal (x1 y1 z1 x2 y2 z2 : F) : vec3 F :=
  let nx := y1 * z2 - z1 * y2 in
  let ny := z1 * x2 - x1 * z2 in
  let nz := x1 * y2 - y1 * x2 in
  let length := sc_sqrt (nx * nx + ny * ny + nz * nz) in
  mkv3 (nx / length) (ny / length) (nz / length).

(** [struct Face] of [LoadPyramid3Mesh]. *)
Record Face3 := mkFace3 { top : vec3 F; bottom1 : vec3 F; bottom2 : vec3 F; fnormal : vec3 F }.

(** The three side faces, with the arguments the code passes to
    [calculateNormal] ([halfBase = height = 0.5f]). *)
Definition pyramid3_faces : list Face3 :=
  let halfBase := #0.5 in
  let height := #0.5 in
  [ mkFace3 (mkv3 #0.0 height #0.0) (mkv3 (- halfBase) (- height) halfBase) (mkv3 #0.0 (- height) (- halfBase))
      (calculateNormal (- halfBase) (- height - height) (halfBase - #0.0)
                       #0.0 (- height - height) (- halfBase - halfBase));
    mkFace3 (mkv3 #0.0 height #0.0) (mkv3 #0.0 (- height) (- halfBase)) (mkv3 halfBase (- height) halfBase)
      (calculateNormal #0.0 (- height - height) (- halfBase - #0.0)
                       halfBase (- height - height) (halfBase - - halfBase));
    mkFace3 (mkv3 #0.0 height #0.0) (mkv3 halfBase (- height) halfBase) (mkv3 (- halfBase) (- height) halfBase)
      (calculateNormal halfBase (- height - height) (halfBase - #0.0)
                       (- halfBase) (- height - height) (halfBase - halfBase)) ].

Definition vtx_pn (p n : vec3 F) (u v : F) : Vertex F := mkVertex p n (mkv2 u v).

(** One iteration of [for (const auto& face : faces)]. *)
Definition pyramid3_face (f : Face3) : list (Vertex F) :=
  [vtx_pn (top f) (fnormal f) #0.5 #1.0;
   vtx_pn (bottom1 f) (fnormal f) #0.0 #0.0;
   vtx_pn (bottom2 f) (fnormal f) #1.0 #0.0].

Definition pyramid3_base : list (Vertex F) :=
  let halfBase := #0.5 in
  let height := #0.5 in
  [vtx (- halfBase) (- height) halfBase #0.0 #(-1.0) #0.0 #0.0 #1.0;
   vtx halfBase (- height) halfBase #0.0 #(-1.0) #0.0 #1.0 #1.0;
   vtx #0.0 (- height) (- halfBase) #0.0 #(-1.0) #0.0 #0.5 #0.0].

(** No indices: [InitializeMesh(m_Pyramid3Mesh, verts, {})]. *)
Definition LoadPyramid3Mesh : list F * list nat :=
  (interleave (flat_map pyramid3_face pyramid3_faces ++ pyramid3_base), []).

(** [struct Face] of [LoadPyramid4Mesh]. *)
Record Face4 := mkFace4 { apex : vec3 F; bottomLeft : vec3 F; bottomRight : vec3 F }.

Definition pyramid4_bottom (halfBase : F) : list (Vertex F) :=
  [vtx (- halfBase) (- halfBase) halfBase #0.0 #(-1.0) #0.0 #0.0 #1.0;
   vtx (- halfBase) (- halfBase) (- halfBase) #0.0 #(-1.0) #0.0 #0.0 #0.0;
   vtx halfBase (- halfBase) (- halfBase) #0.0 #(-1.0) #0.0 #1.0 #0.0;
   vtx (- halfBase) (- halfBase) halfBase #0.0 #(-1.0) #0.0 #0.0 #1.0;
   vtx halfBase (- halfBase) (- halfBase) #0.0 #(-1.0) #0.0 #1.0 #0.0;
   vtx halfBase (- halfBase) halfBase #0.0 #(-1.0) #0.0 #1.0 #1.0].

(** Left, back, right and front faces; the apex is at [height / 2] while the
    base is at [- baseSize / 2]. *)
Definition pyramid4_faces (halfBase height : F) : list Face4 :=
  let t := mkv3 #0.0 (height / #2.0) #0.0 in
  [ mkFace4 t (mkv3 (- halfBase) (- halfBase) (- halfBase)) (mkv3 (- halfBase) (- halfBase) halfBase);
    mkFace4 t (mkv3 halfBase (- halfBase) (- halfBase)) (mkv3 (- halfBase) (- halfBase) (- halfBase));
    mkFace4 t (mkv3 halfBase (- halfBase) halfBase) (mkv3 halfBase (- halfBase) (- halfBase));
    mkFace4 t (mkv3 (- halfBase) (- halfBase) halfBase) (mkv3 halfBase (- halfBase) halfBase) ].

(** One iteration: [normal = normalize(cross(bottomRight - bottomLeft, top - bottomLeft))]. *)
Definition pyramid4_face (f : Face4) : list (Vertex F) :=
  let u := vsub (bottomRight f) (bottomLeft f) in
  let v := vsub (apex f) (bottomLeft f) in
  let n := normalize (cross u v) in
  [vtx_pn (apex f) n #0.5 #1.0; vtx_pn (bottomLeft f) n #0.0 #0.0; vtx_pn (bottomRight f) n #1.0 #0.0].

Definition LoadPyramid4Mesh (baseSize height : F) : list F * list nat :=
  let halfBase := baseSize / #2.0 in
  (interleave (pyramid4_bottom halfBase ++ flat_map pyramid4_face (pyramid4_faces halfBase height)), []).

End Gen.

(** C31: the normals of [LoadPyramid3Mesh] are not the normals of its side
    faces.  The code passes the edge [bottom1 - top] as the first vector of
    [calculateNormal] but, as the second, a vector whose [z] is
    [bottom2.z - bottom1.z] (or [bottom2.z - top.z] doubled) instead of
    [bottom2 - top]: in the real semantics each stored normal is orthogonal to
    the first edge and not to the second. *)
Theorem pyramid3_normals_skewed :
  Forall (fun f : Face3 (F := R) =>
            dot (fnormal f) (vsub (bottom1 f) (top f)) = 0%R /\
            dot (fnormal f) (vsub (bottom2 f) (top f)) <> 0%R) pyramid3_faces.
Proof.
  unfold pyramid3_faces.
  repeat constructor; unfold calculateNormal; cbv zeta; cbn [fnormal bottom1 bottom2 top];
  (rewrite dot_div; [unfold vsub; cbn [vx vy vz];
                     cbn [sc_mul sc_sub sc_add sc_neg sc_lit sc_div R_arith]; unfold Q2R;
                     cbn -[sqrt IZR]
                    | cbn [sc_sqrt R_scalar]; apply Rgt_not_eq, sqrt_lt_R0; cbn; unfold Q2R;
                      cbn -[IZR]; lra]).
  all: unfold Rdiv; first
    [ apply Rmult_eq_0_compat_r; lra
    | apply Rmult_integral_contrapositive_currified;
      [lra | apply Rinv_neq_0_compat, Rgt_not_eq, sqrt_lt_R0; lra] ].
Qed.

End Pyramids.

(** ** LoadFinMesh *)
Module Fin.
Section Gen.
Context {F : Type} `{Arith F}.
Local Open Scope sc_scope.

(** The lambda [addVertex(v, normal, texCoord)]. *)
Definition addVertex (v n : vec3 F) (t : vec2 F) : Vertex F := mkVertex v n t.

(** The corners [v0 .. v7] of the right-angled trapezoid prism and the 24
    [addVertex] calls: front, back, top, bottom, left, right. *)
Definition fin_vertices (baseLength topLength height thickness : F) : list (Vertex F) :=
  let halfThickness := thickness / #2.0 in
  let v0 := mkv3 #0.0 #0.0 (- halfThickness) in
  let v1 := mkv3 baseLength #0.0 (- halfThickness) in
  let v2 := mkv3 #0.0 height (- halfThickness) in
  let v3 := mkv3 topLength height (- halfThickness) in
  let v4 := mkv3 #0.0 #0.0 halfThickness in
  let v5 := mkv3 baseLength #0.0 halfThickness in
  let v6 := mkv3 #0.0 height halfThickness in
  let v7 := mkv3 topLength height halfThickness in
  let t0 := mkv2 #0.0 #0.0 in
  [addVertex v0 (mkv3 #0.0 #0.0 #(-1.0)) t0; addVertex v1 (mkv3 #0.0 #0.0 #(-1.0)) (mkv2 #1.0 #0.0);
   addVertex v2 (mkv3 #0.0 #0.0 #(-1.0)) (mkv2 #0.0 #1.0); addVertex v3 (mkv3 #0.0 #0.0 #(-1.0)) (mkv2 #1.0 #1.0);
   addVertex v4 (mkv3 #0.0 #0.0 #1.0) t0; addVertex v5 (mkv3 #0.0 #0.0 #1.0) (mkv2 #1.0 #0.0);
   addVertex v6 (mkv3 #0.0 #0.0 #1.0) (mkv2 #0.0 #1.0); addVertex v7 (mkv3 #0.0 #0.0 #1.0) (mkv2 #1.0 #1.0);
   addVertex v2 (mkv3 #0.0 #1.0 #0.0) t0; addVertex v3 (mkv3 #0.0 #1.0 #0.0) t0;
   addVertex v6 (mkv3 #0.0 #1.0 #0.0) t0; addVertex v7 (mkv3 #0.0 #1.0 #0.0) t0;
   addVertex v0 (mkv3 #0.0 #(-1.0) #0.0) t0; addVertex v1 (mkv3 #0.0 #(-1.0) #0.0) t0;
   addVertex v4 (mkv3 #0.0 #(-1.0) #0.0) t0; addVertex v5 (mkv3 #0.0 #(-1.0) #0.0) t0;
   addVertex v0 (mkv3 #(-1.0) #0.0 #0.0) t0; addVertex v2 (mkv3 #(-1.0) #0.0 #0.0) t0;
   addVertex v4 (mkv3 #(-1.0) #0.0 #0.0) t0; addVertex v6 (mkv3 #(-1.0) #0.0 #0.0) t0;
   addVertex v1 (mkv3 #1.0 #0.0 #0.0) t0; addVertex v3 (mkv3 #1.0 #0.0 #0.0) t0;
   addVertex v5 (mkv3 #1.0 #0.0 #0.0) t0; addVertex v7 (mkv3 #1.0 #0.0 #0.0) t0].

(** The literal [indices]: front, back, top, bottom, left, right. *)
Definition fin_indices : list nat :=
  [0; 1; 2; 1; 3; 2;
   4; 6; 5; 5; 6; 7;
   8; 9; 10; 9; 11; 10;
   12; 14; 13; 14; 15; 13;
   16; 18; 17; 17; 18; 19;
   20; 21; 22; 21; 23; 22].

Definition LoadFinMesh (baseLength topLength height thickness : F) : list (Vertex F) * list nat :=
  (fin_vertices baseLength topLength height thickness, fin_indices).

End Gen.

(** The fin has 24 vertices and 36 indices, all below 24. *)
Lemma fin_counts {F} `{Arith F} (baseLength topLength height thickness : F) :
  length (fst (LoadFinMesh baseLength topLength height thickness)) = 24 /\
  length (snd (LoadFinMesh baseLength topLength height thickness)) = 36 /\
  all_below 24 (snd (LoadFinMesh baseLength topLength height thickness)) = true.
Proof. repeat split. Qed.

(** C25: for positive sizes, the front, back, top and bottom faces of the fin
    are wound against their own normals (each triangle's geometric normal
    points opposite to the normal its vertices carry, unlike the box), and
    only the left and right faces agree with their normals. *)
Theorem fin_winding (baseLength topLength height thickness : R) :
  (0 < baseLength)%R -> (0 < topLength)%R -> (0 < height)%R -> (0 < thickness)%R ->
  let '(vs, ixs) := LoadFinMesh baseLength topLength height thickness in
  map (facing vs) (triangles ixs) =
  [false; false; false; false; false; false; false; false; true; true; true; true].
Proof.
  intros Hb Ht Hh Hth. cbn [LoadFinMesh fin_indices triangles map].
  assert (Hq : (0 < thickness / 2)%R) by lra.
  assert (P1 : (0 < baseLength * height)%R) by nra. assert (P2 : (0 < topLength * height)%R) by nra.
  assert (P3 : (0 < thickness / 2 * height)%R) by nra.
  assert (P4 : (0 < thickness / 2 * baseLength)%R) by nra.
  assert (P5 : (0 < thickness / 2 * topLength)%R) by nra.
  ring_simplify in P1. ring_simplify in P2. ring_simplify in P3. ring_simplify in P4. ring_simplify in P5.
  repeat match goal with |- _ :: _ = _ :: _ => f_equal end;
  unfold facing, tri_normal, cross, vsub, dot, fin_vertices, addVertex;
  cbn -[Rlt_dec Q2R Rplus Rmult Rminus Ropp Rdiv Rinv IZR];
  replace (Q2R 0.0) with 0%R by (unfold Q2R; cbn; lra);
  replace (Q2R 1.0) with 1%R by (unfold Q2R; cbn; lra);
  replace (Q2R 2.0) with 2%R by (unfold Q2R; cbn; lra);
  try replace (Q2R (-1.0)) with (-1)%R by (unfold Q2R; cbn; lra);
  repeat match goal with |- context [Rlt_dec ?x ?y] => (destruct (Rlt_dec x y) as [Hd|Hd]) end;
  cbn; first [reflexivity | exfalso; ring_simplify in Hd; lra | exfalso; nra].
Qed.

Lemma fin_winding_witness :
  ((0 < 2)%R /\ (0 < 1)%R /\ (0 < 3)%R /\ (0 < 1)%R) /\
  (let '(vs, ixs) := LoadFinMesh 2%R 1%R 3%R 1%R in
   map (facing vs) (triangles ixs) =
   [false; false; false; false; false; false; false; false; true; true; true; true]).
Proof. split; [lra | apply fin_winding; lra]. Defined.

End Fin.

(** ** The primitives' buffers hold whole vertices and their element
    buffers name their own vertices *)
Section Valid.
Context {F : Type} `{Scalar F}.

Lemma box_valid : vao_ok (mkVAO (fst (@Box.LoadBoxMesh F _)) (snd (@Box.LoadBoxMesh F _)) true) = true.
Proof. reflexivity. Qed.

Lemma plane_valid (width height : F) :
  vao_ok (mkVAO (fst (Plane.LoadPlaneMesh width height)) (snd (Plane.LoadPlaneMesh width height)) true) = true.
Proof. reflexivity. Qed.

Lemma prism_valid :
  vao_ok (mkVAO (fst (@Prism.LoadPrismMesh F _)) (snd (@Prism.LoadPrismMesh F _)) true) = true.
Proof. reflexivity. Qed.

Lemma pyramid3_valid :
  vao_ok (mkVAO (fst (@Pyramids.LoadPyramid3Mesh F _ _)) (snd (@Pyramids.LoadPyramid3Mesh F _ _)) true) = true.
Proof. reflexivity. Qed.

Lemma pyramid4_valid (baseSize height : F) :
  vao_ok (mkVAO (fst (Pyramids.LoadPyramid4Mesh baseSize height))
                (snd (Pyramids.LoadPyramid4Mesh baseSize height)) true) = true.
Proof. reflexivity. Qed.

Lemma fin_valid (baseLength topLength height thickness : F) :
  vao_ok (mkVAO (interleave (fst (Fin.LoadFinMesh baseLength topLength height thickness)))
                Fin.fin_indices true) = true.
Proof. reflexivity. Qed.

End Valid.
