(* ===== verification/Registry.v ===== *)
(** * The mesh registry: the state of class [ShapeMeshes]

    The members of [ShapeMeshes.h]: one [GLMesh] per shape ([m_BoxMesh],
    [m_ConeMesh], ...), the twelve warn-once flags of the deprecated
    wrappers, the flag [m_bMemoryLayoutDone], and, standing for the GPU, the
    Render Backend state of [GL].  [InitializeMesh] is the upload every load
    ends with; each [LoadXMesh] method is the generator of its component file
    composed with it, with the [numSlices] bookkeeping of the code.  The
    state is passed explicitly: every method is a function [SM F -> SM F]. *)

From Stdlib Require Import List Arith Lia ZArith QArith String.
From S2P Require Import Prelude Layout RealModel Axisymmetric Grids Sweeps Custom Spiral Primitives GL.
Import ListNotations.
Local Open Scope nat_scope.

(** The [GLMesh] members of the class. *)
Inductive Shape :=
  | Box | Cone | Cylinder | Plane | Prism | Pyramid3 | Pyramid4 | Sphere | Hemisphere
  | TaperedCylinder | Torus | ExtraTorus1 | ExtraTorus2 | Spring | Tube | Fin
  | CurvedCone | TaperedTorus | Spiral | SineCone | Superellipsoid.

Scheme Equality for Shape.

(** The warn-once flags [boxWarned], ..., [halfTorusWarned]. *)
Inductive Warn :=
  | boxWarned | coneWarned | cylinderWarned | planeWarned | prismWarned | pyramid3Warned
  | pyramid4Warned | sphereWarned | halfSphereWarned | taperedCylinderWarned | torusWarned
  | halfTorusWarned.

Scheme Equality for Warn.

(** [struct GLMesh]; the default member initializers are zero. *)
Record GLMesh := mkGLMesh {
  vao : nat; vbo : nat;
  vbos0 : nat;      (** [vbos[0]], written only by the extra tori; [vbos[1]] and [ibo] are never used *)
  ebo : nat; nVertices : nat; nIndices : nat;
  numSlices : Z; curveSteps : Z
}.

Definition mesh0 : GLMesh := mkGLMesh 0 0 0 0 0 0 0 0.

Module Registry.
Section Class.
Context {F : Type} `{Scalar F}.

Record SM := mkSM {
  meshes : Shape -> GLMesh;
  warned : Warn -> bool;
  m_bMemoryLayoutDone : bool;
  gl : GLState F
}.

(** The constructor: every flag false, every mesh zero, no GL object. *)
Definition ShapeMeshes : SM := mkSM (fun _ => mesh0) (fun _ => false) false gl_init.

Definition set_mesh (s : Shape) (m : GLMesh) (st : SM) : SM :=
  mkSM (fun t => if Shape_beq t s then m else meshes st t) (warned st)
       (m_bMemoryLayoutDone st) (gl st).

Definition set_gl (g : GLState F) (st : SM) : SM :=
  mkSM (meshes st) (warned st) (m_bMemoryLayoutDone st) g.

Definition set_warned (w : Warn) (st : SM) : SM :=
  mkSM (meshes st) (fun x => if Warn_beq x w then true else warned st x)
       (m_bMemoryLayoutDone st) (gl st).

(** [mesh.numSlices = numSlices] before the upload. *)
Definition set_numSlices (s : Shape) (n : Z) (st : SM) : SM :=
  let m := meshes st s in
  set_mesh s (mkGLMesh (vao m) (vbo m) (vbos0 m) (ebo m) (nVertices m) (nIndices m) n (curveSteps m)) st.

(** [mesh.curveSteps = curveSteps]. *)
Definition set_curveSteps (s : Shape) (n : Z) (st : SM) : SM :=
  let m := meshes st s in
  set_mesh s (mkGLMesh (vao m) (vbo m) (vbos0 m) (ebo m) (nVertices m) (nIndices m) (numSlices m) n) st.

(** [mesh.nVertices = ...; mesh.nIndices = ...;] outside [InitializeMesh]. *)
Definition set_counts (s : Shape) (nV nI : nat) (st : SM) : SM :=
  let m := meshes st s in
  set_mesh s (mkGLMesh (vao m) (vbo m) (vbos0 m) (ebo m) nV nI (numSlices m) (curveSteps m)) st.

(** [SetWireframeMode]. *)
Definition SetWireframeMode (wireframe : bool) : GLState F -> GLState F := glPolygonMode wireframe.

(** [SetShaderMemoryLayout]: position, normal and texture-coordinate
    attributes of the bound VAO at stride [sizeof(Vertex)]. *)
Definition SetShaderMemoryLayout : GLState F -> GLState F := glSetLayout.

(** [InitializeMesh(mesh, verts, indices)]: the counts, a fresh VAO and VBO,
    an EBO only for a non-empty index list, the layout while
    [m_bMemoryLayoutDone] is false (nothing ever sets it), and the unbind. *)
Definition InitializeMesh (s : Shape) (verts : list F) (indices : list nat) (st : SM) : SM :=
  let mesh := meshes st s in
  let nV := vertex_count verts in
  let nI := List.length indices in
  let '(vao', g) := glGenVertexArrays (gl st) in
  let g := glBindVertexArray vao' g in
  let '(vbo', g) := glGenBuffers g in
  let g := glBufferVertices verts g in
  let '(ebo', g) :=
    match indices with
    | [] => (ebo mesh, g)
    | _ :: _ => let '(e, g) := glGenBuffers g in (e, glBufferElements indices g)
    end in
  let g := if negb (m_bMemoryLayoutDone st) then SetShaderMemoryLayout g else g in
  let g := glBindVertexArray 0 g in
  set_gl g (set_mesh s (mkGLMesh vao' vbo' (vbos0 mesh) ebo' nV nI (numSlices mesh) (curveSteps mesh)) st).

(** ** The loads *)

Definition upload (s : Shape) (m : MeshData F) : SM -> SM :=
  InitializeMesh s (interleave (mverts m)) (mindices m).

Definition LoadBoxMesh (st : SM) : SM :=
  let '(verts, indices) := Box.LoadBoxMesh in InitializeMesh Box verts indices st.

Definition LoadConeMesh (radius height : F) (numSlices : Z) (st : SM) : SM :=
  let '(n, m) := Cone.LoadConeMesh radius height numSlices in
  upload Cone m (set_numSlices Cone n st).

Definition LoadCylinderMesh (radius height : F) (numSlices : Z) (st : SM) : SM :=
  let '(n, m) := Cylinder.LoadCylinderMesh radius height numSlices in
  upload Cylinder m (set_numSlices Cylinder n st).

Definition LoadPlaneMesh (width height : F) (st : SM) : SM :=
  let '(verts, indices) := Plane.LoadPlaneMesh width height in InitializeMesh Plane verts indices st.

Definition LoadPrismMesh (st : SM) : SM :=
  let '(verts, indices) := Prism.LoadPrismMesh in InitializeMesh Prism verts indices st.

Definition LoadPyramid3Mesh (st : SM) : SM :=
  let '(verts, indices) := Pyramids.LoadPyramid3Mesh in InitializeMesh Pyramid3 verts indices st.

Definition LoadPyramid4Mesh (baseSize height : F) (st : SM) : SM :=
  let '(verts, indices) := Pyramids.LoadPyramid4Mesh baseSize height in
  InitializeMesh Pyramid4 verts indices st.

Definition LoadSphereMesh (latitudeSegments longitudeSegments : Z) (radius : F) (st : SM) : SM :=
  upload Sphere (Sphere.LoadSphereMesh latitudeSegments longitudeSegments radius) st.

Definition LoadHemisphereMesh (latitudeSegments longitudeSegments : Z) (radius : F) (st : SM) : SM :=
  upload Hemisphere (Hemisphere.LoadHemisphereMesh latitudeSegments longitudeSegments radius) st.

Definition LoadTaperedCylinderMesh (bottomRadius topRadius height : F) (numSlices : Z) (st : SM) : SM :=
  let '(n, m) := TaperedCylinder.LoadTaperedCylinderMesh bottomRadius topRadius height numSlices in
  upload TaperedCylinder m (set_numSlices TaperedCylinder n st).

Definition LoadTorusMesh (mainRadius tubeRadius : F) (mainSegments tubeSegments : Z) (st : SM) : SM :=
  upload Torus (Torus.LoadTorusMesh mainRadius tubeRadius mainSegments tubeSegments) st.

Definition LoadTubeMesh (outerRadius innerRadius height : F) (numSlices : Z) (st : SM) : SM :=
  let '(n, m) := Tube.LoadTubeMesh outerRadius innerRadius height numSlices in
  upload Tube m (set_numSlices Tube n st).

(** [LoadExtraTorusMesh1(thickness)] and [LoadExtraTorusMesh2(thickness)]
    write their upload out instead of calling [InitializeMesh]: the counts
    ([nVertices = vertex_list.size()], [nIndices = 0]), a fresh VAO, one
    buffer name in [vbos[0]] holding [combined_values], the layout while the
    flag is false, and no unbind: the VAO stays bound. *)
Definition load_extra_torus (s : Shape) (thickness : F) (st : SM) : SM :=
  let vertex_list := ExtraTorus.LoadExtraTorusMesh thickness in
  let mesh := meshes st s in
  let '(vao', g) := glGenVertexArrays (gl st) in
  let g := glBindVertexArray vao' g in
  let '(vbos0', g) := glGenBuffers g in
  let g := glBufferVertices (interleave vertex_list) g in
  let g := if negb (m_bMemoryLayoutDone st) then SetShaderMemoryLayout g else g in
  set_gl g (set_mesh s (mkGLMesh vao' (vbo mesh) vbos0' (ebo mesh) (List.length vertex_list) 0
                          (numSlices mesh) (curveSteps mesh)) st).

Definition LoadExtraTorusMesh1 (thickness : F) : SM -> SM := load_extra_torus ExtraTorus1 thickness.

Definition LoadExtraTorusMesh2 (thickness : F) : SM -> SM := load_extra_torus ExtraTorus2 thickness.

(** [LoadSpringMesh]: the counts it stores before the call are the ones
    [InitializeMesh] stores again. *)
Definition LoadSpringMesh (mainRadius tubeRadius : F) (mainSegments tubeSegments : Z)
  (springLength : F) (st : SM) : SM :=
  upload Spring (Spring.LoadSpringMesh mainRadius tubeRadius mainSegments tubeSegments springLength) st.

(** [LoadFinMesh]: its own upload, with the names taken before the
    binding, the three attribute pointers set unconditionally, the unbind,
    and only [nIndices] stored: [nVertices] keeps its value. *)
Definition LoadFinMesh (baseLength topLength height thickness : F) (st : SM) : SM :=
  let '(verts, indices) := Fin.LoadFinMesh baseLength topLength height thickness in
  let mesh := meshes st Fin in
  let '(vao', g) := glGenVertexArrays (gl st) in
  let '(vbo', g) := glGenBuffers g in
  let '(ebo', g) := glGenBuffers g in
  let g := glBindVertexArray vao' g in
  let g := glBufferVertices (interleave verts) g in
  let g := glBufferElements indices g in
  let g := glSetLayout g in
  let g := glBindVertexArray 0 g in
  set_gl g (set_mesh Fin (mkGLMesh vao' vbo' (vbos0 mesh) ebo' (nVertices mesh) (List.length indices)
                            (numSlices mesh) (curveSteps mesh)) st).

(** [LoadCurvedConeMesh]: the clamped [numSlices] and [curveSteps] stored
    in the mesh, then the upload. *)
Definition LoadCurvedConeMesh (numSlices curveSteps : Z) (radius height bendRadius : F) (st : SM) : SM :=
  let '(n, c, m) := CurvedCone.LoadCurvedConeMesh numSlices curveSteps radius height bendRadius in
  upload CurvedCone m (set_curveSteps CurvedCone c (set_numSlices CurvedCone n st)).

(** The loads of the meshes their draw method uploads: a VAO name and two
    buffer names, nothing bound and nothing uploaded. *)
Definition load_names (s : Shape) (st : SM) : SM :=
  let mesh := meshes st s in
  let '(vao', g) := glGenVertexArrays (gl st) in
  let '(vbo', g) := glGenBuffers g in
  let '(ebo', g) := glGenBuffers g in
  set_gl g (set_mesh s (mkGLMesh vao' vbo' (vbos0 mesh) ebo' (nVertices mesh) (nIndices mesh)
                          (numSlices mesh) (curveSteps mesh)) st).

Definition LoadTaperedTorusMesh : SM -> SM := load_names TaperedTorus.

Definition LoadSpiralMesh : SM -> SM := load_names Spiral.

Definition LoadSineConeMesh : SM -> SM := load_names SineCone.

Definition LoadSuperellipsoidMesh : SM -> SM := load_names Superellipsoid.

(** ** The object store after an upload *)

Lemma find_update (f : VAO F -> VAO F) (g : GLState F) m :
  find_vao (update_bound f g) m =
  if m =? gl_bound g then option_map f (find_vao g m) else find_vao g m.
Proof.
  unfold find_vao, update_bound. cbn [gl_vaos gl_bound].
  induction (gl_vaos g) as [|[k v] l IH]; [now destruct (m =? gl_bound g)|].
  cbn [map find fst snd]. destruct (Nat.eqb_spec k (gl_bound g)) as [->|Hk]; cbn [fst snd].
  - destruct (Nat.eqb_spec (gl_bound g) m) as [->|Hm]; [now rewrite Nat.eqb_refl|].
    rewrite IH. destruct (Nat.eqb_spec m (gl_bound g)); [congruence|reflexivity].
  - destruct (Nat.eqb_spec k m) as [->|Hm]; [|exact IH].
    destruct (Nat.eqb_spec m (gl_bound g)); [congruence|reflexivity].
Qed.

Lemma bound_update (f : VAO F -> VAO F) (g : GLState F) : gl_bound (update_bound f g) = gl_bound g.
Proof. reflexivity. Qed.

Lemma find_bind (g : GLState F) k m : find_vao (glBindVertexArray k g) m = find_vao g m.
Proof. reflexivity. Qed.

Lemma bound_bind (g : GLState F) k : gl_bound (glBindVertexArray k g) = k.
Proof. reflexivity. Qed.

Lemma find_vao_mk (g : GLState F) n b w lg f m :
  find_vao (mkGL n (gl_vaos g) b w lg f) m = find_vao g m.
Proof. reflexivity. Qed.

(** What [InitializeMesh] leaves in the object store: the VAO named by the
    counter holds [verts] and [indices], with the layout set when the flag
    is false; every other name finds what it found before. *)
Lemma initialize_find (s : Shape) verts indices st m :
  find_vao (gl (InitializeMesh s verts indices st)) m =
  if m =? gl_next (gl st) then Some (mkVAO verts indices (negb (m_bMemoryLayoutDone st)))
  else find_vao (gl st) m.
Proof.
  unfold InitializeMesh, glBufferVertices, glBufferElements, SetShaderMemoryLayout, glSetLayout.
  destruct indices as [|i ixs], (m_bMemoryLayoutDone st);
    cbn [negb glGenVertexArrays glGenBuffers set_gl gl fst snd];
    repeat (rewrite ?find_update, ?find_vao_mk, ?find_bind, ?bound_update, ?bound_bind;
            cbn [gl_bound]);
    unfold find_vao; cbn [gl_vaos find fst];
    destruct (Nat.eqb_spec m (gl_next (gl st))) as [->|Hne]; rewrite ?Nat.eqb_refl;
    try reflexivity; rewrite (proj2 (Nat.eqb_neq _ _) (not_eq_sym Hne)); reflexivity.
Qed.

Lemma initialize_next (s : Shape) verts indices st :
  gl_next (gl st) < gl_next (gl (InitializeMesh s verts indices st)).
Proof. unfold InitializeMesh. destruct indices, (m_bMemoryLayoutDone st); cbn; lia. Qed.

(** The mesh record: the new names and counts for [s], nothing else changed. *)
Lemma initialize_meshes (s t : Shape) verts indices st :
  meshes (InitializeMesh s verts indices st) t =
  if Shape_beq t s
  then mkGLMesh (gl_next (gl st)) (S (gl_next (gl st))) (vbos0 (meshes st s))
         (match indices with [] => ebo (meshes st s) | _ => S (S (gl_next (gl st))) end)
         (vertex_count verts) (List.length indices) (numSlices (meshes st s)) (curveSteps (meshes st s))
  else meshes st t.
Proof. unfold InitializeMesh. destruct indices, (m_bMemoryLayoutDone st); reflexivity. Qed.

Lemma initialize_flag (s : Shape) verts indices st :
  m_bMemoryLayoutDone (InitializeMesh s verts indices st) = m_bMemoryLayoutDone st /\
  warned (InitializeMesh s verts indices st) = warned st /\
  gl_log (gl (InitializeMesh s verts indices st)) = gl_log (gl st).
Proof. unfold InitializeMesh. destruct indices, (m_bMemoryLayoutDone st) eqn:E; cbn; auto. Qed.

Lemma initialize_fault (s : Shape) verts indices st :
  gl_fault (gl (InitializeMesh s verts indices st)) = gl_fault (gl st).
Proof. unfold InitializeMesh. destruct indices, (m_bMemoryLayoutDone st); reflexivity. Qed.

Lemma extra_fault (s : Shape) thickness st :
  gl_fault (gl (load_extra_torus s thickness st)) = gl_fault (gl st).
Proof. unfold load_extra_torus. destruct (m_bMemoryLayoutDone st); reflexivity. Qed.

(** What the extra-torus loads leave: the VAO named by the counter holds
    the interleaved vertices and no element, with the layout set when the
    flag is false. *)
Lemma extra_find (s : Shape) thickness st m :
  find_vao (gl (load_extra_torus s thickness st)) m =
  if m =? gl_next (gl st)
  then Some (mkVAO (interleave (ExtraTorus.LoadExtraTorusMesh thickness)) [] (negb (m_bMemoryLayoutDone st)))
  else find_vao (gl st) m.
Proof.
  unfold load_extra_torus, glBufferVertices, SetShaderMemoryLayout, glSetLayout.
  destruct (m_bMemoryLayoutDone st);
    cbn [negb glGenVertexArrays glGenBuffers set_gl gl fst snd];
    repeat (rewrite ?find_update, ?find_vao_mk, ?find_bind, ?bound_update, ?bound_bind;
            cbn [gl_bound]);
    unfold find_vao; cbn [gl_vaos find fst];
    destruct (Nat.eqb_spec m (gl_next (gl st))) as [->|Hne]; rewrite ?Nat.eqb_refl;
    try reflexivity; rewrite (proj2 (Nat.eqb_neq _ _) (not_eq_sym Hne)); reflexivity.
Qed.

Lemma extra_next (s : Shape) thickness st :
  gl_next (gl st) < gl_next (gl (load_extra_torus s thickness st)).
Proof. unfold load_extra_torus. destruct (m_bMemoryLayoutDone st); cbn; lia. Qed.

Lemma extra_meshes (s t : Shape) thickness st :
  meshes (load_extra_torus s thickness st) t =
  if Shape_beq t s
  then mkGLMesh (gl_next (gl st)) (vbo (meshes st s)) (S (gl_next (gl st))) (ebo (meshes st s))
         (List.length (ExtraTorus.LoadExtraTorusMesh thickness)) 0
         (numSlices (meshes st s)) (curveSteps (meshes st s))
  else meshes st t.
Proof. unfold load_extra_torus. destruct (m_bMemoryLayoutDone st); reflexivity. Qed.

Lemma extra_flag (s : Shape) thickness st :
  m_bMemoryLayoutDone (load_extra_torus s thickness st) = m_bMemoryLayoutDone st /\
  warned (load_extra_torus s thickness st) = warned st /\
  gl_log (gl (load_extra_torus s thickness st)) = gl_log (gl st).
Proof. unfold load_extra_torus. destruct (m_bMemoryLayoutDone st) eqn:E; cbn; auto. Qed.

Lemma fin_find baseLength topLength height thickness st m :
  find_vao (gl (LoadFinMesh baseLength topLength height thickness st)) m =
  if m =? gl_next (gl st)
  then Some (mkVAO (interleave (fst (Fin.LoadFinMesh baseLength topLength height thickness)))
               Fin.fin_indices true)
  else find_vao (gl st) m.
Proof.
  unfold LoadFinMesh, glBufferVertices, glBufferElements, glSetLayout.
  cbn [Fin.LoadFinMesh glGenVertexArrays glGenBuffers set_gl gl fst snd].
  repeat (rewrite ?find_update, ?find_vao_mk, ?find_bind, ?bound_update, ?bound_bind; cbn [gl_bound]).
  unfold find_vao; cbn [gl_vaos find fst].
  destruct (Nat.eqb_spec m (gl_next (gl st))) as [->|Hne]; rewrite ?Nat.eqb_refl;
    try reflexivity; rewrite (proj2 (Nat.eqb_neq _ _) (not_eq_sym Hne)); reflexivity.
Qed.

Lemma fin_next baseLength topLength height thickness st :
  gl_next (gl st) < gl_next (gl (LoadFinMesh baseLength topLength height thickness st)).
Proof. cbn. lia. Qed.

Lemma fin_meshes t baseLength topLength height thickness st :
  meshes (LoadFinMesh baseLength topLength height thickness st) t =
  if Shape_beq t Fin
  then mkGLMesh (gl_next (gl st)) (S (gl_next (gl st))) (vbos0 (meshes st Fin)) (S (S (gl_next (gl st))))
         (nVertices (meshes st Fin)) 36 (numSlices (meshes st Fin)) (curveSteps (meshes st Fin))
  else meshes st t.
Proof. reflexivity. Qed.

Lemma fin_flag baseLength topLength height thickness st :
  m_bMemoryLayoutDone (LoadFinMesh baseLength topLength height thickness st) = m_bMemoryLayoutDone st /\
  warned (LoadFinMesh baseLength topLength height thickness st) = warned st /\
  gl_log (gl (LoadFinMesh baseLength topLength height thickness st)) = gl_log (gl st).
Proof. repeat split. Qed.

(** What the name-only loads leave: an empty VAO without layout. *)
Lemma names_find (s : Shape) st m :
  find_vao (gl (load_names s st)) m =
  if m =? gl_next (gl st) then Some (mkVAO [] [] false) else find_vao (gl st) m.
Proof.
  unfold load_names, find_vao. cbn [glGenVertexArrays glGenBuffers set_gl gl gl_vaos find fst].
  destruct (Nat.eqb_spec m (gl_next (gl st))) as [->|Hne]; rewrite ?Nat.eqb_refl;
    try reflexivity; rewrite (proj2 (Nat.eqb_neq _ _) (not_eq_sym Hne)); reflexivity.
Qed.

Lemma names_next (s : Shape) st : gl_next (gl st) < gl_next (gl (load_names s st)).
Proof. cbn. lia. Qed.

Lemma names_meshes (s t : Shape) st :
  meshes (load_names s st) t =
  if Shape_beq t s
  then mkGLMesh (gl_next (gl st)) (S (gl_next (gl st))) (vbos0 (meshes st s)) (S (S (gl_next (gl st))))
         (nVertices (meshes st s)) (nIndices (meshes st s)) (numSlices (meshes st s)) (curveSteps (meshes st s))
  else meshes st t.
Proof. reflexivity. Qed.

Lemma names_flag (s : Shape) st :
  m_bMemoryLayoutDone (load_names s st) = m_bMemoryLayoutDone st /\
  gl_fault (gl (load_names s st)) = gl_fault (gl st).
Proof. split; reflexivity. Qed.

Lemma shape_beq_spec (s t : Shape) : Shape_beq s t = true <-> s = t.
Proof. split; [apply internal_Shape_dec_bl | apply internal_Shape_dec_lb]. Qed.

End Class.
Arguments SM F : clear implicits.
End Registry.
