(* ===== verification/Draws.v ===== *)
(** * The draw methods of [ShapeMeshes] and the deprecated wrappers

    Each [DrawXMesh] method of [ShapeMeshes.cpp] as a function of the class
    state: its guard (and the message it writes to [std::cerr]), the polygon
    mode, the VAO binding and the draw calls with the counts and offsets the
    code computes from the [GLMesh] members.  The deprecated [DrawXMeshLines]
    wrappers write their warning once, guarded by their flag, and forward to
    the draw method with the arguments the code passes. *)

From Stdlib Require Import List Arith Lia ZArith QArith String.
From S2P Require Import Prelude Layout GL Registry.
Import ListNotations.
Import Registry.
Local Open Scope nat_scope.

(** [enum class BoxSide] of [ShapeMeshes.h]. *)
Inductive BoxSide := back | bottom | left | right | top | front.

Module Draws.
Section Class.
Context {F : Type} `{Scalar F}.

Definition with_gl (f : GLState F -> GLState F) (st : SM F) : SM F := set_gl (f (gl st)) st.

Lemma with_gl_gl f (st : SM F) : gl (with_gl f st) = f (gl st).
Proof. reflexivity. Qed.

Lemma with_gl_meshes f (st : SM F) : meshes (with_gl f st) = meshes st.
Proof. reflexivity. Qed.

Lemma with_gl_flag f (st : SM F) : m_bMemoryLayoutDone (with_gl f st) = m_bMemoryLayoutDone st.
Proof. reflexivity. Qed.

(** [int] member times a constant, as the [GLsizei] count of a draw call. *)
Definition zcount (n : Z) (k : Z) : nat := Z.to_nat (n * k).

(** The body shared by the indexed whole-mesh draws: mode, bind, one
    [glDrawElements(GL_TRIANGLES, count, ..., 0)], unbind. *)
Definition draw_indexed (s : Shape) (count : nat) (wireframe : bool) (st : SM F) : SM F :=
  let m := meshes st s in
  with_gl (fun g => glBindVertexArray 0 (glDrawElements GL_TRIANGLES count 0
                      (glBindVertexArray (vao m) (SetWireframeMode wireframe g)))) st.

(** The body of the non-indexed draws: [glDrawArrays(mode, 0, nVertices)]. *)
Definition draw_arrays (s : Shape) (mode : PrimMode) (wireframe : bool) (st : SM F) : SM F :=
  let m := meshes st s in
  with_gl (fun g => glBindVertexArray 0 (glDrawArrays mode 0 (nVertices m)
                      (glBindVertexArray (vao m) (SetWireframeMode wireframe g)))) st.

(** The guard [if (mesh.vao == 0 || mesh.nIndices == 0) { cerr << msg; return; }]. *)
Definition guard_indexed (s : Shape) (msg : string) (k : SM F -> SM F) (st : SM F) : SM F :=
  let m := meshes st s in
  if (vao m =? 0) || (nIndices m =? 0) then with_gl (stderr msg) st else k st.

Definition DrawBoxMesh (wireframe : bool) (st : SM F) : SM F :=
  guard_indexed Box "Error: Torus mesh not initialized properly."
    (fun st => draw_indexed Box (nIndices (meshes st Box)) wireframe st) st.

(** The [switch (side)] of [DrawBoxMeshSide]: [offset = k * indicesPerFace]. *)
Definition box_side_offset (side : BoxSide) : nat :=
  let indicesPerFace := 6 in
  match side with
  | front => 0 * indicesPerFace
  | back => 1 * indicesPerFace
  | left => 2 * indicesPerFace
  | right => 3 * indicesPerFace
  | top => 4 * indicesPerFace
  | bottom => 5 * indicesPerFace
  end.

Definition DrawBoxMeshSide (side : BoxSide) (wireframe : bool) (st : SM F) : SM F :=
  guard_indexed Box "Error: BoxSide mesh not initialized properly."
    (fun st =>
       let m := meshes st Box in
       with_gl (fun g => glBindVertexArray 0 (glDrawElements GL_TRIANGLES 6 (box_side_offset side)
                           (glBindVertexArray (vao m) (SetWireframeMode wireframe g)))) st) st.

(** [if (!m_ConeMesh.vao) return;] then the bottom fan (optional) and the
    sides, [numSlices * 3] indices each, the sides at offset [numSlices * 3]. *)
Definition DrawConeMesh (bDrawBottom wireframe : bool) (st : SM F) : SM F :=
  let m := meshes st Cone in
  if vao m =? 0 then st else
  let bottomCount := zcount (numSlices m) 3 in
  let sideCount := zcount (numSlices m) 3 in
  with_gl (fun g =>
    let g := glBindVertexArray (vao m) (SetWireframeMode wireframe g) in
    let g := if bDrawBottom then glDrawElements GL_TRIANGLES bottomCount 0 g else g in
    let g := glDrawElements GL_TRIANGLES sideCount bottomCount g in
    glBindVertexArray 0 g) st.

(** No guard; bottom [numSlices * 3] at 0, top [numSlices * 3] at
    [numSlices * 3], sides [numSlices * 6] at [numSlices * 6]. *)
Definition DrawCylinderMesh (bDrawTop bDrawBottom bDrawSides wireframe : bool) (st : SM F) : SM F :=
  let m := meshes st Cylinder in
  with_gl (fun g =>
    let g := glBindVertexArray (vao m) (SetWireframeMode wireframe g) in
    let g := if bDrawBottom then glDrawElements GL_TRIANGLES (zcount (numSlices m) 3) 0 g else g in
    let g := if bDrawTop then glDrawElements GL_TRIANGLES (zcount (numSlices m) 3)
                                (zcount (numSlices m) 3) g else g in
    let g := if bDrawSides then glDrawElements GL_TRIANGLES (zcount (numSlices m) 6)
                                 (zcount (numSlices m) 6) g else g in
    glBindVertexArray 0 g) st.

(** [glDrawElements(GL_TRIANGLE_STRIP, m_PlaneMesh.nIndices, ...)]. *)
Definition DrawPlaneMesh (wireframe : bool) (st : SM F) : SM F :=
  let m := meshes st Plane in
  with_gl (fun g => glBindVertexArray 0 (glDrawElements GL_TRIANGLE_STRIP (nIndices m) 0
                      (glBindVertexArray (vao m) (SetWireframeMode wireframe g)))) st.

Definition DrawPrismMesh (wireframe : bool) (st : SM F) : SM F :=
  draw_arrays Prism GL_TRIANGLE_STRIP wireframe st.

Definition DrawPyramid3Mesh (wireframe : bool) (st : SM F) : SM F :=
  if nVertices (meshes st Pyramid3) =? 0
  then with_gl (stderr "Error: Pyramid mesh not loaded or empty!") st
  else draw_arrays Pyramid3 GL_TRIANGLE_STRIP wireframe st.

Definition DrawPyramid4Mesh (wireframe : bool) (st : SM F) : SM F :=
  if nVertices (meshes st Pyramid4) =? 0
  then with_gl (stderr "Error: Pyramid mesh not loaded or has no vertices!") st
  else draw_arrays Pyramid4 GL_TRIANGLE_STRIP wireframe st.

Definition DrawSphereMesh (wireframe : bool) (st : SM F) : SM F :=
  draw_indexed Sphere (nIndices (meshes st Sphere)) wireframe st.

Definition DrawHemisphereMesh (wireframe : bool) (st : SM F) : SM F :=
  draw_indexed Hemisphere (nIndices (meshes st Hemisphere)) wireframe st.

(** The first half of the sphere's indices. *)
Definition DrawHalfSphereMesh (wireframe : bool) (st : SM F) : SM F :=
  guard_indexed Sphere "Error: Half-Sphere mesh VAO or indices not properly initialized."
    (fun st => draw_indexed Sphere (nIndices (meshes st Sphere) / 2) wireframe st) st.

(** [DrawFinMesh] sets the polygon mode itself and resets it to fill. *)
Definition DrawFinMesh (wireframe : bool) (st : SM F) : SM F :=
  let m := meshes st Fin in
  with_gl (fun g => glPolygonMode false (glBindVertexArray 0 (glDrawElements GL_TRIANGLES (nIndices m) 0
                      (glBindVertexArray (vao m) (glPolygonMode wireframe g))))) st.

(** The fin's partial draws: fixed index ranges, no guard, no polygon mode. *)
Definition draw_fin_ranges (ranges : list (nat * nat)) (st : SM F) : SM F :=
  let m := meshes st Fin in
  with_gl (fun g => glBindVertexArray 0
    (fold_left (fun g '(count, offset) => glDrawElements GL_TRIANGLES count offset g) ranges
       (glBindVertexArray (vao m) g))) st.

Definition DrawFinSides : SM F -> SM F := draw_fin_ranges [(6, 0); (6, 6)].
Definition DrawFinFrontOnly : SM F -> SM F := draw_fin_ranges [(6, 0)].
Definition DrawFinBackOnly : SM F -> SM F := draw_fin_ranges [(6, 6)].
Definition DrawFinUntexturedSides : SM F -> SM F := draw_fin_ranges [(24, 12)].

(** Bottom [n * 3] at 0, top [n * 3] at [n * 3], sides [n * 6] at [n * 6]. *)
Definition DrawTaperedCylinderMesh (bDrawTop bDrawBottom bDrawSides wireframe : bool) (st : SM F) : SM F :=
  let m := meshes st TaperedCylinder in
  let n := numSlices m in
  let bottomCount := zcount n 3 in
  let topCount := zcount n 3 in
  let sideCount := zcount n 6 in
  let bottomOff := 0 in
  let topOff := bottomCount in
  let sideOff := bottomCount + topCount in
  with_gl (fun g =>
    let g := glBindVertexArray (vao m) (SetWireframeMode wireframe g) in
    let g := if bDrawBottom then glDrawElements GL_TRIANGLES bottomCount bottomOff g else g in
    let g := if bDrawTop then glDrawElements GL_TRIANGLES topCount topOff g else g in
    let g := if bDrawSides then glDrawElements GL_TRIANGLES sideCount sideOff g else g in
    glBindVertexArray 0 g) st.

Definition DrawTorusMesh (wireframe : bool) (st : SM F) : SM F :=
  guard_indexed Torus "Error: Torus mesh VAO or indices not properly initialized."
    (fun st => draw_indexed Torus (nIndices (meshes st Torus)) wireframe st) st.

Definition DrawExtraTorusMesh1 (st : SM F) : SM F :=
  let m := meshes st ExtraTorus1 in
  with_gl (fun g => glBindVertexArray 0 (glDrawArrays GL_TRIANGLES 0 (nVertices m)
                      (glBindVertexArray (vao m) g))) st.

Definition DrawExtraTorusMesh2 (st : SM F) : SM F :=
  let m := meshes st ExtraTorus2 in
  with_gl (fun g => glBindVertexArray 0 (glDrawArrays GL_TRIANGLES 0 (nVertices m)
                      (glBindVertexArray (vao m) g))) st.

Definition DrawHalfTorusMesh (wireframe : bool) (st : SM F) : SM F :=
  guard_indexed Torus "Error: Torus mesh VAO or indices not properly initialized."
    (fun st => draw_indexed Torus (nIndices (meshes st Torus) / 2) wireframe st) st.

(** The spring's guard tests [nVertices], not [nIndices]. *)
Definition DrawSpringMesh (wireframe : bool) (st : SM F) : SM F :=
  let m := meshes st Spring in
  if (vao m =? 0) || (nVertices m =? 0)
  then with_gl (stderr "Error: Spring mesh not initialized properly.") st
  else draw_indexed Spring (nIndices m) wireframe st.

Definition DrawTubeMesh (wireframe : bool) (st : SM F) : SM F :=
  guard_indexed Tube "Error: Tube mesh not initialized properly."
    (fun st => draw_indexed Tube (nIndices (meshes st Tube)) wireframe st) st.

(** [DrawCurvedConeMesh]: no guard and no polygon mode. *)
Definition DrawCurvedConeMesh (st : SM F) : SM F :=
  let m := meshes st CurvedCone in
  with_gl (fun g => glBindVertexArray 0 (glDrawElements GL_TRIANGLES (nIndices m) 0
                      (glBindVertexArray (vao m) g))) st.

(** ** Deprecated wrappers *)

(** [if (!flag) { cerr << msg; flag = true; } draw;] *)
Definition deprecated (w : Warn) (msg : string) (draw : SM F -> SM F) (st : SM F) : SM F :=
  let st := if warned st w then st else set_warned w (with_gl (stderr msg) st) in
  draw st.

Definition DrawBoxMeshLines : SM F -> SM F :=
  deprecated boxWarned "Warning: DrawBoxMeshLines() is deprecated. Use DrawBoxMesh(true) instead."
    (DrawBoxMesh true).

(** [DrawConeMesh(true)]: the [true] is [bDrawBottom]; [wireframe] keeps its
    default [false]. *)
Definition DrawConeMeshLines : SM F -> SM F :=
  deprecated coneWarned "Warning: DrawConeMeshLines() is deprecated. Use DrawConeMesh(true) instead."
    (DrawConeMesh true false).

(** [DrawCylinderMesh(true)]: the [true] is [bDrawTop]. *)
Definition DrawCylinderMeshLines : SM F -> SM F :=
  deprecated cylinderWarned
    "Warning: DrawCylinderMeshLines() is deprecated. Use DrawCylinderMesh(true) instead."
    (DrawCylinderMesh true true true false).

Definition DrawPlaneMeshLines : SM F -> SM F :=
  deprecated planeWarned "Warning: DrawPlaneMeshLines() is deprecated. Use DrawPlaneMesh(true) instead."
    (DrawPlaneMesh true).

Definition DrawPrismMeshLines : SM F -> SM F :=
  deprecated prismWarned "Warning: DrawPrismMeshLines() is deprecated. Use DrawPrismMesh(true) instead."
    (DrawPrismMesh true).

Definition DrawPyramid3MeshLines : SM F -> SM F :=
  deprecated pyramid3Warned
    "Warning: DrawPyramid3MeshLines() is deprecated. Use DrawPyramid3Mesh(true) instead."
    (DrawPyramid3Mesh true).

Definition DrawPyramid4MeshLines : SM F -> SM F :=
  deprecated pyramid4Warned
    "Warning: DrawPyramid4MeshLines() is deprecated. Use DrawPyramid4Mesh(true) instead."
    (DrawPyramid4Mesh true).

Definition DrawSphereMeshLines : SM F -> SM F :=
  deprecated sphereWarned "Warning: DrawSphereMeshLines() is deprecated. Use DrawSphereMesh(true) instead."
    (DrawSphereMesh true).

(** Forwards to [DrawHemisphereMesh], not to [DrawHalfSphereMesh] as its message says. *)
Definition DrawHalfSphereMeshLines : SM F -> SM F :=
  deprecated halfSphereWarned
    "Warning: DrawHalfSphereMeshLines() is deprecated. Use DrawHalfSphereMesh(true) instead."
    (DrawHemisphereMesh true).

(** [DrawTaperedCylinderMesh(true)]: the [true] is [bDrawTop]. *)
Definition DrawTaperedCylinderMeshLines : SM F -> SM F :=
  deprecated taperedCylinderWarned
    "Warning: DrawTaperedCylinderMeshLines() is deprecated. Use DrawTaperedCylinderMesh(true) instead."
    (DrawTaperedCylinderMesh true true true false).

Definition DrawTorusMeshLines : SM F -> SM F :=
  deprecated torusWarned "Warning: DrawTorusMeshLines() is deprecated. Use DrawTorusMesh(true) instead."
    (DrawTorusMesh true).

Definition DrawHalfTorusMeshLines : SM F -> SM F :=
  deprecated halfTorusWarned
    "Warning: DrawHalfTorusMeshLines() is deprecated. Use DrawHalfTorusMesh(true) instead."
    (DrawHalfTorusMesh true).

End Class.
End Draws.
