(* ===== verification/Dynamic.v ===== *)
(** * The draw methods that build and upload their mesh

    [DrawTaperedTorusMesh], [DrawSpiralMesh], [DrawSineConeMesh] and
    [DrawSuperellipsoidMesh] run their generator (the files [Custom] and
    [Spiral]) on every call and upload the result into the names their
    [LoadXMesh] allocated: bind the VAO, the vertices into the [vbo], the
    three attribute pointers, the indices into the [ebo], one
    [glDrawElements] of all the indices, unbind.  [DrawPartialConeMesh]
    builds its mesh (the file [Axisymmetric]) into a VAO it creates for the
    call and deletes after the draw.  A read past the end of a
    [std::vector] in the spiral generator is undefined behaviour: the model
    records it as an [EvUndefined] event and issues no GL call. *)

From Stdlib Require Import List Arith Lia ZArith QArith String.
From S2P Require Import Prelude Layout Axisymmetric Custom Spiral GL Registry Draws.
Import ListNotations.
Import Registry Draws.
Local Open Scope nat_scope.

Module Dynamic.
Section Class.
Context {F : Type} `{Scalar F}.

(** The upload-and-draw that ends each method. *)
Definition upload_draw (s : Shape) (m : MeshData F) (st : SM F) : SM F :=
  let mesh := meshes st s in
  let verts := interleave (mverts m) in
  let indices := mindices m in
  with_gl (fun g =>
    let g := glBindVertexArray (vao mesh) g in
    let g := glBufferVertices verts g in
    let g := glSetLayout g in
    let g := glBufferElements indices g in
    let g := glDrawElements GL_TRIANGLES (List.length indices) 0 g in
    glBindVertexArray 0 g) st.

Definition DrawTaperedTorusMesh (mainRadius tubeRadiusStart tubeRadiusEnd : F)
  (mainSegments tubeSegments : Z) (sweepAngleRadians : F) (st : SM F) : SM F :=
  upload_draw TaperedTorus (TaperedTorus.tapered_torus mainRadius tubeRadiusStart tubeRadiusEnd
                              mainSegments tubeSegments sweepAngleRadians) st.

Definition DrawSpiralMesh (tubeRadius flattenFactor loopSpacing numLoops : F)
  (tubeSegments spiralSegments : Z) (st : SM F) : SM F :=
  match Spiral.spiral tubeRadius flattenFactor loopSpacing numLoops tubeSegments spiralSegments with
  | Some m => upload_draw Spiral m st
  | None => with_gl (gl_emit (EvUndefined "std::vector<glm::vec3>::operator[] out of range")) st
  end.

Definition DrawSineConeMesh (baseRadius height flattenFactor sineAmplitude sineFrequency sinePhase : F)
  (radialSegments heightSegments : Z) (st : SM F) : SM F :=
  upload_draw SineCone (SineCone.sine_cone baseRadius height flattenFactor sineAmplitude sineFrequency
                          sinePhase radialSegments heightSegments) st.

(** The GL part of [DrawPartialConeMesh] for the mesh [m] it built: a VAO
    and two buffers created for the call, the uploads and the layout, the
    polygon mode, the draw, the unbind and the deletions. *)
Definition partial_upload_draw (m : MeshData F) (wireframe : bool) (g : GLState F) : GLState F :=
  let '(VAO, g) := glGenVertexArrays g in
  let '(VBO, g) := glGenBuffers g in
  let '(EBO, g) := glGenBuffers g in
  let g := glBindVertexArray VAO g in
  let g := glBufferVertices (interleave (mverts m)) g in
  let g := glBufferElements (mindices m) g in
  let g := glSetLayout g in
  let g := SetWireframeMode wireframe g in
  let g := glBindVertexArray VAO g in
  let g := glDrawElements GL_TRIANGLES (List.length (mindices m)) 0 g in
  let g := glBindVertexArray 0 g in
  let g := glDeleteBuffers EBO g in
  let g := glDeleteBuffers VBO g in
  glDeleteVertexArrays VAO g.

(** [DrawPartialConeMesh]: the mesh, then its GL part. *)
Definition DrawPartialConeMesh (radius height : F) (numSlices : Z) (arcDegrees : F) (wireframe : bool)
  (st : SM F) : SM F :=
  with_gl (partial_upload_draw (PartialCone.partial_cone radius height numSlices arcDegrees) wireframe) st.

(** [numSlices = vSegments] after the clamps, then [nVertices] and
    [nIndices] from the generated vectors, then the upload. *)
Definition DrawSuperellipsoidMesh (scaleX scaleY scaleZ verticalExponent horizontalExponent : F)
  (uSegments vSegments : Z) (st : SM F) : SM F :=
  let '(v, m) := Superellipsoid.superellipsoid scaleX scaleY scaleZ verticalExponent horizontalExponent
                   uSegments vSegments in
  let st := set_numSlices Superellipsoid v st in
  let st := set_counts Superellipsoid (next_index m) (List.length (mindices m)) st in
  upload_draw Superellipsoid m st.

(** ** What an upload-and-draw does to the object store *)

(** The state just before the draw call: the mesh's VAO, if live, holds the
    new vertices and indices with the layout set. *)
Definition uploaded (m : MeshData F) (g : GLState F) (vaoName : nat) : GLState F :=
  glBufferElements (mindices m) (glSetLayout (glBufferVertices (interleave (mverts m))
    (glBindVertexArray vaoName g))).

Lemma uploaded_find m (g : GLState F) k n :
  find_vao (uploaded m g k) n =
  if n =? k then option_map (fun _ => mkVAO (interleave (mverts m)) (mindices m) true) (find_vao g n)
  else find_vao g n.
Proof.
  unfold uploaded, glBufferElements, glSetLayout, glBufferVertices.
  rewrite !find_update, find_bind. cbn [gl_bound update_bound glBindVertexArray].
  destruct (n =? k); [|reflexivity]. now destruct (find_vao g n).
Qed.

Lemma uploaded_sound m (g : GLState F) k :
  mesh_valid m = true -> gl_sound g -> gl_sound (uploaded m g k).
Proof.
  intros Hm [Hf Hv]. split; [exact Hf|]. intros n v. rewrite uploaded_find.
  destruct (n =? k); [|apply Hv]. destruct (find_vao g n); [|discriminate]. intros [= <-].
  now apply mesh_vao_ok.
Qed.

Lemma upload_draw_gl s m (st : SM F) :
  gl (upload_draw s m st) =
  glBindVertexArray 0 (glDrawElements GL_TRIANGLES (List.length (mindices m)) 0
    (uploaded m (gl st) (vao (meshes st s)))).
Proof. reflexivity. Qed.

Lemma upload_draw_find s m (st : SM F) n :
  find_vao (gl (upload_draw s m st)) n =
  if n =? vao (meshes st s)
  then option_map (fun _ => mkVAO (interleave (mverts m)) (mindices m) true) (find_vao (gl st) n)
  else find_vao (gl st) n.
Proof. rewrite upload_draw_gl, find_bind, find_draw_elements. apply uploaded_find. Qed.

Lemma upload_draw_keeps s m (st : SM F) :
  gl_next (gl (upload_draw s m st)) = gl_next (gl st) /\ meshes (upload_draw s m st) = meshes st /\
  m_bMemoryLayoutDone (upload_draw s m st) = m_bMemoryLayoutDone st.
Proof.
  split; [|split; reflexivity]. rewrite upload_draw_gl. cbn [glBindVertexArray gl_next].
  now rewrite next_draw_elements.
Qed.

(** An upload-and-draw of a valid mesh keeps the GL sound. *)
Lemma upload_draw_sound s m (st : SM F) :
  mesh_valid m = true -> gl_sound (gl st) -> gl_sound (gl (upload_draw s m st)).
Proof.
  intros Hm Hs. rewrite upload_draw_gl. auto using uploaded_sound with gl_sound.
Qed.

(** A live handle: the draw uploads into it and draws all the indices,
    in the polygon mode the previous call left. *)
Lemma upload_draw_log s m (st : SM F) v :
  find_vao (gl st) (vao (meshes st s)) = Some v ->
  gl_log (gl (upload_draw s m st)) =
  gl_log (gl st) ++ [EvDraw (vao (meshes st s)) (gl_wire (gl st)) true GL_TRIANGLES (mindices m)].
Proof.
  intros Hv. rewrite upload_draw_gl.
  rewrite (draw_elements_ok _ _ _ _ (mkVAO (interleave (mverts m)) (mindices m) true)).
  - cbn [glBindVertexArray gl_log gl_emit fetch vao_ebo vao_layout skipn]. now rewrite firstn_all.
  - replace (gl_bound _) with (vao (meshes st s)) by reflexivity.
    rewrite uploaded_find, Nat.eqb_refl, Hv. reflexivity.
  - cbn. lia.
Qed.

(** The partial cone's VAO lives for the call only: afterwards its name
    finds nothing and every other name finds what it found before. *)
Lemma partial_upload_find m wireframe (g : GLState F) n :
  find_vao (partial_upload_draw m wireframe g) n = if n =? gl_next g then None else find_vao g n.
Proof.
  unfold partial_upload_draw, glDeleteBuffers. cbn [glGenVertexArrays glGenBuffers fst snd].
  rewrite find_delete. destruct (Nat.eqb_spec n (gl_next g)) as [->|Hn]; [reflexivity|].
  rewrite find_bind, find_draw_elements, find_bind.
  unfold SetWireframeMode, glSetLayout, glBufferElements, glBufferVertices.
  change (find_vao (glPolygonMode ?w ?g) ?k) with (find_vao g k).
  rewrite !find_update. cbn [gl_bound update_bound glBindVertexArray].
  rewrite (proj2 (Nat.eqb_neq _ _) Hn). rewrite find_bind. unfold find_vao. cbn [gl_vaos find fst].
  destruct (Nat.eqb_spec (gl_next g) n); [congruence|reflexivity].
Qed.

Lemma partial_upload_next m wireframe (g : GLState F) :
  gl_next (partial_upload_draw m wireframe g) = S (S (S (gl_next g))).
Proof.
  unfold partial_upload_draw.
  destruct (glGenVertexArrays g) as [VAO g1] eqn:E1.
  destruct (glGenBuffers g1) as [VBO g2] eqn:E2.
  destruct (glGenBuffers g2) as [EBO g3] eqn:E3.
  unfold glDeleteBuffers, SetWireframeMode, glSetLayout, glBufferElements, glBufferVertices.
  rewrite next_delete, next_bind, next_draw_elements, next_bind, next_poly, !next_update, next_bind.
  injection E1 as _ <-. injection E2 as _ <-. injection E3 as _ <-. reflexivity.
Qed.

Lemma partial_upload_sound m wireframe (g : GLState F) :
  mesh_valid m = true -> gl_sound g -> gl_sound (partial_upload_draw m wireframe g).
Proof.
  intros Hm [Hf Hv]. unfold partial_upload_draw, glDeleteBuffers.
  cbn [glGenVertexArrays glGenBuffers fst snd].
  apply sound_delete, sound_bind, sound_draw_elements, sound_bind, sound_poly.
  split; [exact Hf|]. intros n v. unfold glSetLayout, glBufferElements, glBufferVertices.
  rewrite !find_update, find_bind. cbn [gl_bound update_bound glBindVertexArray].
  unfold find_vao. cbn [gl_vaos find fst snd].
  destruct (Nat.eqb_spec n (gl_next g)) as [->|Hn].
  - rewrite Nat.eqb_refl. intros [= <-]. now apply mesh_vao_ok.
  - rewrite (proj2 (Nat.eqb_neq _ _) (not_eq_sym Hn)). apply Hv.
Qed.

Lemma partial_draw_find radius height numSlices arcDegrees wireframe (st : SM F) n :
  find_vao (gl (DrawPartialConeMesh radius height numSlices arcDegrees wireframe st)) n =
  if n =? gl_next (gl st) then None else find_vao (gl st) n.
Proof. unfold DrawPartialConeMesh. rewrite with_gl_gl. apply partial_upload_find. Qed.

Lemma partial_draw_keeps radius height numSlices arcDegrees wireframe (st : SM F) :
  gl_next (gl (DrawPartialConeMesh radius height numSlices arcDegrees wireframe st)) = S (S (S (gl_next (gl st)))) /\
  meshes (DrawPartialConeMesh radius height numSlices arcDegrees wireframe st) = meshes st /\
  m_bMemoryLayoutDone (DrawPartialConeMesh radius height numSlices arcDegrees wireframe st) = m_bMemoryLayoutDone st.
Proof.
  unfold DrawPartialConeMesh. rewrite with_gl_meshes, with_gl_flag, with_gl_gl.
  split; [apply partial_upload_next|split; reflexivity].
Qed.

(** A valid partial cone keeps the GL sound. *)
Lemma partial_draw_sound radius height numSlices arcDegrees wireframe (st : SM F) :
  mesh_valid (PartialCone.partial_cone radius height numSlices arcDegrees) = true ->
  gl_sound (gl st) -> gl_sound (gl (DrawPartialConeMesh radius height numSlices arcDegrees wireframe st)).
Proof. intros Hm Hs. unfold DrawPartialConeMesh. rewrite with_gl_gl. now apply partial_upload_sound. Qed.

End Class.
End Dynamic.
