(* ===== verification/Session.v ===== *)
(** * Sessions: sequences of method calls on one [ShapeMeshes] object

    A rendering session calls the load and draw methods of the class in some
    order, from the state the constructor builds.  [LoadCall], [DrawCall]
    and [DynamicCall] name the methods with their arguments ([DynamicCall]
    the draws that upload their own mesh); [exec] runs one call and [run] a
    list of calls.  The theorems are invariants of every reachable state,
    proved by induction on the list of calls: the layout flag is never set,
    handles are distinct, every mesh handle is either zero or names a VAO
    whose buffers match the counts the handle caches and whose attribute
    layout is set (a live VAO for the meshes uploaded by their draw), every
    live vertex buffer is a whole number of 8-float vertices, and no draw of
    the session reads a vertex past the end of its buffer.  [fresh_load]
    states what every load does to the object store (a fresh VAO for its
    record, nothing deleted), from which a second load of a shape leaks
    the first one's VAO. *)

From Stdlib Require Import List Arith Lia ZArith QArith String Reals.
From S2P Require Import Prelude Layout RealModel Axisymmetric Grids Sweeps Custom Spiral Primitives GL Registry Draws Dynamic.
Import ListNotations.
Import Registry Draws Dynamic.
Local Open Scope nat_scope.

Module Session.
Section Calls.
Context {F : Type} `{Scalar F}.

Inductive LoadCall :=
  | LBox
  | LCone (radius height : F) (numSlices : Z)
  | LCylinder (radius height : F) (numSlices : Z)
  | LPlane (width height : F)
  | LPrism
  | LPyramid3
  | LPyramid4 (baseSize height : F)
  | LSphere (latitudeSegments longitudeSegments : Z) (radius : F)
  | LHemisphere (latitudeSegments longitudeSegments : Z) (radius : F)
  | LTaperedCylinder (bottomRadius topRadius height : F) (numSlices : Z)
  | LTorus (mainRadius tubeRadius : F) (mainSegments tubeSegments : Z)
  | LExtraTorus1 (thickness : F)
  | LExtraTorus2 (thickness : F)
  | LSpring (mainRadius tubeRadius : F) (mainSegments tubeSegments : Z) (springLength : F)
  | LTube (outerRadius innerRadius height : F) (numSlices : Z)
  | LFin (baseLength topLength height thickness : F)
  | LCurvedCone (numSlices curveSteps : Z) (radius height bendRadius : F)
  | LTaperedTorus | LSpiral | LSineCone | LSuperellipsoid.

Inductive DrawCall :=
  | DBox (wireframe : bool)
  | DBoxSide (side : BoxSide) (wireframe : bool)
  | DCone (bDrawBottom wireframe : bool)
  | DCylinder (bDrawTop bDrawBottom bDrawSides wireframe : bool)
  | DPlane (wireframe : bool)
  | DPrism (wireframe : bool)
  | DPyramid3 (wireframe : bool)
  | DPyramid4 (wireframe : bool)
  | DSphere (wireframe : bool)
  | DHemisphere (wireframe : bool)
  | DHalfSphere (wireframe : bool)
  | DFin (wireframe : bool)
  | DFinSides | DFinFrontOnly | DFinBackOnly | DFinUntexturedSides
  | DTaperedCylinder (bDrawTop bDrawBottom bDrawSides wireframe : bool)
  | DTorus (wireframe : bool)
  | DExtraTorus1 | DExtraTorus2
  | DHalfTorus (wireframe : bool)
  | DSpring (wireframe : bool)
  | DTube (wireframe : bool)
  | DBoxLines | DConeLines | DCylinderLines | DPlaneLines | DPrismLines | DPyramid3Lines
  | DPyramid4Lines | DSphereLines | DHalfSphereLines | DTaperedCylinderLines | DTorusLines
  | DHalfTorusLines
  | DCurvedCone.

Inductive DynamicCall :=
  | DTaperedTorus (mainRadius tubeRadiusStart tubeRadiusEnd : F) (mainSegments tubeSegments : Z)
      (sweepAngleRadians : F)
  | DSpiral (tubeRadius flattenFactor loopSpacing numLoops : F) (tubeSegments spiralSegments : Z)
  | DSineCone (baseRadius height flattenFactor sineAmplitude sineFrequency sinePhase : F)
      (radialSegments heightSegments : Z)
  | DSuperellipsoid (scaleX scaleY scaleZ verticalExponent horizontalExponent : F)
      (uSegments vSegments : Z)
  | DPartialCone (radius height : F) (numSlices : Z) (arcDegrees : F) (wireframe : bool).

Inductive Call := CLoad (l : LoadCall) | CDraw (d : DrawCall) | CDynamic (d : DynamicCall).

Definition exec_load (l : LoadCall) : SM F -> SM F :=
  match l with
  | LBox => LoadBoxMesh
  | LCone r h n => LoadConeMesh r h n
  | LCylinder r h n => LoadCylinderMesh r h n
  | LPlane w h => LoadPlaneMesh w h
  | LPrism => LoadPrismMesh
  | LPyramid3 => LoadPyramid3Mesh
  | LPyramid4 b h => LoadPyramid4Mesh b h
  | LSphere la lo r => LoadSphereMesh la lo r
  | LHemisphere la lo r => LoadHemisphereMesh la lo r
  | LTaperedCylinder b t h n => LoadTaperedCylinderMesh b t h n
  | LTorus mr tr ms ts => LoadTorusMesh mr tr ms ts
  | LExtraTorus1 t => LoadExtraTorusMesh1 t
  | LExtraTorus2 t => LoadExtraTorusMesh2 t
  | LSpring mr tr ms ts l => LoadSpringMesh mr tr ms ts l
  | LTube o i h n => LoadTubeMesh o i h n
  | LFin b t h th => LoadFinMesh b t h th
  | LCurvedCone n c r h b => LoadCurvedConeMesh n c r h b
  | LTaperedTorus => LoadTaperedTorusMesh
  | LSpiral => LoadSpiralMesh
  | LSineCone => LoadSineConeMesh
  | LSuperellipsoid => LoadSuperellipsoidMesh
  end.

Definition exec_draw (d : DrawCall) : SM F -> SM F :=
  match d with
  | DBox w => DrawBoxMesh w
  | DBoxSide s w => DrawBoxMeshSide s w
  | DCone b w => DrawConeMesh b w
  | DCylinder t b s w => DrawCylinderMesh t b s w
  | DPlane w => DrawPlaneMesh w
  | DPrism w => DrawPrismMesh w
  | DPyramid3 w => DrawPyramid3Mesh w
  | DPyramid4 w => DrawPyramid4Mesh w
  | DSphere w => DrawSphereMesh w
  | DHemisphere w => DrawHemisphereMesh w
  | DHalfSphere w => DrawHalfSphereMesh w
  | DFin w => DrawFinMesh w
  | DFinSides => DrawFinSides
  | DFinFrontOnly => DrawFinFrontOnly
  | DFinBackOnly => DrawFinBackOnly
  | DFinUntexturedSides => DrawFinUntexturedSides
  | DTaperedCylinder t b s w => DrawTaperedCylinderMesh t b s w
  | DTorus w => DrawTorusMesh w
  | DExtraTorus1 => DrawExtraTorusMesh1
  | DExtraTorus2 => DrawExtraTorusMesh2
  | DHalfTorus w => DrawHalfTorusMesh w
  | DSpring w => DrawSpringMesh w
  | DTube w => DrawTubeMesh w
  | DBoxLines => DrawBoxMeshLines
  | DConeLines => DrawConeMeshLines
  | DCylinderLines => DrawCylinderMeshLines
  | DPlaneLines => DrawPlaneMeshLines
  | DPrismLines => DrawPrismMeshLines
  | DPyramid3Lines => DrawPyramid3MeshLines
  | DPyramid4Lines => DrawPyramid4MeshLines
  | DSphereLines => DrawSphereMeshLines
  | DHalfSphereLines => DrawHalfSphereMeshLines
  | DTaperedCylinderLines => DrawTaperedCylinderMeshLines
  | DTorusLines => DrawTorusMeshLines
  | DHalfTorusLines => DrawHalfTorusMeshLines
  | DCurvedCone => DrawCurvedConeMesh
  end.

Definition exec_dynamic (d : DynamicCall) : SM F -> SM F :=
  match d with
  | DTaperedTorus mr rs re ms ts sw => DrawTaperedTorusMesh mr rs re ms ts sw
  | DSpiral tr ff ls nl ts ss => DrawSpiralMesh tr ff ls nl ts ss
  | DSineCone br h ff a fr ph rs hs => DrawSineConeMesh br h ff a fr ph rs hs
  | DSuperellipsoid x y z ve he us vs => DrawSuperellipsoidMesh x y z ve he us vs
  | DPartialCone r h n a w => DrawPartialConeMesh r h n a w
  end.

Definition exec (c : Call) : SM F -> SM F :=
  match c with CLoad l => exec_load l | CDraw d => exec_draw d | CDynamic d => exec_dynamic d end.

(** The calls in order, from a given state. *)
Definition run (calls : list Call) (st : SM F) : SM F := fold_left (fun st c => exec c st) calls st.

(** The cached vertex count matches the buffer, except for the fin, whose
    load never stores it. *)
Definition counted (s : Shape) (v : VAO F) (m : GLMesh) : Prop :=
  Shape_beq s Fin = true \/ vertex_count (vao_vbo v) = nVertices m.

(** The meshes their draw method uploads: their counts are not kept. *)
Definition dynamic (s : Shape) : bool :=
  match s with TaperedTorus | Spiral | SineCone | Superellipsoid => true | _ => false end.

(** A handle is unset, or names a live VAO; unless the mesh is uploaded by
    its draw, the VAO's buffers match the counts and its layout is set. *)
Definition handle_ok (s : Shape) (g : GLState F) (m : GLMesh) : Prop :=
  vao m = 0 \/
  (vao m < gl_next g /\
   exists v, find_vao g (vao m) = Some v /\
     (dynamic s = true \/
      (vao_layout v = true /\ List.length (vao_ebo v) = nIndices m /\ counted s v m))).

(** The invariant of the reachable states; [m_FinMesh.nVertices] keeps the
    value of the constructor, and no two meshes share a VAO. *)
Definition registry_inv (st : SM F) : Prop :=
  m_bMemoryLayoutDone st = false /\ 0 < gl_next (gl st) /\ find_vao (gl st) 0 = None /\
  nVertices (meshes st Fin) = 0 /\ gl_sound (gl st) /\
  (forall s t, vao (meshes st s) = vao (meshes st t) -> vao (meshes st s) <> 0 -> s = t) /\
  forall s, handle_ok s (gl st) (meshes st s).

(** The outward normal of each [BoxSide], by its name. *)
Definition side_normal (side : BoxSide) : vec3 Q :=
  match side with
  | back => mkv3 0 0 (-1) | bottom => mkv3 0 (-1) 0 | left => mkv3 (-1) 0 0
  | right => mkv3 1 0 0 | top => mkv3 0 1 0 | front => mkv3 0 0 1
  end%Q.

Definition normal_is (v : Vertex Q) (n : vec3 Q) : bool :=
  Qeq_bool (vx (normal v)) (vx n) && Qeq_bool (vy (normal v)) (vy n) && Qeq_bool (vz (normal v)) (vz n).

(** The six indices [DrawBoxMeshSide] selects for a side. *)
Definition box_face (side : BoxSide) : list nat := firstn 6 (skipn (box_side_offset side) Box.box_indices).

(** ** The invariant under each kind of call *)

Lemma handle_ok_store s (g g' : GLState F) m :
  store g = store g' -> handle_ok s g m -> handle_ok s g' m.
Proof.
  unfold handle_ok. intros Hs [Hz|[Hlt Hv]]; [now left|right].
  assert (Hn : gl_next g = gl_next g') by (unfold store in Hs; congruence).
  rewrite <- Hn, <- (find_vao_store g g' (vao m) Hs). now split.
Qed.

(** A call that changes only the GL state, keeping its object store and
    its soundness, keeps the invariant. *)
Lemma registry_inv_gl (f : GLState F -> GLState F) (st : SM F) :
  store (f (gl st)) = store (gl st) -> (gl_sound (gl st) -> gl_sound (f (gl st))) ->
  registry_inv st -> registry_inv (with_gl f st).
Proof.
  intros Hs Hf (Hflag & Hpos & Hnone & Hfz & Hsnd & Hdist & Hok).
  split; [exact Hflag|]. split; [unfold store in Hs; cbn; congruence|].
  split; [cbn; rewrite (find_vao_store _ _ 0 Hs); exact Hnone|]. split; [exact Hfz|].
  split; [exact (Hf Hsnd)|]. split; [exact Hdist|].
  intros t. exact (handle_ok_store _ _ _ _ (eq_sym Hs) (Hok t)).
Qed.

(** An upload that creates one VAO [v] under the next name, stores its
    handle for [s] (with matching counts unless [s] is uploaded by its draw)
    and leaves the other handles, the flag and the fault alone keeps the
    invariant. *)
Lemma registry_inv_fresh s v (st st' : SM F) :
  registry_inv st ->
  m_bMemoryLayoutDone st' = m_bMemoryLayoutDone st -> gl_next (gl st) < gl_next (gl st') ->
  (forall m, find_vao (gl st') m = if m =? gl_next (gl st) then Some v else find_vao (gl st) m) ->
  (forall t, Shape_beq t s = false -> meshes st' t = meshes st t) ->
  vao (meshes st' s) = gl_next (gl st) ->
  (dynamic s = true \/ (vao_layout v = true /\ List.length (vao_ebo v) = nIndices (meshes st' s) /\
                        counted s v (meshes st' s))) ->
  vao_ok v = true -> gl_fault (gl st') = gl_fault (gl st) ->
  nVertices (meshes st' Fin) = nVertices (meshes st Fin) ->
  registry_inv st'.
Proof.
  intros (Hflag & Hpos & Hnone & Hfz & [Hfl Hsnd] & Hdist & Hok) Hf Hnext Hfind Hother Hvao Hnew Hvok Hfault Hfin.
  assert (Hlow : forall t, Shape_beq t s = false -> vao (meshes st' t) < gl_next (gl st) \/ vao (meshes st' t) = 0)
    by (intros t Ht; rewrite (Hother t Ht); destruct (Hok t) as [Hz|[Hlt _]]; [now right|now left]).
  split; [congruence|]. split; [lia|]. split.
  { rewrite Hfind. destruct (Nat.eqb_spec 0 (gl_next (gl st))); [lia|exact Hnone]. }
  split; [congruence|]. split.
  { split; [congruence|]. intros n w. rewrite Hfind.
    destruct (n =? gl_next (gl st)); [intros [= <-]; exact Hvok|apply Hsnd]. }
  split.
  { intros t u Htu Hz. destruct (Shape_beq t s) eqn:Et, (Shape_beq u s) eqn:Eu.
    - apply shape_beq_spec in Et, Eu. congruence.
    - destruct (Hlow u Eu); apply shape_beq_spec in Et; subst t; lia.
    - destruct (Hlow t Et); apply shape_beq_spec in Eu; subst u; lia.
    - rewrite (Hother t Et), (Hother u Eu) in *. now apply Hdist. }
  intros t. destruct (Shape_beq t s) eqn:Ets.
  - apply shape_beq_spec in Ets as ->. right. rewrite Hvao, Hfind, Nat.eqb_refl.
    split; [exact Hnext|]. now exists v.
  - rewrite (Hother t Ets). destruct (Hok t) as [Hz|[Hlt (w & Hw & Hwl)]]; [now left|right].
    split; [lia|]. exists w. rewrite Hfind.
    destruct (Nat.eqb_spec (vao (meshes st t)) (gl_next (gl st))); [lia|]. now split.
Qed.

(** The other handles of an upload to [s], the fin's among them. *)
Lemma fin_other (s : Shape) (f : Shape -> GLMesh) (st : SM F) :
  s <> Fin -> (forall t, Shape_beq t s = false -> f t = meshes st t) ->
  nVertices (f Fin) = nVertices (meshes st Fin).
Proof.
  intros Hs Hf. rewrite Hf; [reflexivity|].
  destruct (Shape_beq Fin s) eqn:E; [apply shape_beq_spec in E; congruence|reflexivity].
Qed.

Lemma shape_self s : Shape_beq s s = true.
Proof. now apply shape_beq_spec. Qed.

Lemma registry_inv_initialize s verts indices (st : SM F) :
  s <> Fin -> vao_ok (mkVAO verts indices true) = true ->
  registry_inv st -> registry_inv (InitializeMesh s verts indices st).
Proof.
  intros Hs Hv Hinv. destruct (initialize_flag s verts indices st) as (Hf & _ & _).
  assert (Hm : forall t, Shape_beq t s = false -> meshes (InitializeMesh s verts indices st) t = meshes st t)
    by (intros t Ht; now rewrite initialize_meshes, Ht).
  apply (registry_inv_fresh s (mkVAO verts indices true) st); [exact Hinv | exact Hf | apply initialize_next
  | intros m; rewrite initialize_find, (proj1 Hinv); reflexivity | exact Hm
  | rewrite initialize_meshes, shape_self; reflexivity
  | right; rewrite initialize_meshes, shape_self; split; [reflexivity|split; [reflexivity|right; reflexivity]]
  | exact Hv | apply initialize_fault | apply (fin_other s); assumption].
Qed.

Lemma registry_inv_upload s m (st : SM F) :
  s <> Fin -> mesh_valid m = true -> registry_inv st -> registry_inv (upload s m st).
Proof.
  intros Hs Hm. apply registry_inv_initialize; [exact Hs|]. now apply mesh_vao_ok.
Qed.

Lemma registry_inv_extra s thickness (st : SM F) :
  s <> Fin -> registry_inv st -> registry_inv (load_extra_torus s thickness st).
Proof.
  intros Hs Hinv. destruct (extra_flag s thickness st) as (Hf & _ & _).
  assert (Hm : forall t, Shape_beq t s = false -> meshes (load_extra_torus s thickness st) t = meshes st t)
    by (intros t Ht; now rewrite extra_meshes, Ht).
  apply (registry_inv_fresh s (mkVAO (interleave (ExtraTorus.LoadExtraTorusMesh thickness)) [] true) st);
    [exact Hinv | exact Hf | apply extra_next
    | intros m; rewrite extra_find, (proj1 Hinv); reflexivity | exact Hm
    | rewrite extra_meshes, shape_self; reflexivity
    | right; rewrite extra_meshes, shape_self; split; [reflexivity|split; [reflexivity|right]]
    | unfold vao_ok; cbn [vao_vbo vao_ebo]; now rewrite whole_interleave | apply extra_fault | apply (fin_other s); assumption].
  exact (next_index_length (mkMesh (ExtraTorus.LoadExtraTorusMesh thickness) [])).
Qed.

Lemma registry_inv_fin b t h th (st : SM F) :
  registry_inv st -> registry_inv (LoadFinMesh b t h th st).
Proof.
  intros Hinv.
  apply (registry_inv_fresh Fin (mkVAO (interleave (fst (Fin.LoadFinMesh b t h th))) Fin.fin_indices true) st);
    [exact Hinv | reflexivity | apply fin_next | intros m; apply fin_find
    | intros u Hu; now rewrite fin_meshes, Hu | reflexivity
    | right; split; [reflexivity|split; [reflexivity|left; reflexivity]]
    | apply fin_valid | reflexivity | reflexivity].
Qed.

Lemma registry_inv_names s (st : SM F) :
  dynamic s = true -> registry_inv st -> registry_inv (load_names s st).
Proof.
  intros Hd Hinv. destruct (names_flag s st) as [Hf Hfault].
  assert (Hm : forall t, Shape_beq t s = false -> meshes (load_names s st) t = meshes st t)
    by (intros t Ht; now rewrite names_meshes, Ht).
  apply (registry_inv_fresh s (mkVAO [] [] false) st);
    [exact Hinv | exact Hf | apply names_next
    | intros m; apply names_find | exact Hm | rewrite names_meshes, shape_self; reflexivity
    | left; exact Hd | reflexivity | exact Hfault
    | apply (fin_other s); [intros ->; discriminate | exact Hm]].
Qed.

(** A write to the record of [s] that keeps its handle, and its counts
    unless [s] is uploaded by its draw, keeps the invariant. *)
Lemma registry_inv_set_mesh s m' (st : SM F) :
  registry_inv st -> vao m' = vao (meshes st s) ->
  (dynamic s = true \/ (nIndices m' = nIndices (meshes st s) /\ nVertices m' = nVertices (meshes st s))) ->
  registry_inv (set_mesh s m' st).
Proof.
  intros (Hflag & Hpos & Hnone & Hfz & Hsnd & Hdist & Hok) Hv Hc.
  split; [exact Hflag|]. split; [exact Hpos|]. split; [exact Hnone|]. cbn [set_mesh meshes gl].
  split.
  { destruct (Shape_beq Fin s) eqn:E; [|exact Hfz]. apply shape_beq_spec in E. subst s.
    destruct Hc as [Hd|[_ Hn]]; [discriminate|congruence]. }
  split; [exact Hsnd|]. split.
  { intros t u. destruct (Shape_beq t s) eqn:Et, (Shape_beq u s) eqn:Eu; rewrite ?Hv; intros Htu Hz.
    - apply shape_beq_spec in Et, Eu. congruence.
    - apply shape_beq_spec in Et. subst t. now apply Hdist.
    - apply shape_beq_spec in Eu. subst u. now apply Hdist.
    - now apply Hdist. }
  intros t. destruct (Shape_beq t s) eqn:E; [apply shape_beq_spec in E; subst t|apply Hok].
  destruct (Hok s) as [Hz|[Hlt (w & Hw & Hd)]]; [left; congruence|right]. rewrite Hv.
  split; [exact Hlt|]. exists w. split; [exact Hw|].
  destruct Hc as [Hc|[Hi Hn]]; [now left|]. destruct Hd as [Hd|(Hl & He & Hcnt)]; [now left|right].
  split; [exact Hl|]. split; [congruence|]. unfold counted in *. now rewrite Hn.
Qed.

Lemma registry_inv_numSlices s n (st : SM F) :
  registry_inv st -> registry_inv (set_numSlices s n st).
Proof. intros Hinv. apply registry_inv_set_mesh; [exact Hinv|reflexivity|right; split; reflexivity]. Qed.

Lemma registry_inv_curveSteps s n (st : SM F) :
  registry_inv st -> registry_inv (set_curveSteps s n st).
Proof. intros Hinv. apply registry_inv_set_mesh; [exact Hinv|reflexivity|right; split; reflexivity]. Qed.

(** The loads, by the shape of their code: a raw upload, a generator with
    a slice count, a generator with slice and step counts. *)
Lemma registry_inv_raw s (p : list F * list nat) (st : SM F) :
  s <> Fin -> vao_ok (mkVAO (fst p) (snd p) true) = true -> registry_inv st ->
  registry_inv (let '(verts, indices) := p in InitializeMesh s verts indices st).
Proof. destruct p. apply registry_inv_initialize. Qed.

Lemma registry_inv_pair s (p : Z * MeshData F) (st : SM F) :
  s <> Fin -> mesh_valid (snd p) = true -> registry_inv st ->
  registry_inv (let '(n, m) := p in upload s m (set_numSlices s n st)).
Proof. destruct p. intros Hs Hm Hinv. apply registry_inv_upload, registry_inv_numSlices; assumption. Qed.

Lemma registry_inv_curved (p : Z * Z * MeshData F) (st : SM F) :
  mesh_valid (snd p) = true -> registry_inv st ->
  registry_inv (let '(n, c, m) := p in upload CurvedCone m (set_curveSteps CurvedCone c (set_numSlices CurvedCone n st))).
Proof.
  destruct p as [[n c] m]. intros Hm Hinv.
  apply registry_inv_upload, registry_inv_curveSteps, registry_inv_numSlices; [discriminate|assumption..].
Qed.

Lemma registry_inv_load l (st : SM F) : registry_inv st -> registry_inv (exec_load l st).
Proof.
  intros Hinv. destruct l; cbn [exec_load].
  - apply (registry_inv_raw Box); [discriminate|apply box_valid|exact Hinv].
  - apply (registry_inv_pair Cone); [discriminate|apply Cone.cone_valid|exact Hinv].
  - apply (registry_inv_pair Cylinder); [discriminate|apply Cylinder.cylinder_valid|exact Hinv].
  - apply (registry_inv_raw Plane); [discriminate|apply plane_valid|exact Hinv].
  - apply (registry_inv_raw Prism); [discriminate|apply prism_valid|exact Hinv].
  - apply (registry_inv_raw Pyramid3); [discriminate|apply pyramid3_valid|exact Hinv].
  - apply (registry_inv_raw Pyramid4); [discriminate|apply pyramid4_valid|exact Hinv].
  - apply registry_inv_upload; [discriminate|apply Sphere.sphere_valid|exact Hinv].
  - apply registry_inv_upload; [discriminate|apply Hemisphere.hemisphere_valid|exact Hinv].
  - apply (registry_inv_pair TaperedCylinder); [discriminate|apply TaperedCylinder.tapered_valid|exact Hinv].
  - apply registry_inv_upload; [discriminate|apply Torus.torus_valid|exact Hinv].
  - apply registry_inv_extra; [discriminate|exact Hinv].
  - apply registry_inv_extra; [discriminate|exact Hinv].
  - apply registry_inv_upload; [discriminate|apply Spring.spring_valid|exact Hinv].
  - apply (registry_inv_pair Tube); [discriminate|apply Tube.tube_valid|exact Hinv].
  - apply registry_inv_fin, Hinv.
  - apply registry_inv_curved; [apply CurvedCone.curved_valid|exact Hinv].
  - apply registry_inv_names; [reflexivity|exact Hinv].
  - apply registry_inv_names; [reflexivity|exact Hinv].
  - apply registry_inv_names; [reflexivity|exact Hinv].
  - apply registry_inv_names; [reflexivity|exact Hinv].
Qed.

(** The record each load writes. *)
Definition load_shape (l : LoadCall) : Shape :=
  match l with
  | LBox => Box | LCone _ _ _ => Cone | LCylinder _ _ _ => Cylinder | LPlane _ _ => Plane
  | LPrism => Prism | LPyramid3 => Pyramid3 | LPyramid4 _ _ => Pyramid4
  | LSphere _ _ _ => Sphere | LHemisphere _ _ _ => Hemisphere
  | LTaperedCylinder _ _ _ _ => TaperedCylinder | LTorus _ _ _ _ => Torus
  | LExtraTorus1 _ => ExtraTorus1 | LExtraTorus2 _ => ExtraTorus2 | LSpring _ _ _ _ _ => Spring
  | LTube _ _ _ _ => Tube | LFin _ _ _ _ => Fin | LCurvedCone _ _ _ _ _ => CurvedCone
  | LTaperedTorus => TaperedTorus | LSpiral => Spiral | LSineCone => SineCone
  | LSuperellipsoid => Superellipsoid
  end.

(** What every load does to the object store: the record of [s] gets a
    fresh VAO (the next name), the other records and every other name of
    the store stay as they were; nothing is deleted. *)
Definition fresh_load (s : Shape) (st st' : SM F) : Prop :=
  vao (meshes st' s) = gl_next (gl st) /\ gl_next (gl st) < gl_next (gl st') /\
  (forall t, Shape_beq t s = false -> meshes st' t = meshes st t) /\
  (forall m, m <> gl_next (gl st) -> find_vao (gl st') m = find_vao (gl st) m).

Lemma fresh_find_other (g g' : GLState F) m k v :
  (forall n, find_vao g' n = if n =? k then v else find_vao g n) -> m <> k -> find_vao g' m = find_vao g m.
Proof. intros Hf Hm. rewrite Hf. now rewrite (proj2 (Nat.eqb_neq m k) Hm). Qed.

Lemma fresh_initialize s verts indices (st : SM F) : fresh_load s st (InitializeMesh s verts indices st).
Proof.
  split; [rewrite initialize_meshes, shape_self; reflexivity|]. split; [apply initialize_next|].
  split; [intros t Ht; now rewrite initialize_meshes, Ht|].
  intros m. apply (fresh_find_other _ _ _ _ _ (initialize_find s verts indices st)).
Qed.

Lemma fresh_extra s thickness (st : SM F) : fresh_load s st (load_extra_torus s thickness st).
Proof.
  split; [rewrite extra_meshes, shape_self; reflexivity|]. split; [apply extra_next|].
  split; [intros t Ht; now rewrite extra_meshes, Ht|].
  intros m. apply (fresh_find_other _ _ _ _ _ (extra_find s thickness st)).
Qed.

Lemma fresh_fin b t h th (st : SM F) : fresh_load Fin st (LoadFinMesh b t h th st).
Proof.
  split; [rewrite fin_meshes; reflexivity|]. split; [apply fin_next|].
  split; [intros u Hu; now rewrite fin_meshes, Hu|].
  intros m. apply (fresh_find_other _ _ _ _ _ (fin_find b t h th st)).
Qed.

Lemma fresh_names s (st : SM F) : fresh_load s st (load_names s st).
Proof.
  split; [rewrite names_meshes, shape_self; reflexivity|]. split; [apply names_next|].
  split; [intros t Ht; now rewrite names_meshes, Ht|].
  intros m. apply (fresh_find_other _ _ _ _ _ (names_find s st)).
Qed.

(** A write to the record of [s] before the upload does not change that. *)
Lemma fresh_before s m' (st st' : SM F) :
  fresh_load s (set_mesh s m' st) st' -> fresh_load s st st'.
Proof.
  intros (Hv & Hn & Ho & Hf). split; [exact Hv|]. split; [exact Hn|]. split; [|exact Hf].
  intros t Ht. rewrite (Ho t Ht). cbn [set_mesh meshes]. now rewrite Ht.
Qed.

Lemma fresh_pair s (p : Z * MeshData F) (st : SM F) :
  fresh_load s st (let '(n, m) := p in upload s m (set_numSlices s n st)).
Proof. destruct p. eapply fresh_before, fresh_initialize. Qed.

Lemma fresh_raw s (p : list F * list nat) (st : SM F) :
  fresh_load s st (let '(verts, indices) := p in InitializeMesh s verts indices st).
Proof. destruct p. apply fresh_initialize. Qed.

Lemma load_fresh l (st : SM F) : fresh_load (load_shape l) st (exec_load l st).
Proof.
  destruct l; cbn [exec_load load_shape];
    [apply fresh_raw | apply fresh_pair | apply fresh_pair | apply fresh_raw | apply fresh_raw
    | apply fresh_raw | apply fresh_raw | apply fresh_initialize | apply fresh_initialize
    | apply fresh_pair | apply fresh_initialize | apply fresh_extra | apply fresh_extra
    | apply fresh_initialize | apply fresh_pair | apply fresh_fin | | apply fresh_names
    | apply fresh_names | apply fresh_names | apply fresh_names].
  unfold Registry.LoadCurvedConeMesh. destruct (CurvedCone.LoadCurvedConeMesh _ _ _ _ _) as [[n c] m].
  eapply fresh_before, fresh_before, fresh_initialize.
Qed.

(** The body of every draw method, opened down to its GL calls. *)
Ltac open_draw d :=
  destruct d; cbn [exec_draw];
    unfold DrawBoxMeshLines, DrawConeMeshLines, DrawCylinderMeshLines, DrawPlaneMeshLines,
      DrawPrismMeshLines, DrawPyramid3MeshLines, DrawPyramid4MeshLines, DrawSphereMeshLines,
      DrawHalfSphereMeshLines, DrawTaperedCylinderMeshLines, DrawTorusMeshLines,
      DrawHalfTorusMeshLines, deprecated;
    unfold DrawBoxMesh, DrawBoxMeshSide, DrawConeMesh, DrawCylinderMesh, DrawPlaneMesh,
      DrawPrismMesh, DrawPyramid3Mesh, DrawPyramid4Mesh, DrawSphereMesh, DrawHemisphereMesh,
      DrawHalfSphereMesh, DrawFinMesh, DrawFinSides, DrawFinFrontOnly, DrawFinBackOnly,
      DrawFinUntexturedSides, DrawTaperedCylinderMesh, DrawTorusMesh, DrawExtraTorusMesh1,
      DrawExtraTorusMesh2, DrawHalfTorusMesh, DrawSpringMesh, DrawTubeMesh, DrawCurvedConeMesh,
      guard_indexed, draw_indexed, draw_arrays, draw_fin_ranges, with_gl, SetWireframeMode;
    cbv zeta; cbn [fold_left];
    repeat match goal with |- context [if ?c then _ else _] => destruct c end;
    cbn [set_gl set_warned gl meshes m_bMemoryLayoutDone].

(** A draw call changes only the log, the binding, the polygon mode and the
    warning flags: the object store, the handles and the layout flag stay. *)
Lemma draw_keeps d (st : SM F) :
  store (gl (exec_draw d st)) = store (gl st) /\ meshes (exec_draw d st) = meshes st /\
  m_bMemoryLayoutDone (exec_draw d st) = m_bMemoryLayoutDone st.
Proof. open_draw d; autorewrite with gl_store; auto. Qed.

(** A draw call keeps the GL sound: it fetches only inside the buffers. *)
Lemma draw_sound d (st : SM F) : gl_sound (gl st) -> gl_sound (gl (exec_draw d st)).
Proof. intros Hs. open_draw d; auto 20 with gl_sound. Qed.

Lemma registry_inv_draw d (st : SM F) : registry_inv st -> registry_inv (exec_draw d st).
Proof.
  intros Hinv. pose proof Hinv as (Hflag & Hpos & Hnone & Hfz & Hsnd & Hdist & Hok).
  destruct (draw_keeps d st) as (Hs & Hm & Hf).
  split; [congruence|]. split; [unfold store in Hs; congruence|].
  split; [rewrite (find_vao_store _ _ 0 Hs); exact Hnone|]. rewrite Hm. split; [exact Hfz|].
  split; [exact (draw_sound d st Hsnd)|]. split; [exact Hdist|].
  intros t. exact (handle_ok_store _ _ _ _ (eq_sym Hs) (Hok t)).
Qed.

(** An upload-and-draw of a valid mesh into a handle of a mesh uploaded by
    its draw keeps the invariant. *)
Lemma registry_inv_upload_draw s m (st : SM F) :
  dynamic s = true -> mesh_valid m = true -> registry_inv st -> registry_inv (upload_draw s m st).
Proof.
  intros Hd Hm (Hflag & Hpos & Hnone & Hfz & Hsnd & Hdist & Hok).
  destruct (upload_draw_keeps s m st) as (Hn & Hms & Hf).
  split; [congruence|]. split; [lia|]. split; [rewrite upload_draw_find, Hnone; now destruct (0 =? _)|].
  rewrite Hms. split; [exact Hfz|]. split; [exact (upload_draw_sound s m st Hm Hsnd)|].
  split; [exact Hdist|]. intros t.
  destruct (Hok t) as [Hz|[Hlt (w & Hw & Hc)]]; [now left|right]. rewrite Hn. split; [exact Hlt|].
  assert (Hnz : vao (meshes st t) <> 0) by (intros Z; rewrite Z, Hnone in Hw; discriminate).
  rewrite upload_draw_find, Hw. destruct (Nat.eqb_spec (vao (meshes st t)) (vao (meshes st s))) as [E|E].
  - assert (t = s) as -> by (apply Hdist; assumption). eexists. split; [reflexivity|now left].
  - exists w. now split.
Qed.

(** The partial cone's VAO is created and deleted within its draw. *)
Lemma registry_inv_partial radius height numSlices arcDegrees wireframe (st : SM F) :
  registry_inv st -> registry_inv (DrawPartialConeMesh radius height numSlices arcDegrees wireframe st).
Proof.
  intros (Hflag & Hpos & Hnone & Hfz & Hsnd & Hdist & Hok).
  destruct (partial_draw_keeps radius height numSlices arcDegrees wireframe st) as (Hn & Hm & Hf).
  split; [congruence|]. split; [lia|]. split; [rewrite partial_draw_find, Hnone; now destruct (0 =? _)|].
  rewrite Hm. split; [exact Hfz|].
  split; [apply partial_draw_sound; [apply PartialCone.partial_valid|exact Hsnd]|].
  split; [exact Hdist|]. intros t. destruct (Hok t) as [Hz|[Hlt (w & Hw & Hc)]]; [now left|right].
  rewrite Hn, partial_draw_find. split; [lia|]. exists w.
  destruct (Nat.eqb_spec (vao (meshes st t)) (gl_next (gl st))); [lia|]. now split.
Qed.

Lemma registry_inv_dynamic d (st : SM F) : registry_inv st -> registry_inv (exec_dynamic d st).
Proof.
  intros Hinv. destruct d; cbn [exec_dynamic];
    unfold DrawTaperedTorusMesh, DrawSpiralMesh, DrawSineConeMesh, DrawSuperellipsoidMesh.
  - apply registry_inv_upload_draw; [reflexivity|apply TaperedTorus.tt_valid|exact Hinv].
  - destruct (Spiral.spiral _ _ _ _ _ _) as [m|] eqn:E.
    + apply registry_inv_upload_draw; [reflexivity|exact (Spiral.spiral_valid _ _ _ _ _ _ _ E)|exact Hinv].
    + apply registry_inv_gl; [reflexivity|apply sound_emit|exact Hinv].
  - apply registry_inv_upload_draw; [reflexivity|apply SineCone.sine_valid|exact Hinv].
  - pose proof (Superellipsoid.se_counts_valid scaleX scaleY scaleZ verticalExponent horizontalExponent
                  uSegments vSegments) as Hv. cbv zeta in Hv.
    destruct (Superellipsoid.superellipsoid _ _ _ _ _ _ _) as [v m]. cbv zeta.
    apply registry_inv_upload_draw; [reflexivity|apply Hv|].
    apply registry_inv_set_mesh; [apply registry_inv_numSlices; exact Hinv|reflexivity|now left].
  - apply registry_inv_partial, Hinv.
Qed.

Lemma registry_inv_run calls (st : SM F) : registry_inv st -> registry_inv (run calls st).
Proof.
  revert st. induction calls as [|[l|d|d] calls IH]; intros st Hinv; cbn [run fold_left]; [exact Hinv|..];
    apply IH; [apply registry_inv_load | apply registry_inv_draw | apply registry_inv_dynamic]; exact Hinv.
Qed.

Lemma registry_inv_init : registry_inv (ShapeMeshes (F := F)).
Proof.
  split; [reflexivity|]. split; [cbn; lia|]. split; [reflexivity|]. split; [reflexivity|].
  split; [split; [reflexivity|discriminate]|]. split; [intros s t _ Hz; contradiction Hz; reflexivity|].
  intros s. now left.
Qed.

(** ** Theorems of the registry *)

(** C1: every session keeps the registry invariant: the flag
    [m_bMemoryLayoutDone] is never set, name 0 is never a VAO, no two
    meshes share a VAO, and each mesh handle is zero or names a live VAO;
    except for the meshes uploaded by their draw, that VAO's buffers hold
    exactly [nIndices] indices, and [nVertices] vertices except for the
    fin, and its attribute layout is set; the fin's [nVertices] stays 0,
    since [LoadFinMesh] never stores it. *)
Theorem session_invariant (calls : list Call) : registry_inv (run calls ShapeMeshes).
Proof. apply registry_inv_run, registry_inv_init. Qed.

(** C2: no draw call of any session, whatever the order of the loads, the
    draws and the draws that upload their own mesh, fetches a vertex past
    the end of the buffer it draws from: every element buffer the class
    uploads names vertices of its own vertex buffer, and every range a draw
    method selects lies inside the element buffer or is rejected by GL. *)
Theorem session_no_fault (calls : list Call) : gl_fault (gl (run calls ShapeMeshes)) = false.
Proof.
  destruct (registry_inv_run calls _ registry_inv_init) as (_ & _ & _ & _ & [Hf _] & _). exact Hf.
Qed.

(** C11: loading a shape a second time leaks the buffers of the first
    load: [InitializeMesh] (and every other load) generates a fresh VAO for
    the shape and overwrites the handle without deleting the previous one,
    so after any session and two loads with the same call, the VAO of the
    first load is still live in GL, differs from the new handle, and no
    record of the class names it any more; nothing can delete or draw it. *)
Theorem reload_leaks (calls : list Call) (l : LoadCall) :
  let st1 := exec_load l (run calls ShapeMeshes) in
  let st2 := exec_load l st1 in
  let old := vao (meshes st1 (load_shape l)) in
  old <> 0 /\ vao (meshes st2 (load_shape l)) <> old /\ find_vao (gl st2) old <> None /\
  (forall t, vao (meshes st2 t) <> old).
Proof.
  intros st1 st2 old. subst st2 old. pose proof (registry_inv_run calls _ registry_inv_init) as Hinv0.
  destruct (load_fresh l (run calls ShapeMeshes)) as (Hv1 & Hn1 & _ & _). fold st1 in Hv1, Hn1.
  pose proof (registry_inv_load l _ Hinv0) as (_ & _ & _ & _ & _ & Hdist & Hok). fold st1 in Hdist, Hok.
  destruct (load_fresh l st1) as (Hv2 & Hn2 & Ho2 & Hf2).
  destruct Hinv0 as (_ & Hpos & _).
  split; [lia|]. split; [lia|]. split.
  - rewrite Hf2 by lia.
    destruct (Hok (load_shape l)) as [Hz|(_ & v & Hv & _)]; [lia|]. congruence.
  - intros t. destruct (Shape_beq t (load_shape l)) eqn:Et.
    + apply shape_beq_spec in Et as ->. lia.
    + rewrite (Ho2 t Et). intros Htu.
      assert (t = load_shape l) as -> by (apply Hdist; [exact Htu|lia]).
      now rewrite shape_self in Et.
Qed.

(** C4: every vertex buffer of a live VAO the class has created, in any
    session, holds whole vertices of the 8-float layout its attribute
    pointers declare: [size = 8 * (size / 8)], so the [nVertices] the loads
    store by [verts.size() / 8] drops no float and every [glDrawArrays]
    range ends on a vertex boundary. *)
Theorem session_whole_vertices (calls : list Call) n v :
  find_vao (gl (run calls ShapeMeshes)) n = Some v ->
  List.length (vao_vbo v) = stride * vertex_count (vao_vbo v).
Proof.
  intros Hv. destruct (registry_inv_run calls _ registry_inv_init) as (_ & _ & _ & _ & [_ Hok] & _).
  apply Hok, andb_prop in Hv as [Hw _]. apply Nat.eqb_eq in Hw.
  unfold vertex_count. apply Nat.Div0.div_exact. exact Hw.
Qed.

(** The handle of a reachable state, opened. *)
Lemma live_handle (st : SM F) s :
  registry_inv st -> dynamic s = false -> vao (meshes st s) <> 0 ->
  exists v, find_vao (gl st) (vao (meshes st s)) = Some v /\ vao_layout v = true /\
            List.length (vao_ebo v) = nIndices (meshes st s) /\
            counted s v (meshes st s).
Proof.
  intros (_ & _ & _ & _ & _ & _ & Hok) Hd Hv.
  destruct (Hok s) as [Hz|[_ (v & Hf & [Hx|Hx])]]; [contradiction|congruence|now exists v].
Qed.

(** The whole-mesh draw of a live handle of a reachable state. *)
Lemma indexed_draw_live (st : SM F) s w :
  registry_inv st -> dynamic s = false -> vao (meshes st s) <> 0 ->
  exists v, find_vao (gl st) (vao (meshes st s)) = Some v /\
    gl_log (gl (draw_indexed s (nIndices (meshes st s)) w st)) =
    gl_log (gl st) ++ [EvDraw (vao (meshes st s)) w true GL_TRIANGLES (vao_ebo v)].
Proof.
  intros Hinv Hd Hv.
  destruct (live_handle st s Hinv Hd Hv) as (v & Hf & Hl & Hi & _).
  exists v. split; [exact Hf|]. unfold draw_indexed, with_gl, SetWireframeMode.
  rewrite (draw_elements_ok _ _ _ _ v) by (cbn; lia || exact Hf).
  cbn [set_gl gl gl_log gl_emit fetch glBindVertexArray glPolygonMode gl_bound gl_wire].
  rewrite Hl. cbn [skipn]. now rewrite <- Hi, firstn_all.
Qed.

(** A self-uploading draw keeps every handle. *)
Lemma dynamic_vao d s (st : SM F) : vao (meshes (exec_dynamic d st) s) = vao (meshes st s).
Proof.
  destruct d; cbn [exec_dynamic];
    unfold DrawTaperedTorusMesh, DrawSpiralMesh, DrawSineConeMesh, DrawSuperellipsoidMesh.
  - now rewrite (proj1 (proj2 (upload_draw_keeps _ _ _))).
  - destruct (Spiral.spiral _ _ _ _ _ _); [now rewrite (proj1 (proj2 (upload_draw_keeps _ _ _)))|reflexivity].
  - now rewrite (proj1 (proj2 (upload_draw_keeps _ _ _))).
  - destruct (Superellipsoid.superellipsoid _ _ _ _ _ _ _) as [v m]. cbv zeta.
    rewrite (proj1 (proj2 (upload_draw_keeps _ _ _))). cbn [set_counts set_numSlices set_mesh meshes].
    destruct (Shape_beq s Superellipsoid) eqn:E; [apply shape_beq_spec in E as ->|]; reflexivity.
  - now rewrite (proj1 (proj2 (partial_draw_keeps _ _ _ _ _ _))).
Qed.

(** Once a handle is live it stays live: no call resets a handle to 0. *)
Lemma handle_stays c s (st : SM F) :
  registry_inv st -> vao (meshes st s) <> 0 -> vao (meshes (exec c st) s) <> 0.
Proof.
  intros (_ & Hpos & _) Hv. destruct c as [l|d|d]; cbn [exec].
  - destruct (load_fresh l st) as (Hl & _ & Ho & _).
    destruct (Shape_beq s (load_shape l)) eqn:E; [apply shape_beq_spec in E as ->; lia|now rewrite Ho].
  - now rewrite (proj1 (proj2 (draw_keeps d st))).
  - now rewrite dynamic_vao.
Qed.

Lemma run_app calls1 calls2 (st : SM F) : run (calls1 ++ calls2) st = run calls2 (run calls1 st).
Proof. apply fold_left_app. Qed.

Lemma handle_stays_run calls s (st : SM F) :
  registry_inv st -> vao (meshes st s) <> 0 -> vao (meshes (run calls st) s) <> 0.
Proof.
  revert st. induction calls as [|c calls IH]; intros st Hinv Hv; [exact Hv|]. cbn [run fold_left].
  apply IH; [apply (registry_inv_run [c]), Hinv | now apply handle_stays].
Qed.

(** C12: a load is answered by every later draw: in any session that loads
    a static shape at some point, whatever calls follow (other loads,
    draws, self-uploading draws, a reload of the same shape), the handle
    stays live, and a whole-mesh draw at the end issues one valid
    [GL_TRIANGLES] draw of the entire element buffer of that handle. *)
Theorem load_then_draw (calls1 calls2 : list Call) (l : LoadCall) w :
  let s := load_shape l in
  let st := run (calls1 ++ CLoad l :: calls2) ShapeMeshes in
  dynamic s = false ->
  vao (meshes st s) <> 0 /\
  exists v, find_vao (gl st) (vao (meshes st s)) = Some v /\
    gl_log (gl (draw_indexed s (nIndices (meshes st s)) w st)) =
    gl_log (gl st) ++ [EvDraw (vao (meshes st s)) w true GL_TRIANGLES (vao_ebo v)].
Proof.
  intros s st Hd. pose proof (registry_inv_run calls1 _ registry_inv_init) as Hinv.
  assert (Hv : vao (meshes st s) <> 0).
  { unfold st. rewrite run_app. cbn [run fold_left exec]. apply handle_stays_run.
    - apply registry_inv_load, Hinv.
    - destruct (load_fresh l (run calls1 ShapeMeshes)) as (Hl & _). destruct Hinv as (_ & Hpos & _).
      unfold s. lia. }
  split; [exact Hv|]. apply indexed_draw_live; [apply registry_inv_run, registry_inv_init|exact Hd|exact Hv].
Qed.

(** C13: a draw method that uploads its own mesh ([DrawTaperedTorusMesh],
    [DrawSpiralMesh], [DrawSineConeMesh], [DrawSuperellipsoidMesh]) on a
    loaded handle in any session draws exactly the indices it generated,
    with the attribute layout set and in whatever polygon mode the previous
    call left (it sets none); before its load it binds VAO 0, its uploads
    change no VAO, and GL rejects the draw. *)
Theorem dynamic_draw_uploads (calls : list Call) s (m : MeshData F) :
  let st := run calls ShapeMeshes in
  (vao (meshes st s) <> 0 ->
   gl_log (gl (upload_draw s m st)) =
   gl_log (gl st) ++ [EvDraw (vao (meshes st s)) (gl_wire (gl st)) true GL_TRIANGLES (mindices m)]) /\
  (vao (meshes st s) = 0 ->
   gl_log (gl (upload_draw s m st)) = gl_log (gl st) ++ [EvInvalid 0] /\
   forall n, find_vao (gl (upload_draw s m st)) n = find_vao (gl st) n).
Proof.
  intros st. destruct (registry_inv_run calls _ registry_inv_init) as (_ & _ & Hnone & _ & _ & _ & Hok).
  fold st in Hnone, Hok. split; intros Hz.
  - destruct (Hok s) as [Hz'|[_ (v & Hv & _)]]; [contradiction|]. exact (upload_draw_log s m st v Hv).
  - split.
    + rewrite upload_draw_gl, draw_elements_none; [cbn; now rewrite Hz|].
      replace (gl_bound _) with (vao (meshes st s)) by reflexivity.
      now rewrite uploaded_find, Nat.eqb_refl, Hz, Hnone.
    + intros n. rewrite upload_draw_find, Hz. destruct (Nat.eqb_spec n 0) as [->|]; [now rewrite Hnone|reflexivity].
Qed.

(** C20: a draw before the matching load does not fail loudly, and the three
    draw methods below disagree on what they do: [DrawSphereMesh] binds VAO 0
    and issues a draw GL rejects, writing nothing to [std::cerr];
    [DrawConeMesh] returns without any effect; [DrawTorusMesh] writes an
    error message.  (The spec, section 7: a draw before its load should fail
    loudly.) *)
Theorem draw_before_load (calls : list Call) b w :
  let st := run calls ShapeMeshes in
  (vao (meshes st Sphere) = 0 -> gl_log (gl (DrawSphereMesh w st)) = gl_log (gl st) ++ [EvInvalid 0]) /\
  (vao (meshes st Cone) = 0 -> gl_log (gl (DrawConeMesh b w st)) = gl_log (gl st)) /\
  (vao (meshes st Torus) = 0 -> gl_log (gl (DrawTorusMesh w st)) =
     gl_log (gl st) ++ [EvStderr "Error: Torus mesh VAO or indices not properly initialized."]).
Proof.
  intros st. destruct (registry_inv_run calls _ registry_inv_init) as (_ & _ & Hnone & _). fold st in Hnone.
  split; [|split]; intros Hz.
  - unfold DrawSphereMesh, draw_indexed, with_gl, SetWireframeMode.
    rewrite draw_elements_none by (cbn; rewrite Hz; exact Hnone). cbn. now rewrite Hz.
  - unfold DrawConeMesh. now rewrite Hz.
  - unfold DrawTorusMesh, guard_indexed. rewrite Hz. reflexivity.
Qed.

Lemma initialize_nIndices s verts indices (st : SM F) :
  nIndices (meshes (InitializeMesh s verts indices st) s) = List.length indices.
Proof. rewrite initialize_meshes. now rewrite internal_Shape_dec_lb. Qed.

Lemma initialize_numSlices s verts indices (st : SM F) :
  numSlices (meshes (InitializeMesh s verts indices st) s) = numSlices (meshes st s).
Proof. rewrite initialize_meshes. now rewrite internal_Shape_dec_lb. Qed.

Lemma set_numSlices_self s n (st : SM F) : numSlices (meshes (set_numSlices s n st) s) = n.
Proof. unfold set_numSlices, set_mesh. cbn. now rewrite internal_Shape_dec_lb. Qed.

Lemma zcount_clamp (ns k : Z) : (0 <= k)%Z ->
  zcount (clamp_slices ns) k = Z.to_nat k * Z.to_nat (clamp_slices ns).
Proof. intros Hk. pose proof (clamp_slices_ge3 ns). unfold zcount. lia. Qed.

(** Rewrite every [glDrawElements] of a draw method whose bound VAO is
    [v] (found by [Hf]) and whose ranges fit ([Hlen]). *)
Ltac run_draws v Hf Hlen :=
  repeat (rewrite (draw_elements_ok _ _ _ _ v);
          [| rewrite ?find_draw_elements, ?bound_draw_elements; exact Hf
           | cbn [vao_ebo]; rewrite Hlen; lia]);
  cbn [gl_log gl_emit fetch glBindVertexArray glPolygonMode gl_bound gl_wire vao_layout vao_ebo].

(** A draw right after an upload binds the VAO just created: it is live,
    non-zero, holds the uploaded buffers and has its layout. *)
Lemma fresh_bound s verts indices w (st : SM F) :
  registry_inv st ->
  let st' := InitializeMesh s verts indices st in
  vao (meshes st' s) <> 0 /\
  find_vao (glBindVertexArray (vao (meshes st' s)) (glPolygonMode w (gl st'))) (vao (meshes st' s)) =
    Some (mkVAO verts indices true).
Proof.
  intros (Hflag & Hpos & _ & _) st'. subst st'. rewrite initialize_meshes. cbn [Shape_beq].
  rewrite internal_Shape_dec_lb by reflexivity. cbn [vao]. split; [lia|].
  rewrite find_bind. change (find_vao (glPolygonMode w ?g) ?m) with (find_vao g m).
  now rewrite initialize_find, Nat.eqb_refl, Hflag.
Qed.

(** Right after [upload] of a mesh with [numSlices], its handle is live,
    bound to the uploaded buffers, and caches the slice count. *)
Lemma loaded_slices S ns m w (st : SM F) :
  registry_inv st ->
  let st' := upload S m (set_numSlices S ns st) in
  vao (meshes st' S) <> 0 /\ numSlices (meshes st' S) = ns /\
  find_vao (glBindVertexArray (vao (meshes st' S)) (glPolygonMode w (gl st'))) (vao (meshes st' S)) =
    Some (mkVAO (interleave (mverts m)) (mindices m) true).
Proof.
  intros Hinv st'. destruct (fresh_bound S (interleave (mverts m)) (mindices m) w _
                              (registry_inv_numSlices S ns st Hinv)) as [Hv Hf].
  split; [exact Hv|]. split; [|exact Hf].
  unfold st', upload. now rewrite initialize_numSlices, set_numSlices_self.
Qed.

(** Close a log equation once every draw is rewritten. *)
Ltac close_log :=
  cbn [set_gl gl gl_log gl_emit fetch glBindVertexArray glPolygonMode skipn];
  rewrite <- ?app_assoc; cbn [app]; rewrite ?app_nil_r; reflexivity.

(** The handle of [S] is live, caches [k] slices and is bound to the
    buffers [vs] and [ixs] with the layout set. *)
Definition bound_to (st : SM F) S (k : Z) vs ixs : Prop :=
  vao (meshes st S) <> 0 /\ numSlices (meshes st S) = k /\
  find_vao (gl st) (vao (meshes st S)) = Some (mkVAO vs ixs true).

Lemma loaded_bound S ns m (st : SM F) :
  registry_inv st -> bound_to (upload S m (set_numSlices S ns st)) S ns (interleave (mverts m)) (mindices m).
Proof. intros Hinv. exact (loaded_slices S ns m false st Hinv). Qed.

(** The draws of [DrawCylinderMesh]: the bottom, top and side ranges of
    the bound index buffer. *)
Lemma cylinder_draw_log (st : SM F) k vs ixs t b s w :
  (3 <= k)%Z -> bound_to st Cylinder k vs ixs -> List.length ixs = 12 * Z.to_nat k ->
  let n := Z.to_nat k in
  let v := vao (meshes st Cylinder) in
  gl_log (gl (DrawCylinderMesh t b s w st)) = gl_log (gl st) ++
    (if b then [EvDraw v w true GL_TRIANGLES (firstn (3 * n) ixs)] else []) ++
    (if t then [EvDraw v w true GL_TRIANGLES (firstn (3 * n) (skipn (3 * n) ixs))] else []) ++
    (if s then [EvDraw v w true GL_TRIANGLES (firstn (6 * n) (skipn (6 * n) ixs))] else []).
Proof.
  intros Hk (Hv & Hs & Hf) Hlen n v.
  unfold DrawCylinderMesh, with_gl, SetWireframeMode, zcount. rewrite Hs.
  replace (Z.to_nat (k * 3)) with (3 * n) by lia. replace (Z.to_nat (k * 6)) with (6 * n) by lia.
  destruct t, b, s; run_draws (mkVAO vs ixs true) Hf Hlen; close_log.
Qed.

(** The draws of [DrawConeMesh]: the optional bottom fan, then the sides. *)
Lemma cone_draw_log (st : SM F) k vs ixs b w :
  (3 <= k)%Z -> bound_to st Cone k vs ixs -> List.length ixs = 6 * Z.to_nat k ->
  let n := Z.to_nat k in
  let v := vao (meshes st Cone) in
  gl_log (gl (DrawConeMesh b w st)) = gl_log (gl st) ++
    (if b then [EvDraw v w true GL_TRIANGLES (firstn (3 * n) ixs)] else []) ++
    [EvDraw v w true GL_TRIANGLES (firstn (3 * n) (skipn (3 * n) ixs))].
Proof.
  intros Hk (Hv & Hs & Hf) Hlen n v.
  unfold DrawConeMesh, with_gl, SetWireframeMode, zcount. rewrite Hs.
  replace (Z.to_nat (k * 3)) with (3 * n) by lia.
  destruct (Nat.eqb_spec (vao (meshes st Cone)) 0); [contradiction|].
  destruct b; run_draws (mkVAO vs ixs true) Hf Hlen; close_log.
Qed.

(** The draws of [DrawTaperedCylinderMesh]: bottom, top and side ranges. *)
Lemma tapered_draw_log (st : SM F) k vs ixs t b s w :
  (3 <= k)%Z -> bound_to st TaperedCylinder k vs ixs -> List.length ixs = 12 * Z.to_nat k ->
  let n := Z.to_nat k in
  let v := vao (meshes st TaperedCylinder) in
  gl_log (gl (DrawTaperedCylinderMesh t b s w st)) = gl_log (gl st) ++
    (if b then [EvDraw v w true GL_TRIANGLES (firstn (3 * n) ixs)] else []) ++
    (if t then [EvDraw v w true GL_TRIANGLES (firstn (3 * n) (skipn (3 * n) ixs))] else []) ++
    (if s then [EvDraw v w true GL_TRIANGLES (firstn (6 * n) (skipn (6 * n) ixs))] else []).
Proof.
  intros Hk (Hv & Hs & Hf) Hlen n v.
  unfold DrawTaperedCylinderMesh, with_gl, SetWireframeMode, zcount. cbv zeta. rewrite Hs.
  replace (Z.to_nat (k * 3)) with (3 * n) by lia. replace (Z.to_nat (k * 6)) with (6 * n) by lia.
  replace (3 * n + 3 * n) with (6 * n) by lia.
  destruct t, b, s; run_draws (mkVAO vs ixs true) Hf Hlen; close_log.
Qed.

Lemma firstn_skipn_all {A} (l : list A) k : List.length l <= 2 * k ->
  firstn k (skipn k l) = skipn k l.
Proof. intros. apply firstn_all2. rewrite length_skipn. lia. Qed.

(** C21: [DrawCylinderMesh(true, true, true, w)] after [LoadCylinderMesh], in
    any session, issues three draws whose ranges partition the index buffer
    into the bottom fan (around vertex 0), the top fan (around vertex
    [n + 2]) and the side wall (vertices [2 n + 4 .. 4 n + 5]): the
    sub-ranges the spec's registry exposes. *)
Theorem cylinder_draw_parts (calls : list Call) radius height ns w :
  let st := LoadCylinderMesh radius height ns (run calls ShapeMeshes) in
  let n := Z.to_nat (clamp_slices ns) in
  let v := vao (meshes st Cylinder) in
  exists e1 e2 e3,
    gl_log (gl (DrawCylinderMesh true true true w st)) = gl_log (gl st) ++
      [EvDraw v w true GL_TRIANGLES e1; EvDraw v w true GL_TRIANGLES e2;
       EvDraw v w true GL_TRIANGLES e3] /\
    e1 ++ e2 ++ e3 = mindices (snd (Cylinder.LoadCylinderMesh radius height ns)) /\
    Forall (fan_of 0 1 (n + 2)) (triangles e1) /\
    Forall (fan_of (n + 2) (n + 3) (2 * n + 4)) (triangles e2) /\
    Forall (within (2 * n + 4) (4 * n + 6)) (triangles e3).
Proof.
  intros st n v. pose proof (clamp_slices_ge3 ns) as Hk.
  destruct (Cylinder.cylinder_parts radius height ns) as (Hlen & Hp1 & Hp2 & Hp3).
  fold n in Hlen, Hp1, Hp2, Hp3.
  set (ixs := mindices (snd (Cylinder.LoadCylinderMesh radius height ns))) in *.
  exists (firstn (3 * n) ixs), (firstn (3 * n) (skipn (3 * n) ixs)), (skipn (6 * n) ixs).
  split; [|split; [|auto]].
  - assert (Hb : bound_to st Cylinder (clamp_slices ns) (interleave (mverts (snd (Cylinder.LoadCylinderMesh radius height ns)))) ixs)
      by exact (loaded_bound Cylinder _ _ _ (registry_inv_run calls _ registry_inv_init)).
    rewrite (cylinder_draw_log st (clamp_slices ns) _ ixs true true true w Hk Hb Hlen).
    fold n. rewrite (firstn_skipn_all ixs (6 * n)) by (rewrite Hlen; lia). reflexivity.
  - rewrite <- (firstn_skipn (3 * n) ixs) at 4. f_equal.
    rewrite <- (firstn_skipn (3 * n) (skipn (3 * n) ixs)) at 2. f_equal.
    rewrite skipn_skipn. f_equal. lia.
Qed.

(** C22: [DrawConeMesh(true, w)] after [LoadConeMesh], in any session,
    issues two draws whose ranges partition the index buffer into the
    bottom fan (around vertex 0, rim [1 .. n]) and the side triangles
    (around the apex, vertex [n + 1]). *)
Theorem cone_draw_parts (calls : list Call) radius height ns w :
  let st := LoadConeMesh radius height ns (run calls ShapeMeshes) in
  let n := Z.to_nat (clamp_slices ns) in
  let v := vao (meshes st Cone) in
  exists e1 e2,
    gl_log (gl (DrawConeMesh true w st)) = gl_log (gl st) ++
      [EvDraw v w true GL_TRIANGLES e1; EvDraw v w true GL_TRIANGLES e2] /\
    e1 ++ e2 = mindices (snd (Cone.LoadConeMesh radius height ns)) /\
    Forall (fan_of 0 1 (n + 1)) (triangles e1) /\
    Forall (fan_of (n + 1) (n + 2) (3 * n + 2)) (triangles e2).
Proof.
  intros st n v. pose proof (clamp_slices_ge3 ns) as Hk.
  destruct (Cone.cone_parts radius height ns) as (Hlen & Hp1 & Hp2). fold n in Hlen, Hp1, Hp2.
  set (ixs := mindices (snd (Cone.LoadConeMesh radius height ns))) in *.
  exists (firstn (3 * n) ixs), (skipn (3 * n) ixs).
  split; [|split; [apply firstn_skipn|auto]].
  assert (Hb : bound_to st Cone (clamp_slices ns) (interleave (mverts (snd (Cone.LoadConeMesh radius height ns)))) ixs)
    by exact (loaded_bound Cone _ _ _ (registry_inv_run calls _ registry_inv_init)).
  rewrite (cone_draw_log st (clamp_slices ns) _ ixs true w Hk Hb Hlen).
  fold n. rewrite (firstn_skipn_all ixs (3 * n)) by (rewrite Hlen; lia). reflexivity.
Qed.

(** C23: [DrawTaperedCylinderMesh(true, true, true, w)] after
    [LoadTaperedCylinderMesh], in any session, issues three draws whose
    ranges partition the index buffer into the bottom fan (around vertex
    0), the top fan (around vertex [n + 1]) and the side wall (vertices
    [2 n + 2 .. 4 n + 1]). *)
Theorem tapered_draw_parts (calls : list Call) bottomRadius topRadius height ns w :
  let st := LoadTaperedCylinderMesh bottomRadius topRadius height ns (run calls ShapeMeshes) in
  let n := Z.to_nat (clamp_slices ns) in
  let v := vao (meshes st TaperedCylinder) in
  exists e1 e2 e3,
    gl_log (gl (DrawTaperedCylinderMesh true true true w st)) = gl_log (gl st) ++
      [EvDraw v w true GL_TRIANGLES e1; EvDraw v w true GL_TRIANGLES e2;
       EvDraw v w true GL_TRIANGLES e3] /\
    e1 ++ e2 ++ e3 =
      mindices (snd (TaperedCylinder.LoadTaperedCylinderMesh bottomRadius topRadius height ns)) /\
    Forall (fan_of 0 1 (n + 1)) (triangles e1) /\
    Forall (fan_of (n + 1) (n + 2) (2 * n + 2)) (triangles e2) /\
    Forall (within (2 * n + 2) (4 * n + 2)) (triangles e3).
Proof.
  intros st n v. pose proof (clamp_slices_ge3 ns) as Hk.
  destruct (TaperedCylinder.tapered_parts bottomRadius topRadius height ns) as (Hlen & Hp1 & Hp2 & Hp3).
  fold n in Hlen, Hp1, Hp2, Hp3.
  set (ixs := mindices (snd (TaperedCylinder.LoadTaperedCylinderMesh bottomRadius topRadius height ns))) in *.
  exists (firstn (3 * n) ixs), (firstn (3 * n) (skipn (3 * n) ixs)), (skipn (6 * n) ixs).
  split; [|split; [|auto]].
  - assert (Hb : bound_to st TaperedCylinder (clamp_slices ns)
                   (interleave (mverts (snd (TaperedCylinder.LoadTaperedCylinderMesh
                                               bottomRadius topRadius height ns)))) ixs)
      by exact (loaded_bound TaperedCylinder _ _ _ (registry_inv_run calls _ registry_inv_init)).
    rewrite (tapered_draw_log st (clamp_slices ns) _ ixs true true true w Hk Hb Hlen).
    fold n. rewrite (firstn_skipn_all ixs (6 * n)) by (rewrite Hlen; lia). reflexivity.
  - rewrite <- (firstn_skipn (3 * n) ixs) at 4. f_equal.
    rewrite <- (firstn_skipn (3 * n) (skipn (3 * n) ixs)) at 2. f_equal.
    rewrite skipn_skipn. f_equal. lia.
Qed.

Lemma bound_to_deprecated (st : SM F) S k vs ixs w msg :
  bound_to st S k vs ixs ->
  bound_to (if warned st w then st else set_warned w (with_gl (stderr msg) st)) S k vs ixs.
Proof. destruct (warned st w); intros Hb; exact Hb. Qed.


(** C24: the deprecated wrapper [DrawCylinderMeshLines] does not draw lines:
    it forwards [DrawCylinderMesh(true)], whose [true] is [bDrawTop], so
    after [LoadCylinderMesh], in any session, it writes its warning only if
    it has not before, sets its flag, and draws all three parts with the
    polygon mode [GL_FILL] ([wireframe] keeps its default [false]). *)
Theorem cylinder_lines_filled (calls : list Call) radius height ns :
  let st := LoadCylinderMesh radius height ns (run calls ShapeMeshes) in
  let n := Z.to_nat (clamp_slices ns) in
  let ixs := mindices (snd (Cylinder.LoadCylinderMesh radius height ns)) in
  let v := vao (meshes st Cylinder) in
  gl_log (gl (DrawCylinderMeshLines st)) = gl_log (gl st) ++
    (if warned st cylinderWarned then []
     else [EvStderr "Warning: DrawCylinderMeshLines() is deprecated. Use DrawCylinderMesh(true) instead."]) ++
    [EvDraw v false true GL_TRIANGLES (firstn (3 * n) ixs);
     EvDraw v false true GL_TRIANGLES (firstn (3 * n) (skipn (3 * n) ixs));
     EvDraw v false true GL_TRIANGLES (skipn (6 * n) ixs)] /\
  warned (DrawCylinderMeshLines st) cylinderWarned = true.
Proof.
  intros st n ixs v. pose proof (clamp_slices_ge3 ns) as Hk.
  destruct (Cylinder.cylinder_parts radius height ns) as (Hlen & _). fold n ixs in Hlen.
  assert (Hb : bound_to st Cylinder (clamp_slices ns)
                 (interleave (mverts (snd (Cylinder.LoadCylinderMesh radius height ns)))) ixs)
    by exact (loaded_bound Cylinder _ _ _ (registry_inv_run calls _ registry_inv_init)).
  unfold DrawCylinderMeshLines, deprecated.
  pose proof (bound_to_deprecated st _ _ _ _ cylinderWarned
    "Warning: DrawCylinderMeshLines() is deprecated. Use DrawCylinderMesh(true) instead." Hb) as Hb'.
  destruct (warned st cylinderWarned) eqn:Ew;
    (split; [|change (warned (DrawCylinderMesh true true true false ?s) ?x) with (warned s x);
              first [exact Ew | reflexivity]]);
    rewrite (cylinder_draw_log _ (clamp_slices ns) _ ixs true true true false Hk Hb' Hlen);
    fold n; rewrite (firstn_skipn_all ixs (6 * n)) by (rewrite Hlen; lia);
    cbn [set_warned with_gl set_gl gl gl_log stderr gl_emit]; rewrite <- ?app_assoc; reflexivity.
Qed.

(** C17: [DrawBoxMeshSide] draws the wrong face for three of the six sides.
    In any session, after [LoadBoxMesh], drawing a side logs one draw of six
    indices; the vertices they name carry the outward normal of that side
    only for [left], [right] and [top]: [front] draws the back face (offset
    0), [back] the bottom face (offset 6) and [bottom] the front face
    (offset 30), because the [switch] numbers the faces in another order
    than [LoadBoxMesh] lays them out. *)
Theorem box_side_wrong_face (calls : list Call) side w :
  let st := LoadBoxMesh (run calls ShapeMeshes) in
  exists e, gl_log (gl (DrawBoxMeshSide side w st)) =
            gl_log (gl st) ++ [EvDraw (vao (meshes st Box)) w true GL_TRIANGLES e] /\
    forallb (fun i => normal_is (nth i (deinterleave (@Box.box_verts Q _)) vdefault) (side_normal side)) e =
    match side with left | right | top => true | _ => false end.
Proof.
  intros st. exists (box_face side). split; [|destruct side; vm_compute; reflexivity].
  destruct (fresh_bound Box Box.box_verts Box.box_indices w _ (registry_inv_run calls _ registry_inv_init)) as [Hv Hf].
  unfold DrawBoxMeshSide, guard_indexed, with_gl, SetWireframeMode. subst st.
  unfold LoadBoxMesh, Box.LoadBoxMesh in *.
  destruct (Nat.eqb_spec (vao (meshes (InitializeMesh Box Box.box_verts Box.box_indices
                                         (run calls ShapeMeshes)) Box)) 0); [contradiction|].
  rewrite initialize_meshes at 2. cbn [Shape_beq nIndices orb Nat.eqb].
  rewrite (draw_elements_ok _ _ _ _ _ Hf) by (destruct side; cbn; lia). reflexivity.
Qed.

(** C19: [DrawExtraTorusMesh1] after [LoadExtraTorusMesh1], in any session,
    draws the [6300] vertices of the [30 x 30] grid as [GL_TRIANGLES], but
    every cell pushed seven vertices, so the groups of three the draw
    assembles drift off the cells: its third triangle is made of vertices
    6, 7 and 8, three samples of the tube ring of main segment 0, which is
    no face of the torus. *)
Theorem extra_torus_drawn_misaligned (calls : list Call) thickness :
  let st := LoadExtraTorusMesh1 thickness (run calls ShapeMeshes) in
  let vs := ExtraTorus.LoadExtraTorusMesh thickness in
  let P := ExtraTorus.segment_point (ExtraTorus.tube_radius thickness)
             (radians (#360 / sc_nat 30)%sc) (radians (#360 / sc_nat 30)%sc) in
  find_vao (gl st) (vao (meshes st ExtraTorus1)) = Some (mkVAO (interleave vs) [] true) /\
  gl_log (gl (DrawExtraTorusMesh1 st)) =
    gl_log (gl st) ++ [EvDraw (vao (meshes st ExtraTorus1)) (gl_wire (gl st)) true GL_TRIANGLES (seq 0 (30 * (30 * 7)))] /\
  nth_error (assemble GL_TRIANGLES (seq 0 (30 * (30 * 7)))) 2 = Some (6, 7, 8) /\
  map (option_map position) (map (nth_error vs) [6; 7; 8]) = [Some (P 0 0); Some (P 0 1); Some (P 0 2)].
Proof.
  intros st vs P. destruct (registry_inv_run calls _ registry_inv_init) as (Hflag & _ & _ & _).
  assert (Hv : find_vao (gl st) (vao (meshes st ExtraTorus1)) = Some (mkVAO (interleave vs) [] true)).
  { unfold st, LoadExtraTorusMesh1. rewrite extra_meshes, extra_find. cbn [Shape_beq vao].
    rewrite Nat.eqb_refl, Hflag. reflexivity. }
  assert (Hn : nVertices (meshes st ExtraTorus1) = 30 * (30 * 7)).
  { unfold st, LoadExtraTorusMesh1. rewrite extra_meshes. cbn [Shape_beq nVertices].
    apply ExtraTorus.extra_torus_length. }
  split; [exact Hv|]. split; [|split; [reflexivity|]].
  - unfold DrawExtraTorusMesh1, with_gl, glDrawArrays. cbn [gl set_gl glBindVertexArray gl_bound].
    rewrite find_bind, Hv, Hn.
    replace (0 + 30 * (30 * 7) <=? vertex_count (interleave vs)) with true.
    + reflexivity.
    + symmetry. apply Nat.leb_le. change (vertex_count (interleave vs)) with (next_index (mkMesh vs [])).
      rewrite next_index_length. cbn [mverts].
      unfold vs, ExtraTorus.LoadExtraTorusMesh. rewrite ExtraTorus.extra_torus_length. reflexivity.
  - apply (ExtraTorus.extra_torus_third_triangle 30 30 thickness); cbv; lia.
Qed.

End Calls.

(** C18: [DrawPlaneMesh] draws the plane's triangle-list indices
    [0 1 2 0 2 3] as a [GL_TRIANGLE_STRIP].  In any session, after
    [LoadPlaneMesh] with a positive width and height, the draw it logs
    assembles into four triangles of which only the first faces the
    plane's normal, where the same indices as [GL_TRIANGLES] give the two
    triangles of the quad, both facing it: with back-face culling half the
    plane disappears. *)
Theorem plane_drawn_as_strip (calls : list (Call (F := R))) (w h : R) wire :
  (0 < w)%R -> (0 < h)%R ->
  let st := LoadPlaneMesh w h (run calls ShapeMeshes) in
  let vs := deinterleave (fst (Plane.LoadPlaneMesh w h)) in
  exists e, gl_log (gl (DrawPlaneMesh wire st)) =
            gl_log (gl st) ++ [EvDraw (vao (meshes st Plane)) wire true GL_TRIANGLE_STRIP e] /\
    map (facing vs) (assemble GL_TRIANGLE_STRIP e) = [true; false; false; false] /\
    map (facing vs) (assemble GL_TRIANGLES e) = [true; true].
Proof.
  intros Hw Hh st vs. exists (snd (Plane.LoadPlaneMesh w h)).
  split; [|exact (Plane.plane_orientation w h Hw Hh)].
  subst st vs. unfold LoadPlaneMesh.
  destruct (Plane.LoadPlaneMesh w h) as [pv pi] eqn:EP. cbn [snd].
  destruct (fresh_bound Plane pv pi wire _ (registry_inv_run calls _ registry_inv_init)) as [_ Hf].
  unfold DrawPlaneMesh, with_gl, SetWireframeMode.
  rewrite initialize_nIndices.
  assert (Hpi : pi = [0; 1; 2; 0; 2; 3]) by (unfold Plane.LoadPlaneMesh in EP; congruence).
  rewrite (draw_elements_ok _ _ _ _ _ Hf) by (rewrite Hpi; cbn; lia). now rewrite Hpi.
Qed.


Lemma dynamic_draw_uploads_witness :
  let m := TaperedTorus.tapered_torus 1%R (sc_lit (Qmake 1 5)) (sc_lit (Qmake 1 10)) 8 8 PI in
  (let st := run (F := R) [CLoad LTaperedTorus] ShapeMeshes in
   vao (meshes st TaperedTorus) <> 0 /\
   gl_log (gl (upload_draw TaperedTorus m st)) =
   gl_log (gl st) ++ [EvDraw (vao (meshes st TaperedTorus)) (gl_wire (gl st)) true GL_TRIANGLES (mindices m)]) /\
  (let st := run (F := R) [] ShapeMeshes in
   vao (meshes st TaperedTorus) = 0 /\
   gl_log (gl (upload_draw TaperedTorus m st)) = gl_log (gl st) ++ [EvInvalid 0]).
Proof.
  intros m. split.
  - intros st. assert (Hv : vao (meshes st TaperedTorus) <> 0) by (simpl; lia).
    split; [exact Hv|]. exact (proj1 (dynamic_draw_uploads [CLoad LTaperedTorus] TaperedTorus m) Hv).
  - intros st. split; [reflexivity|].
    exact (proj1 (proj2 (dynamic_draw_uploads [] TaperedTorus m) eq_refl)).
Defined.

Lemma draw_before_load_witness :
  let st := run (F := R) [] ShapeMeshes in
  vao (meshes st Sphere) = 0 /\ vao (meshes st Cone) = 0 /\ vao (meshes st Torus) = 0 /\
  ((vao (meshes st Sphere) = 0 -> gl_log (gl (DrawSphereMesh false st)) = gl_log (gl st) ++ [EvInvalid 0]) /\
  (vao (meshes st Cone) = 0 -> gl_log (gl (DrawConeMesh true false st)) = gl_log (gl st)) /\
  (vao (meshes st Torus) = 0 -> gl_log (gl (DrawTorusMesh false st)) =
     gl_log (gl st) ++ [EvStderr "Error: Torus mesh VAO or indices not properly initialized."])).
Proof.
  intros st. split; [reflexivity|]. split; [reflexivity|]. split; [reflexivity|].
  exact (draw_before_load [] true false).
Defined.

Lemma plane_drawn_as_strip_witness :
  (0 < 2)%R /\ (0 < 2)%R /\
  let st := LoadPlaneMesh 2%R 2%R (run [] ShapeMeshes) in
  let vs := deinterleave (fst (Plane.LoadPlaneMesh 2%R 2%R)) in
  exists e, gl_log (gl (DrawPlaneMesh false st)) =
            gl_log (gl st) ++ [EvDraw (vao (meshes st Plane)) false true GL_TRIANGLE_STRIP e] /\
    map (facing vs) (assemble GL_TRIANGLE_STRIP e) = [true; false; false; false] /\
    map (facing vs) (assemble GL_TRIANGLES e) = [true; true].
Proof. split; [exact Rlt_0_2|]. split; [exact Rlt_0_2|]. exact (plane_drawn_as_strip [] 2 2 false Rlt_0_2 Rlt_0_2). Defined.

Lemma session_whole_vertices_witness :
  let g := gl (run (F := R) [CLoad LBox] ShapeMeshes) in
  find_vao g 1 = Some (mkVAO (fst (@Box.LoadBoxMesh R _)) (snd (@Box.LoadBoxMesh R _)) true) /\
  List.length (fst (@Box.LoadBoxMesh R _)) = stride * vertex_count (fst (@Box.LoadBoxMesh R _)).
Proof.
  intros g. split; [reflexivity|].
  exact (session_whole_vertices [CLoad LBox] 1 (mkVAO (fst Box.LoadBoxMesh) (snd Box.LoadBoxMesh) true) eq_refl).
Defined.

Lemma load_then_draw_witness :
  dynamic (load_shape (F := R) (LSphere 2 2 1%R)) = false /\
  let st := run (F := R) ([] ++ [CLoad (LSphere 2 2 1%R)] ++ [CDraw (DCone true false)]) ShapeMeshes in
  vao (meshes st Sphere) <> 0.
Proof.
  split; [reflexivity|].
  exact (proj1 (load_then_draw [] [CDraw (DCone true false)] (LSphere 2 2 1%R) false eq_refl)).
Defined.

End Session.
