(* ===== verification/Refinement.v ===== *)
(** * The registry refines an abstract store of mesh buffers

    The contract of the class, seen from a renderer: each shape either has
    no buffers yet or holds the vertex floats and element indices of the
    last mesh built for it: by its load, or, for the meshes built by their
    draw, by the last such draw after the load; other draws change nothing.
    [Abs] is that store, [abs_run] its semantics of a session, and
    [refines] the relation between a concrete state of [ShapeMeshes] and
    the store: a shape has buffers exactly when its handle is set, and the
    VAO of the handle holds them.  [session_refines] proves the simulation
    for every session. *)

From Stdlib Require Import List Arith Lia ZArith QArith String.
From S2P Require Import Prelude Layout Axisymmetric Grids Sweeps Custom Spiral Primitives GL Registry Draws Dynamic Session.
Import ListNotations.
Import Registry Draws Dynamic Session.
Local Open Scope nat_scope.

Module Refinement.
Section Abs.
Context {F : Type} `{Scalar F}.

Definition Abs := Shape -> option (list F * list nat).

Definition abs_init : Abs := fun _ => None.

Definition abs_set (s : Shape) (b : list F * list nat) (a : Abs) : Abs :=
  fun t => if Shape_beq t s then Some b else a t.

(** The buffers of a generated mesh: the interleaved floats and the indices. *)
Definition mesh_buffers (m : MeshData F) : list F * list nat := (interleave (mverts m), mindices m).

(** The shape each load writes and the buffers it leaves: the name-only
    loads leave empty buffers. *)
Definition load_buffers (l : LoadCall (F := F)) : Shape * (list F * list nat) :=
  match l with
  | LBox => (Box, Box.LoadBoxMesh)
  | LCone r h n => (Cone, mesh_buffers (snd (Cone.LoadConeMesh r h n)))
  | LCylinder r h n => (Cylinder, mesh_buffers (snd (Cylinder.LoadCylinderMesh r h n)))
  | LPlane w h => (Plane, Plane.LoadPlaneMesh w h)
  | LPrism => (Prism, Prism.LoadPrismMesh)
  | LPyramid3 => (Pyramid3, Pyramids.LoadPyramid3Mesh)
  | LPyramid4 b h => (Pyramid4, Pyramids.LoadPyramid4Mesh b h)
  | LSphere la lo r => (Sphere, mesh_buffers (Sphere.LoadSphereMesh la lo r))
  | LHemisphere la lo r => (Hemisphere, mesh_buffers (Hemisphere.LoadHemisphereMesh la lo r))
  | LTaperedCylinder b t h n =>
      (TaperedCylinder, mesh_buffers (snd (TaperedCylinder.LoadTaperedCylinderMesh b t h n)))
  | LTorus mr tr ms ts => (Torus, mesh_buffers (Torus.LoadTorusMesh mr tr ms ts))
  | LExtraTorus1 t => (ExtraTorus1, (interleave (ExtraTorus.LoadExtraTorusMesh t), []))
  | LExtraTorus2 t => (ExtraTorus2, (interleave (ExtraTorus.LoadExtraTorusMesh t), []))
  | LSpring mr tr ms ts l => (Spring, mesh_buffers (Spring.LoadSpringMesh mr tr ms ts l))
  | LTube o i h n => (Tube, mesh_buffers (snd (Tube.LoadTubeMesh o i h n)))
  | LFin b t h th => (Fin, (interleave (fst (Fin.LoadFinMesh b t h th)), snd (Fin.LoadFinMesh b t h th)))
  | LCurvedCone n c r h b => (CurvedCone, mesh_buffers (snd (CurvedCone.LoadCurvedConeMesh n c r h b)))
  | LTaperedTorus => (TaperedTorus, ([], []))
  | LSpiral => (Spiral, ([], []))
  | LSineCone => (SineCone, ([], []))
  | LSuperellipsoid => (Superellipsoid, ([], []))
  end.

(** The shape a draw of [DynamicCall] writes and the mesh it builds, if
    its generator returns one; the partial cone writes no shape. *)
Definition dynamic_mesh (d : DynamicCall (F := F)) : option (Shape * option (MeshData F)) :=
  match d with
  | DTaperedTorus mr rs re ms ts sw => Some (TaperedTorus, Some (TaperedTorus.tapered_torus mr rs re ms ts sw))
  | DSpiral tr ff ls nl ts ss => Some (Spiral, Spiral.spiral tr ff ls nl ts ss)
  | DSineCone br h ff a fr ph rs hs => Some (SineCone, Some (SineCone.sine_cone br h ff a fr ph rs hs))
  | DSuperellipsoid x y z ve he us vs =>
      Some (Superellipsoid, Some (snd (Superellipsoid.superellipsoid x y z ve he us vs)))
  | DPartialCone _ _ _ _ _ => None
  end.

Definition abs_exec (c : Call (F := F)) (a : Abs) : Abs :=
  match c with
  | CLoad l => let '(s, b) := load_buffers l in abs_set s b a
  | CDraw _ => a
  | CDynamic d =>
      match dynamic_mesh d with
      | Some (s, Some m) => match a s with Some _ => abs_set s (mesh_buffers m) a | None => a end
      | _ => a
      end
  end.

Definition abs_run (calls : list Call) (a : Abs) : Abs := fold_left (fun a c => abs_exec c a) calls a.

(** A shape has buffers exactly when its handle is set, and its VAO holds them. *)
Definition refines (st : SM F) (a : Abs) : Prop :=
  forall s, match a s with
            | None => vao (meshes st s) = 0
            | Some (vs, ixs) => vao (meshes st s) <> 0 /\
                exists lay, find_vao (gl st) (vao (meshes st s)) = Some (mkVAO vs ixs lay)
            end.

End Abs.
(** ** The simulation, call by call *)
Section Sim.
Context {F : Type} `{Scalar F}.

(** A fresh VAO holding [vs] and [ixs] under the next name, stored in the
    handle of [s] alone, refines setting the buffers of [s]. *)
Lemma refines_fresh s vs ixs lay (st st' : SM F) (a : Abs) :
  registry_inv st -> refines st a ->
  (forall t, Shape_beq t s = false -> meshes st' t = meshes st t) ->
  vao (meshes st' s) = gl_next (gl st) ->
  (forall m, find_vao (gl st') m = if m =? gl_next (gl st) then Some (mkVAO vs ixs lay) else find_vao (gl st) m) ->
  refines st' (abs_set s (vs, ixs) a).
Proof.
  intros (_ & Hpos & _ & _ & _ & _ & Hok) Hr Hother Hvao Hfind t. unfold abs_set.
  destruct (Shape_beq t s) eqn:E.
  - apply shape_beq_spec in E as ->. rewrite Hvao, Hfind, Nat.eqb_refl. split; [lia|eauto].
  - rewrite (Hother t E). specialize (Hr t). destruct (a t) as [[vs' ixs']|]; [|exact Hr].
    destruct Hr as [Hz [l Hl]]. split; [exact Hz|]. exists l. rewrite Hfind.
    destruct (Hok t) as [|[Hlt _]]; [contradiction|].
    destruct (Nat.eqb_spec (vao (meshes st t)) (gl_next (gl st))); [lia|exact Hl].
Qed.

Lemma refines_set_mesh s m' (st : SM F) (a : Abs) :
  vao m' = vao (meshes st s) -> refines st a -> refines (set_mesh s m' st) a.
Proof.
  intros Hv Hr t. specialize (Hr t). cbn [set_mesh meshes gl].
  destruct (Shape_beq t s) eqn:E; [apply shape_beq_spec in E; subst t; rewrite Hv|]; exact Hr.
Qed.

(** A call that leaves the object store and the handles alone. *)
Lemma refines_store (st st' : SM F) (a : Abs) :
  store (gl st') = store (gl st) -> meshes st' = meshes st -> refines st a -> refines st' a.
Proof.
  intros Hs Hm Hr t. specialize (Hr t). rewrite Hm, (find_vao_store _ _ _ Hs). exact Hr.
Qed.

Lemma refines_initialize s vs ixs (st : SM F) (a : Abs) :
  registry_inv st -> refines st a -> refines (InitializeMesh s vs ixs st) (abs_set s (vs, ixs) a).
Proof.
  intros Hinv Hr. apply (refines_fresh s vs ixs true st); [exact Hinv|exact Hr| | |].
  - intros t Ht. now rewrite initialize_meshes, Ht.
  - now rewrite initialize_meshes, shape_self.
  - intros m. now rewrite initialize_find, (proj1 Hinv).
Qed.

Lemma refines_upload_pair s (p : Z * MeshData F) (st : SM F) (a : Abs) :
  registry_inv st -> refines st a ->
  refines (let '(n, m) := p in upload s m (set_numSlices s n st)) (abs_set s (mesh_buffers (snd p)) a).
Proof.
  destruct p as [n m]. intros Hinv Hr. apply refines_initialize; [now apply registry_inv_numSlices|].
  now apply refines_set_mesh.
Qed.

Lemma refines_names s (st : SM F) (a : Abs) :
  registry_inv st -> refines st a -> refines (load_names s st) (abs_set s ([], []) a).
Proof.
  intros Hinv Hr. apply (refines_fresh s [] [] false st); [exact Hinv|exact Hr| | |apply names_find].
  - intros t Ht. now rewrite names_meshes, Ht.
  - now rewrite names_meshes, shape_self.
Qed.

Lemma refines_extra s thickness (st : SM F) (a : Abs) :
  registry_inv st -> refines st a ->
  refines (load_extra_torus s thickness st) (abs_set s (interleave (ExtraTorus.LoadExtraTorusMesh thickness), []) a).
Proof.
  intros Hinv Hr. apply (refines_fresh s _ _ true st); [exact Hinv|exact Hr| | |].
  - intros t Ht. now rewrite extra_meshes, Ht.
  - now rewrite extra_meshes, shape_self.
  - intros m. now rewrite extra_find, (proj1 Hinv).
Qed.

Lemma refines_load l (st : SM F) (a : Abs) :
  registry_inv st -> refines st a -> refines (exec_load l st) (abs_exec (CLoad l) a).
Proof.
  intros Hinv Hr. destruct l; cbn [exec_load abs_exec load_buffers];
    unfold LoadBoxMesh, LoadConeMesh, LoadCylinderMesh, LoadPlaneMesh, LoadPrismMesh,
      LoadPyramid3Mesh, LoadPyramid4Mesh, LoadSphereMesh, LoadHemisphereMesh,
      LoadTaperedCylinderMesh, LoadTorusMesh, LoadExtraTorusMesh1, LoadExtraTorusMesh2,
      LoadSpringMesh, LoadTubeMesh, LoadCurvedConeMesh, LoadTaperedTorusMesh, LoadSpiralMesh,
      LoadSineConeMesh, LoadSuperellipsoidMesh, upload.
  all: try (apply refines_names; assumption).
  all: try (apply refines_extra; assumption).
  all: try (apply refines_upload_pair; assumption).
  - destruct Box.LoadBoxMesh. now apply refines_initialize.
  - destruct (Plane.LoadPlaneMesh width height). now apply refines_initialize.
  - destruct Prism.LoadPrismMesh. now apply refines_initialize.
  - destruct Pyramids.LoadPyramid3Mesh. now apply refines_initialize.
  - destruct (Pyramids.LoadPyramid4Mesh baseSize height). now apply refines_initialize.
  - now apply refines_initialize.
  - now apply refines_initialize.
  - now apply refines_initialize.
  - now apply refines_initialize.
  - apply (refines_fresh Fin _ _ true st); [exact Hinv|exact Hr| |reflexivity|apply fin_find].
    intros u Hu. now rewrite fin_meshes, Hu.
  - destruct (CurvedCone.LoadCurvedConeMesh numSlices curveSteps radius height bendRadius) as [[n c] m].
    apply refines_initialize; [now apply registry_inv_curveSteps, registry_inv_numSlices|].
    now apply refines_set_mesh, refines_set_mesh.
Qed.

Lemma refines_draw d (st : SM F) (a : Abs) : refines st a -> refines (exec_draw d st) a.
Proof. destruct (draw_keeps d st) as (Hs & Hm & _). now apply refines_store. Qed.

(** An upload-and-draw rewrites the buffers of a loaded shape, and of no
    other: before the load it binds VAO 0 and uploads nothing. *)
Lemma refines_upload_draw s m (st : SM F) (a : Abs) :
  registry_inv st -> refines st a ->
  refines (upload_draw s m st) (match a s with Some _ => abs_set s (mesh_buffers m) a | None => a end).
Proof.
  intros (_ & _ & Hnone & _ & _ & Hdist & _) Hr. destruct (upload_draw_keeps s m st) as (_ & Hm & _).
  pose proof (Hr s) as Hs. intros t. rewrite Hm, upload_draw_find. specialize (Hr t).
  destruct (a s) as [[vs ixs]|] eqn:Es; unfold abs_set;
    [destruct (Shape_beq t s) eqn:E; [apply shape_beq_spec in E; subst t|]|].
  - destruct Hs as [Hz [l Hl]]. rewrite Nat.eqb_refl, Hl. split; [exact Hz|now eexists].
  - destruct (a t) as [[vs' ixs']|]; [|exact Hr]. destruct Hr as [Hz Hl]. split; [exact Hz|].
    destruct (Nat.eqb_spec (vao (meshes st t)) (vao (meshes st s))) as [Ets|]; [|exact Hl].
    apply Hdist in Ets; [subst t; now rewrite shape_self in E|exact Hz].
  - destruct (a t) as [[vs' ixs']|]; [|exact Hr]. destruct Hr as [Hz Hl]. split; [exact Hz|].
    rewrite Hs. destruct (Nat.eqb_spec (vao (meshes st t)) 0); [contradiction|exact Hl].
Qed.

Lemma refines_dynamic d (st : SM F) (a : Abs) :
  registry_inv st -> refines st a -> refines (exec_dynamic d st) (abs_exec (CDynamic d) a).
Proof.
  intros Hinv Hr. pose proof Hinv as (_ & _ & _ & _ & _ & _ & Hok). destruct d; cbn [exec_dynamic abs_exec dynamic_mesh];
    unfold DrawTaperedTorusMesh, DrawSpiralMesh, DrawSineConeMesh, DrawSuperellipsoidMesh.
  - exact (refines_upload_draw _ _ _ _ Hinv Hr).
  - destruct (Spiral.spiral _ _ _ _ _ _) as [m|].
    + exact (refines_upload_draw _ _ _ _ Hinv Hr).
    + apply refines_store with st; auto.
  - exact (refines_upload_draw _ _ _ _ Hinv Hr).
  - destruct (Superellipsoid.superellipsoid _ _ _ _ _ _ _) as [v m]. cbv zeta. cbn [snd].
    assert (Hr' : refines (set_counts Superellipsoid (next_index m) (List.length (mindices m))
                    (set_numSlices Superellipsoid v st)) a) by (now apply refines_set_mesh, refines_set_mesh).
    assert (Hinv' : registry_inv (set_counts Superellipsoid (next_index m) (List.length (mindices m))
                      (set_numSlices Superellipsoid v st)))
      by (apply registry_inv_set_mesh; [now apply registry_inv_numSlices|reflexivity|now left]).
    exact (refines_upload_draw _ _ _ _ Hinv' Hr').
  - destruct (partial_draw_keeps radius height numSlices arcDegrees wireframe st) as (_ & Hm & _).
    intros t. specialize (Hr t). rewrite Hm, partial_draw_find.
    destruct (a t) as [[vs ixs]|]; [|exact Hr]. destruct Hr as [Hz Hl]. split; [exact Hz|].
    destruct (Hok t) as [|[Hlt _]]; [contradiction|].
    destruct (Nat.eqb_spec (vao (meshes st t)) (gl_next (gl st))); [lia|exact Hl].
Qed.

Lemma refines_run calls (st : SM F) (a : Abs) :
  registry_inv st -> refines st a -> refines (run calls st) (abs_run calls a).
Proof.
  revert st a. induction calls as [|c calls IH]; intros st a Hinv Hr; [exact Hr|].
  cbn [run abs_run fold_left]. apply IH.
  - destruct c; [apply registry_inv_load|apply registry_inv_draw|apply registry_inv_dynamic]; exact Hinv.
  - destruct c; [apply refines_load|apply refines_draw|apply refines_dynamic]; assumption.
Qed.

(** C3: every session of [ShapeMeshes] refines the abstract store of mesh
    buffers: after any sequence of loads, draws and draws that build their
    own mesh, a shape has a VAO exactly when the abstract store has buffers
    for it, and that VAO holds exactly the floats and indices of the last
    mesh built for the shape: by its last load, or by a later draw of a
    mesh built by its draw (only once the shape is loaded, and only when
    the generator returns); draws change no buffer. *)
Theorem session_refines (calls : list Call) : refines (run calls (ShapeMeshes (F := F))) (abs_run calls abs_init).
Proof. apply refines_run; [apply registry_inv_init|intros s; reflexivity]. Qed.

End Sim.

End Refinement.
