(* ===== verification/GLObjects.v ===== *)
(** * OpenGL at the level of its objects, and the VAO-level model it refines

    [GL] models the Render Backend at the level the class observes: a VAO
    holds its vertex floats, its element indices and whether the attribute
    layout was set.  OpenGL itself keeps more state, and the class drives
    it call by call: buffer objects with names of their own, the global
    [GL_ARRAY_BUFFER] binding, the element-buffer binding and the attribute
    pointers that are state of the bound VAO, each pointer capturing the
    array buffer bound when [glVertexAttribPointer] runs.  Module [GLObj]
    models that state ([GLObj]: names, buffers, VAOs with their element
    buffer and attribute table, the two bindings, polygon mode, log, fault
    flag) and every call the class issues on it ([glGenVertexArrays],
    [glGenBuffers], [glBindVertexArray], [glBindBuffer], [glBufferData]
    with its [GL_INVALID_OPERATION] when no buffer is bound,
    [glVertexAttribPointer], [glEnableVertexAttribArray],
    [glPolygonMode], [glDrawElements], [glDrawArrays], [glDeleteBuffers],
    [glDeleteVertexArrays]).  It writes out, call by call and in the
    source's order, the GL code of [InitializeMesh] with
    [SetShaderMemoryLayout] (ShapeMeshes.cpp 80-97, 2562-2574), of the
    name-only loads ([LoadTaperedTorusMesh], 2815-2817), of the extra tori
    (1202-1215), of [LoadFinMesh] (2139-2163), of the upload-and-draw that
    ends the self-uploading draws (2890-2909) and of [DrawPartialConeMesh] (1792-1835,
    which enables each attribute before setting its pointer).

    The abstraction [abs] reads a VAO's floats from the buffer its
    attribute 0 reads, its indices from its element buffer, and its layout
    flag from whether the three pointers of [SetShaderMemoryLayout] are
    set, enabled and on that buffer.  The invariant [ob_ok] says every
    name, binding and reference is below the name counter and no buffer is
    named 0, which [glGen*] guarantees to a program that only uses the
    names it was given; [handles_ok] says a VAO's upload handles are two
    distinct generated buffers no other VAO reads.  Section [Refine] proves
    that each call sequence, from a store with [ob_ok] abstracting to the
    class's GL state, ends in a store with [ob_ok] abstracting to the
    state after the VAO-level method of [Registry] or [Dynamic], and that
    the names it generates are those the method writes into the mesh
    record.  The refinement holds at method boundaries: OpenGL attaches the
    floats to a VAO at [glVertexAttribPointer], the VAO-level model at the
    upload.  The uploads through the handles of a record need [handles_ok],
    which the name-only loads establish; a self-uploading draw before its
    load binds VAO 0 and its [glBufferData] calls fail, errors the
    VAO-level model does not log. *)

From Stdlib Require Import List Arith Bool Lia String Reals.
From S2P Require Import Prelude Layout RealModel Axisymmetric Sweeps GL Primitives Registry Draws Dynamic.
Import ListNotations.
Local Open Scope nat_scope.

Module GLObj.
Section Objects.
Context {F : Type}.

Inductive Target := GL_ARRAY_BUFFER | GL_ELEMENT_ARRAY_BUFFER.

(** The payload of a [glBufferData]: [GLfloat]s or [GLuint]s. *)
Inductive BufData := Floats (l : list F) | Indices (l : list nat).

(** [glVertexAttribPointer(index, size, GL_FLOAT, GL_FALSE, stride,
    offset)], sizes in floats, and its [glEnableVertexAttribArray] flag. *)
Record Attrib := mkAttrib {
  at_buffer : nat; at_size : nat; at_stride : nat; at_offset : nat; at_enabled : bool }.

(** The state of a vertex array object: its element-buffer binding and its
    attribute pointers by index. *)
Record VAOObj := mkVAOObj { vo_element : nat; vo_attribs : list (nat * Attrib) }.

Record GLObj := mkObj {
  ob_next : nat;                       (** the next object name *)
  ob_buffers : list (nat * BufData);   (** buffer objects with data *)
  ob_vaos : list (nat * VAOObj);       (** vertex array objects *)
  ob_array : nat;                      (** the [GL_ARRAY_BUFFER] binding *)
  ob_bound : nat;                      (** [glBindVertexArray] *)
  ob_wire : bool;
  ob_log : list Event;
  ob_fault : bool
}.

Definition lookup {A} (l : list (nat * A)) (n : nat) : option A :=
  match find (fun p => fst p =? n) l with Some (_, a) => Some a | None => None end.

Definition set_vaos (vs : list (nat * VAOObj)) (o : GLObj) : GLObj :=
  mkObj (ob_next o) (ob_buffers o) vs (ob_array o) (ob_bound o) (ob_wire o) (ob_log o) (ob_fault o).

Definition set_buffers (bs : list (nat * BufData)) (o : GLObj) : GLObj :=
  mkObj (ob_next o) bs (ob_vaos o) (ob_array o) (ob_bound o) (ob_wire o) (ob_log o) (ob_fault o).

Definition ob_emit (e : Event) (o : GLObj) : GLObj :=
  mkObj (ob_next o) (ob_buffers o) (ob_vaos o) (ob_array o) (ob_bound o) (ob_wire o)
        (ob_log o ++ [e]) (ob_fault o).

(** Change the VAO bound now. *)
Definition update_vao (f : VAOObj -> VAOObj) (o : GLObj) : GLObj :=
  set_vaos (map (fun p => if fst p =? ob_bound o then (fst p, f (snd p)) else p) (ob_vaos o)) o.

(** ** The calls *)

Definition glGenVertexArrays (o : GLObj) : nat * GLObj :=
  let n := ob_next o in
  (n, mkObj (S n) (ob_buffers o) ((n, mkVAOObj 0 []) :: ob_vaos o) (ob_array o) (ob_bound o)
            (ob_wire o) (ob_log o) (ob_fault o)).

(** A fresh name; the object comes into being at its first bind. *)
Definition glGenBuffers (o : GLObj) : nat * GLObj :=
  (ob_next o, mkObj (S (ob_next o)) (ob_buffers o) (ob_vaos o) (ob_array o) (ob_bound o)
                    (ob_wire o) (ob_log o) (ob_fault o)).

Definition glBindVertexArray (n : nat) (o : GLObj) : GLObj :=
  mkObj (ob_next o) (ob_buffers o) (ob_vaos o) (ob_array o) n (ob_wire o) (ob_log o) (ob_fault o).

Definition glPolygonMode (wire : bool) (o : GLObj) : GLObj :=
  mkObj (ob_next o) (ob_buffers o) (ob_vaos o) (ob_array o) (ob_bound o) wire (ob_log o) (ob_fault o).

(** [glBindBuffer]: the array binding is global, the element binding is
    state of the bound VAO. *)
Definition glBindBuffer (t : Target) (b : nat) (o : GLObj) : GLObj :=
  match t with
  | GL_ARRAY_BUFFER =>
      mkObj (ob_next o) (ob_buffers o) (ob_vaos o) b (ob_bound o) (ob_wire o) (ob_log o) (ob_fault o)
  | GL_ELEMENT_ARRAY_BUFFER => update_vao (fun v => mkVAOObj b (vo_attribs v)) o
  end.

(** The buffer a target names now: 0 when none is bound. *)
Definition target_buffer (t : Target) (o : GLObj) : nat :=
  match t with
  | GL_ARRAY_BUFFER => ob_array o
  | GL_ELEMENT_ARRAY_BUFFER =>
      match lookup (ob_vaos o) (ob_bound o) with Some v => vo_element v | None => 0 end
  end.

(** [glBufferData(target, size, data, usage)]: the data replaces the
    store of the buffer bound to the target; with none bound the call is
    [GL_INVALID_OPERATION]. *)
Definition glBufferData (t : Target) (d : BufData) (o : GLObj) : GLObj :=
  let b := target_buffer t o in
  if b =? 0 then ob_emit (EvInvalid (ob_bound o)) o
  else set_buffers ((b, d) :: filter (fun p => negb (fst p =? b)) (ob_buffers o)) o.

Definition set_attrib (i : nat) (f : option Attrib -> Attrib) (v : VAOObj) : VAOObj :=
  mkVAOObj (vo_element v)
    ((i, f (lookup (vo_attribs v) i)) :: filter (fun p => negb (fst p =? i)) (vo_attribs v)).

(** [glVertexAttribPointer(i, size, GL_FLOAT, GL_FALSE, stride, offset)]:
    the pointer reads the array buffer bound now; enabling is separate. *)
Definition glVertexAttribPointer (i size stride offset : nat) (o : GLObj) : GLObj :=
  update_vao (set_attrib i (fun a => mkAttrib (ob_array o) size stride offset
                              (match a with Some a => at_enabled a | None => false end))) o.

Definition glEnableVertexAttribArray (i : nat) : GLObj -> GLObj :=
  update_vao (set_attrib i (fun a => match a with
                                     | Some a => mkAttrib (at_buffer a) (at_size a) (at_stride a) (at_offset a) true
                                     | None => mkAttrib 0 4 0 0 true
                                     end)).

Definition glDeleteBuffers (b : nat) (o : GLObj) : GLObj :=
  set_buffers (filter (fun p => negb (fst p =? b)) (ob_buffers o)) o.

Definition glDeleteVertexArrays (n : nat) (o : GLObj) : GLObj :=
  set_vaos (filter (fun p => negb (fst p =? n)) (ob_vaos o)) o.

(** ** What a VAO resolves to *)

Definition buf_floats (o : GLObj) (b : nat) : list F :=
  match lookup (ob_buffers o) b with Some (Floats l) => l | _ => [] end.

Definition buf_indices (o : GLObj) (b : nat) : list nat :=
  match lookup (ob_buffers o) b with Some (Indices l) => l | _ => [] end.

(** The three pointers of [SetShaderMemoryLayout] (index, size, offset),
    all with the stride [sizeof(Vertex)] of 8 floats. *)
Definition shader_attribs : list (nat * nat * nat) := [(0, 3, 0); (1, 3, 3); (2, 2, 6)].

(** The attribute source of a VAO: the buffer its attribute 0 reads. *)
Definition source (v : VAOObj) : nat :=
  match lookup (vo_attribs v) 0 with Some a => at_buffer a | None => 0 end.

Definition layout_of (v : VAOObj) : bool :=
  forallb (fun '(i, sz, off) =>
             match lookup (vo_attribs v) i with
             | Some a => at_enabled a && (at_size a =? sz) && (at_offset a =? off) &&
                         (at_stride a =? stride) && (at_buffer a =? source v)
             | None => false
             end) shader_attribs.

Definition view (o : GLObj) (v : VAOObj) : VAO F :=
  mkVAO (buf_floats o (source v)) (buf_indices o (vo_element v)) (layout_of v).

(** The abstraction onto the VAO-level state of [GL]. *)
Definition abs (o : GLObj) : GLState F :=
  mkGL (ob_next o) (map (fun p => (fst p, view o (snd p))) (ob_vaos o)) (ob_bound o) (ob_wire o)
       (ob_log o) (ob_fault o).

(** The draws read through the bound VAO: its element buffer and the
    buffer its attributes read. *)
Definition glDrawElements (mode : PrimMode) (count offset : nat) (o : GLObj) : GLObj :=
  match lookup (ob_vaos o) (ob_bound o) with
  | Some vo =>
      let ixs := buf_indices o (vo_element vo) in
      let nverts := vertex_count (buf_floats o (source vo)) in
      if offset + count <=? List.length ixs
      then let elements := firstn count (skipn offset ixs) in
           mkObj (ob_next o) (ob_buffers o) (ob_vaos o) (ob_array o) (ob_bound o) (ob_wire o)
                 (ob_log o ++ [EvDraw (ob_bound o) (ob_wire o) (layout_of vo) mode elements])
                 (ob_fault o || negb (all_below nverts elements))
      else ob_emit (EvInvalid (ob_bound o)) o
  | None => ob_emit (EvInvalid (ob_bound o)) o
  end.

(** [glDrawArrays(mode, first, count)], through the bound VAO's source. *)
Definition glDrawArrays (mode : PrimMode) (first count : nat) (o : GLObj) : GLObj :=
  match lookup (ob_vaos o) (ob_bound o) with
  | Some vo =>
      let nverts := vertex_count (buf_floats o (source vo)) in
      if first + count <=? nverts
      then mkObj (ob_next o) (ob_buffers o) (ob_vaos o) (ob_array o) (ob_bound o) (ob_wire o)
                 (ob_log o ++ [EvDraw (ob_bound o) (ob_wire o) (layout_of vo) mode (seq first count)])
                 (ob_fault o || negb (all_below nverts (seq first count)))
      else ob_emit (EvInvalid (ob_bound o)) o
  | None => ob_emit (EvInvalid (ob_bound o)) o
  end.

(** ** The class's call sequences, call by call *)

(** [SetShaderMemoryLayout]: [stride = sizeof(Vertex)] (8 floats) and the
    offsets [offsetof(Vertex, position)], [normal], [texCoord] (0, 3 and
    6 floats); the self-uploading draws write the same six calls with
    [8 * sizeof(GLfloat)] and byte offsets [3 * sizeof(GLfloat)] and
    [6 * sizeof(GLfloat)]. *)
Definition SetShaderMemoryLayout (o : GLObj) : GLObj :=
  let o := glVertexAttribPointer 0 3 stride 0 o in
  let o := glEnableVertexAttribArray 0 o in
  let o := glVertexAttribPointer 1 3 stride 3 o in
  let o := glEnableVertexAttribArray 1 o in
  let o := glVertexAttribPointer 2 2 stride 6 o in
  glEnableVertexAttribArray 2 o.

(** The GL part of [InitializeMesh]: the names it writes to [mesh.vao],
    [mesh.vbo] and [mesh.ebo] ([ebo0], the old value, when [indices] is
    empty) and the state after [glBindVertexArray(0)]. *)
Definition InitializeMesh_calls (layoutDone : bool) (ebo0 : nat) (verts : list F) (indices : list nat)
  (o : GLObj) : nat * nat * nat * GLObj :=
  let '(vao, o) := glGenVertexArrays o in
  let o := glBindVertexArray vao o in
  let '(vbo, o) := glGenBuffers o in
  let o := glBindBuffer GL_ARRAY_BUFFER vbo o in
  let o := glBufferData GL_ARRAY_BUFFER (Floats verts) o in
  let '(ebo, o) :=
    match indices with
    | [] => (ebo0, o)
    | _ :: _ =>
        let '(ebo, o) := glGenBuffers o in
        let o := glBindBuffer GL_ELEMENT_ARRAY_BUFFER ebo o in
        (ebo, glBufferData GL_ELEMENT_ARRAY_BUFFER (Indices indices) o)
    end in
  let o := if negb layoutDone then SetShaderMemoryLayout o else o in
  (vao, vbo, ebo, glBindVertexArray 0 o).

(** [LoadTaperedTorusMesh] (and the spiral, sine cone and superellipsoid
    loads): three names, no object bound. *)
Definition load_names_calls (o : GLObj) : nat * nat * nat * GLObj :=
  let '(vao, o) := glGenVertexArrays o in
  let '(vbo, o) := glGenBuffers o in
  let '(ebo, o) := glGenBuffers o in
  (vao, vbo, ebo, o).

(** [LoadExtraTorusMesh1] and [LoadExtraTorusMesh2] after their vertex
    loop: the VAO, the buffer written to [vbos[0]], the upload, the layout
    while [m_bMemoryLayoutDone] is false, and no unbind. *)
Definition load_extra_torus_calls (layoutDone : bool) (verts : list F) (o : GLObj) : nat * nat * GLObj :=
  let '(vao, o) := glGenVertexArrays o in
  let o := glBindVertexArray vao o in
  let '(vbo, o) := glGenBuffers o in
  let o := glBindBuffer GL_ARRAY_BUFFER vbo o in
  let o := glBufferData GL_ARRAY_BUFFER (Floats verts) o in
  let o := if negb layoutDone then SetShaderMemoryLayout o else o in
  (vao, vbo, o).

(** [LoadFinMesh] after its tables: three names first, the binds and
    uploads, the six pointer calls written out, the unbind. *)
Definition LoadFinMesh_calls (verts : list F) (indices : list nat) (o : GLObj) : nat * nat * nat * GLObj :=
  let '(vao, o) := glGenVertexArrays o in
  let '(vbo, o) := glGenBuffers o in
  let '(ebo, o) := glGenBuffers o in
  let o := glBindVertexArray vao o in
  let o := glBindBuffer GL_ARRAY_BUFFER vbo o in
  let o := glBufferData GL_ARRAY_BUFFER (Floats verts) o in
  let o := glBindBuffer GL_ELEMENT_ARRAY_BUFFER ebo o in
  let o := glBufferData GL_ELEMENT_ARRAY_BUFFER (Indices indices) o in
  let o := glVertexAttribPointer 0 3 stride 0 o in
  let o := glEnableVertexAttribArray 0 o in
  let o := glVertexAttribPointer 1 3 stride 3 o in
  let o := glEnableVertexAttribArray 1 o in
  let o := glVertexAttribPointer 2 2 stride 6 o in
  let o := glEnableVertexAttribArray 2 o in
  (vao, vbo, ebo, glBindVertexArray 0 o).

(** The upload and draw of [DrawTaperedTorusMesh] (the same calls end
    [DrawSineConeMesh] and [DrawSuperellipsoidMesh]) into the handles
    [vao], [vbo], [ebo] of the mesh record. *)
Definition upload_draw_calls (vao vbo ebo : nat) (verts : list F) (indices : list nat) (o : GLObj) : GLObj :=
  let o := glBindVertexArray vao o in
  let o := glBindBuffer GL_ARRAY_BUFFER vbo o in
  let o := glBufferData GL_ARRAY_BUFFER (Floats verts) o in
  let o := glVertexAttribPointer 0 3 stride 0 o in
  let o := glEnableVertexAttribArray 0 o in
  let o := glVertexAttribPointer 1 3 stride 3 o in
  let o := glEnableVertexAttribArray 1 o in
  let o := glVertexAttribPointer 2 2 stride 6 o in
  let o := glEnableVertexAttribArray 2 o in
  let o := glBindBuffer GL_ELEMENT_ARRAY_BUFFER ebo o in
  let o := glBufferData GL_ELEMENT_ARRAY_BUFFER (Indices indices) o in
  let o := glDrawElements GL_TRIANGLES (List.length indices) 0 o in
  glBindVertexArray 0 o.

(** The GL part of [DrawPartialConeMesh]: objects created for the call,
    uploads, each attribute enabled before its pointer is set,
    [SetWireframeMode], the draw, the deletions. *)
Definition partial_calls (verts : list F) (indices : list nat) (wireframe : bool) (o : GLObj) : GLObj :=
  let '(VAO, o) := glGenVertexArrays o in
  let '(VBO, o) := glGenBuffers o in
  let '(EBO, o) := glGenBuffers o in
  let o := glBindVertexArray VAO o in
  let o := glBindBuffer GL_ARRAY_BUFFER VBO o in
  let o := glBufferData GL_ARRAY_BUFFER (Floats verts) o in
  let o := glBindBuffer GL_ELEMENT_ARRAY_BUFFER EBO o in
  let o := glBufferData GL_ELEMENT_ARRAY_BUFFER (Indices indices) o in
  let o := glEnableVertexAttribArray 0 o in
  let o := glVertexAttribPointer 0 3 stride 0 o in
  let o := glEnableVertexAttribArray 1 o in
  let o := glVertexAttribPointer 1 3 stride 3 o in
  let o := glEnableVertexAttribArray 2 o in
  let o := glVertexAttribPointer 2 2 stride 6 o in
  let o := glPolygonMode wireframe o in
  let o := glBindVertexArray VAO o in
  let o := glDrawElements GL_TRIANGLES (List.length indices) 0 o in
  let o := glBindVertexArray 0 o in
  let o := glDeleteBuffers EBO o in
  let o := glDeleteBuffers VBO o in
  glDeleteVertexArrays VAO o.

(** ** Names below the counter *)

(** Every object, binding and reference names something already generated
    (and no buffer is named 0): what [glGen*] guarantees to a program that
    only uses the names it was given. *)
Definition refs_below (n : nat) (v : VAOObj) : Prop :=
  vo_element v < n /\ forall i a, In (i, a) (vo_attribs v) -> at_buffer a < n.

Definition ob_ok (o : GLObj) : Prop :=
  0 < ob_next o /\
  (forall k v, In (k, v) (ob_vaos o) -> 0 < k < ob_next o /\ refs_below (ob_next o) v) /\
  (forall b d, In (b, d) (ob_buffers o) -> 0 < b < ob_next o) /\
  ob_array o < ob_next o.

(** What a VAO reads: its source and its element buffer. *)
Definition reads (v : VAOObj) (b : nat) : bool := (source v =? b) || (vo_element v =? b).

(** No VAO but [vao] reads the buffer [b]. *)
Definition private_to (o : GLObj) (vao b : nat) : bool :=
  forallb (fun p => (fst p =? vao) || negb (reads (snd p) b)) (ob_vaos o).

(** The handles a self-uploading draw writes through: the VAO exists, the
    vertex and element buffers are two distinct names already generated,
    and no other VAO reads either of them. *)
Definition handles_ok (o : GLObj) (vao vbo ebo : nat) : bool :=
  match lookup (ob_vaos o) vao with Some _ => true | None => false end &&
  (0 <? vbo) && (vbo <? ob_next o) && (0 <? ebo) && (ebo <? ob_next o) && negb (vbo =? ebo) &&
  private_to o vao vbo && private_to o vao ebo.

(** [ob_ok] as a test, for concrete stores. *)
Definition refs_belowb (n : nat) (v : VAOObj) : bool :=
  (vo_element v <? n) && forallb (fun p => at_buffer (snd p) <? n) (vo_attribs v).

Definition ob_okb (o : GLObj) : bool :=
  (0 <? ob_next o) &&
  forallb (fun p => (0 <? fst p) && (fst p <? ob_next o) && refs_belowb (ob_next o) (snd p)) (ob_vaos o) &&
  forallb (fun p => (0 <? fst p) && (fst p <? ob_next o)) (ob_buffers o) &&
  (ob_array o <? ob_next o).

Definition keys_below {A} (n : nat) (l : list (nat * A)) : Prop := forall k x, In (k, x) l -> k < n.

(** The VAO after the six calls of [SetShaderMemoryLayout] with the array
    buffer [a] bound. *)
Definition shader_vo (a : nat) (v : VAOObj) : VAOObj :=
  let en := fun (o : option Attrib) => match o with
            | Some x => mkAttrib (at_buffer x) (at_size x) (at_stride x) (at_offset x) true
            | None => mkAttrib 0 4 0 0 true end in
  let ptr sz off := fun (o : option Attrib) =>
            mkAttrib a sz stride off (match o with Some x => at_enabled x | None => false end) in
  set_attrib 2 en (set_attrib 2 (ptr 2 6) (set_attrib 1 en (set_attrib 1 (ptr 3 3)
    (set_attrib 0 en (set_attrib 0 (ptr 3 0) v))))).

(** The VAO the upload leaves: element buffer [ebo], the three pointers
    on [vbo]. *)
Definition uploaded (vbo ebo : nat) (v : VAOObj) : VAOObj := mkVAOObj ebo (vo_attribs (shader_vo vbo v)).

(** The GL context the class starts in: no object, nothing bound. *)
Definition obj_init : GLObj := mkObj 1 [] [] 0 0 false [] false.

Lemma lookup_In {A} (l : list (nat * A)) n a : lookup l n = Some a -> In (n, a) l.
Proof.
  unfold lookup. destruct (find _ l) as [[k x]|] eqn:E; [|discriminate]. intros [= <-].
  apply find_some in E as [Hin Hk]. apply Nat.eqb_eq in Hk. cbn in Hk. now subst k.
Qed.

Lemma lookup_none {A} (l : list (nat * A)) n : (forall a, ~ In (n, a) l) -> lookup l n = None.
Proof.
  intros H. unfold lookup. destruct (find _ l) as [[k x]|] eqn:E; [|reflexivity].
  apply find_some in E as [Hin Hk]. apply Nat.eqb_eq in Hk. cbn in Hk. subst k. now destruct (H x).
Qed.

Lemma lookup_replace {A} (l : list (nat * A)) b d n :
  lookup ((b, d) :: filter (fun p => negb (fst p =? b)) l) n = if n =? b then Some d else lookup l n.
Proof.
  unfold lookup. cbn [find fst]. rewrite (Nat.eqb_sym b n).
  destruct (Nat.eqb_spec n b) as [->|Hn]; [reflexivity|].
  induction l as [|[k x] l IH]; [reflexivity|]. cbn [filter fst].
  destruct (Nat.eqb_spec k b) as [->|Hk]; cbn [negb find fst].
  - rewrite (proj2 (Nat.eqb_neq b n)) by congruence. exact IH.
  - destruct (k =? n); [reflexivity|exact IH].
Qed.

Lemma source_below n v : 0 < n -> refs_below n v -> source v < n.
Proof.
  intros Hn [_ Ha]. unfold source. destruct (lookup (vo_attribs v) 0) as [a|] eqn:E; [|exact Hn].
  exact (Ha 0 a (lookup_In _ _ _ E)).
Qed.

(** A VAO reads only its source and element buffers. *)
Lemma view_agree (o o' : GLObj) v :
  lookup (ob_buffers o') (source v) = lookup (ob_buffers o) (source v) ->
  lookup (ob_buffers o') (vo_element v) = lookup (ob_buffers o) (vo_element v) ->
  view o' v = view o v.
Proof. intros Hs He. unfold view, buf_floats, buf_indices. now rewrite Hs, He. Qed.

(** An update of the bound VAO leaves the others, named below it, alone. *)
Lemma map_update_below {A} (f : nat * A -> nat * A) (l : list (nat * A)) n :
  (forall k x, In (k, x) l -> k < n) ->
  map (fun p => if fst p =? n then f p else p) l = l.
Proof.
  intros H. induction l as [|[k x] l IH]; [reflexivity|]. cbn [map fst].
  rewrite (proj2 (Nat.eqb_neq k n)) by (specialize (H k x (or_introl eq_refl)); lia).
  f_equal. apply IH. intros k' x' Hin. exact (H k' x' (or_intror Hin)).
Qed.

(** ** The calls on a state whose bound VAO was generated last *)

Lemma update_vao_head g k v (V : list (nat * VAOObj)) n B A w l f :
  keys_below k V ->
  update_vao g (mkObj n B ((k, v) :: V) A k w l f) = mkObj n B ((k, g v) :: V) A k w l f.
Proof.
  intros HV. unfold update_vao, set_vaos. cbn [map fst snd ob_vaos ob_bound].
  now rewrite Nat.eqb_refl, (map_update_below _ V k HV).
Qed.

Lemma buffer_data_array d n B V A b w l f :
  A <> 0 ->
  glBufferData GL_ARRAY_BUFFER d (mkObj n B V A b w l f) =
  mkObj n ((A, d) :: filter (fun p => negb (fst p =? A)) B) V A b w l f.
Proof. intros HA. unfold glBufferData. cbn [target_buffer ob_array]. now rewrite (proj2 (Nat.eqb_neq A 0) HA). Qed.

Lemma buffer_data_element d k v (V : list (nat * VAOObj)) n B A w l f :
  vo_element v <> 0 ->
  glBufferData GL_ELEMENT_ARRAY_BUFFER d (mkObj n B ((k, v) :: V) A k w l f) =
  mkObj n ((vo_element v, d) :: filter (fun p => negb (fst p =? vo_element v)) B) ((k, v) :: V) A k w l f.
Proof.
  intros He. unfold glBufferData, target_buffer, lookup. cbn [ob_vaos ob_bound find fst snd].
  rewrite Nat.eqb_refl. now rewrite (proj2 (Nat.eqb_neq _ 0) He).
Qed.

Lemma layout_head k v (V : list (nat * VAOObj)) n B A w l f :
  keys_below k V ->
  SetShaderMemoryLayout (mkObj n B ((k, v) :: V) A k w l f) = mkObj n B ((k, shader_vo A v) :: V) A k w l f.
Proof.
  intros HV. unfold SetShaderMemoryLayout, glVertexAttribPointer, glEnableVertexAttribArray.
  now rewrite !update_vao_head by exact HV.
Qed.

Lemma shader_vo_source a v : source (shader_vo a v) = a.
Proof. reflexivity. Qed.

Lemma shader_vo_element a v : vo_element (shader_vo a v) = vo_element v.
Proof. reflexivity. Qed.

Lemma shader_vo_layout a v : layout_of (shader_vo a v) = true.
Proof. unfold layout_of. cbn. now rewrite !Nat.eqb_refl. Qed.

Lemma eqb_S_SS n : (S n =? S (S n)) = false.
Proof. apply Nat.eqb_neq. lia. Qed.

(** The VAOs named below the counter keep their view when buffers named
    at or above it are stored. *)
Lemma views_fresh (o o' : GLObj) (V : list (nat * VAOObj)) :
  (forall k v, In (k, v) V -> refs_below (ob_next o) v) -> 0 < ob_next o ->
  (forall k, k < ob_next o -> lookup (ob_buffers o') k = lookup (ob_buffers o) k) ->
  map (fun p => (fst p, view o' (snd p))) V = map (fun p => (fst p, view o (snd p))) V.
Proof.
  intros HV Hn Hl. apply map_ext_in. intros [k v] Hin. cbn [fst snd]. f_equal.
  specialize (HV k v Hin). apply view_agree; apply Hl; [now apply source_below|apply HV].
Qed.

Lemma refs_set_attrib m i g v :
  refs_below m v ->
  (forall x, (forall y, x = Some y -> at_buffer y < m) -> at_buffer (g x) < m) ->
  refs_below m (set_attrib i g v).
Proof.
  intros [He Ha] Hg. split; [exact He|]. intros i' a' [[= <- <-]|Hin].
  - apply Hg. intros y Hy. exact (Ha i y (lookup_In _ _ _ Hy)).
  - apply filter_In in Hin as [Hin _]. exact (Ha i' a' Hin).
Qed.

Lemma refs_shader_vo m a v : 0 < m -> a < m -> refs_below m v -> refs_below m (shader_vo a v).
Proof.
  intros Hm Ha Hv. unfold shader_vo.
  repeat (apply refs_set_attrib; [|intros [x|] Hx; cbn; [try apply (Hx x eq_refl)|]; lia]). exact Hv.
Qed.

Lemma refs_below_mono m m' v : m <= m' -> refs_below m v -> refs_below m' v.
Proof. intros Hm [He Ha]. split; [lia|]. intros i a Hin. specialize (Ha i a Hin). lia. Qed.

(** The GL part of [InitializeMesh], with the layout not yet marked done,
    from a state whose names are below its counter [n]: VAO [n], vertex
    buffer [n + 1], element buffer [n + 2] when there are indices, and in
    the abstraction one new VAO holding exactly [verts] and [indices] with
    the layout set. *)
Lemma initialize_calls_shape ebo0 verts indices (o : GLObj) :
  ob_ok o ->
  let '(vao, vbo, ebo, o') := InitializeMesh_calls false ebo0 verts indices o in
  vao = ob_next o /\ vbo = S (ob_next o) /\
  ebo = match indices with [] => ebo0 | _ :: _ => S (S (ob_next o)) end /\
  abs o' = mkGL (ob_next o + match indices with [] => 2 | _ :: _ => 3 end)
                ((ob_next o, mkVAO verts indices true) :: gl_vaos (abs o)) 0 (ob_wire o) (ob_log o) (ob_fault o) /\
  ob_ok o'.
Proof.
  destruct o as [n B V A b w l f]. intros (Hpos & Hv & Hb & Ha). cbn [ob_next ob_buffers ob_vaos ob_array] in *.
  assert (HK : keys_below n V) by (intros k x Hin; apply (Hv k x Hin)).
  assert (HR : forall k v, In (k, v) V -> refs_below n v) by (intros k x Hin; apply (Hv k x Hin)).
  assert (H0 : lookup B 0 = None) by (apply lookup_none; intros d Hin; specialize (Hb 0 d Hin); lia).
  unfold InitializeMesh_calls. cbn [glGenVertexArrays glGenBuffers glBindVertexArray glBindBuffer ob_next ob_buffers
    ob_vaos ob_array ob_bound ob_wire ob_log ob_fault].
  rewrite buffer_data_array by lia.
  destruct indices as [|i0 rest]; cbn [negb glGenBuffers glBindBuffer ob_next ob_buffers ob_vaos ob_array ob_bound
    ob_wire ob_log ob_fault].
  - rewrite layout_head by exact HK. unfold abs. cbn [glBindVertexArray ob_next ob_vaos ob_bound ob_wire
      ob_log ob_fault ob_buffers ob_array map fst snd].
    split; [reflexivity|]. split; [reflexivity|]. split; [reflexivity|]. split.
    + f_equal; [lia|]. f_equal.
      * unfold view, buf_floats, buf_indices. rewrite shader_vo_source, shader_vo_element, shader_vo_layout.
        cbn [glBindVertexArray ob_buffers vo_element]. rewrite !lookup_replace, Nat.eqb_refl. cbn [Nat.eqb]. now rewrite H0.
      * apply views_fresh; [exact HR|exact Hpos|]. intros k Hk. cbn [glBindVertexArray ob_buffers ob_next] in *.
        rewrite lookup_replace. now rewrite (proj2 (Nat.eqb_neq k (S n))) by lia.
    + split; [cbn; lia|]. split; [|split; [|cbn; lia]].
      * intros k v [[= <- <-]|Hin]; cbn [glBindVertexArray ob_next].
        -- split; [lia|]. apply refs_shader_vo; [lia|lia|]. split; [cbn; lia|intros ? ? []].
        -- destruct (Hv k v Hin) as [Hk Hr]. split; [lia|]. apply (refs_below_mono n); [lia|exact Hr].
      * intros b' d [[= <- _]|Hin]; cbn [glBindVertexArray ob_next ob_buffers]; [lia|].
        apply filter_In in Hin as [Hin _]. specialize (Hb b' d Hin). lia.
  - rewrite update_vao_head by exact HK. rewrite buffer_data_element by (cbn; lia).
    rewrite layout_head by exact HK. unfold abs. cbn [glBindVertexArray ob_next ob_vaos ob_bound ob_wire
      ob_log ob_fault ob_buffers ob_array map fst snd vo_element].
    split; [reflexivity|]. split; [reflexivity|]. split; [reflexivity|]. split.
    + f_equal; [lia|]. f_equal.
      * unfold view, buf_floats, buf_indices. rewrite shader_vo_source, shader_vo_element, shader_vo_layout.
        cbn [glBindVertexArray ob_buffers vo_element]. rewrite !lookup_replace, Nat.eqb_refl, eqb_S_SS.
        now rewrite Nat.eqb_refl.
      * apply views_fresh; [exact HR|exact Hpos|]. intros k Hk. cbn [glBindVertexArray ob_buffers ob_next] in *.
        rewrite !lookup_replace. now rewrite (proj2 (Nat.eqb_neq k (S (S n)))), (proj2 (Nat.eqb_neq k (S n))) by lia.
    + split; [cbn; lia|]. split; [|split; [|cbn; lia]].
      * intros k v [[= <- <-]|Hin]; cbn [glBindVertexArray ob_next].
        -- split; [lia|]. apply refs_shader_vo; [lia|lia|]. split; [cbn; lia|intros ? ? []].
        -- destruct (Hv k v Hin) as [Hk Hr]. split; [lia|]. apply (refs_below_mono n); [lia|exact Hr].
      * intros b' d [[= <- _]|Hin]; cbn [glBindVertexArray ob_next ob_buffers vo_element]; [lia|].
        apply filter_In in Hin as [[[= <- _]|Hin] _]; [lia|].
        apply filter_In in Hin as [Hin _]. specialize (Hb b' d Hin). lia.
Qed.

(** ** The calls that commute with the abstraction *)

Lemma abs_bind k (o : GLObj) : abs (glBindVertexArray k o) = GL.glBindVertexArray k (abs o).
Proof. reflexivity. Qed.

Lemma find_abs (o : GLObj) n : find_vao (abs o) n = option_map (view o) (lookup (ob_vaos o) n).
Proof.
  unfold find_vao, lookup, abs. cbn [gl_vaos]. induction (ob_vaos o) as [|[k v] l IH]; [reflexivity|].
  cbn [map find fst snd]. destruct (k =? n); [reflexivity|exact IH].
Qed.

Lemma abs_draw mode count offset (o : GLObj) :
  abs (glDrawElements mode count offset o) = GL.glDrawElements mode count offset (abs o).
Proof.
  unfold glDrawElements, GL.glDrawElements. rewrite find_abs. change (gl_bound (abs o)) with (ob_bound o).
  destruct (lookup (ob_vaos o) (ob_bound o)) as [v|]; [|reflexivity]. cbn [option_map].
  destruct (_ <=? _); reflexivity.
Qed.

(** The non-indexed draws of the class ([glDrawArrays]) read through
    the abstraction as well. *)
Lemma abs_draw_arrays mode first count (o : GLObj) :
  abs (glDrawArrays mode first count o) = GL.glDrawArrays mode first count (abs o).
Proof.
  unfold glDrawArrays, GL.glDrawArrays. rewrite find_abs. change (gl_bound (abs o)) with (ob_bound o).
  destruct (lookup (ob_vaos o) (ob_bound o)) as [v|]; [|reflexivity]. cbn [option_map].
  destruct (_ <=? _); reflexivity.
Qed.

Lemma filter_map_fst {A B} (f : A -> B) (l : list (nat * A)) n :
  map (fun p => (fst p, f (snd p))) (filter (fun p => negb (fst p =? n)) l) =
  filter (fun p => negb (fst p =? n)) (map (fun p => (fst p, f (snd p))) l).
Proof.
  induction l as [|[k x] l IH]; [reflexivity|]. cbn [map filter fst snd].
  destruct (negb (k =? n)); cbn [map fst snd]; now rewrite IH.
Qed.

(** ** The updates of the bound VAO, composed *)

Lemma lookup_map_update (g : VAOObj -> VAOObj) (l : list (nat * VAOObj)) b k :
  lookup (map (fun p => if fst p =? b then (fst p, g (snd p)) else p) l) k =
  if k =? b then option_map g (lookup l k) else lookup l k.
Proof.
  unfold lookup. induction l as [|[k' x] l IH]; cbn [map find fst snd].
  - now destruct (k =? b).
  - destruct (Nat.eqb_spec k' b) as [->|Hb]; cbn [find fst snd].
    + destruct (Nat.eqb_spec b k) as [->|Hk]; [now rewrite Nat.eqb_refl|].
      rewrite IH. now rewrite (proj2 (Nat.eqb_neq k b)) by congruence.
    + destruct (Nat.eqb_spec k' k) as [->|Hk]; [|exact IH].
      now rewrite (proj2 (Nat.eqb_neq k b)) by congruence.
Qed.

Lemma update_vao_twice g h (o : GLObj) : update_vao g (update_vao h o) = update_vao (fun v => g (h v)) o.
Proof.
  unfold update_vao, set_vaos. cbn [ob_vaos ob_bound ob_next ob_buffers ob_array ob_wire ob_log ob_fault].
  f_equal. rewrite map_map. apply map_ext. intros [k v]. cbn [fst snd].
  destruct (k =? ob_bound o) eqn:E; cbn [fst snd]; now rewrite E.
Qed.

(** The six calls of [SetShaderMemoryLayout] are one update of the bound
    VAO, every pointer reading the array buffer bound before them. *)
Lemma layout_update (o : GLObj) : SetShaderMemoryLayout o = update_vao (shader_vo (ob_array o)) o.
Proof. unfold SetShaderMemoryLayout, glVertexAttribPointer, glEnableVertexAttribArray. now rewrite !update_vao_twice. Qed.

(** ** The upload through the handles of a mesh record *)

Lemma ob_okb_ok (o : GLObj) : ob_okb o = true -> ob_ok o.
Proof.
  unfold ob_okb, refs_belowb. rewrite !andb_true_iff, !forallb_forall.
  intros (((Hn & Hv) & Hb) & Ha). apply Nat.ltb_lt in Hn, Ha.
  split; [exact Hn|]. split; [|split; [|exact Ha]].
  - intros k v Hin. specialize (Hv (k, v) Hin). cbn [fst snd] in Hv.
    rewrite !andb_true_iff, forallb_forall, !Nat.ltb_lt in Hv. destruct Hv as ((Hk & Hk') & He & Hat).
    split; [lia|]. split; [exact He|]. intros i a Hia. exact (proj1 (Nat.ltb_lt _ _) (Hat (i, a) Hia)).
  - intros b d Hin. specialize (Hb (b, d) Hin). cbn [fst] in Hb. rewrite andb_true_iff, !Nat.ltb_lt in Hb. lia.
Qed.

Lemma private_In (o : GLObj) vao b k v :
  private_to o vao b = true -> In (k, v) (ob_vaos o) -> k <> vao -> source v <> b /\ vo_element v <> b.
Proof.
  unfold private_to, reads. rewrite forallb_forall. intros Hp Hin Hk. specialize (Hp (k, v) Hin).
  cbn [fst snd] in Hp. rewrite (proj2 (Nat.eqb_neq k vao) Hk), orb_false_l, negb_true_iff, orb_false_iff in Hp.
  destruct Hp as [Hs He]. now split; apply Nat.eqb_neq.
Qed.

Lemma handles_ok_spec (o : GLObj) vao vbo ebo :
  handles_ok o vao vbo ebo = true ->
  (exists v, lookup (ob_vaos o) vao = Some v) /\ 0 < vbo < ob_next o /\ 0 < ebo < ob_next o /\ vbo <> ebo /\
  private_to o vao vbo = true /\ private_to o vao ebo = true.
Proof.
  unfold handles_ok. rewrite !andb_true_iff, !Nat.ltb_lt, negb_true_iff, Nat.eqb_neq.
  intros (((((((Hl & ?) & ?) & ?) & ?) & ?) & ?) & ?). repeat split; try assumption.
  destruct (lookup (ob_vaos o) vao) as [v|]; [now exists v|discriminate].
Qed.

Lemma handles_ok_intro (o : GLObj) vao vbo ebo v :
  lookup (ob_vaos o) vao = Some v -> 0 < vbo < ob_next o -> 0 < ebo < ob_next o -> vbo <> ebo ->
  (forall k x, In (k, x) (ob_vaos o) -> k <> vao ->
     source x <> vbo /\ vo_element x <> vbo /\ source x <> ebo /\ vo_element x <> ebo) ->
  handles_ok o vao vbo ebo = true.
Proof.
  intros Hl Hvbo Hebo Hne Hp. unfold handles_ok, private_to, reads. rewrite Hl.
  rewrite !andb_true_iff, !Nat.ltb_lt, negb_true_iff, Nat.eqb_neq, !forallb_forall.
  refine (conj (conj (conj (conj (conj (conj (conj eq_refl _) _) _) _) Hne) _) _); try lia;
    intros [k x] Hin; cbn [fst snd]; destruct (Nat.eqb_spec k vao) as [->|Hk]; try reflexivity;
    destruct (Hp k x Hin Hk) as (H1 & H2 & H3 & H4); cbn [orb negb];
    rewrite (proj2 (Nat.eqb_neq (source x) _)), (proj2 (Nat.eqb_neq (vo_element x) _)) by assumption; reflexivity.
Qed.

Lemma buffer_data_array_at d (o : GLObj) :
  ob_array o <> 0 ->
  glBufferData GL_ARRAY_BUFFER d o =
  set_buffers ((ob_array o, d) :: filter (fun p => negb (fst p =? ob_array o)) (ob_buffers o)) o.
Proof. intros HA. unfold glBufferData. cbn [target_buffer]. now rewrite (proj2 (Nat.eqb_neq _ 0) HA). Qed.

Lemma buffer_data_element_at d (o : GLObj) v :
  lookup (ob_vaos o) (ob_bound o) = Some v -> vo_element v <> 0 ->
  glBufferData GL_ELEMENT_ARRAY_BUFFER d o =
  set_buffers ((vo_element v, d) :: filter (fun p => negb (fst p =? vo_element v)) (ob_buffers o)) o.
Proof. intros Hl He. unfold glBufferData. cbn [target_buffer]. rewrite Hl. now rewrite (proj2 (Nat.eqb_neq _ 0) He). Qed.

Lemma inline_layout (o : GLObj) :
  glEnableVertexAttribArray 2 (glVertexAttribPointer 2 2 stride 6 (glEnableVertexAttribArray 1
    (glVertexAttribPointer 1 3 stride 3 (glEnableVertexAttribArray 0 (glVertexAttribPointer 0 3 stride 0 o))))) =
  SetShaderMemoryLayout o.
Proof. reflexivity. Qed.


Lemma lookup_head {A} (l : list (nat * A)) i x : lookup ((i, x) :: l) i = Some x.
Proof. unfold lookup. cbn. now rewrite Nat.eqb_refl. Qed.

Lemma update_vao_ext f g (o : GLObj) : (forall v, f v = g v) -> update_vao f o = update_vao g o.
Proof. intros H. unfold update_vao. f_equal. apply map_ext. intros [k v]. cbn [fst snd]. now rewrite H. Qed.

Lemma set_attrib_swap i f g v :
  (forall x, f (Some (g x)) = g (Some (f x))) -> set_attrib i f (set_attrib i g v) = set_attrib i g (set_attrib i f v).
Proof.
  intros H. unfold set_attrib. cbn [vo_element vo_attribs]. rewrite !lookup_head.
  cbn [filter fst]. rewrite Nat.eqb_refl. cbn [negb]. now rewrite H.
Qed.

(** [DrawPartialConeMesh] enables each attribute before setting its
    pointer; the VAO ends in the same state as with
    [SetShaderMemoryLayout]'s order. *)
Lemma enable_pointer_swap i size str off (o : GLObj) :
  glVertexAttribPointer i size str off (glEnableVertexAttribArray i o) =
  glEnableVertexAttribArray i (glVertexAttribPointer i size str off o).
Proof.
  unfold glVertexAttribPointer, glEnableVertexAttribArray. rewrite !update_vao_twice.
  apply update_vao_ext. intros v. apply set_attrib_swap. intros [x|]; reflexivity.
Qed.

Lemma enable_first_layout (o : GLObj) :
  glVertexAttribPointer 2 2 stride 6 (glEnableVertexAttribArray 2 (glVertexAttribPointer 1 3 stride 3
    (glEnableVertexAttribArray 1 (glVertexAttribPointer 0 3 stride 0 (glEnableVertexAttribArray 0 o))))) =
  SetShaderMemoryLayout o.
Proof. rewrite !enable_pointer_swap. reflexivity. Qed.

(** The state just before the draw of [upload_draw_calls]. *)
Lemma upload_prefix vao vbo ebo verts indices (o : GLObj) v :
  lookup (ob_vaos o) vao = Some v -> vbo <> 0 -> ebo <> 0 ->
  glBufferData GL_ELEMENT_ARRAY_BUFFER (Indices indices)
    (glBindBuffer GL_ELEMENT_ARRAY_BUFFER ebo (SetShaderMemoryLayout
      (glBufferData GL_ARRAY_BUFFER (Floats verts) (glBindBuffer GL_ARRAY_BUFFER vbo (glBindVertexArray vao o))))) =
  mkObj (ob_next o)
    ((ebo, Indices indices) :: filter (fun p => negb (fst p =? ebo))
       ((vbo, Floats verts) :: filter (fun p => negb (fst p =? vbo)) (ob_buffers o)))
    (map (fun p => if fst p =? vao then (fst p, uploaded vbo ebo (snd p)) else p) (ob_vaos o))
    vbo vao (ob_wire o) (ob_log o) (ob_fault o).
Proof.
  intros Hl Hvbo Hebo. destruct o as [n B V A b w l f]. cbn [glBindVertexArray glBindBuffer ob_vaos] in *.
  rewrite buffer_data_array_at by exact Hvbo. rewrite layout_update. cbn [glBindBuffer set_buffers ob_array].
  assert (Hu : lookup (map (fun p => if fst p =? vao then (fst p, uploaded vbo ebo (snd p)) else p) V) vao =
                Some (uploaded vbo ebo v)) by (rewrite lookup_map_update, Nat.eqb_refl, Hl; reflexivity).
  rewrite update_vao_twice. rewrite (buffer_data_element_at _ _ (uploaded vbo ebo v)) by (exact Hu || exact Hebo).
  reflexivity.
Qed.

Lemma uploaded_source vbo ebo v : source (uploaded vbo ebo v) = vbo.
Proof. reflexivity. Qed.

Lemma uploaded_layout vbo ebo v : layout_of (uploaded vbo ebo v) = true.
Proof. unfold layout_of. cbn. now rewrite !Nat.eqb_refl. Qed.

Lemma update_bound_twice f g (G : GLState F) : update_bound f (update_bound g G) = update_bound (fun v => f (g v)) G.
Proof.
  unfold update_bound. cbn [gl_next gl_vaos gl_bound gl_wire gl_log gl_fault]. f_equal. rewrite map_map.
  apply map_ext. intros [k v]. cbn [fst snd]. destruct (k =? gl_bound G) eqn:E; cbn [fst snd]; now rewrite ?E.
Qed.

Lemma lookup_replace_other {A} (l : list (nat * A)) b d n :
  n <> b -> lookup ((b, d) :: filter (fun p => negb (fst p =? b)) l) n = lookup l n.
Proof. intros H. rewrite lookup_replace. now rewrite (proj2 (Nat.eqb_neq n b) H). Qed.

(** The upload-and-draw through handles private to their VAO, call by
    call, is the VAO-level one: bind, the vertices, the layout, the
    indices, the draw, the unbind. *)
Lemma upload_calls_abs vao vbo ebo verts indices (o : GLObj) :
  handles_ok o vao vbo ebo = true ->
  abs (upload_draw_calls vao vbo ebo verts indices o) =
  GL.glBindVertexArray 0 (GL.glDrawElements GL_TRIANGLES (List.length indices) 0
    (glBufferElements indices (glSetLayout (glBufferVertices verts (GL.glBindVertexArray vao (abs o)))))).
Proof.
  intros Hh. destruct (handles_ok_spec _ _ _ _ Hh) as ([v Hl] & Hvbo & Hebo & Hne & Hpv & Hpe).
  unfold upload_draw_calls. cbv beta zeta. rewrite inline_layout, abs_bind, abs_draw, (upload_prefix _ _ _ _ _ _ v)
    by (exact Hl || lia).
  f_equal. f_equal. unfold glBufferElements, glSetLayout, glBufferVertices. rewrite !update_bound_twice.
  unfold abs, update_bound. cbn [GL.glBindVertexArray gl_next gl_vaos gl_bound gl_wire gl_log gl_fault
    ob_next ob_vaos ob_bound ob_wire ob_log ob_fault]. f_equal.
  rewrite !map_map. apply map_ext_in. intros [k x] Hin. cbn [fst snd].
  destruct (Nat.eqb_spec k vao) as [->|Hk]; cbn [fst snd]; f_equal.
  - unfold view, buf_floats, buf_indices. rewrite uploaded_source, uploaded_layout. cbn [ob_buffers vo_element uploaded].
    rewrite lookup_replace_other by exact Hne. rewrite !lookup_replace, !Nat.eqb_refl. reflexivity.
  - destruct (private_In o vao vbo k x Hpv Hin Hk) as [Hs1 He1].
    destruct (private_In o vao ebo k x Hpe Hin Hk) as [Hs2 He2].
    apply view_agree; cbn [ob_buffers]; rewrite !lookup_replace_other by assumption; reflexivity.
Qed.

Lemma ok_bind k (o : GLObj) : ob_ok o -> ob_ok (glBindVertexArray k o).
Proof. exact (fun H => H). Qed.

Lemma ok_draw mode count offset (o : GLObj) : ob_ok o -> ob_ok (glDrawElements mode count offset o).
Proof.
  intros Hok. unfold glDrawElements.
  destruct (lookup (ob_vaos o) (ob_bound o)); [destruct (_ <=? _)|]; exact Hok.
Qed.

Lemma ok_upload vao vbo ebo verts indices (o : GLObj) :
  ob_ok o -> handles_ok o vao vbo ebo = true -> ob_ok (upload_draw_calls vao vbo ebo verts indices o).
Proof.
  intros (Hn & Hv & Hb & Ha) Hh. destruct (handles_ok_spec _ _ _ _ Hh) as ([v Hl] & Hvbo & Hebo & Hne & _).
  unfold upload_draw_calls. cbv beta zeta. rewrite inline_layout. apply ok_bind, ok_draw.
  rewrite (upload_prefix _ _ _ _ _ _ v) by (exact Hl || lia).
  split; [exact Hn|]. split; [|split; [|cbn; lia]].
  - cbn [ob_vaos ob_next]. intros k x Hin. apply in_map_iff in Hin as [[k0 x0] [Hx Hin]].
    destruct (Hv k0 x0 Hin) as [Hk Hr]. cbn [fst snd] in Hx.
    destruct (k0 =? vao); injection Hx as <- <-; split; try exact Hk; try exact Hr.
    split; [cbn; lia|]. apply (refs_shader_vo _ vbo x0); [lia|lia|exact Hr].
  - cbn [ob_buffers ob_next]. intros b' d [[= <- _]|Hin]; [lia|].
    apply filter_In in Hin as [[[= <- _]|Hin] _]; [lia|]. apply filter_In in Hin as [Hin _]. exact (Hb b' d Hin).
Qed.

(** [LoadTaperedTorusMesh] and the other three loads of the
    self-uploading meshes, call by call: their three names, in the
    abstraction the VAO-level [load_names], and handles ready for the
    upload. *)
Lemma load_names_shape (o : GLObj) :
  ob_ok o ->
  let '(vao, vbo, ebo, o') := load_names_calls o in
  vao = ob_next o /\ vbo = S (ob_next o) /\ ebo = S (S (ob_next o)) /\
  abs o' = snd (GL.glGenBuffers (snd (GL.glGenBuffers (snd (GL.glGenVertexArrays (abs o)))))) /\
  ob_ok o' /\ handles_ok o' vao vbo ebo = true.
Proof.
  destruct o as [n B V A b w l f]. intros (Hpos & Hv & Hb & Ha). cbn [ob_next ob_buffers ob_vaos ob_array] in *.
  assert (H0 : lookup B 0 = None) by (apply lookup_none; intros d Hin; specialize (Hb 0 d Hin); lia).
  cbn. split; [reflexivity|]. split; [reflexivity|]. split; [reflexivity|]. split; [|split].
  - unfold abs, view, buf_floats, buf_indices. cbn. now rewrite H0.
  - split; [cbn; lia|]. split; [|split; [|cbn; lia]]; cbn [ob_next ob_vaos ob_buffers].
    + intros k x [[= <- <-]|Hin]; [split; [lia|]; split; [cbn; lia|intros ? ? []]|].
      destruct (Hv k x Hin) as [Hk Hr]. split; [lia|]. apply (refs_below_mono n); [lia|exact Hr].
    + intros b' d Hin. specialize (Hb b' d Hin). lia.
  - apply (handles_ok_intro _ _ _ _ (mkVAOObj 0 [])); cbn [ob_next ob_vaos]; [|lia|lia|lia|].
    + unfold lookup. cbn. now rewrite Nat.eqb_refl.
    + intros k x [[= <- _]|Hin] Hk; [congruence|]. destruct (Hv k x Hin) as [Hk' Hr].
      pose proof (source_below n x Hpos Hr). destruct Hr as [He _]. lia.
Qed.

Lemma polygon_mk w' n B V A b w l f : glPolygonMode w' (mkObj n B V A b w l f) = mkObj n B V A b w' l f.
Proof. reflexivity. Qed.

Lemma bind_mk k n B V A b w l f : glBindVertexArray k (mkObj n B V A b w l f) = mkObj n B V A k w l f.
Proof. reflexivity. Qed.

Lemma lookup_filter_other {A} (l : list (nat * A)) b n :
  n <> b -> lookup (filter (fun p => negb (fst p =? b)) l) n = lookup l n.
Proof.
  intros H. unfold lookup. induction l as [|[k x] l IH]; [reflexivity|]. cbn [filter fst find].
  destruct (Nat.eqb_spec k b) as [->|Hk]; cbn [negb find fst].
  - rewrite (proj2 (Nat.eqb_neq b n)) by congruence. exact IH.
  - destruct (k =? n); [reflexivity|exact IH].
Qed.

Lemma draw_vaos mode count offset (o : GLObj) :
  ob_vaos (glDrawElements mode count offset o) = ob_vaos o /\
  ob_buffers (glDrawElements mode count offset o) = ob_buffers o /\
  ob_next (glDrawElements mode count offset o) = ob_next o /\
  ob_array (glDrawElements mode count offset o) = ob_array o.
Proof.
  unfold glDrawElements. destruct (lookup (ob_vaos o) (ob_bound o)); [destruct (_ <=? _)|]; repeat split.
Qed.

(** The VAO [n] and the buffers [x] and [y] it alone reads, deleted: the
    abstraction loses VAO [n] and nothing else. *)
Lemma abs_delete_private n x y (o : GLObj) :
  private_to o n x = true -> private_to o n y = true ->
  abs (glDeleteVertexArrays n (glDeleteBuffers x (glDeleteBuffers y o))) = GL.glDeleteVertexArrays n (abs o).
Proof.
  intros Hx Hy. unfold abs, glDeleteVertexArrays, GL.glDeleteVertexArrays, glDeleteBuffers, set_vaos, set_buffers.
  cbn [ob_next ob_buffers ob_vaos ob_array ob_bound ob_wire ob_log ob_fault gl_next gl_vaos gl_bound gl_wire
    gl_log gl_fault]. f_equal. rewrite <- filter_map_fst. apply map_ext_in. intros [k v] Hin. cbn [fst snd].
  apply filter_In in Hin as [Hin Hk]. cbn [fst] in Hk. apply negb_true_iff, Nat.eqb_neq in Hk.
  destruct (private_In o n x k v Hx Hin Hk) as [Hs1 He1]. destruct (private_In o n y k v Hy Hin Hk) as [Hs2 He2].
  f_equal. apply view_agree; cbn [ob_buffers]; rewrite !lookup_filter_other by assumption; reflexivity.
Qed.

Lemma private_below m (o : GLObj) vao b :
  0 < m -> m <= b -> (forall k x, In (k, x) (ob_vaos o) -> k <> vao -> refs_below m x) ->
  private_to o vao b = true.
Proof.
  intros Hm Hb Hv. unfold private_to, reads. apply forallb_forall. intros [k x] Hin. cbn [fst snd].
  destruct (Nat.eqb_spec k vao) as [->|Hk]; [reflexivity|]. specialize (Hv k x Hin Hk).
  pose proof (source_below m x Hm Hv). destruct Hv as [He _].
  now rewrite (proj2 (Nat.eqb_neq (source x) b)), (proj2 (Nat.eqb_neq (vo_element x) b)) by lia.
Qed.

(** [InitializeMesh] without indices is the extra tori's upload followed
    by the unbind they omit. *)
Lemma extra_initialize ebo0 verts (o : GLObj) :
  InitializeMesh_calls false ebo0 verts [] o =
  let '(a, b, o') := load_extra_torus_calls false verts o in (a, b, ebo0, glBindVertexArray 0 o').
Proof. reflexivity. Qed.

Lemma abs_rebind k (o : GLObj) : abs o = GL.glBindVertexArray (ob_bound o) (abs (glBindVertexArray k o)).
Proof. reflexivity. Qed.

Lemma bound_buffer_data t d (o : GLObj) : ob_bound (glBufferData t d o) = ob_bound o.
Proof. unfold glBufferData. now destruct (_ =? 0). Qed.

(** The extra tori's upload: VAO [n] with the floats and the layout and
    no indices, left bound. *)
Lemma extra_calls_shape verts (o : GLObj) :
  ob_ok o ->
  let '(vao, vbo, o') := load_extra_torus_calls false verts o in
  vao = ob_next o /\ vbo = S (ob_next o) /\
  abs o' = mkGL (ob_next o + 2) ((ob_next o, mkVAO verts [] true) :: gl_vaos (abs o)) (ob_next o)
                (ob_wire o) (ob_log o) (ob_fault o) /\
  ob_ok o'.
Proof.
  intros Hok. pose proof (initialize_calls_shape 0 verts [] o Hok) as Hs. rewrite extra_initialize in Hs.
  destruct (load_extra_torus_calls false verts o) as [[va vb] o'] eqn:E.
  destruct Hs as (-> & -> & _ & Habs & Hok'). split; [reflexivity|]. split; [reflexivity|]. split; [|exact Hok'].
  assert (Hb : ob_bound o' = ob_next o).
  { revert E. cbv beta iota zeta delta [load_extra_torus_calls glGenVertexArrays glGenBuffers negb]. intros [= <-].
    rewrite layout_update. unfold update_vao, set_vaos. cbn [ob_bound]. rewrite bound_buffer_data. reflexivity. }
  rewrite (abs_rebind 0 o'), Habs, Hb. reflexivity.
Qed.

(** Three names generated, the VAO bound, both buffers filled through
    their binds, the layout: the prefix [LoadFinMesh] and
    [DrawPartialConeMesh] share. *)
Lemma three_names_prefix verts indices n B V A b w l f :
  keys_below n V ->
  SetShaderMemoryLayout (glBufferData GL_ELEMENT_ARRAY_BUFFER (Indices indices)
    (glBindBuffer GL_ELEMENT_ARRAY_BUFFER (S (S n)) (glBufferData GL_ARRAY_BUFFER (Floats verts)
      (glBindBuffer GL_ARRAY_BUFFER (S n) (glBindVertexArray n
        (mkObj (S (S (S n))) B ((n, mkVAOObj 0 []) :: V) A b w l f)))))) =
  mkObj (S (S (S n))) ((S (S n), Indices indices) :: filter (fun p => negb (fst p =? S (S n)))
                        ((S n, Floats verts) :: filter (fun p => negb (fst p =? S n)) B))
        ((n, shader_vo (S n) (mkVAOObj (S (S n)) [])) :: V) (S n) n w l f.
Proof.
  intros HK. rewrite bind_mk. cbn [glBindBuffer ob_next ob_buffers ob_vaos ob_array ob_bound ob_wire ob_log ob_fault].
  rewrite buffer_data_array by lia. cbn [glBindBuffer]. rewrite update_vao_head by exact HK.
  rewrite buffer_data_element by (cbn; lia). rewrite layout_head by exact HK. reflexivity.
Qed.

Lemma three_names_abs verts indices n B V A b w l f k w' :
  0 < n -> (forall k v, In (k, v) V -> refs_below n v) ->
  abs (mkObj (S (S (S n))) ((S (S n), Indices indices) :: filter (fun p => negb (fst p =? S (S n)))
                        ((S n, Floats verts) :: filter (fun p => negb (fst p =? S n)) B))
        ((n, shader_vo (S n) (mkVAOObj (S (S n)) [])) :: V) (S n) k w' l f) =
  mkGL (S (S (S n))) ((n, mkVAO verts indices true) :: gl_vaos (abs (mkObj n B V A b w l f))) k w' l f.
Proof.
  intros Hpos HR. unfold abs. cbn [ob_next ob_vaos ob_bound ob_wire ob_log ob_fault map fst snd]. f_equal. f_equal.
  - unfold view, buf_floats, buf_indices. rewrite shader_vo_source, shader_vo_element, shader_vo_layout.
    cbn [ob_buffers vo_element]. rewrite !lookup_replace, Nat.eqb_refl, eqb_S_SS. now rewrite Nat.eqb_refl.
  - apply views_fresh; [exact HR|exact Hpos|]. intros k' Hk. cbn [ob_buffers ob_next vo_element] in *.
    rewrite !lookup_replace. now rewrite (proj2 (Nat.eqb_neq k' (S (S n)))), (proj2 (Nat.eqb_neq k' (S n))) by lia.
Qed.

(** [LoadFinMesh] call by call: its three names and, in the abstraction,
    one new VAO with the fin's floats, indices and layout, nothing bound. *)
Lemma fin_calls_shape verts indices (o : GLObj) :
  ob_ok o ->
  let '(vao, vbo, ebo, o') := LoadFinMesh_calls verts indices o in
  vao = ob_next o /\ vbo = S (ob_next o) /\ ebo = S (S (ob_next o)) /\
  abs o' = mkGL (ob_next o + 3) ((ob_next o, mkVAO verts indices true) :: gl_vaos (abs o)) 0
                (ob_wire o) (ob_log o) (ob_fault o) /\
  ob_ok o'.
Proof.
  destruct o as [n B V A b w l f]. intros (Hpos & Hv & Hb & Ha). cbn [ob_next ob_buffers ob_vaos ob_array] in *.
  assert (HK : keys_below n V) by (intros k x Hin; apply (Hv k x Hin)).
  assert (HR : forall k v, In (k, v) V -> refs_below n v) by (intros k x Hin; apply (Hv k x Hin)).
  unfold LoadFinMesh_calls. cbn [glGenVertexArrays glGenBuffers ob_next ob_buffers ob_vaos ob_array ob_bound
    ob_wire ob_log ob_fault].
  rewrite inline_layout, three_names_prefix by exact HK. rewrite bind_mk.
  split; [reflexivity|]. split; [reflexivity|]. split; [reflexivity|]. split.
  - rewrite (three_names_abs _ _ n B V A b w) by assumption. cbn [ob_wire ob_log ob_fault]. now rewrite Nat.add_comm.
  - split; [cbn; lia|]. split; [|split; [|cbn; lia]]; cbn [ob_next ob_vaos ob_buffers].
    + intros k x [[= <- <-]|Hin].
      * split; [lia|]. apply refs_shader_vo; [lia|lia|]. split; [cbn; lia|intros ? ? []].
      * destruct (Hv k x Hin) as [Hk Hr]. split; [lia|]. apply (refs_below_mono n); [lia|exact Hr].
    + intros b' d [[= <- _]|Hin]; [lia|]. apply filter_In in Hin as [[[= <- _]|Hin] _]; [lia|].
      apply filter_In in Hin as [Hin _]. specialize (Hb b' d Hin). lia.
Qed.

(** The GL part of [DrawPartialConeMesh], call by call: in the
    abstraction, one VAO holding the mesh with its layout, drawn in the
    requested polygon mode, then deleted with its two buffers. *)
Lemma partial_calls_abs verts indices wireframe (o : GLObj) :
  ob_ok o ->
  abs (partial_calls verts indices wireframe o) =
  GL.glDeleteVertexArrays (ob_next o) (GL.glBindVertexArray 0 (GL.glDrawElements GL_TRIANGLES (List.length indices) 0
    (mkGL (ob_next o + 3) ((ob_next o, mkVAO verts indices true) :: gl_vaos (abs o)) (ob_next o) wireframe
          (ob_log o) (ob_fault o)))) /\
  ob_ok (partial_calls verts indices wireframe o).
Proof.
  destruct o as [n B V A b w l f]. intros (Hpos & Hv & Hb & Ha). cbn [ob_next ob_buffers ob_vaos ob_array] in *.
  assert (HK : keys_below n V) by (intros k x Hin; apply (Hv k x Hin)).
  assert (HR : forall k v, In (k, v) V -> refs_below n v) by (intros k x Hin; apply (Hv k x Hin)).
  unfold partial_calls. cbn [glGenVertexArrays glGenBuffers ob_next ob_buffers ob_vaos ob_array ob_bound ob_wire
    ob_log ob_fault].
  rewrite enable_first_layout, three_names_prefix by exact HK.
  rewrite polygon_mk, bind_mk. cbn [vo_attribs].
  set (P := mkObj (S (S (S n))) _ _ _ _ _ _ _).
  assert (HP : forall z, n < z -> private_to (glBindVertexArray 0 (glDrawElements GL_TRIANGLES (List.length indices) 0 P)) n z = true).
  { intros z Hz. unfold private_to. cbn [glBindVertexArray ob_vaos]. rewrite (proj1 (draw_vaos _ _ _ P)). fold (private_to P n z).
    apply (private_below n); [lia|lia|]. intros k x [[= <- _]|Hin] Hk; [congruence|exact (HR k x Hin)]. }
  split.
  - rewrite abs_delete_private by (apply HP; lia). rewrite abs_bind, abs_draw. do 3 f_equal.
    unfold P. rewrite (three_names_abs _ _ n B V A b w) by assumption. now rewrite Nat.add_comm.
  - destruct (draw_vaos GL_TRIANGLES (List.length indices) 0 P) as (Hdv & Hdb & Hdn & Hda).
    unfold glDeleteVertexArrays, glDeleteBuffers, set_vaos, set_buffers. cbn [glBindVertexArray ob_next ob_buffers
      ob_vaos ob_array]. rewrite Hdv, Hdb, Hdn, Hda. unfold P. cbn [ob_next ob_buffers ob_vaos ob_array].
    split; [cbn; lia|]. split; [|split; [|cbn; lia]].
    + intros k x Hin. apply filter_In in Hin as [[[= <- _]|Hin] Hk]; [cbn in Hk; now rewrite Nat.eqb_refl in Hk|].
      destruct (Hv k x Hin) as [Hk' Hr]. split; [cbn; lia|]. apply (refs_below_mono n); [cbn; lia|exact Hr].
    + intros b' d Hin. apply filter_In in Hin as [Hin _]. apply filter_In in Hin as [Hin _].
      destruct Hin as [[= <- _]|Hin]; [cbn; lia|]. apply filter_In in Hin as [[[= <- _]|Hin] _]; [cbn; lia|].
      apply filter_In in Hin as [Hin _]. specialize (Hb b' d Hin). cbn; lia.
Qed.

End Objects.
Arguments BufData : clear implicits.
Arguments GLObj : clear implicits.
End GLObj.

(** ** The class's methods against the VAO-level model *)

Section Refine.
Context {F : Type} `{Scalar F}.

Lemma abs_keys (o : GLObj.GLObj F) :
  GLObj.ob_ok o -> GLObj.keys_below (gl_next (GLObj.abs o)) (gl_vaos (GLObj.abs o)).
Proof.
  intros (_ & Hv & _) k x Hin. cbn [GLObj.abs gl_next gl_vaos] in *.
  apply in_map_iff in Hin as [[k' v] [[= <- _] Hin]]. apply (Hv k' v Hin).
Qed.

(** [InitializeMesh] in the VAO-level model, on a store whose names are
    below the counter: one new VAO, the counter past its two or three
    names, nothing bound. *)
Lemma initialize_gl_shape s verts indices (st : Registry.SM F) :
  Registry.m_bMemoryLayoutDone st = false -> GLObj.keys_below (gl_next (Registry.gl st)) (gl_vaos (Registry.gl st)) ->
  Registry.gl (Registry.InitializeMesh s verts indices st) =
  mkGL (gl_next (Registry.gl st) + match indices with [] => 2 | _ :: _ => 3 end)
       ((gl_next (Registry.gl st), mkVAO verts indices true) :: gl_vaos (Registry.gl st)) 0
       (gl_wire (Registry.gl st)) (gl_log (Registry.gl st)) (gl_fault (Registry.gl st)).
Proof.
  intros Hflag Hk. unfold Registry.InitializeMesh. rewrite Hflag.
  unfold Registry.SetShaderMemoryLayout, glSetLayout, glBufferElements, glBufferVertices, update_bound.
  destruct indices as [|i0 rest]; cbn; rewrite Nat.eqb_refl;
    repeat rewrite (GLObj.map_update_below _ (gl_vaos (Registry.gl st)) _ Hk);
    unfold GL.glBindVertexArray; cbn; rewrite ?Nat.eqb_refl; cbn; f_equal; lia.
Qed.

(** C5: [InitializeMesh], run call by call on OpenGL's objects
    ([glGenVertexArrays], [glBindVertexArray], [glGenBuffers],
    [glBindBuffer], [glBufferData], the six calls of
    [SetShaderMemoryLayout], the unbind), refines the VAO-level
    [InitializeMesh]: from an object store that abstracts to the class's
    GL state, with every name below the counter, the store after the calls
    abstracts to the GL state after the method, the names the calls return
    are those the method writes into the mesh record, and the store again
    has its names below the counter. *)
Theorem initialize_calls_refine s verts indices (st : Registry.SM F) (o : GLObj.GLObj F) :
  GLObj.ob_ok o -> GLObj.abs o = Registry.gl st -> Registry.m_bMemoryLayoutDone st = false ->
  let st' := Registry.InitializeMesh s verts indices st in
  let '(vao', vbo', ebo', o') :=
    GLObj.InitializeMesh_calls false (ebo (Registry.meshes st s)) verts indices o in
  GLObj.abs o' = Registry.gl st' /\
  vao' = vao (Registry.meshes st' s) /\ vbo' = vbo (Registry.meshes st' s) /\
  ebo' = ebo (Registry.meshes st' s) /\ GLObj.ob_ok o'.
Proof.
  intros Hok Habs Hflag st'.
  pose proof (GLObj.initialize_calls_shape (ebo (Registry.meshes st s)) verts indices o Hok) as Hs.
  destruct (GLObj.InitializeMesh_calls _ _ _ _ _) as [[[va vb] ve] o'].
  destruct Hs as (-> & -> & -> & Ha & Hok'). subst st'.
  rewrite initialize_gl_shape by (exact Hflag || (rewrite <- Habs; exact (abs_keys o Hok))).
  rewrite !Registry.initialize_meshes. rewrite (proj2 (Registry.shape_beq_spec s s) eq_refl).
  rewrite <- Habs, Ha. cbn [vao vbo ebo GLObj.abs gl_next gl_vaos gl_wire gl_log gl_fault].
  refine (conj _ (conj eq_refl (conj eq_refl (conj _ Hok')))); destruct indices; reflexivity.
Qed.

(** C6: The upload-and-draw of the self-uploading meshes, call by call on
    OpenGL's objects ([upload_draw_calls]: the binds, both [glBufferData],
    the six pointer calls, [glDrawElements], the unbind), refines the
    VAO-level [upload_draw] of [Dynamic] whenever the handles of the mesh
    record name an existing VAO and two distinct generated buffers that
    no other VAO reads; the store keeps its names below the counter. *)
Theorem upload_calls_refine (s : Shape) (md : MeshData F) (st : Registry.SM F) (o : GLObj.GLObj F) :
  GLObj.ob_ok o -> GLObj.abs o = Registry.gl st ->
  GLObj.handles_ok o (vao (Registry.meshes st s)) (vbo (Registry.meshes st s)) (ebo (Registry.meshes st s)) = true ->
  let o' := GLObj.upload_draw_calls (vao (Registry.meshes st s)) (vbo (Registry.meshes st s))
              (ebo (Registry.meshes st s)) (interleave (mverts md)) (mindices md) o in
  GLObj.abs o' = Registry.gl (Dynamic.upload_draw s md st) /\ GLObj.ob_ok o'.
Proof.
  intros Hok Habs Hh o'. split; [|exact (GLObj.ok_upload _ _ _ _ _ o Hok Hh)].
  subst o'. rewrite GLObj.upload_calls_abs by exact Hh. now rewrite Habs.
Qed.

(** C7: A self-uploading mesh loaded and then drawn, call by call:
    [LoadTaperedTorusMesh] (or the spiral, sine cone or superellipsoid
    load) generating three names, then the upload-and-draw through them,
    refines the VAO-level load and draw from any store with its names
    below the counter: the names the load generates are always fit for
    the upload. *)
Theorem load_upload_calls_refine (s : Shape) (md : MeshData F) (st : Registry.SM F) (o : GLObj.GLObj F) :
  GLObj.ob_ok o -> GLObj.abs o = Registry.gl st ->
  let '(va, vb, ve, o1) := GLObj.load_names_calls o in
  let o2 := GLObj.upload_draw_calls va vb ve (interleave (mverts md)) (mindices md) o1 in
  GLObj.abs o2 = Registry.gl (Dynamic.upload_draw s md (Registry.load_names s st)) /\ GLObj.ob_ok o2.
Proof.
  intros Hok Habs. pose proof (GLObj.load_names_shape o Hok) as Hs.
  destruct (GLObj.load_names_calls o) as [[[va vb] ve] o1].
  destruct Hs as (-> & -> & -> & Ha & Hok1 & Hh). split; [|exact (GLObj.ok_upload _ _ _ _ _ o1 Hok1 Hh)].
  rewrite GLObj.upload_calls_abs by exact Hh. unfold Dynamic.upload_draw. rewrite Draws.with_gl_gl.
  rewrite Registry.names_meshes, (proj2 (Registry.shape_beq_spec s s) eq_refl). change (Registry.gl (Registry.load_names s st))
    with (snd (glGenBuffers (snd (glGenBuffers (snd (glGenVertexArrays (Registry.gl st))))))).
  rewrite Ha, <- Habs. reflexivity.
Qed.

(** [DrawPartialConeMesh]'s GL part in the VAO-level model, on a store
    whose names are below its counter. *)
Lemma partial_gl_shape (m : MeshData F) wireframe (g : GLState F) :
  GLObj.keys_below (gl_next g) (gl_vaos g) ->
  Dynamic.partial_upload_draw m wireframe g =
  GL.glDeleteVertexArrays (gl_next g) (GL.glBindVertexArray 0 (GL.glDrawElements GL_TRIANGLES
    (List.length (mindices m)) 0 (mkGL (gl_next g + 3) ((gl_next g, mkVAO (interleave (mverts m)) (mindices m) true)
      :: gl_vaos g) (gl_next g) wireframe (gl_log g) (gl_fault g)))).
Proof.
  destruct g as [n V b w l f]. intros Hk. cbn [gl_next gl_vaos] in Hk.
  unfold Dynamic.partial_upload_draw, glBufferVertices, glBufferElements, glSetLayout, update_bound,
    Registry.SetWireframeMode, glPolygonMode, GL.glDeleteBuffers.
  cbn [glGenVertexArrays glGenBuffers GL.glBindVertexArray gl_next gl_vaos gl_bound gl_wire gl_log gl_fault
    map fst snd vao_vbo vao_ebo vao_layout]. rewrite !Nat.eqb_refl.
  rewrite !(GLObj.map_update_below _ V n Hk).
  cbn [fst snd vao_vbo vao_ebo vao_layout GL.glBindVertexArray gl_next gl_vaos gl_bound gl_wire gl_log gl_fault].
  now rewrite Nat.add_comm.
Qed.

(** C8: [DrawPartialConeMesh], call by call on OpenGL's objects (a VAO and
    two buffers generated for the call, the uploads, the six pointer
    calls, [glPolygonMode], the draw, the unbind and the three
    deletions), refines the VAO-level method: the same draw event and
    fault, and nothing left behind in the abstraction; the store keeps its
    names below the counter. *)
Theorem partial_calls_refine (radius height : F) (numSlices : Z) (arcDegrees : F) (wireframe : bool)
  (st : Registry.SM F) (o : GLObj.GLObj F) :
  GLObj.ob_ok o -> GLObj.abs o = Registry.gl st ->
  let m := PartialCone.partial_cone radius height numSlices arcDegrees in
  let o' := GLObj.partial_calls (interleave (mverts m)) (mindices m) wireframe o in
  GLObj.abs o' = Registry.gl (Dynamic.DrawPartialConeMesh radius height numSlices arcDegrees wireframe st) /\
  GLObj.ob_ok o'.
Proof.
  intros Hok Habs m o'. destruct (GLObj.partial_calls_abs (interleave (mverts m)) (mindices m) wireframe o Hok)
    as [Ha Hok']. split; [|exact Hok']. subst o'. rewrite Ha.
  unfold Dynamic.DrawPartialConeMesh. rewrite Draws.with_gl_gl, <- Habs.
  rewrite partial_gl_shape by exact (abs_keys o Hok). reflexivity.
Qed.

Lemma extra_gl_shape (s : Shape) thickness (st : Registry.SM F) :
  Registry.m_bMemoryLayoutDone st = false -> GLObj.keys_below (gl_next (Registry.gl st)) (gl_vaos (Registry.gl st)) ->
  Registry.gl (Registry.load_extra_torus s thickness st) =
  mkGL (gl_next (Registry.gl st) + 2)
       ((gl_next (Registry.gl st), mkVAO (interleave (ExtraTorus.LoadExtraTorusMesh thickness)) [] true)
          :: gl_vaos (Registry.gl st)) (gl_next (Registry.gl st))
       (gl_wire (Registry.gl st)) (gl_log (Registry.gl st)) (gl_fault (Registry.gl st)).
Proof.
  destruct st as [ms wr fl [n V b w l f]]. intros Hflag Hk. cbn [Registry.m_bMemoryLayoutDone Registry.gl gl_next gl_vaos] in *.
  subst fl. unfold Registry.load_extra_torus, Registry.SetShaderMemoryLayout, glSetLayout, glBufferVertices, update_bound.
  cbn [negb Registry.m_bMemoryLayoutDone Registry.gl glGenVertexArrays glGenBuffers GL.glBindVertexArray gl_next gl_vaos
    gl_bound gl_wire gl_log gl_fault map fst snd vao_vbo vao_ebo vao_layout Registry.set_gl].
  rewrite !Nat.eqb_refl, !(GLObj.map_update_below _ V n Hk).
  cbn [fst snd vao_vbo vao_ebo vao_layout gl_next gl_vaos gl_bound gl_wire gl_log gl_fault]. now rewrite Nat.add_comm.
Qed.

(** C10: [LoadExtraTorusMesh1] and [LoadExtraTorusMesh2], call by call on
    OpenGL's objects (a VAO, one buffer, its upload, the six pointer
    calls, no unbind), refine the VAO-level load: the store after the
    calls abstracts to the GL state after the load with the new VAO left
    bound, the names returned are those written to [vao] and [vbos[0]],
    and the store keeps its names below the counter. *)
Theorem extra_calls_refine (s : Shape) thickness (st : Registry.SM F) (o : GLObj.GLObj F) :
  GLObj.ob_ok o -> GLObj.abs o = Registry.gl st -> Registry.m_bMemoryLayoutDone st = false ->
  let st' := Registry.load_extra_torus s thickness st in
  let '(va, vb, o') := GLObj.load_extra_torus_calls false (interleave (ExtraTorus.LoadExtraTorusMesh thickness)) o in
  GLObj.abs o' = Registry.gl st' /\ va = vao (Registry.meshes st' s) /\ vb = vbos0 (Registry.meshes st' s) /\
  GLObj.ob_ok o'.
Proof.
  intros Hok Habs Hflag st'.
  pose proof (GLObj.extra_calls_shape (interleave (ExtraTorus.LoadExtraTorusMesh thickness)) o Hok) as Hs.
  destruct (GLObj.load_extra_torus_calls _ _ _) as [[va vb] o'].
  destruct Hs as (-> & -> & Ha & Hok'). subst st'.
  rewrite extra_gl_shape by (exact Hflag || (rewrite <- Habs; exact (abs_keys o Hok))).
  rewrite !Registry.extra_meshes, (proj2 (Registry.shape_beq_spec s s) eq_refl).
  rewrite <- Habs, Ha. cbn [vao vbos0 GLObj.abs gl_next gl_vaos gl_wire gl_log gl_fault].
  exact (conj eq_refl (conj eq_refl (conj eq_refl Hok'))).
Qed.

Lemma fin_gl_shape baseLength topLength height thickness (st : Registry.SM F) :
  GLObj.keys_below (gl_next (Registry.gl st)) (gl_vaos (Registry.gl st)) ->
  Registry.gl (Registry.LoadFinMesh baseLength topLength height thickness st) =
  mkGL (gl_next (Registry.gl st) + 3)
       ((gl_next (Registry.gl st), mkVAO (interleave (fst (Fin.LoadFinMesh baseLength topLength height thickness)))
                                         (snd (Fin.LoadFinMesh baseLength topLength height thickness)) true)
          :: gl_vaos (Registry.gl st)) 0
       (gl_wire (Registry.gl st)) (gl_log (Registry.gl st)) (gl_fault (Registry.gl st)).
Proof.
  destruct st as [ms wr fl [n V b w l f]]. intros Hk. cbn [Registry.gl gl_next gl_vaos] in *.
  unfold Registry.LoadFinMesh, glSetLayout, glBufferVertices, glBufferElements, update_bound.
  cbn [Fin.LoadFinMesh fst snd Registry.gl glGenVertexArrays glGenBuffers GL.glBindVertexArray gl_next gl_vaos
    gl_bound gl_wire gl_log gl_fault map vao_vbo vao_ebo vao_layout Registry.set_gl].
  rewrite !Nat.eqb_refl, !(GLObj.map_update_below _ V n Hk).
  cbn [fst snd vao_vbo vao_ebo vao_layout gl_next gl_vaos gl_bound gl_wire gl_log gl_fault]. now rewrite Nat.add_comm.
Qed.

(** C9: [LoadFinMesh], call by call on OpenGL's objects (three names,
    the binds and both uploads, its six pointer calls written out, the
    unbind), refines the VAO-level load: the store after the calls
    abstracts to the GL state after the load, the names returned are
    those written to the fin's record, and the store keeps its names
    below the counter. *)
Theorem fin_calls_refine baseLength topLength height thickness (st : Registry.SM F) (o : GLObj.GLObj F) :
  GLObj.ob_ok o -> GLObj.abs o = Registry.gl st ->
  let st' := Registry.LoadFinMesh baseLength topLength height thickness st in
  let tables := Fin.LoadFinMesh baseLength topLength height thickness in
  let '(va, vb, ve, o') := GLObj.LoadFinMesh_calls (interleave (fst tables)) (snd tables) o in
  GLObj.abs o' = Registry.gl st' /\ va = vao (Registry.meshes st' Fin) /\ vb = vbo (Registry.meshes st' Fin) /\
  ve = ebo (Registry.meshes st' Fin) /\ GLObj.ob_ok o'.
Proof.
  intros Hok Habs st' tables.
  pose proof (GLObj.fin_calls_shape (interleave (fst tables)) (snd tables) o Hok) as Hs.
  destruct (GLObj.LoadFinMesh_calls _ _ _) as [[[va vb] ve] o'].
  destruct Hs as (-> & -> & -> & Ha & Hok'). subst st' tables.
  rewrite fin_gl_shape by (rewrite <- Habs; exact (abs_keys o Hok)). rewrite !Registry.fin_meshes.
  cbn [Shape_beq]. rewrite <- Habs, Ha. cbn [vao vbo ebo GLObj.abs gl_next gl_vaos gl_wire gl_log gl_fault].
  exact (conj eq_refl (conj eq_refl (conj eq_refl (conj eq_refl Hok')))).
Qed.

End Refine.

Lemma initialize_calls_refine_witness :
  GLObj.ob_ok (GLObj.obj_init (F := R)) /\ GLObj.abs (GLObj.obj_init (F := R)) = Registry.gl (Registry.ShapeMeshes (F := R)) /\
  let st' := Registry.InitializeMesh Plane [0%R] [0; 1; 2] Registry.ShapeMeshes in
  let '(vao', vbo', ebo', o') :=
    GLObj.InitializeMesh_calls false (ebo (Registry.meshes (Registry.ShapeMeshes (F := R)) Plane)) [0%R] [0; 1; 2] (GLObj.obj_init (F := R)) in
  GLObj.abs o' = Registry.gl st' /\
  vao' = vao (Registry.meshes st' Plane) /\ vbo' = vbo (Registry.meshes st' Plane) /\
  ebo' = ebo (Registry.meshes st' Plane) /\ GLObj.ob_ok o'.
Proof.
  assert (Hok : GLObj.ob_ok (GLObj.obj_init (F := R))) by (apply GLObj.ob_okb_ok; reflexivity).
  refine (conj Hok (conj eq_refl _)). exact (initialize_calls_refine Plane [0%R] [0; 1; 2] Registry.ShapeMeshes (GLObj.obj_init (F := R)) Hok eq_refl eq_refl).
Defined.

Lemma upload_calls_refine_witness :
  let o := snd (GLObj.load_names_calls (GLObj.obj_init (F := R))) in
  let st := Registry.load_names TaperedTorus (Registry.ShapeMeshes (F := R)) in
  let m := Registry.meshes st TaperedTorus in
  GLObj.ob_ok o /\ GLObj.abs o = Registry.gl st /\ GLObj.handles_ok o (vao m) (vbo m) (ebo m) = true /\
  GLObj.abs (GLObj.upload_draw_calls (vao m) (vbo m) (ebo m) [] [0; 0; 0] o) =
    Registry.gl (Dynamic.upload_draw TaperedTorus (mkMesh [] [0; 0; 0]) st).
Proof.
  cbv zeta. assert (Hok : GLObj.ob_ok (snd (GLObj.load_names_calls (GLObj.obj_init (F := R))))) by (apply GLObj.ob_okb_ok; reflexivity).
  refine (conj Hok (conj eq_refl (conj eq_refl _))).
  exact (proj1 (upload_calls_refine TaperedTorus (mkMesh [] [0; 0; 0]) (Registry.load_names TaperedTorus Registry.ShapeMeshes)
    (snd (GLObj.load_names_calls (GLObj.obj_init (F := R)))) Hok eq_refl eq_refl)).
Defined.

Lemma load_upload_calls_refine_witness :
  GLObj.ob_ok (GLObj.obj_init (F := R)) /\ GLObj.abs (GLObj.obj_init (F := R)) = Registry.gl (Registry.ShapeMeshes (F := R)) /\
  let '(va, vb, ve, o1) := GLObj.load_names_calls (GLObj.obj_init (F := R)) in
  GLObj.abs (GLObj.upload_draw_calls va vb ve [] [0; 0; 0] o1) =
    Registry.gl (Dynamic.upload_draw Spiral (mkMesh [] [0; 0; 0]) (Registry.load_names Spiral Registry.ShapeMeshes)).
Proof.
  assert (Hok : GLObj.ob_ok (GLObj.obj_init (F := R))) by (apply GLObj.ob_okb_ok; reflexivity).
  refine (conj Hok (conj eq_refl _)).
  exact (proj1 (load_upload_calls_refine Spiral (mkMesh [] [0; 0; 0]) Registry.ShapeMeshes (GLObj.obj_init (F := R)) Hok eq_refl)).
Defined.

Lemma partial_calls_refine_witness :
  GLObj.ob_ok (GLObj.obj_init (F := R)) /\ GLObj.abs (GLObj.obj_init (F := R)) = Registry.gl (Registry.ShapeMeshes (F := R)) /\
  let m := PartialCone.partial_cone 1%R 1%R 4 90%R in
  GLObj.abs (GLObj.partial_calls (interleave (mverts m)) (mindices m) true (GLObj.obj_init (F := R))) =
    Registry.gl (Dynamic.DrawPartialConeMesh 1%R 1%R 4 90%R true Registry.ShapeMeshes).
Proof.
  assert (Hok : GLObj.ob_ok (GLObj.obj_init (F := R))) by (apply GLObj.ob_okb_ok; reflexivity).
  refine (conj Hok (conj eq_refl _)).
  exact (proj1 (partial_calls_refine 1%R 1%R 4 90%R true Registry.ShapeMeshes (GLObj.obj_init (F := R)) Hok eq_refl)).
Defined.

Lemma extra_calls_refine_witness :
  GLObj.ob_ok (GLObj.obj_init (F := R)) /\ GLObj.abs (GLObj.obj_init (F := R)) = Registry.gl (Registry.ShapeMeshes (F := R)) /\
  Registry.m_bMemoryLayoutDone (Registry.ShapeMeshes (F := R)) = false /\
  let st' := Registry.load_extra_torus ExtraTorus1 (1 / 2)%R Registry.ShapeMeshes in
  let '(va, vb, o') := GLObj.load_extra_torus_calls false (interleave (ExtraTorus.LoadExtraTorusMesh (1 / 2)%R)) (GLObj.obj_init (F := R)) in
  GLObj.abs o' = Registry.gl st' /\ va = vao (Registry.meshes st' ExtraTorus1) /\
  vb = vbos0 (Registry.meshes st' ExtraTorus1) /\ GLObj.ob_ok o'.
Proof.
  assert (Hok : GLObj.ob_ok (GLObj.obj_init (F := R))) by (apply GLObj.ob_okb_ok; reflexivity).
  refine (conj Hok (conj eq_refl (conj eq_refl _))).
  exact (extra_calls_refine ExtraTorus1 (1 / 2)%R Registry.ShapeMeshes (GLObj.obj_init (F := R)) Hok eq_refl eq_refl).
Defined.

Lemma fin_calls_refine_witness :
  GLObj.ob_ok (GLObj.obj_init (F := R)) /\ GLObj.abs (GLObj.obj_init (F := R)) = Registry.gl (Registry.ShapeMeshes (F := R)) /\
  let st' := Registry.LoadFinMesh 2%R 1%R 1%R (1 / 4)%R Registry.ShapeMeshes in
  let tables := Fin.LoadFinMesh 2%R 1%R 1%R (1 / 4)%R in
  let '(va, vb, ve, o') := GLObj.LoadFinMesh_calls (interleave (fst tables)) (snd tables) (GLObj.obj_init (F := R)) in
  GLObj.abs o' = Registry.gl st' /\ va = vao (Registry.meshes st' Fin) /\ vb = vbo (Registry.meshes st' Fin) /\
  ve = ebo (Registry.meshes st' Fin) /\ GLObj.ob_ok o'.
Proof.
  assert (Hok : GLObj.ob_ok (GLObj.obj_init (F := R))) by (apply GLObj.ob_okb_ok; reflexivity).
  refine (conj Hok (conj eq_refl _)).
  exact (fin_calls_refine 2%R 1%R 1%R (1 / 4)%R Registry.ShapeMeshes (GLObj.obj_init (F := R)) Hok eq_refl).
Defined.
